(* ===== verification/_CoqProject ===== *)
-Q . S2P
Prelude.v
JsString.v
JsNumber.v
JsMap.v
Json.v
Csv.v
Quality.v
TypeInference.v
Stats.v
Correlation.v
Categories.v
Summary.v
Analysis.v
Upload.v
Progress.v
UploadProgress.v
Navigation.v
Charts.v
Session.v
History.v
Transaction.v
Metrics.v
Trends.v
Dashboard.v
