(* ===== verification/Prelude.v ===== *)
(** * A verification library for the fraud-detection dashboard's client code

    The repository's front end is one script,
    [src/Predictive-Transaction-Intelligence-main/Frontend/dashboard/dashboard.js]
    (called [dashboard.js] below).  Its only algorithmic part is the
    dataset analyser that runs in the browser when a CSV file is
    uploaded: [parseCSV] turns the text into a table, and
    [performDatasetAnalysis] runs nine [display*] functions over it
    (basic statistics, data quality, per-column analysis, numeric
    distributions, a Pearson correlation matrix, missing values, fraud
    counts, transaction totals and the top spending categories).  Around
    it sit the upload handlers ([handleFileSelect], [handleDrop],
    [processCSVFile] with its asynchronous [FileReader]), the page
    navigation ([showPage]), the transaction-check form
    ([checkTransaction]), the model-metrics tables and the chart
    renderers, which talk to a remote HTTP backend.

    ** How the program is modelled

    Values are modelled the way JavaScript has them, restricted to what
    this code can produce:
    - strings are Rocq [string]s, one [ascii] per UTF-16 code unit: the
      model covers code units U+0000..U+00FF (Latin-1), and the
      whitespace set of [String.prototype.trim] is the part of ECMAScript's
      WhiteSpace/LineTerminator in that range (TAB, LF, VT, FF, CR, SP,
      NBSP);
    - numbers are [JsNumber.num]: an exact rational, [+Infinity],
      [-Infinity] or [NaN], with the IEEE rules for the special values.
      Rounding to binary64 is not modelled, nor is the sign of zero
      (every division by zero in the modelled code has a zero numerator,
      so the sign is never observable).  The model is therefore exact
      only where binary64 is: integer counts, comparisons and selections
      of parsed values, orderings and the structure of what is shown.
      Sums, means, quotients, square roots and the [toFixed] digits of
      non-integer values can differ from JavaScript (the mean of three
      [0.1] exceeds their maximum there), so no theorem of the library
      is a claim about such values; the theorems that compute them
      (medians, Cauchy-Schwarz, shares) are facts of exact arithmetic;
    - a JS object built by assigning keys in turn ([row[h] = v]) is an
      association list in [Object.keys] order: a key is updated in place,
      a new array-index key goes among the indices in ascending order and
      any other new key at the end; [__proto__] creates no property;
      a [Map] is an association list in insertion order (no index rule);
      a [Set] is a duplicate-free list;
    - [Array.prototype.sort] with a comparator is a stable insertion sort
      (the standard requires stability; with a consistent comparator the
      result is unique, so any conforming engine agrees with the model);
    - code that throws returns [Prelude.JsResult.Throw] with the error kind.

    ** Files, in dependency order (the _CoqProject order)

    - [Prelude] (this file): the [dash_scope] notations, the JS
      truthiness class [Truthy] with [js_or] ([a || b]), the result type
      [JsResult] of code that throws, the [dash] hint database, the
      tactics [case_if]/[case_if_in], and the generic lemmas on lists
      (filtering and counting, [mapi], sorted lists, permutations) and
      sums.
    - [JsString]: [split], [trim], the removal of every double-quote
      character (the [replace] with a global pattern), [toLowerCase],
      [includes] and [join], with the split/join round trip.
    - [JsNumber]: the number type, its arithmetic and comparisons,
      [Math.round]/[floor]/[abs]/[min]/[max], [Number(s)]
      (StringToNumber, with fuel-free structural scanners), [parseFloat],
      [isNaN], [toFixed] and the setoid [num_eq] with the [Proper]
      instances of every operation; addition is a commutative monoid up
      to [num_eq].
    - [JsMap]: a [Map] with string keys ([get], [has], [set]).
    - [Json]: the JSON values the backend returns ([jval]), property
      access (a [TypeError] on [null]), [Number(v)], [String(v)] (the
      printing of non-integers is the class [NumberToString]),
      truthiness, and [map]/[filter] over callbacks that may throw.
    - [Csv]: [parseCSV] (dashboard.js 279-294) and the text that
      [createExcelFile] (1350-1356) writes.  Theorems: every row has the
      headers as keys, once each, and no other (rows keep JavaScript's
      key order and its [__proto__] setter); the cell of header [j] is the
      [j]-th cleaned field or [''] (padding and truncation); one row per
      non-blank line; exporting plain cells and parsing them back is the
      identity.
    - [Quality]: [displayDataQuality], [calculateDataConsistency],
      [calculateDataUniqueness] and [displayMissingValues] (381-407,
      512-535, 595-614).  Theorems: completeness and consistency are
      percentages in [0, 100], [NaN] on an empty table, the empty-cell
      count is the sum of the per-column missing counts, and uniqueness
      is always [NaN] because it reads [.length] of a [Set].
    - [TypeInference]: [inferDataType] and [displayColumnAnalysis]
      (410-433, 617-627); [Date.parse] is the class [DateParse], with the
      ECMAScript date-time format as the instance [iso_date_parse].
      Theorems: the 80% rule with numeric priority, the first-100 sample,
      and the column counts.
    - [Stats]: [calculateMedian] and [displayDataDistribution] (436-468,
      630-635), with [Array.prototype.sort] as [JsSort.js_sort].
      Theorems: the sort permutes and orders, and is stable; the median
      has at most half of the values on each side; every shown column
      has a parsed value.
    - [Correlation]: [calculateCorrelation], [calculateCorrelationMatrix]
      and [displayCorrelationAnalysis] (471-509, 638-673).  [Math.sqrt] of
      a rational is kept symbolic as [a / sqrt r]; the setoid [coef_eq]
      compares coefficients as reals.  Theorems: the displayed matrix is
      symmetric with [1.000] on its diagonal; in exact arithmetic also
      Cauchy-Schwarz, self-correlation 1, the fallback 0 of constant
      lists and the rounding of [toFixed(3)] on [a / sqrt r], which
      binary64 does not preserve.
    - [Categories]: [displaySpendingCategories] (722-792).  Theorems: the
      category map has one key per category in order of first
      appearance, holds each category's sum and preserves the total; the
      six cards are the largest, in decreasing order, ties in order of
      first appearance.
    - [Summary]: [displayTransactionSummary] and [displayFraudAnalysis]
      (538-590, 676-719).  Theorems: the average lies between the extreme
      amounts; fraud and legitimate counts add up to the non-empty
      labels; their shares add up to 100 before rounding.
    - [Analysis]: [performDatasetAnalysis], [displayBasicStatistics] and
      [formatFileSize] (329-378, 795-801).  Theorem: the unit index is
      the floor of [log_1024 bytes], and named only below [1024^4].
    - [Upload]: the upload page (200-276, 297-326) as a state record with
      a [step] function over user events and [FileReader] completions
      (a load runs [onload]; a failed read runs nothing, the code sets
      no [onerror]), and the [reachable] states.  Theorems: an invariant
      of the readers in flight, the effect of a load (success and parse
      error), readers start only for [text/csv] files, the race between
      two uploads, and liveness: once the readers in flight complete, in
      any order, loading or failing, no reader is left and the progress
      is hidden exactly when some read loaded (or it was hidden): after
      failed reads only, it stays shown for good.
    - [Progress]: the timer [showUploadProgress] starts (297-315): the
      live [setInterval] timers with the [progress] of their closures,
      the width and text last written, and a [step] over new timers and
      callbacks, each callback taking the value [Math.random()] returned.
      Theorems: widths stay in [0, 100]; a timer's [progress] only grows
      and a cleared timer never runs again; termination: with random
      values at least [eps > 0], a timer is cleared within [N] ticks
      whenever [progress + 15 N eps >= 100] (there is no bound without
      such an [eps]: [Math.random] may return [0]).
    - [UploadProgress]: Upload and Progress composed as the code composes
      them ([processCSVFile] calls [showUploadProgress], [onload] calls
      [hideUploadProgress]).  Theorems: every session is a session of
      both components with one timer per reader started (a
      refinement); a completion hides the bar and leaves its timer
      running; liveness of the whole page: after the readers complete
      in any order, loading or failing, and the timers tick with a
      random value [r > 0], the page has no reader and no timer, within
      [N] ticks per upload ever started, for any [N] with
      [15 N r >= 100], and the bar is hidden exactly when some read
      loaded (or it was hidden).
    - [Navigation]: [initializeNavigation] and [showPage] (951-1023):
      the display of the six pages and the loads each page starts.
      Theorem: exactly the selected page (welcome for an unknown name)
      is shown among the present ones; the alerts inbox throws a
      [ReferenceError] because [loadAlertsInbox] is defined nowhere.
    - [Charts]: the data of [renderAmountVsFraudScatter] (1614-1702)
      from the parsed JSON response.  Theorems: each of the 20 bins
      counts exactly the rows whose amount lies between its edges, split
      by the fraud label; the bars add up to the rows with a finite
      amount; the single-bar branch of equal amounts counts labels by
      [===], over all rows.  The bin edges are exact, where JavaScript's
      are rounded, so which bin a boundary amount falls in is not
      claimed.
    - [Session]: the profile menu, the logout, profile and settings
      modals, [loadUserName], [loadProfileData] and [confirmLogout]
      (29-196, 806-941), with [localStorage] as a stdpp [gmap] that may be
      unavailable, and the handlers in a state and exception monad (the
      [MRet]/[MBind] instances give stdpp's [x ← c; k]).  Theorems: the
      logout removes exactly the user's keys, the menu asks for
      confirmation unless told otherwise, Escape closes everything, the
      header name is stable across reloads, and without storage the
      profile fallback and the start-up both fail.
    - [History]: the history table ([loadTransactionHistory],
      [renderEmptyHistory], [appendHistoryRow], [clearTransactionHistory],
      [downloadTransactionHistory], [destroyChartIfExists]; 1188-1347,
      1467-1472) as a record of the table body (the placeholder row or
      rows of seven cells), the live chart handles, the alerts and the
      files downloaded, with the page's events as a [step] function.
      [textContent] of a cell written with [innerHTML] is the class
      [HtmlText] (tag stripping as the instance).  Theorems: the
      placeholder never sits beside a transaction in any reachable
      table; a refinement of an abstract history (the list of rows shown)
      by every event and every run; what a load does (one [null]
      record resets everything); a clear; and the download read back by
      [parseCSV].
    - [Transaction]: [checkTransaction] and [formatId] (7-14, 1046-1181)
      from the form values, the [localStorage] reads, the random id
      digits and the outcomes of the two requests, with [new Date] as the
      class [DateEnv].  The outcome is the result card, the payload kept
      for the explanation, the row appended to the history and the
      alerts.  Theorems: the validation's exact rejections, the types of
      every payload sent, the card and the history row disagreeing on a
      [fraudulent] label, and the description stuck at its interim
      text.  [initializeTransactionForm] (1028-1043) writes the form's
      default date from a clock record; theorem: the value reads back,
      as HTML parses a [datetime-local] value, as the current minute.
    - [Metrics]: the model-performance page ([loadModelPerformance],
      [updatePerformanceMetrics], [fillConfusionMatrixTable];
      1381-1463): the rows of the performance table and the four
      confusion cells as the page gives them, JavaScript's [+] on JSON
      values and index access [cm[i][j]] written out, and the [try]
      blocks as [try_steps] (writes before an exception stay).
      [textContent] set to [undefined] or [null] stores the empty text.
      Theorems: what each row shows (every badge reads Completed, even
      for a missing metric, shown as [NaN%]; the digits of a sent
      metric are not claimed), the specificity fallback lies in [0, 1],
      a one-row matrix fills half the table, and [null] metrics alert.
    - [Trends]: the other renderers of the history page
      ([renderRocCurveFromMetrics], [renderFraudVsLegit],
      [renderFraudTrend], [renderChannelFraudPie], and the wrapper of
      [renderAmountVsFraudScatter]; 1477-1621) acting on the chart
      handles of History's state, and the history page as a run of
      table events and renders.  Theorems: each renderer holds a chart
      under its key exactly when it draws; no canvas ever holds two
      charts in any run; renders do not disturb the table; the fraud trend's stacked bars; the
      fraud-versus-legit pie drawn from an error answer; channel labels
      ignore case.
    - [Dashboard]: the composition.  [showPage] (957-1023, from
      [Navigation]) starts its data loads without awaiting them; a visit
      is [showPage] followed by the completions of those loads in an
      order given as a permutation, each completion atomic (JavaScript
      runs one callback at a time).  The state joins Navigation's
      display, History's state (table, chart handles, alerts) and the
      metrics page; the backend is a record of answers.  Theorems: every
      completion order ends in the same state, up to the creation order
      of the chart handles (an equivalence with [Proper] instances for
      setoid rewriting); a visit of the history page shows the table the
      abstract history gives for one load, keeps every canvas to one
      chart, and leaves the metrics page as it was.

    Each [Module XExamples] runs the definitions on concrete inputs
    ([vm_compute]) and holds the witnesses of the theorems with
    hypotheses.

    ** Bounds and fuel

    No definition of the program uses fuel: every recursion is
    structural (scanners consume the string, folds consume lists).  The
    example printing of numbers in [Json] ([decimal_digits]) tries at
    most 21 decimal places, enough for every number the examples print.
    The only bounds are the
    code's own: the first 100 values in [inferDataType], six categories,
    four distribution columns, the 20 bins of the amount histogram, the
    [10^21] limit of [toFixed] (the model
    returns [None] beyond it, where JavaScript switches to exponent
    notation), and the four units of [formatFileSize].

    ** Not modelled

    DOM rendering (HTML strings, CSS, Chart.js widgets), [toLocaleString]
    (its output depends on the locale), [console] output, binary64 rounding (in particular of
    [Math.log] in [formatFileSize]), the fetch calls and the backend's
    behaviour (a renderer is modelled from the JSON it receives), smooth
    scrolling, the touch-swipe handler and [showLoading]/[hideLoading]
    (console output or never called), the Blob and download link of
    [createExcelFile] (the file is recorded by name and content), the
    HTML [onclick] wiring of the buttons (not under src/; modelled from
    the page's behaviour as event types), the overlap of two renders of
    the same chart (each request completes within its renderer), and
    the read of a row's [__proto__]: the model creates no property for a
    header named [__proto__], as JavaScript does, but reads it back as
    [undefined] where JavaScript gives [Object.prototype] (on which the
    analysis then throws); no other header is affected.
*)

From Stdlib Require Import String Ascii QArith Lia Bool PeanoNat List Permutation Sorted.
Import ListNotations.

Declare Scope dash_scope.
Delimit Scope dash_scope with dash.
Open Scope dash_scope.
Open Scope nat_scope.

(** ** Truthiness and [||]

    JavaScript's [a || b] yields [a] when [a] is truthy and [b]
    otherwise.  The code uses it on strings ([values[index] || '']),
    on possibly-undefined lookups and on numbers ([parseFloat(x) || 0]). *)

Class Truthy (A : Type) := truthy : A -> bool.
Arguments truthy {A _} _.

Definition js_or {A} `{Truthy A} (a b : A) : A := if truthy a then a else b.
Notation "a '||j' b" := (js_or a b) (at level 50, left associativity) : dash_scope.

(** The empty string is the only falsy string. *)
#[export] Instance truthy_string : Truthy string :=
  fun s => negb (String.eqb s EmptyString).

(** [undefined] (a missing property or array element) is falsy. *)
#[export] Instance truthy_option {A} `{Truthy A} : Truthy (option A) :=
  fun o => match o with Some a => truthy a | None => false end.

(** ** Results of code that may throw *)

Module JsResult.
Inductive error := TypeError | RangeError | ReferenceError | SecurityError | SyntaxError.

Inductive t (A : Type) :=
| Ok (a : A)
| Throw (e : error).
Arguments Ok {A} a.
Arguments Throw {A} e.
End JsResult.

Notation "'let?' x ':=' c 'in' k" :=
  (match c with JsResult.Ok x => k | JsResult.Throw e => JsResult.Throw e end)
  (at level 10, x name, c at level 100, k at level 200) : dash_scope.

(** [try { s1; s2; ... } catch {}] over a state the statements update
    in turn: a statement that throws ends the block, and the updates
    made before it stay. *)
Fixpoint try_steps {A} (steps : list (A -> JsResult.t A)) (a : A) : A :=
  match steps with
  | [] => a
  | f :: fs => match f a with JsResult.Ok a' => try_steps fs a' | JsResult.Throw _ => a end
  end.

(** ** Automation *)

Create HintDb dash.
Create Rewrite HintDb dash.

(** Case on the first [if] of the goal, remembering the test. *)
Ltac case_if :=
  match goal with
  | |- context [if ?b then _ else _] => let E := fresh "E" in destruct b eqn:E
  end.

(** Case on every [match] and [if] of the goal whose scrutinee is not a
    projection [fst]/[snd] (those are left for the statement's own
    case analysis). *)
Ltac split_matches :=
  repeat match goal with
         | |- context [match ?x with _ => _ end] =>
             lazymatch x with snd _ => fail | fst _ => fail | _ => destruct x end
         | |- context [if ?b then _ else _] =>
             lazymatch b with snd _ => fail | fst _ => fail | _ => destruct b end
         end.

Ltac case_if_in H :=
  match type of H with
  | context [if ?b then _ else _] => let E := fresh "E" in destruct b eqn:E
  end.

(** ** Generic lemmas on lists *)

Section ListLemmas.
Context {A : Type}.

Lemma js_or_string_nonempty (s d : string) :
  s <> EmptyString -> (s ||j d) = s.
Proof.
  intros H. unfold js_or, truthy, truthy_string.
  destruct (String.eqb_spec s EmptyString); [congruence | reflexivity].
Qed.

Lemma js_or_string_empty (d : string) : (EmptyString ||j d) = d.
Proof. reflexivity. Qed.

Lemma filter_length_split (f : A -> bool) (l : list A) :
  length (filter f l) = length l - length (filter (fun x => negb (f x)) l).
Proof. pose proof (filter_length f l). lia. Qed.

Lemma filter_ext_in' (f g : A -> bool) (l : list A) :
  (forall x, In x l -> f x = g x) -> filter f l = filter g l.
Proof. apply filter_ext_in. Qed.

Lemma filter_all (f : A -> bool) (l : list A) :
  forallb f l = true -> filter f l = l.
Proof.
  induction l as [|x l IH]; simpl; [reflexivity|].
  intros H. apply andb_prop in H as [Hx Hl]. rewrite Hx, IH; auto.
Qed.

Lemma nth_error_firstn (n i : nat) (l : list A) :
  i < n -> nth_error (firstn n l) i = nth_error l i.
Proof.
  revert n l. induction i as [|i IH]; intros [|n] [|x l] H; simpl; try lia; auto.
  apply IH. lia.
Qed.
Lemma nth_error_map_inv {B} (f : A -> B) (l : list A) (n : nat) (y : B) :
  nth_error (map f l) n = Some y -> exists x, nth_error l n = Some x /\ y = f x.
Proof.
  rewrite nth_error_map. destruct (nth_error l n) as [x|]; simpl; [|discriminate].
  intros H. injection H as <-. eauto.
Qed.

Lemma in_firstn (n : nat) (x : A) (l : list A) : In x (firstn n l) -> In x l.
Proof. intros H. rewrite <- (firstn_skipn n l). apply in_or_app. left. exact H. Qed.

(** Filtering commutes with permutations. *)
Lemma Permutation_filter (f : A -> bool) (l l' : list A) :
  Permutation l l' -> Permutation (filter f l) (filter f l').
Proof.
  induction 1; simpl; try reflexivity.
  - destruct (f x); [apply perm_skip|]; assumption.
  - destruct (f x), (f y); try reflexivity. apply perm_swap.
  - etransitivity; eassumption.
Qed.

Lemma filter_none (f : A -> bool) (l : list A) :
  (forall x, In x l -> f x = false) -> filter f l = [].
Proof.
  induction l as [|x l IH]; intros H; simpl; [reflexivity|].
  rewrite H by (left; reflexivity). apply IH. intros y Hy. apply H. right. exact Hy.
Qed.

(** Counting the elements that satisfy [f]: if none lies beyond
    position [k], at most [k] do; if none lies before it, at most
    [length l - k] do. *)
Lemma count_le_prefix (f : A -> bool) (l : list A) (k : nat) :
  (forall x, In x (skipn k l) -> f x = false) -> length (filter f l) <= k.
Proof.
  intros H. rewrite <- (firstn_skipn k l), filter_app, length_app, (filter_none _ _ H).
  pose proof (filter_length_le f (firstn k l)). rewrite length_firstn in *. simpl. lia.
Qed.

Lemma count_le_suffix (f : A -> bool) (l : list A) (k : nat) :
  (forall x, In x (firstn k l) -> f x = false) -> length (filter f l) <= length l - k.
Proof.
  intros H. rewrite <- (firstn_skipn k l) at 1. rewrite filter_app, length_app, (filter_none _ _ H).
  pose proof (filter_length_le f (skipn k l)). rewrite length_skipn in *. simpl. lia.
Qed.

(** In a strongly sorted list every element before position [i] is
    related to the [i]-th, which is related to every later one. *)
Lemma StronglySorted_app_rel (R : A -> A -> Prop) (l1 l2 : list A) :
  StronglySorted R (l1 ++ l2) -> forall x y, In x l1 -> In y l2 -> R x y.
Proof.
  induction l1 as [|z l1 IH]; simpl; intros Hs x y Hx Hy; [contradiction|].
  apply StronglySorted_inv in Hs as [Hs Hall]. destruct Hx as [<-|Hx]; [|eauto].
  rewrite Forall_forall in Hall. apply Hall, in_or_app. right. exact Hy.
Qed.

Lemma StronglySorted_nth_after (R : A -> A -> Prop) (l : list A) (i : nat) (a : A) :
  (forall x, R x x) -> StronglySorted R l -> nth_error l i = Some a ->
  forall y, In y (skipn i l) -> R a y.
Proof.
  intros Hrefl Hs Ha. apply nth_error_split in Ha as [l1 [l2 [-> <-]]].
  rewrite skipn_app, Nat.sub_diag, skipn_all, app_nil_l. simpl. intros y [<-|Hy]; [apply Hrefl|].
  apply (StronglySorted_app_rel R (l1 ++ [a]) l2); [now rewrite <- app_assoc | |exact Hy].
  apply in_or_app. right. left. reflexivity.
Qed.

Lemma StronglySorted_nth_before (R : A -> A -> Prop) (l : list A) (i : nat) (a : A) :
  (forall x, R x x) -> StronglySorted R l -> nth_error l i = Some a ->
  forall x, In x (firstn (S i) l) -> R x a.
Proof.
  intros Hrefl Hs Ha. apply nth_error_split in Ha as [l1 [l2 [-> <-]]].
  rewrite firstn_app, firstn_all2 by (simpl; lia).
  replace (S (length l1) - length l1) with 1 by lia. simpl.
  intros x Hx. apply in_app_or in Hx as [Hx|[<-|[]]]; [|apply Hrefl].
  apply (StronglySorted_app_rel R l1 (a :: l2) Hs); [exact Hx | left; reflexivity].
Qed.
(** [array.map((x, i) => ...)] and [forEach] with the index. *)
Fixpoint mapi_from {B} (f : nat -> A -> B) (i : nat) (l : list A) : list B :=
  match l with [] => [] | x :: l' => f i x :: mapi_from f (S i) l' end.
Definition mapi {B} (f : nat -> A -> B) (l : list A) : list B := mapi_from f 0 l.

Lemma nth_error_mapi_from {B} (f : nat -> A -> B) (i k : nat) (l : list A) :
  nth_error (mapi_from f k l) i = option_map (f (k + i)) (nth_error l i).
Proof.
  revert i k. induction l as [|x l IH]; intros [|i] k; simpl; auto.
  - now rewrite Nat.add_0_r.
  - rewrite IH. now rewrite Nat.add_succ_r.
Qed.

Lemma nth_error_mapi {B} (f : nat -> A -> B) (i : nat) (l : list A) :
  nth_error (mapi f l) i = option_map (f i) (nth_error l i).
Proof. apply nth_error_mapi_from. Qed.

Lemma mapi_ext {B} (f g : nat -> A -> B) (l : list A) : (forall i x, f i x = g i x) -> mapi f l = mapi g l.
Proof.
  intros H. apply nth_error_ext. intros i. rewrite !nth_error_mapi.
  destruct (nth_error l i); cbn; [rewrite H|]; reflexivity.
Qed.

Lemma length_mapi {B} (f : nat -> A -> B) (l : list A) : length (mapi f l) = length l.
Proof. unfold mapi. generalize 0. induction l as [|x l IH]; intros k; simpl; auto. Qed.

(** [Sorted] gives [StronglySorted] when the relation is transitive on
    the elements that satisfy [P]. *)
Lemma Sorted_extends_on (P : A -> Prop) (R : A -> A -> Prop) (a : A) (l : list A) :
  (forall x y z, P x -> P y -> P z -> R x y -> R y z -> R x z) ->
  Forall P (a :: l) -> Sorted R (a :: l) -> Forall (R a) l.
Proof.
  intros Htr. revert a. induction l as [|b l IH]; intros a HP Hs; [constructor|].
  apply Sorted_inv in Hs as [Hs Hhd]. inversion Hhd as [|? ? Hab]; subst.
  inversion HP as [|? ? Ha HP']; subst. inversion HP' as [|? ? Hb Hl]; subst.
  constructor; [exact Hab|]. specialize (IH b HP' Hs).
  rewrite Forall_forall in *. intros c Hc. apply (Htr a b c); auto.
Qed.

Lemma Sorted_StronglySorted_on (P : A -> Prop) (R : A -> A -> Prop) (l : list A) :
  (forall x y z, P x -> P y -> P z -> R x y -> R y z -> R x z) ->
  Forall P l -> Sorted R l -> StronglySorted R l.
Proof.
  intros Htr. induction l as [|a l IH]; intros HP Hs; constructor.
  - apply IH; [inversion HP; auto | now apply Sorted_inv in Hs].
  - now apply (Sorted_extends_on P).
Qed.

Lemma StronglySorted_app_l (R : A -> A -> Prop) (l1 l2 : list A) :
  StronglySorted R (l1 ++ l2) -> StronglySorted R l1.
Proof.
  induction l1 as [|a l1 IH]; intros Hs; [constructor|]. simpl in Hs.
  apply StronglySorted_inv in Hs as [Hs Hall]. constructor; [auto|].
  apply Forall_app in Hall. apply Hall.
Qed.

(** A relation that holds between adjacent elements keeps holding when
    it is weakened on the elements that satisfy [P]. *)
Lemma Sorted_weaken_on (P : A -> Prop) (R R' : A -> A -> Prop) (l : list A) :
  (forall x y, P x -> P y -> R x y -> R' x y) -> Forall P l -> Sorted R l -> Sorted R' l.
Proof.
  intros Himp. induction l as [|a l IH]; intros HF Hs; [constructor|].
  apply Sorted_inv in Hs as [Hs Hhd]. inversion HF as [|? ? Ha HF']; subst.
  constructor; [auto|]. destruct l as [|b l]; constructor.
  inversion Hhd; subst. inversion HF'; subst. auto.
Qed.
(** [Array.prototype.find] over a list whose elements before [x] all
    fail the test. *)
Lemma find_first (p : A -> bool) (l1 l2 : list A) (x : A) :
  (forall y, In y l1 -> p y = false) -> p x = true -> find p (l1 ++ x :: l2) = Some x.
Proof.
  intros H1 Hx. induction l1 as [|y l1 IH]; cbn; [rewrite Hx; reflexivity|].
  rewrite H1 by (left; reflexivity). apply IH. intros z Hz. apply H1. right. exact Hz.
Qed.

Lemma find_all_false (p : A -> bool) (l : list A) : (forall y, In y l -> p y = false) -> find p l = None.
Proof.
  induction l as [|y l IH]; intros H; cbn; [reflexivity|].
  rewrite H by (left; reflexivity). apply IH. intros z Hz. apply H. right. exact Hz.
Qed.

Lemma NoDup_map_filter {B} (g : A -> B) (f : A -> bool) (l : list A) :
  NoDup (map g l) -> NoDup (map g (filter f l)).
Proof.
  induction l as [|x l IH]; simpl; intros Hnd; [constructor|]. inversion Hnd as [|? ? Hx Hl]; subst.
  destruct (f x); simpl; [|auto]. constructor; [|auto].
  intros Hin. apply Hx. apply in_map_iff in Hin as [y [<- Hy]]. apply filter_In in Hy as [Hy _].
  now apply in_map.
Qed.
End ListLemmas.

(** ** Lists of numbered entries, filtered by number *)

Lemma map_fst_filter {B} (id : nat) (l : list (nat * B)) :
  map fst (filter (fun p => negb (Nat.eqb (fst p) id)) l) = filter (fun i => negb (Nat.eqb i id)) (map fst l).
Proof. induction l as [|[i t] l IH]; cbn; [|destruct (Nat.eqb i id); cbn; rewrite IH]; reflexivity. Qed.

Lemma filter_notin (id : nat) (l : list nat) : ~ In id l -> filter (fun i => negb (Nat.eqb i id)) l = l.
Proof.
  induction l as [|i l IH]; intros Hn; cbn; [reflexivity|].
  destruct (Nat.eqb_spec i id) as [->|]; [destruct Hn; left; reflexivity|]. cbn. f_equal. apply IH.
  intros Hi. apply Hn. right. exact Hi.
Qed.


(** ** Sums of natural numbers over lists *)

Lemma fold_left_map_fuse {A B C : Type} (f : C -> B -> C) (g : A -> B) (l : list A) (a : C) :
  fold_left f (map g l) a = fold_left (fun acc x => f acc (g x)) l a.
Proof. revert a. induction l as [|x l IH]; intros a; simpl; auto. Qed.

(** Sums of rationals with [fold_left]. *)
Lemma fold_Qplus_acc (l : list Q) (a : Q) : (fold_left Qplus l a == a + fold_left Qplus l 0)%Q.
Proof.
  revert a. induction l as [|x l IH]; intros a; simpl; [rewrite Qplus_0_r; reflexivity|].
  rewrite IH, (IH (0 + x)%Q). rewrite Qplus_0_l, Qplus_assoc. reflexivity.
Qed.

Section Sums.
Context {A B : Type}.

Lemma fold_left_add_sum (f : A -> nat) (l : list A) (a : nat) :
  fold_left (fun c x => c + f x) l a = a + list_sum (map f l).
Proof.
  revert a. induction l as [|x l IH]; intros a; simpl; [lia|]. rewrite IH. lia.
Qed.

Lemma length_filter_sum (p : A -> bool) (l : list A) :
  length (filter p l) = list_sum (map (fun x => if p x then 1 else 0) l).
Proof. induction l as [|x l IH]; simpl; [reflexivity|]. destruct (p x); simpl; lia. Qed.

Lemma list_sum_map_add (f g : A -> nat) (l : list A) :
  list_sum (map (fun x => f x + g x) l) = list_sum (map f l) + list_sum (map g l).
Proof. induction l as [|x l IH]; simpl; [reflexivity|]. rewrite IH. lia. Qed.


Lemma list_sum_le (f g : A -> nat) (l : list A) :
  (forall x, In x l -> f x <= g x) -> list_sum (map f l) <= list_sum (map g l).
Proof.
  induction l as [|x l IH]; simpl; intros H; [lia|].
  specialize (H x (or_introl eq_refl)) as Hx. assert (list_sum (map f l) <= list_sum (map g l)) by auto.
  lia.
Qed.
End Sums.

(** [a[k] = x] on an index within the array, as a splice. *)
Definition splice {A} (k : nat) (x : A) (h : list A) : list A := firstn k h ++ x :: skipn (S k) h.

Lemma splice_length {A} (k : nat) (x : A) (h : list A) : k < length h -> length (splice k x h) = length h.
Proof.
  unfold splice. intros Hk. rewrite length_app, length_firstn. cbn [length]. rewrite length_skipn. lia.
Qed.

Lemma splice_nth {A} (k i : nat) (x d : A) (h : list A) :
  k < length h -> nth i (splice k x h) d = if Nat.eqb i k then x else nth i h d.
Proof.
  unfold splice. revert k i. induction h as [|y h IH]; intros k i Hk; simpl in Hk; [lia|].
  destruct k as [|k], i as [|i]; simpl; try reflexivity.
  - rewrite IH by lia. reflexivity.
Qed.

Lemma splice_sum (k : nat) (h : list nat) :
  k < length h -> list_sum (splice k (S (nth k h 0)) h) = S (list_sum h).
Proof.
  unfold splice. revert k. induction h as [|y h IH]; intros k Hk; simpl in Hk; [lia|].
  destruct k as [|k]; simpl; [reflexivity|]. rewrite IH by lia. lia.
Qed.

(** Double counting: a sum over rows of sums over columns is the sum
    over columns of sums over rows. *)
Lemma list_sum_swap {A B : Type} (g : A -> B -> nat) (rows : list A) (cols : list B) :
  list_sum (map (fun r => list_sum (map (fun c => g r c) cols)) rows) =
  list_sum (map (fun c => list_sum (map (fun r => g r c) rows)) cols).
Proof.
  induction rows as [|r rows IH]; simpl.
  - induction cols; simpl; auto.
  - rewrite IH. symmetry. apply (list_sum_map_add (fun c => g r c)).
Qed.

(** Duplicate-freedom of a list of strings, decided. *)
Fixpoint nodupb (l : list string) : bool :=
  match l with
  | [] => true
  | x :: l' => negb (existsb (String.eqb x) l') && nodupb l'
  end.

Lemma nodupb_NoDup (l : list string) : nodupb l = true -> NoDup l.
Proof.
  induction l as [|x l IH]; simpl; intros H; [constructor|].
  apply andb_prop in H as [Hx Hl]. constructor; [|auto].
  intros Hin. destruct (existsb (String.eqb x) l) eqn:E; [discriminate|].
  assert (existsb (String.eqb x) l = true) as Hy
    by (apply existsb_exists; exists x; split; [exact Hin | apply String.eqb_refl]).
  congruence.
Qed.

#[export] Hint Resolve filter_length_le : dash.
#[export] Hint Rewrite @js_or_string_empty : dash.
