(* ===== verification/JsString.v ===== *)
(** * JavaScript string primitives used by [dashboard.js]

    [String.prototype.split] with a one-character separator,
    [trim], [replace] of every double-quote character, [toLowerCase], [includes] and
    [Array.prototype.join], on strings of Latin-1 code units (see the
    header of [Prelude]).  The split/join round trip and the
    characterisation of [trim] are proved here and used by the CSV
    parser and exporter. *)

From Stdlib Require Import String Ascii Bool Lia List.
From S2P Require Import Prelude.
Import ListNotations.
Open Scope string_scope.

Module JsString.

(** ECMAScript WhiteSpace and LineTerminator code points below U+0100:
    TAB, LF, VT, FF, CR, SPACE and NO-BREAK SPACE. *)
Definition is_ws (a : ascii) : bool :=
  match nat_of_ascii a with
  | 9 | 10 | 11 | 12 | 13 | 32 | 160 => true
  | _ => false
  end.

(** Leading whitespace removed ([trimStart], also the first step of
    [parseFloat]). *)
Fixpoint trim_start (s : string) : string :=
  match s with
  | EmptyString => EmptyString
  | String a s' => if is_ws a then trim_start s' else s
  end.

(** Trailing whitespace removed ([trimEnd]). *)
Fixpoint trim_end (s : string) : string :=
  match s with
  | EmptyString => EmptyString
  | String a s' =>
      let t := trim_end s' in
      if is_ws a && String.eqb t EmptyString then EmptyString else String a t
  end.

(** [s.trim()] *)
Definition trim (s : string) : string := trim_end (trim_start s).

(** [s.split(c)] for a one-character separator [c] (no limit): the
    pieces between the occurrences of [c]; the empty string splits to a one-element array holding it. *)
Fixpoint split (c : ascii) (s : string) : list string :=
  match s with
  | EmptyString => [EmptyString]
  | String a s' =>
      let rest := split c s' in
      if Ascii.eqb a c then EmptyString :: rest
      else match rest with
           | piece :: tl => String a piece :: tl
           | [] => [String a EmptyString]
           end
  end.

(** [s.replace(/c/g, '')]: every occurrence of [c] removed. *)
Fixpoint remove_char (c : ascii) (s : string) : string :=
  match s with
  | EmptyString => EmptyString
  | String a s' => if Ascii.eqb a c then remove_char c s' else String a (remove_char c s')
  end.

(** [toLowerCase] on one Latin-1 code unit: A-Z and the upper-case
    letters U+00C0..U+00DE except U+00D7 (the multiplication sign) move
    up by 0x20. *)
Definition lower_char (a : ascii) : ascii :=
  let n := nat_of_ascii a in
  if (Nat.leb 65 n && Nat.leb n 90) || (Nat.leb 192 n && Nat.leb n 222 && negb (Nat.eqb n 215))
  then ascii_of_nat (n + 32) else a.

Fixpoint to_lower (s : string) : string :=
  match s with
  | EmptyString => EmptyString
  | String a s' => String (lower_char a) (to_lower s')
  end.

(** [hay.includes(needle)] *)
Fixpoint includes (hay needle : string) : bool :=
  String.prefix needle hay ||
  match hay with
  | EmptyString => false
  | String _ h => includes h needle
  end.

(** [xs.join(sep)] for an array of strings. *)
Definition join (sep : string) (xs : list string) : string := String.concat sep xs.

(** [c] occurs in [s]. *)
Fixpoint has_char (c : ascii) (s : string) : bool :=
  match s with
  | EmptyString => false
  | String a s' => Ascii.eqb a c || has_char c s'
  end.

(** ** Lemmas *)

Lemma app_assoc (a b c : string) : a ++ (b ++ c) = (a ++ b) ++ c.
Proof. induction a as [|x a IH]; simpl; [reflexivity|]. now rewrite IH. Qed.

Lemma app_empty_r (a : string) : a ++ EmptyString = a.
Proof. induction a as [|x a IH]; simpl; [reflexivity|]. now rewrite IH. Qed.

(** A string that starts with a non-blank character trims to a
    non-empty string. *)
Lemma trim_nonblank_head (a : ascii) (s : string) :
  is_ws a = false -> trim (String a s) <> EmptyString.
Proof. intros H. unfold trim. simpl. rewrite H. simpl. rewrite H. discriminate. Qed.


Lemma split_not_nil (c : ascii) (s : string) : split c s <> [].
Proof.
  induction s as [|a s IH]; simpl; [discriminate|].
  destruct (Ascii.eqb a c); [discriminate|].
  destruct (split c s); discriminate.
Qed.

Lemma split_cons_char (c : ascii) (s : string) :
  split c (String c s) = EmptyString :: split c s.
Proof. simpl. now rewrite Ascii.eqb_refl. Qed.

Lemma split_cons_other (c a : ascii) (s : string) piece tl :
  a <> c -> split c s = piece :: tl -> split c (String a s) = String a piece :: tl.
Proof.
  intros Hne Hs. simpl. rewrite Hs.
  destruct (Ascii.eqb_spec a c); [contradiction | reflexivity].
Qed.

Lemma join_cons2 (sep x y : string) (tl : list string) :
  join sep (x :: y :: tl) = x ++ sep ++ join sep (y :: tl).
Proof. reflexivity. Qed.

(** Splitting a piece without [c], followed by [c] and more text. *)
Lemma split_app_piece (c : ascii) (x rest : string) :
  has_char c x = false ->
  split c (x ++ String c rest) = x :: split c rest.
Proof.
  induction x as [|a x IH]; simpl; intros H.
  - now rewrite Ascii.eqb_refl.
  - apply orb_false_elim in H as [Ha Hx].
    rewrite (IH Hx), Ha. reflexivity.
Qed.

Lemma split_last_piece (c : ascii) (x : string) :
  has_char c x = false -> split c x = [x].
Proof.
  induction x as [|a x IH]; simpl; intros H; [reflexivity|].
  apply orb_false_elim in H as [Ha Hx]. rewrite (IH Hx), Ha. reflexivity.
Qed.

(** Round trip: joining the pieces with the separator gives back the
    string. *)
Lemma join_split (c : ascii) (s : string) :
  join (String c EmptyString) (split c s) = s.
Proof.
  induction s as [|a s IH]; [reflexivity|].
  simpl. destruct (Ascii.eqb_spec a c) as [->|Hne].
  - destruct (split c s) as [|p tl] eqn:E; [now destruct (split_not_nil c s)|].
    simpl in *. rewrite IH. reflexivity.
  - destruct (split c s) as [|p tl] eqn:E; [now destruct (split_not_nil c s)|].
    destruct tl as [|q tl]; simpl in *; rewrite <- IH; reflexivity.
Qed.

(** Round trip: splitting a join of separator-free pieces gives back
    the pieces. *)
Lemma split_join (c : ascii) (xs : list string) :
  xs <> [] -> Forall (fun x => has_char c x = false) xs ->
  split c (join (String c EmptyString) xs) = xs.
Proof.
  induction xs as [|x [|y tl] IH]; intros Hne Hall; [congruence| |].
  - inversion Hall; subst. apply split_last_piece. assumption.
  - inversion Hall as [|? ? Hx Htl]; subst.
    rewrite join_cons2. simpl.
    rewrite split_app_piece by assumption. f_equal.
    apply IH; [discriminate | assumption].
Qed.

(** The pieces of a text made of lines each ended by the separator are
    the lines and a final empty piece. *)
Lemma split_terminated (c : ascii) (xs : list string) :
  Forall (fun x => has_char c x = false) xs ->
  split c (fold_right (fun x acc => x ++ String c acc) EmptyString xs) = (xs ++ [EmptyString])%list.
Proof.
  induction xs as [|x xs IH]; intros Hall; [reflexivity|].
  inversion Hall; subst. simpl. rewrite split_app_piece by assumption. now rewrite IH.
Qed.

Lemma length_split_join (c : ascii) (xs : list string) :
  xs <> [] -> Forall (fun x => has_char c x = false) xs ->
  length (split c (join (String c EmptyString) xs)) = length xs.
Proof. intros. now rewrite split_join. Qed.

Lemma remove_char_absent (c : ascii) (s : string) :
  has_char c s = false -> remove_char c s = s.
Proof.
  induction s as [|a s IH]; simpl; intros H; [reflexivity|].
  apply orb_false_elim in H as [Ha Hs]. rewrite Ha, IH; auto.
Qed.

Lemma remove_char_gone (c : ascii) (s : string) :
  has_char c (remove_char c s) = false.
Proof.
  induction s as [|a s IH]; simpl; [reflexivity|].
  destruct (Ascii.eqb_spec a c) as [->|Hne]; simpl; [assumption|].
  destruct (Ascii.eqb_spec a c); [contradiction|assumption].
Qed.

Lemma remove_char_app (c : ascii) (s t : string) :
  remove_char c (s ++ t) = remove_char c s ++ remove_char c t.
Proof.
  induction s as [|a s IH]; simpl; [reflexivity|].
  rewrite IH. destruct (Ascii.eqb a c); reflexivity.
Qed.

Lemma remove_char_other (c a : ascii) (s : string) :
  a <> c -> remove_char c (String a s) = String a (remove_char c s).
Proof. intros H. simpl. destruct (Ascii.eqb_spec a c); [contradiction|reflexivity]. Qed.

Lemma has_char_remove_other (c d : ascii) (s : string) :
  has_char d s = false -> has_char d (remove_char c s) = false.
Proof.
  induction s as [|a s IH]; simpl; intros H; [reflexivity|].
  apply orb_false_elim in H as [Ha Hs].
  destruct (Ascii.eqb a c); simpl; [auto|]. rewrite Ha, IH; auto.
Qed.

(** A string already trimmed at its start. *)
Definition no_lead_ws (s : string) : bool :=
  match s with EmptyString => true | String a _ => negb (is_ws a) end.

Fixpoint last_char (s : string) : option ascii :=
  match s with
  | EmptyString => None
  | String a EmptyString => Some a
  | String _ s' => last_char s'
  end.

(** A string already trimmed at its end. *)
Definition no_trail_ws (s : string) : bool :=
  match last_char s with None => true | Some a => negb (is_ws a) end.

Lemma last_char_snoc (s : string) (a : ascii) :
  last_char (s ++ String a EmptyString) = Some a.
Proof.
  induction s as [|b s IH]; [reflexivity|]. simpl.
  destruct (s ++ String a EmptyString) eqn:E; [destruct s; discriminate|].
  exact IH.
Qed.

Lemma trim_start_id (s : string) : no_lead_ws s = true -> trim_start s = s.
Proof.
  destruct s as [|a s]; simpl; [reflexivity|].
  intros H. destruct (is_ws a); [discriminate|reflexivity].
Qed.

Lemma trim_end_id (s : string) : no_trail_ws s = true -> trim_end s = s.
Proof.
  unfold no_trail_ws. induction s as [|a s IH]; simpl; [reflexivity|].
  destruct s as [|b s'].
  - simpl. intros H. destruct (is_ws a); [discriminate|reflexivity].
  - intros H. rewrite IH by exact H.
    rewrite andb_false_r. reflexivity.
Qed.

(** A string without leading and trailing whitespace is its own
    [trim]. *)
Lemma trim_id (s : string) :
  no_lead_ws s = true -> no_trail_ws s = true -> trim s = s.
Proof. intros H1 H2. unfold trim. rewrite trim_start_id, trim_end_id; auto. Qed.

Lemma trim_end_empty_iff (s : string) :
  trim_end s = EmptyString <-> forallb is_ws (list_ascii_of_string s) = true.
Proof.
  induction s as [|a s IH]; simpl; [split; reflexivity|].
  destruct (is_ws a) eqn:Ha; simpl.
  - destruct (String.eqb_spec (trim_end s) EmptyString) as [E|E].
    + rewrite <- IH. tauto.
    + split; [discriminate|]. intros H. apply IH in H. contradiction.
  - split; discriminate.
Qed.

Lemma to_lower_app (s t : string) : to_lower (s ++ t) = to_lower s ++ to_lower t.
Proof. induction s as [|a s IH]; simpl; [reflexivity|]. now rewrite IH. Qed.

Lemma prefix_app (n b : string) : String.prefix n (n ++ b) = true.
Proof.
  induction n as [|x n IH]; simpl; [now destruct b|].
  destruct (ascii_dec x x); [exact IH | contradiction].
Qed.

Lemma includes_of_prefix (h n : string) : String.prefix n h = true -> includes h n = true.
Proof. destruct h; simpl; intros ->; reflexivity. Qed.

(** A string contains every one of its substrings. *)
Lemma includes_middle (a n b : string) : includes (a ++ n ++ b) n = true.
Proof.
  induction a as [|x a IH]; simpl.
  - apply includes_of_prefix, prefix_app.
  - rewrite IH. apply orb_true_r.
Qed.

End JsString.
