(* ===== verification/JsNumber.v ===== *)
(** * JavaScript numbers as the dashboard uses them

    [num] is an exact rational or one of the IEEE special values
    [+Infinity], [-Infinity], [NaN] (see the header of [Prelude] for what
    is abstracted: binary64 rounding and the sign of zero).  The file
    gives the arithmetic operators, the relational operators (false on
    [NaN]), [===], truthiness, [Math.round], [Math.min]/[Math.max],
    [Array.prototype.reduce] summation, [Number(s)] (the StringToNumber
    grammar of ECMAScript, decimal, [Infinity] and [0x]/[0o]/[0b]
    literals), [parseFloat] (the longest StrDecimalLiteral prefix) and
    [isNaN].  [num_eq] identifies rationals equal as numbers; every
    operation is [Proper] for it. *)

From Stdlib Require Import String Ascii QArith Qround Qabs Lia Lqa Bool ZArith NArith DecimalString Morphisms Setoid List.
From S2P Require Import Prelude JsString.
Import ListNotations.

Module JsNumber.

Inductive num := Fin (q : Q) | PInf | NInf | NaN.

Definition of_nat (n : nat) : num := Fin (inject_Z (Z.of_nat n)).
Definition of_Z (z : Z) : num := Fin (inject_Z z).

(** ** Arithmetic *)

Definition neg (x : num) : num :=
  match x with Fin q => Fin (- q) | PInf => NInf | NInf => PInf | NaN => NaN end.

Definition add (x y : num) : num :=
  match x, y with
  | NaN, _ | _, NaN => NaN
  | PInf, NInf | NInf, PInf => NaN
  | PInf, _ | _, PInf => PInf
  | NInf, _ | _, NInf => NInf
  | Fin a, Fin b => Fin (a + b)
  end.

Definition sub (x y : num) : num := add x (neg y).

(** An infinity of the sign of [q] times the sign [pos]; [NaN] for 0. *)
Definition inf_times (pos : bool) (q : Q) : num :=
  match Qcompare q 0 with
  | Eq => NaN
  | Gt => if pos then PInf else NInf
  | Lt => if pos then NInf else PInf
  end.

Definition mul (x y : num) : num :=
  match x, y with
  | NaN, _ | _, NaN => NaN
  | Fin a, Fin b => Fin (a * b)
  | Fin a, PInf | PInf, Fin a => inf_times true a
  | Fin a, NInf | NInf, Fin a => inf_times false a
  | PInf, PInf | NInf, NInf => PInf
  | PInf, NInf | NInf, PInf => NInf
  end.

(** Division; a zero divisor is +0 (the sign of zero is not modelled). *)
Definition div (x y : num) : num :=
  match x, y with
  | NaN, _ | _, NaN => NaN
  | Fin a, Fin b => if Qeq_bool b 0 then inf_times true a else Fin (a / b)
  | Fin _, PInf | Fin _, NInf => Fin 0
  | PInf, Fin b => match Qcompare b 0 with Lt => NInf | _ => PInf end
  | NInf, Fin b => match Qcompare b 0 with Lt => PInf | _ => NInf end
  | _, _ => NaN
  end.

Declare Scope num_scope.
Delimit Scope num_scope with num.
Infix "+" := add : num_scope.
Infix "-" := sub : num_scope.
Infix "*" := mul : num_scope.
Infix "/" := div : num_scope.

(** ** Comparisons: [None] when a [NaN] is involved *)

Definition compare (x y : num) : option comparison :=
  match x, y with
  | NaN, _ | _, NaN => None
  | Fin a, Fin b => Some (Qcompare a b)
  | PInf, PInf | NInf, NInf => Some Eq
  | PInf, _ | _, NInf => Some Gt
  | NInf, _ | _, PInf => Some Lt
  end.

Definition lt (x y : num) : bool :=
  match compare x y with Some Lt => true | _ => false end.
Definition le (x y : num) : bool :=
  match compare x y with Some Lt | Some Eq => true | _ => false end.
Definition gt (x y : num) : bool := lt y x.
Definition ge (x y : num) : bool := le y x.

(** [x === y] on numbers. *)
Definition strict_eq (x y : num) : bool :=
  match compare x y with Some Eq => true | _ => false end.

Definition is_nan (x : num) : bool := match x with NaN => true | _ => false end.

Definition is_finite (x : num) : bool := match x with Fin _ => true | _ => false end.

(** ToBoolean: [0] and [NaN] are falsy. *)
#[export] Instance truthy_num : Truthy num :=
  fun x => match x with Fin q => negb (Qeq_bool q 0) | NaN => false | _ => true end.

(** ** [Math] functions *)

(** [Math.round]: the nearest integer, halves rounded up. *)
Definition round (x : num) : num :=
  match x with Fin q => Fin (inject_Z (Qfloor (q + (1 # 2)))) | _ => x end.

Definition floor (x : num) : num :=
  match x with Fin q => Fin (inject_Z (Qfloor q)) | _ => x end.

Definition abs (x : num) : num :=
  match x with Fin q => Fin (Qabs q) | NInf => PInf | _ => x end.

Definition min2 (a b : num) : num :=
  if is_nan a || is_nan b then NaN else if lt b a then b else a.
Definition max2 (a b : num) : num :=
  if is_nan a || is_nan b then NaN else if gt b a then b else a.

(** [Math.min(...xs)] and [Math.max(...xs)]: [+Infinity] and
    [-Infinity] on no argument, [NaN] as soon as one argument is. *)
Definition math_min (xs : list num) : num := fold_left min2 xs PInf.
Definition math_max (xs : list num) : num := fold_left max2 xs NInf.

(** [xs.reduce((a, b) => a + b, 0)] *)
Definition sum (xs : list num) : num := fold_left add xs (Fin 0).

(** ** [Number(s)]: the StringToNumber grammar *)

Definition digit_val (radix : nat) (a : ascii) : option nat :=
  let n := nat_of_ascii a in
  let d :=
    if Nat.leb 48 n && Nat.leb n 57 then Some (n - 48)
    else if Nat.leb 97 n && Nat.leb n 102 then Some (n - 87)
    else if Nat.leb 65 n && Nat.leb n 70 then Some (n - 55)
    else None in
  match d with Some v => if Nat.ltb v radix then Some v else None | None => None end.

(** The maximal run of digits of the radix at the front of [s], and
    the rest. *)
Fixpoint scan_digits (radix : nat) (s : string) : list nat * string :=
  match s with
  | EmptyString => ([], EmptyString)
  | String a s' =>
      match digit_val radix a with
      | Some d => let (ds, r) := scan_digits radix s' in (d :: ds, r)
      | None => ([], s)
      end
  end.

Definition digits_Z (radix : nat) (ds : list nat) : Z :=
  fold_left (fun acc d => acc * Z.of_nat radix + Z.of_nat d)%Z ds 0%Z.

(** An ExponentPart ([e] or [E], an optional sign, at least one digit);
    when absent or incomplete nothing is consumed. *)
Definition scan_exponent (s : string) : Z * string :=
  match s with
  | String e r =>
      if Ascii.eqb e "e"%char || Ascii.eqb e "E"%char then
        let '(negative, r1) :=
          match r with
          | String c r' =>
              if Ascii.eqb c "+"%char then (false, r')
              else if Ascii.eqb c "-"%char then (true, r') else (false, r)
          | EmptyString => (false, r)
          end in
        match scan_digits 10 r1 with
        | ([], _) => (0%Z, s)
        | (ds, r2) => ((if negative then - digits_Z 10 ds else digits_Z 10 ds)%Z, r2)
        end
      else (0%Z, s)
  | EmptyString => (0%Z, EmptyString)
  end.

(** The exact value of [ip.fp e exp]. *)
Definition decimal_value (ip fp : list nat) (exp : Z) : Q :=
  let m := digits_Z 10 (ip ++ fp) in
  let k := (exp - Z.of_nat (List.length fp))%Z in
  if Z.leb 0 k then inject_Z (m * 10 ^ k) else Qmake m (Z.to_pos (10 ^ (- k))).

(** The longest StrUnsignedDecimalLiteral without [Infinity] at the
    front of [s]: digits, an optional [.] and digits (at least one digit
    in all), an optional exponent. *)
Definition scan_unsigned_decimal (s : string) : option (Q * string) :=
  let (ip, r1) := scan_digits 10 s in
  let (fp, r2) :=
    match r1 with
    | String c r => if Ascii.eqb c "."%char then scan_digits 10 r else ([], r1)
    | EmptyString => ([], r1)
    end in
  match ip, fp with
  | [], [] => None
  | _, _ => let (e, r3) := scan_exponent r2 in Some (decimal_value ip fp e, r3)
  end.

Fixpoint strip_prefix (p s : string) : option string :=
  match p, s with
  | EmptyString, _ => Some s
  | String a p', String b s' => if Ascii.eqb a b then strip_prefix p' s' else None
  | _, EmptyString => None
  end.

Definition scan_unsigned (s : string) : option (num * string) :=
  match strip_prefix "Infinity" s with
  | Some r => Some (PInf, r)
  | None =>
      match scan_unsigned_decimal s with
      | Some (q, r) => Some (Fin q, r)
      | None => None
      end
  end.

(** The longest StrDecimalLiteral prefix: an optional sign, then an
    unsigned literal. *)
Definition scan_decimal (s : string) : option (num * string) :=
  match s with
  | String c r =>
      if Ascii.eqb c "+"%char then scan_unsigned r
      else if Ascii.eqb c "-"%char then
        match scan_unsigned r with Some (v, r') => Some (neg v, r') | None => None end
      else scan_unsigned s
  | EmptyString => None
  end.

(** NonDecimalIntegerLiteral: [0x], [0o] or [0b] (either case) and at
    least one digit of the radix, filling the whole string. *)
Definition radix_of (k : ascii) : nat :=
  if Ascii.eqb k "x"%char || Ascii.eqb k "X"%char then 16
  else if Ascii.eqb k "o"%char || Ascii.eqb k "O"%char then 8
  else if Ascii.eqb k "b"%char || Ascii.eqb k "B"%char then 2 else 0.

Definition parse_non_decimal (s : string) : option num :=
  match s with
  | String z (String k r) =>
      if Ascii.eqb z "0"%char && negb (Nat.eqb (radix_of k) 0) then
        match scan_digits (radix_of k) r with
        | ((_ :: _) as ds, EmptyString) => Some (of_Z (digits_Z (radix_of k) ds))
        | _ => None
        end
      else None
  | _ => None
  end.

(** [Number(s)] for a string [s]: the whitespace-trimmed text is empty
    (0), a non-decimal integer literal, or a StrDecimalLiteral filling
    it; anything else is [NaN]. *)
Definition string_to_number (s : string) : num :=
  let t := JsString.trim s in
  if String.eqb t EmptyString then Fin 0
  else match parse_non_decimal t with
       | Some v => v
       | None =>
           match scan_decimal t with
           | Some (v, EmptyString) => v
           | _ => NaN
           end
       end.

(** [parseFloat(s)]: leading whitespace skipped, then the longest
    StrDecimalLiteral prefix, [NaN] if there is none. *)
Definition parse_float (s : string) : num :=
  match scan_decimal (JsString.trim_start s) with
  | Some (v, _) => v
  | None => NaN
  end.

(** [parseInt(s, 10)]: leading whitespace skipped, an optional sign,
    then the longest run of decimal digits, [NaN] if there is none.  (A
    result of [-0] is [0]: the sign of zero is not modelled.) *)
Definition parse_int10 (s : string) : num :=
  let t := JsString.trim_start s in
  let '(negative, digits) :=
    match t with
    | String "-"%char r => (true, r)
    | String "+"%char r => (false, r)
    | _ => (false, t)
    end in
  match scan_digits 10 digits with
  | ([], _) => NaN
  | (ds, _) => Fin (inject_Z ((if negative then -1 else 1) * digits_Z 10 ds)%Z)
  end.

(** [isNaN(s)] on a string coerces with [Number]. *)
Definition is_nan_string (s : string) : bool := is_nan (string_to_number s).

(** ** [Number.prototype.toFixed] *)

Definition digits_string (n : N) : string := NilEmpty.string_of_uint (N.to_uint n).

Fixpoint zeros (k : nat) : string :=
  match k with O => EmptyString | S k' => String "0"%char (zeros k') end.

(** The text [x.toFixed(f)] prints once the sign and the integer [n]
    nearest to [|x| * 10^f] are known: [f] digits after the point and at
    least one before it. *)
Definition format_fixed (sign : string) (n : N) (f : nat) : string :=
  let m := digits_string n in
  match f with
  | O => (sign ++ m)%string
  | S _ =>
      let m' := if Nat.leb (String.length m) f
                then (zeros (f + 1 - String.length m) ++ m)%string else m in
      let k := String.length m' in
      (sign ++ substring 0 (k - f) m' ++ "." ++ substring (k - f) f m')%string
  end.

(** [x.toFixed(f)]: [n] is the integer nearest to [x * 10^f] (the
    larger one on a tie), printed with [f] digits after the point and
    at least one before it; a minus sign when [x < 0].  Magnitudes of
    [10^21] and more are printed by [Number::toString] from the binary64
    value, which the exact model does not have: [None] there. *)
Definition to_fixed (f : nat) (x : num) : option string :=
  match x with
  | NaN => Some "NaN"%string
  | PInf => Some "Infinity"%string
  | NInf => Some "-Infinity"%string
  | Fin q =>
      let sign := if Qle_bool 0 q then EmptyString else "-"%string in
      let a := Qabs q in
      if Qle_bool (inject_Z (10 ^ 21)) a then None
      else Some (format_fixed sign (Z.to_N (Qfloor (a * inject_Z (10 ^ Z.of_nat f) + (1 # 2)))) f)
  end.

(** ** Equality of numbers as values *)

Definition num_eq (x y : num) : Prop :=
  match x, y with
  | Fin a, Fin b => a == b
  | PInf, PInf | NInf, NInf | NaN, NaN => True
  | _, _ => False
  end.

Definition num_eqb (x y : num) : bool :=
  match x, y with
  | Fin a, Fin b => Qeq_bool a b
  | PInf, PInf | NInf, NInf | NaN, NaN => true
  | _, _ => false
  end.


(** ** [num_eq] is an equivalence and every operation respects it *)

#[export] Instance num_eq_Equivalence : Equivalence num_eq.
Proof.
  split.
  - intros [q| | |]; simpl; auto; reflexivity.
  - intros [a| | |] [b| | |]; simpl; auto; intros H; symmetry; exact H.
  - intros [a| | |] [b| | |] [c| | |]; simpl; try tauto; intros H1 H2; now rewrite H1.
Qed.

Lemma num_eqb_spec (x y : num) : num_eqb x y = true <-> num_eq x y.
Proof.
  destruct x, y; simpl; try (split; intros; first [exact I | reflexivity | discriminate | contradiction]).
  apply Qeq_bool_iff.
Qed.

Ltac num_destruct :=
  repeat match goal with
    | x : num |- _ => destruct x; cbn [num_eq] in *; try contradiction
    end.

Lemma inf_times_compat (p : bool) (a b : Q) : a == b -> inf_times p a = inf_times p b.
Proof. intros H. unfold inf_times. now rewrite H. Qed.

#[export] Instance neg_Proper : Proper (num_eq ==> num_eq) neg.
Proof. intros x y H. num_destruct; simpl; auto. now rewrite H. Qed.

#[export] Instance add_Proper : Proper (num_eq ==> num_eq ==> num_eq) add.
Proof. intros x x' Hx y y' Hy. num_destruct; simpl; auto. now rewrite Hx, Hy. Qed.

#[export] Instance sub_Proper : Proper (num_eq ==> num_eq ==> num_eq) sub.
Proof. intros x x' Hx y y' Hy. unfold sub. now rewrite Hx, Hy. Qed.

#[export] Instance mul_Proper : Proper (num_eq ==> num_eq ==> num_eq) mul.
Proof.
  intros x x' Hx y y' Hy.
  destruct x as [a| | |], x' as [a'| | |], y as [b| | |], y' as [b'| | |];
    cbn [num_eq] in Hx, Hy; try contradiction; simpl;
    try rewrite (inf_times_compat _ _ _ Hx); try rewrite (inf_times_compat _ _ _ Hy);
    try reflexivity.
  now rewrite Hx, Hy.
Qed.

#[export] Instance div_Proper : Proper (num_eq ==> num_eq ==> num_eq) div.
Proof.
  intros x x' Hx y y' Hy.
  destruct x as [a| | |], x' as [a'| | |], y as [b| | |], y' as [b'| | |];
    simpl in *; try contradiction; auto; try reflexivity; try (rewrite Hy; reflexivity).
  assert (E : Qeq_bool b 0 = Qeq_bool b' 0) by (now rewrite Hy). rewrite E.
  destruct (Qeq_bool b' 0).
  - rewrite (inf_times_compat _ _ _ Hx). reflexivity.
  - simpl. now rewrite Hx, Hy.
Qed.

#[export] Instance compare_Proper : Proper (num_eq ==> num_eq ==> eq) compare.
Proof. intros x x' Hx y y' Hy. num_destruct; simpl; auto. now rewrite Hx, Hy. Qed.

#[export] Instance lt_Proper : Proper (num_eq ==> num_eq ==> eq) lt.
Proof. intros x x' Hx y y' Hy. unfold lt. now rewrite Hx, Hy. Qed.

#[export] Instance le_Proper : Proper (num_eq ==> num_eq ==> eq) le.
Proof. intros x x' Hx y y' Hy. unfold le. now rewrite Hx, Hy. Qed.

#[export] Instance strict_eq_Proper : Proper (num_eq ==> num_eq ==> eq) strict_eq.
Proof. intros x x' Hx y y' Hy. unfold strict_eq. now rewrite Hx, Hy. Qed.

#[export] Instance is_nan_Proper : Proper (num_eq ==> eq) is_nan.
Proof. intros x y H. num_destruct; simpl; auto. Qed.

#[export] Instance truthy_Proper : Proper (num_eq ==> eq) (@truthy num _).
Proof. intros x y H. num_destruct; auto. unfold truthy, truthy_num. now rewrite H. Qed.

#[export] Instance round_Proper : Proper (num_eq ==> num_eq) round.
Proof. intros x y H. num_destruct; auto. unfold round. cbn [num_eq]. now rewrite H. Qed.

Local Open Scope Q_scope.

(** ** Arithmetic facts on finite numbers *)

Lemma add_fin (a b : Q) : add (Fin a) (Fin b) = Fin (a + b).
Proof. reflexivity. Qed.

Lemma sub_fin (a b : Q) : sub (Fin a) (Fin b) = Fin (a - b).
Proof. reflexivity. Qed.

Lemma mul_fin (a b : Q) : mul (Fin a) (Fin b) = Fin (a * b).
Proof. reflexivity. Qed.

Lemma div_fin (a b : Q) : ~ b == 0 -> div (Fin a) (Fin b) = Fin (a / b).
Proof.
  intros H. simpl. destruct (Qeq_bool b 0) eqn:E; [|reflexivity].
  apply Qeq_bool_iff in E. contradiction.
Qed.

Lemma div_zero_zero : div (Fin 0) (Fin 0) = NaN.
Proof. reflexivity. Qed.

(** Counts injected into the rationals. *)
Lemma inject_nat_pos (n : nat) : (0 < n)%nat -> 0 < inject_Z (Z.of_nat n).
Proof. intros H. change 0 with (inject_Z 0). rewrite <- Zlt_Qlt. lia. Qed.

Lemma inject_nat_le (a b : nat) : (a <= b)%nat -> inject_Z (Z.of_nat a) <= inject_Z (Z.of_nat b).
Proof. intros H. rewrite <- Zle_Qle. lia. Qed.

Lemma inject_nat_lt (a b : nat) : (a < b)%nat -> inject_Z (Z.of_nat a) < inject_Z (Z.of_nat b).
Proof. intros H. rewrite <- Zlt_Qlt. lia. Qed.

Lemma inject_nat_nonneg (a : nat) : 0 <= inject_Z (Z.of_nat a).
Proof. change 0 with (inject_Z 0). rewrite <- Zle_Qle. lia. Qed.

Lemma inject_nat_mul (a b : nat) :
  inject_Z (Z.of_nat (a * b)) == inject_Z (Z.of_nat a) * inject_Z (Z.of_nat b).
Proof. rewrite Nat2Z.inj_mul, inject_Z_mult. reflexivity. Qed.

Lemma lt_fin (a b : Q) : lt (Fin a) (Fin b) = true <-> a < b.
Proof. unfold lt, compare. rewrite Qlt_alt. destruct (a ?= b); split; congruence. Qed.

Lemma lt_fin_false (a b : Q) : lt (Fin a) (Fin b) = false <-> b <= a.
Proof.
  split.
  - intros H. apply Qnot_lt_le. intros Hlt. apply lt_fin in Hlt. congruence.
  - intros H. destruct (lt (Fin a) (Fin b)) eqn:E; [|reflexivity].
    apply lt_fin in E. exfalso. apply (Qlt_not_le a b); assumption.
Qed.

Lemma le_fin (a b : Q) : le (Fin a) (Fin b) = true <-> a <= b.
Proof.
  unfold le, compare. rewrite Qle_alt.
  destruct (a ?= b); split; congruence.
Qed.

Lemma le_fin_false (a b : Q) : le (Fin a) (Fin b) = false <-> b < a.
Proof.
  split; intros H.
  - destruct (Qlt_le_dec b a) as [L|L]; [exact L|]. apply le_fin in L. congruence.
  - destruct (le (Fin a) (Fin b)) eqn:E; [|reflexivity]. apply le_fin in E. lra.
Qed.

Lemma strict_eq_fin (a b : Q) : strict_eq (Fin a) (Fin b) = true <-> a == b.
Proof. unfold strict_eq, compare. rewrite Qeq_alt. destruct (a ?= b); split; congruence. Qed.

(** Summation starting from an accumulator. *)
Lemma fold_add_fin (qs : list Q) (a : Q) :
  fold_left add (map Fin qs) (Fin a) = Fin (fold_left Qplus qs a).
Proof. revert a. induction qs as [|q qs IH]; intros a; simpl; auto. Qed.

Lemma sum_fin (qs : list Q) : sum (map Fin qs) = Fin (fold_left Qplus qs 0).
Proof. apply fold_add_fin. Qed.

(** Multiplication of rationals commutes as terms, not only up to [==]. *)
Lemma Qmult_comm_eq (a b : Q) : a * b = b * a.
Proof. destruct a as [n d], b as [m e]. unfold Qmult. simpl. now rewrite Z.mul_comm, Pos.mul_comm. Qed.

Lemma mul_comm (x y : num) : mul x y = mul y x.
Proof. destruct x, y; simpl; auto. now rewrite Qmult_comm_eq. Qed.

Lemma Qplus_comm_eq (a b : Q) : a + b = b + a.
Proof. destruct a as [n d], b as [m e]. unfold Qplus. simpl. now rewrite Z.add_comm, Pos.mul_comm. Qed.

(** Addition on numbers is a commutative monoid up to [num_eq]: the
    result is [NaN] when an operand is [NaN] or both infinities occur,
    otherwise the infinity that occurs, otherwise the rational sum. *)
Lemma add_comm (x y : num) : add x y = add y x.
Proof. destruct x, y; simpl; auto. now rewrite Qplus_comm_eq. Qed.

Lemma add_assoc (x y z : num) : num_eq (add x (add y z)) (add (add x y) z).
Proof. destruct x, y, z; simpl; auto; apply Qplus_assoc. Qed.

Lemma add_0_l (x : num) : num_eq (add (Fin 0) x) x.
Proof. destruct x; simpl; auto. apply Qplus_0_l. Qed.

Lemma fold_add_acc (l : list num) (a : num) : num_eq (fold_left add l a) (add a (fold_left add l (Fin 0))).
Proof.
  revert a. induction l as [|x l IH]; intros a; simpl.
  - symmetry. rewrite add_comm. apply add_0_l.
  - rewrite IH, (IH (add (Fin 0) x)), add_0_l. symmetry. apply add_assoc.
Qed.

Lemma fold_add_app (l1 l2 : list num) :
  num_eq (fold_left add (l1 ++ l2) (Fin 0)) (add (fold_left add l1 (Fin 0)) (fold_left add l2 (Fin 0))).
Proof. rewrite fold_left_app. apply fold_add_acc. Qed.

Lemma is_nan_fin (q : Q) : is_nan (Fin q) = false.
Proof. reflexivity. Qed.

(** [Math.round] returns an integer within one half of its argument. *)
Lemma round_fin (q : Q) :
  exists z : Z, round (Fin q) = Fin (inject_Z z) /\ q - (1 # 2) < inject_Z z /\ inject_Z z <= q + (1 # 2).
Proof.
  exists (Qfloor (q + (1 # 2))). split; [reflexivity|].
  pose proof (Qfloor_le (q + (1 # 2))). pose proof (Qlt_floor (q + (1 # 2))).
  rewrite inject_Z_plus in H0. change (inject_Z 1) with 1 in H0.
  set (f := inject_Z (Qfloor (q + (1 # 2)))) in *. split; lra.
Qed.

(** ** The literal scanners *)

Lemma strip_prefix_app (p t w r : string) :
  strip_prefix p t = Some r -> strip_prefix p (t ++ w) = Some (r ++ w).
Proof.
  revert t. induction p as [|a p IH]; intros [|b t] H; simpl in *;
    try (injection H as <-; reflexivity); try discriminate.
  destruct (Ascii.eqb a b); [now apply IH | discriminate].
Qed.

Lemma scan_digits_nonempty_app (radix : nat) (t w : string) :
  fst (scan_digits radix t) <> [] -> fst (scan_digits radix (t ++ w)) <> [].
Proof.
  destruct t as [|a t]; simpl; [tauto|].
  destruct (digit_val radix a); simpl; [|tauto].
  destruct (scan_digits radix t), (scan_digits radix (t ++ w)); simpl; discriminate.
Qed.

Definition is_digit (a : ascii) : bool :=
  match digit_val 10 a with Some _ => true | None => false end.

(** The text starts like a decimal literal: a digit, or a dot and a
    digit. *)
Definition dec_start (s : string) : bool :=
  match s with
  | String a r =>
      is_digit a ||
      (Ascii.eqb a "."%char && match r with String b _ => is_digit b | EmptyString => false end)
  | EmptyString => false
  end.

Ltac solve_none := split; [intros H; contradiction H; reflexivity | discriminate].
Ltac solve_some := split; [reflexivity | discriminate].

Lemma scan_unsigned_decimal_ok (s : string) :
  scan_unsigned_decimal s <> None <-> dec_start s = true.
Proof.
  unfold scan_unsigned_decimal, dec_start, is_digit.
  destruct s as [|a r]; simpl; [solve_none|].
  destruct (digit_val 10 a) as [d|] eqn:Ea; simpl.
  - destruct (scan_digits 10 r) as [ds r1].
    destruct (match r1 with String c r0 => _ | EmptyString => _ end) as [fp r2].
    destruct (scan_exponent r2). solve_some.
  - destruct (Ascii.eqb a "."%char); simpl; [|solve_none].
    destruct r as [|b r']; simpl; [solve_none|].
    destruct (digit_val 10 b) as [e|] eqn:Eb; simpl; [|solve_none].
    destruct (scan_digits 10 r') as [ds r2]. destruct (scan_exponent r2). solve_some.
Qed.

Lemma dec_start_app (t w : string) : dec_start t = true -> dec_start (t ++ w) = true.
Proof.
  destruct t as [|a [|b r]]; simpl; try discriminate; auto.
  rewrite andb_false_r, orb_false_r. intros ->. reflexivity.
Qed.

Lemma scan_unsigned_decimal_app (t w : string) :
  scan_unsigned_decimal t <> None -> scan_unsigned_decimal (t ++ w) <> None.
Proof. rewrite !scan_unsigned_decimal_ok. apply dec_start_app. Qed.

Lemma scan_unsigned_of_decimal (s : string) :
  scan_unsigned_decimal s <> None -> scan_unsigned s <> None.
Proof.
  unfold scan_unsigned. destruct (strip_prefix "Infinity" s); [discriminate|].
  destruct (scan_unsigned_decimal s) as [[q r]|]; [discriminate | tauto].
Qed.

Lemma scan_unsigned_app (t w : string) :
  scan_unsigned t <> None -> scan_unsigned (t ++ w) <> None.
Proof.
  unfold scan_unsigned. intros H.
  destruct (strip_prefix "Infinity" t) as [r|] eqn:E.
  - rewrite (strip_prefix_app _ _ w _ E). discriminate.
  - assert (Hd : scan_unsigned_decimal t <> None)
      by (destruct (scan_unsigned_decimal t) as [[q r]|]; [discriminate | contradiction H; reflexivity]).
    apply scan_unsigned_decimal_app with (w := w) in Hd.
    destruct (strip_prefix "Infinity" (t ++ w)); [discriminate|].
    destruct (scan_unsigned_decimal (t ++ w)) as [[q r]|]; [discriminate | contradiction].
Qed.

(** A StrDecimalLiteral prefix stays one when text is appended. *)
Lemma scan_decimal_app (t w : string) :
  scan_decimal t <> None -> scan_decimal (t ++ w) <> None.
Proof.
  destruct t as [|c t]; simpl; [tauto|].
  destruct (Ascii.eqb c "+"%char); [apply scan_unsigned_app|].
  destruct (Ascii.eqb c "-"%char).
  - intros H.
    assert (Hu : scan_unsigned t <> None)
      by (destruct (scan_unsigned t) as [[v r]|]; [discriminate | contradiction H; reflexivity]).
    apply scan_unsigned_app with (w := w) in Hu.
    destruct (scan_unsigned (t ++ w)) as [[v r]|]; [discriminate | contradiction].
  - apply (scan_unsigned_app (String c t) w).
Qed.

(** The scanners never produce [NaN]. *)
Lemma scan_decimal_not_nan (s r : string) (v : num) :
  scan_decimal s = Some (v, r) -> is_nan v = false.
Proof.
  assert (Hu : forall s' v' r', scan_unsigned s' = Some (v', r') -> is_nan v' = false).
  { intros s' v' r'. unfold scan_unsigned.
    destruct (strip_prefix "Infinity" s'); [intros H; injection H as <- <-; reflexivity|].
    destruct (scan_unsigned_decimal s') as [[q r0]|]; intros H;
      [injection H as <- <-; reflexivity | discriminate]. }
  destruct s as [|c s]; simpl; [discriminate|].
  destruct (Ascii.eqb c "+"%char); [apply Hu|].
  destruct (Ascii.eqb c "-"%char); [|apply Hu].
  destruct (scan_unsigned s) as [[v' r']|] eqn:E; [|discriminate].
  intros H; injection H as <- <-. apply Hu in E. destruct v'; simpl in *; congruence.
Qed.

(** [trimStart] text is its [trimEnd] followed by whitespace. *)
Lemma trim_end_prefix (u : string) : exists w, u = JsString.trim_end u ++ w.
Proof.
  induction u as [|a u [w IH]]; simpl; [exists EmptyString; reflexivity|].
  destruct (JsString.is_ws a && String.eqb (JsString.trim_end u) EmptyString).
  - exists (String a u). reflexivity.
  - exists w. simpl. now rewrite <- IH.
Qed.

Lemma parse_non_decimal_app (t w : string) (v : num) :
  parse_non_decimal t = Some v -> scan_decimal (t ++ w) <> None.
Proof.
  destruct t as [|z [|k r]]; simpl; try discriminate.
  destruct (Ascii.eqb_spec z "0"%char) as [->|]; simpl; [|discriminate].
  intros _. apply scan_unsigned_of_decimal, scan_unsigned_decimal_ok. reflexivity.
Qed.

(** [Number] and [parseFloat] agree on what is a number: a cell that
    is not blank and that [isNaN] accepts also has a [parseFloat]
    value.  (The analyser selects numeric columns with [isNaN] and then
    reads them with [parseFloat].) *)
Lemma number_valid_parse_float (s : string) :
  JsString.trim s <> EmptyString ->
  is_nan (string_to_number s) = false -> is_nan (parse_float s) = false.
Proof.
  unfold string_to_number, parse_float, JsString.trim. intros Hne Hnum.
  set (u := JsString.trim_start s) in *.
  destruct (String.eqb_spec (JsString.trim_end u) EmptyString) as [E|_]; [contradiction|].
  assert (Hdec : scan_decimal u <> None).
  { destruct (trim_end_prefix u) as [w Hw]. rewrite Hw.
    destruct (parse_non_decimal (JsString.trim_end u)) as [v|] eqn:Ep.
    - eapply parse_non_decimal_app; eauto.
    - apply scan_decimal_app.
      destruct (scan_decimal (JsString.trim_end u)) as [[v [|c r]]|];
        simpl in Hnum; discriminate. }
  destruct (scan_decimal u) as [[v r]|] eqn:Es; [|contradiction].
  eapply scan_decimal_not_nan; eauto.
Qed.

End JsNumber.
