(* ===== verification/JsMap.v ===== *)
(** * JavaScript [Map] with string keys

    A [Map] keeps its entries in insertion order; [set] on a present key
    replaces the value in place, on a new key appends the entry.  Keys
    are compared with SameValueZero, which on strings is equality.  The
    model is an association list without duplicate keys; [entries] is
    [Array.from(map.entries())]. *)

From Stdlib Require Import String List Bool.
From S2P Require Import Prelude.
Import ListNotations.

Module JsMap.

Section Map.
Context {V : Type}.

Definition t := list (string * V).

Definition empty : t := [].

(** [map.get(k)]; [None] is [undefined]. *)
Fixpoint get (m : t) (k : string) : option V :=
  match m with
  | [] => None
  | (k', v) :: m' => if String.eqb k k' then Some v else get m' k
  end.

(** [map.has(k)] *)
Definition has (m : t) (k : string) : bool := match get m k with Some _ => true | None => false end.

(** [map.set(k, v)] *)
Fixpoint set (m : t) (k : string) (v : V) : t :=
  match m with
  | [] => [(k, v)]
  | (k', v') :: m' => if String.eqb k k' then (k, v) :: m' else (k', v') :: set m' k v
  end.

Definition keys (m : t) : list string := map fst m.

Lemma get_set_eq (m : t) (k : string) (v : V) : get (set m k v) k = Some v.
Proof.
  induction m as [|[k' v'] m IH]; simpl; [now rewrite String.eqb_refl|].
  destruct (String.eqb k k') eqn:E; simpl; [now rewrite String.eqb_refl | now rewrite E].
Qed.

Lemma get_set_ne (m : t) (k k2 : string) (v : V) : k2 <> k -> get (set m k v) k2 = get m k2.
Proof.
  intros Hne. induction m as [|[k' v'] m IH]; simpl.
  - apply String.eqb_neq in Hne. now rewrite Hne.
  - destruct (String.eqb k k') eqn:E; simpl.
    + apply String.eqb_eq in E. subst k'. apply String.eqb_neq in Hne. now rewrite Hne.
    + now rewrite IH.
Qed.

Lemma get_in (m : t) (k : string) (v : V) : get m k = Some v -> In k (keys m).
Proof.
  induction m as [|[k' v'] m IH]; simpl; [discriminate|].
  destruct (String.eqb_spec k k'); [left; congruence | intros H; right; auto].
Qed.

Lemma get_none (m : t) (k : string) : get m k = None <-> ~ In k (keys m).
Proof.
  induction m as [|[k' v'] m IH]; simpl; [tauto|].
  destruct (String.eqb_spec k k') as [->|Hne]; [split; [discriminate | intros H; exfalso; auto]|].
  rewrite IH. split; intros H; [intros [E|E]; [congruence | auto] | auto].
Qed.

(** Setting a present key keeps the key order; a new key goes last. *)
Lemma keys_set (m : t) (k : string) (v : V) :
  keys (set m k v) = if in_dec string_dec k (keys m) then keys m else keys m ++ [k].
Proof.
  induction m as [|[k' v'] m IH]; simpl; [reflexivity|].
  destruct (String.eqb_spec k k') as [->|Hne].
  - destruct (string_dec k' k'); [reflexivity | congruence].
  - simpl. rewrite IH. destruct (in_dec string_dec k (keys m)), (string_dec k' k); try congruence;
      reflexivity.
Qed.

Lemma set_length_le (m : t) (k : string) (v : V) : length (set m k v) <= S (length m).
Proof. induction m as [|[k' v'] m IH]; simpl; [auto|]. destruct (String.eqb k k'); simpl; auto with arith. Qed.

(** [set] on a present key changes that entry only; on a new key it
    appends. *)
Lemma set_present (m : t) (k : string) (v v' : V) :
  get m k = Some v -> exists m1 m2, m = m1 ++ (k, v) :: m2 /\ set m k v' = m1 ++ (k, v') :: m2.
Proof.
  induction m as [|[k1 v1] m IH]; simpl; [discriminate|].
  destruct (String.eqb k k1) eqn:E.
  - apply String.eqb_eq in E as ->. intros H. injection H as ->. exists [], m. split; reflexivity.
  - intros H. destruct (IH H) as (m1 & m2 & E1 & E2). exists ((k1, v1) :: m1), m2.
    split; [rewrite E1 | rewrite E2]; reflexivity.
Qed.

Lemma set_absent (m : t) (k : string) (v : V) : get m k = None -> set m k v = m ++ [(k, v)].
Proof.
  induction m as [|[k1 v1] m IH]; simpl; [reflexivity|].
  destruct (String.eqb k k1); [discriminate|]. intros H. now rewrite IH.
Qed.

End Map.
End JsMap.
