(* ===== verification/Json.v ===== *)
(** * JSON values from the backend

    The chart renderers and the history loader read the JSON the backend
    returns ([await res.json()]).  [jval] is a parsed JSON value, plus
    [JUndefined] for a property that is absent.  The file gives the three
    operations the code applies to these values: property access
    ([r.transaction_amount]), which throws a [TypeError] on [null] and
    [undefined]; the conversion [Number(v)]; and truthiness, for
    [v || 0].  An object is its list of members in source order; a
    repeated key keeps its last value, as [JSON.parse] does. *)

From Stdlib Require Import String List Bool QArith Qround ZArith NArith Lia.
From S2P Require Import Prelude JsString JsNumber.
Import ListNotations JsNumber.
Open Scope string_scope.

Module Json.

Inductive jval :=
  | JUndefined
  | JNull
  | JBool (b : bool)
  | JNum (n : num)
  | JStr (s : string)
  | JArr (items : list jval)
  | JObj (members : list (string * jval)).

(** The value of key [k] among [members]: the last one wins. *)
Definition member (members : list (string * jval)) (k : string) : jval :=
  fold_left (fun acc '(k', v) => if String.eqb k k' then v else acc) members JUndefined.

(** [v.k] for a named field [k] (the code reads only data fields, never
    [length] or an index): [TypeError] on [null] and [undefined],
    [undefined] on the other primitives and on arrays. *)
Definition get (v : jval) (k : string) : JsResult.t jval :=
  match v with
  | JUndefined | JNull => JsResult.Throw JsResult.TypeError
  | JObj ms => JsResult.Ok (member ms k)
  | _ => JsResult.Ok JUndefined
  end.

(** [Number(v)].  An array converts through its string: [[]] is [0],
    [[x]] converts as [x] does ([null] and [undefined] giving the empty
    string, hence [0]), and two or more elements join with a comma, which
    no number contains.  An object's string is [[object Object]]. *)
Fixpoint to_number (v : jval) : num :=
  match v with
  | JUndefined => NaN
  | JNull => Fin 0
  | JBool b => if b then Fin 1 else Fin 0
  | JNum n => n
  | JStr s => string_to_number s
  | JArr [] => Fin 0
  | JArr [x] =>
      match x with
      | JUndefined | JNull => Fin 0
      | JBool _ | JObj _ => NaN
      | _ => to_number x
      end
  | JArr _ => NaN
  | JObj _ => NaN
  end.

(** ToBoolean *)
#[export] Instance truthy_jval : Truthy jval :=
  fun v => match v with
           | JUndefined | JNull => false
           | JBool b => b
           | JNum n => truthy n
           | JStr s => truthy s
           | JArr _ | JObj _ => true
           end.

(** [v === n] for a number [n]: only a number can be strictly equal. *)
Definition strict_eq_num (v : jval) (n : num) : bool :=
  match v with JNum m => strict_eq m n | _ => false end.

(** [v ?? d] *)
Definition nullish_or (v d : jval) : jval :=
  match v with JUndefined | JNull => d | _ => v end.

(** The objects and arrays [get] reads without throwing. *)
Definition not_nullish (v : jval) : bool :=
  match v with JUndefined | JNull => false | _ => true end.

(** ** [String(v)] *)

(** The decimal digits of an integer, with its sign. *)
Definition z_to_string (z : Z) : string :=
  (if (z <? 0)%Z then "-" else "") ++ digits_string (Z.to_N (Z.abs z)).

(** [Number::toString] prints the shortest decimal that reads back to
    the binary64 value; the exact model does not have that value, so the
    printing of numbers is a parameter of the definitions that show
    them.  Its one law: an integer below [10^21] prints as its digits. *)
Class NumberToString := {
  number_to_string : num -> string;
  number_to_string_int : forall z, (Z.abs z < 10 ^ 21)%Z -> number_to_string (Fin (inject_Z z)) = z_to_string z
}.

(** An instance for running the examples: integers and the special
    values as every engine prints them, other numbers as the shortest
    decimal with at most 20 digits after the point that equals them
    (the text an engine prints for a number read from such a decimal). *)
Fixpoint decimal_digits (fuel : nat) (k : nat) (q : Q) : string :=
  match fuel with
  | O => z_to_string (Qfloor q)
  | S fuel' =>
      let scaled := (q * inject_Z (10 ^ Z.of_nat k))%Q in
      if Qeq_bool (inject_Z (Qfloor scaled)) scaled then
        let n := Qfloor scaled in
        let a := Z.abs n in
        let ip := z_to_string (a / 10 ^ Z.of_nat k) in
        let fp := z_to_string (a mod 10 ^ Z.of_nat k) in
        (if (n <? 0)%Z then "-" else "") ++ ip ++
        (match k with O => "" | _ => "." ++ zeros (k - String.length fp) ++ fp end)
      else decimal_digits fuel' (S k) q
  end.

Definition example_number_to_string (x : num) : string :=
  match x with
  | NaN => "NaN"
  | PInf => "Infinity"
  | NInf => "-Infinity"
  | Fin q => decimal_digits 21 0 q
  end.

Lemma decimal_digits_int (f : nat) (z : Z) : decimal_digits (S f) 0 (inject_Z z) = z_to_string z.
Proof.
  cbn [decimal_digits]. cbv zeta.
  assert (E : (inject_Z z * inject_Z (10 ^ Z.of_nat 0))%Q = inject_Z z)
    by (unfold inject_Z, Qmult; cbn; rewrite Z.mul_1_r; reflexivity).
  rewrite E, Qfloor_Z.
  replace (Qeq_bool (inject_Z z) (inject_Z z)) with true by (symmetry; apply Qeq_bool_iff; reflexivity).
  change (10 ^ Z.of_nat 0)%Z with 1%Z. rewrite Z.div_1_r. unfold z_to_string.
  replace (Z.abs z <? 0)%Z with false by (symmetry; apply Z.ltb_ge, Z.abs_nonneg).
  rewrite Z.abs_involutive, JsString.app_empty_r. reflexivity.
Qed.

#[export] Instance example_NumberToString : NumberToString :=
  {| number_to_string := example_number_to_string;
     number_to_string_int := fun z _ => decimal_digits_int 20 z |}.

Section ToString.
Context `{NumberToString}.

(** ToString; an array joins its elements with commas, [null] and
    [undefined] elements giving the empty string. *)
Fixpoint to_string (v : jval) : string :=
  match v with
  | JUndefined => "undefined"
  | JNull => "null"
  | JBool b => if b then "true" else "false"
  | JNum n => number_to_string n
  | JStr s => s
  | JArr items =>
      JsString.join ","
        ((fix elems (l : list jval) : list string :=
            match l with
            | [] => []
            | x :: l' => match x with JUndefined | JNull => "" | _ => to_string x end :: elems l'
            end) items)
  | JObj _ => "[object Object]"
  end.

(** [x.toFixed(f)]: from [10^21] on, [Number::toString] of [x]. *)
Definition to_fixed_text (f : nat) (x : num) : string :=
  match to_fixed f x with Some t => t | None => number_to_string x end.

End ToString.

(** ** [Array.prototype.map] and [filter] over a callback that may throw *)

Fixpoint map_result {A B} (f : A -> JsResult.t B) (l : list A) : JsResult.t (list B) :=
  match l with
  | [] => JsResult.Ok []
  | x :: l' => let? y := f x in let? ys := map_result f l' in JsResult.Ok (y :: ys)
  end.

Definition filter_result {A} (p : A -> JsResult.t bool) (l : list A) : JsResult.t (list A) :=
  let? bs := map_result p l in
  JsResult.Ok (map fst (filter snd (combine l bs))).

Lemma get_ok (v : jval) (k : string) : not_nullish v = true -> exists w, get v k = JsResult.Ok w.
Proof. destruct v; simpl; try discriminate; eauto. Qed.

Lemma map_result_ok {A B} (f : A -> JsResult.t B) (g : A -> B) (l : list A) :
  (forall x, In x l -> f x = JsResult.Ok (g x)) -> map_result f l = JsResult.Ok (map g l).
Proof.
  induction l as [|x l IH]; intros H; simpl; [reflexivity|].
  rewrite H by (left; reflexivity). rewrite IH by (intros; apply H; right; assumption). reflexivity.
Qed.

Lemma filter_result_ok {A} (p : A -> JsResult.t bool) (q : A -> bool) (l : list A) :
  (forall x, In x l -> p x = JsResult.Ok (q x)) -> filter_result p l = JsResult.Ok (filter q l).
Proof.
  intros H. unfold filter_result. rewrite (map_result_ok p q l H).
  clear H. induction l as [|x l IH]; simpl; [reflexivity|].
  destruct (q x); simpl; injection IH as ->; reflexivity.
Qed.

(** A mapping that succeeds keeps the length and maps each element. *)
Lemma map_result_nth {A B} (f : A -> JsResult.t B) (l : list A) (ys : list B) :
  map_result f l = JsResult.Ok ys ->
  length ys = length l /\ forall i x, nth_error l i = Some x -> exists y, f x = JsResult.Ok y /\ nth_error ys i = Some y.
Proof.
  revert ys. induction l as [|x l IH]; intros ys Hm; cbn in Hm.
  - injection Hm as <-. split; [reflexivity|]. intros [|i] y Hy; discriminate.
  - destruct (f x) as [y|] eqn:Ef; [|discriminate]. destruct (map_result f l) as [ys'|]; [|discriminate].
    injection Hm as <-. destruct (IH ys' eq_refl) as [Hl Hn]. split; [cbn; rewrite Hl; reflexivity|].
    intros [|i] z Hz; cbn in Hz; [injection Hz as <-; exists y; split; [exact Ef | reflexivity] | apply Hn, Hz].
Qed.

End Json.
