(* ===== verification/Csv.v ===== *)
(** * CSV ingestion ([parseCSV]) and the history export ([createExcelFile])

    [parseCSV] (dashboard.js, lines 279-294) splits the uploaded text on
    newlines, drops blank lines, takes the first line as the header row
    and builds one JS object per further line by assigning
    [row[header] = values[index] || ''] for every header in turn.
    [createExcelFile] (lines 1350-1376) writes every cell between double
    quotes, joined by commas, one line per row.  A row is an ordinary
    JavaScript object: its properties in [Object.keys] order (array
    indices first), an assignment to [__proto__] creating none.  The
    file proves the row-shape invariant of the parsed table, the padding and truncation
    behaviour, the throwing case, and that the exported text parses back
    to the exported rows. *)

From Stdlib Require Import String Ascii Bool Lia PeanoNat NArith List Permutation.
From S2P Require Import Prelude JsString.
Import ListNotations.
Open Scope string_scope.

Module Csv.

(** ** JS objects with string values

    An object is the list of its own properties in the order
    [Object.keys] gives them ([OrdinaryOwnPropertyKeys]): the array
    indices (canonical decimal integers below [2^32 - 1]) in ascending
    order, then the other keys in creation order. *)

Definition obj := list (string * string).

Fixpoint digits_value (s : string) (acc : N) : option N :=
  match s with
  | EmptyString => Some acc
  | String c s' =>
      let d := Ascii.nat_of_ascii c in
      if ((48 <=? d) && (d <=? 57))%nat then digits_value s' (acc * 10 + N.of_nat (d - 48))%N else None
  end.

(** The array index a key denotes, if any: no sign, no leading zero,
    at most [2^32 - 2]. *)
Definition array_index (k : string) : option N :=
  match k with
  | EmptyString => None
  | String "0" EmptyString => Some 0%N
  | String "0" _ => None
  | _ => match digits_value k 0 with
         | Some n => if (n <=? 4294967294)%N then Some n else None
         | None => None
         end
  end.

(** A new array-index property goes before the first larger index or
    the first other key. *)
Fixpoint insert_index (k : string) (n : N) (v : string) (o : obj) : obj :=
  match o with
  | [] => [(k, v)]
  | (k', v') :: o' =>
      match array_index k' with
      | Some n' => if (n <? n')%N then (k, v) :: o else (k', v') :: insert_index k n v o'
      | None => (k, v) :: o
      end
  end.

(** An existing property keeps its place. *)
Fixpoint obj_replace (k v : string) (o : obj) : obj :=
  match o with
  | [] => []
  | (k', v') :: o' => if String.eqb k k' then (k, v) :: o' else (k', v') :: obj_replace k v o'
  end.

Definition has_key (o : obj) (k : string) : bool := existsb (fun kv => String.eqb (fst kv) k) o.

(** [o[k] = v] with a string [v] on an object whose prototype is
    [Object.prototype]: for [__proto__] the inherited setter ignores a
    value that is not an object and no property is created; an existing
    property is overwritten in place; a new one takes its place in the
    key order. *)
Definition obj_set (k v : string) (o : obj) : obj :=
  if String.eqb k "__proto__" then o
  else if has_key o k then obj_replace k v o
  else match array_index k with
       | Some n => insert_index k n v o
       | None => (o ++ [(k, v)])%list
       end.

(** [o[k]]; [None] is [undefined]. *)
Fixpoint obj_get (o : obj) (k : string) : option string :=
  match o with
  | [] => None
  | (k', v) :: o' => if String.eqb k k' then Some v else obj_get o' k
  end.

Definition keys (o : obj) : list string := map fst o.

(** ** The parsed table *)

Record dataset := mk_dataset {
  headers : list string;
  data : list obj;
  rawText : string
}.

Definition newline : ascii := "010"%char.
Definition comma : ascii := ","%char.
Definition dquote : ascii := "034"%char.

(** [v.trim().replace(/Q/g, '')] where Q is the double-quote
    character: trim first, then delete every double quote. *)
Definition clean_field (v : string) : string := JsString.remove_char dquote (JsString.trim v).

(** [line.split(',').map(...)] *)
Definition split_fields (line : string) : list string :=
  map clean_field (JsString.split comma line).

(** [lines = csvText.split('\n').filter(line => line.trim() !== '')] *)
Definition csv_lines (text : string) : list string :=
  filter (fun l => negb (String.eqb (JsString.trim l) EmptyString)) (JsString.split newline text).

(** [values[index] || ''] *)
Definition field (values : list string) (i : nat) : string :=
  match nth_error values i with Some v => v ||j EmptyString | None => EmptyString end.

(** [headers.forEach((header, index) => { row[header] = values[index] || '' })] *)
Fixpoint fill_row (hs : list string) (i : nat) (values : list string) (row : obj) : obj :=
  match hs with
  | [] => row
  | h :: hs' => fill_row hs' (S i) values (obj_set h (field values i) row)
  end.

Definition build_row (hs values : list string) : obj := fill_row hs 0 values [].

(** [parseCSV(csvText)]; with no non-blank line, [lines[0].split]
    reads a property of [undefined] and throws a [TypeError]. *)
Definition parseCSV (csvText : string) : JsResult.t dataset :=
  match csv_lines csvText with
  | [] => JsResult.Throw JsResult.TypeError
  | first :: rest =>
      let hs := split_fields first in
      JsResult.Ok (mk_dataset hs (map (fun l => build_row hs (split_fields l)) rest) csvText)
  end.

(** ** The history export *)

(** The template literal that puts a double quote on each side of the
    cell. *)
Definition quote (cell : string) : string := String dquote (cell ++ String dquote EmptyString).

(** [csvContent += row.map(quote).join(',') + '\n'] for every row.  The Blob also gets a byte-order mark in front, which
    [FileReader.readAsText] strips again when the file is read back. *)
Definition excel_line (row : list string) : string :=
  JsString.join (String comma EmptyString) (map quote row).

Definition createExcelFile_content (rows : list (list string)) : string :=
  fold_left (fun acc row => acc ++ excel_line row ++ String newline EmptyString) rows EmptyString.

(** ** Lemmas on objects *)

Lemma obj_get_replace_eq (o : obj) (k v : string) : has_key o k = true -> obj_get (obj_replace k v o) k = Some v.
Proof.
  induction o as [|[k' v'] o IH]; cbn; [discriminate|].
  destruct (String.eqb_spec k k') as [->|Hne]; cbn; [now rewrite String.eqb_refl|].
  rewrite (proj2 (String.eqb_neq k' k)) by congruence. cbn. intros H.
  destruct (String.eqb_spec k k'); [contradiction | exact (IH H)].
Qed.

Lemma obj_get_replace_ne (o : obj) (k k' v : string) : k' <> k -> obj_get (obj_replace k v o) k' = obj_get o k'.
Proof.
  intros Hne. induction o as [|[k0 v0] o IH]; cbn; [reflexivity|].
  destruct (String.eqb_spec k k0) as [->|Hk]; cbn.
  - destruct (String.eqb_spec k' k0); [contradiction | reflexivity].
  - destruct (String.eqb k' k0); [reflexivity | exact IH].
Qed.

Lemma obj_get_none (o : obj) (k : string) : has_key o k = false -> obj_get o k = None.
Proof.
  induction o as [|[k' v'] o IH]; cbn; [reflexivity|].
  destruct (String.eqb_spec k' k) as [->|Hne]; cbn; [discriminate|].
  rewrite (proj2 (String.eqb_neq k k')) by congruence. exact IH.
Qed.

Lemma insert_index_perm (k : string) (n : N) (v : string) (o : obj) :
  Permutation (insert_index k n v o) ((k, v) :: o).
Proof.
  induction o as [|[k' v'] o IH]; cbn; [reflexivity|].
  destruct (array_index k') as [n'|]; [destruct (n <? n')%N|]; try reflexivity.
  etransitivity; [apply perm_skip, IH | apply perm_swap].
Qed.

(** A new key is found where it was put, and hides no other. *)
Lemma obj_get_insert (k k' : string) (n : N) (v : string) (o : obj) :
  has_key o k = false -> obj_get (insert_index k n v o) k' = if String.eqb k' k then Some v else obj_get o k'.
Proof.
  intros Hk. induction o as [|[k0 v0] o IH]; cbn; [reflexivity|].
  cbn in Hk. apply orb_false_iff in Hk as [Hk0 Hk].
  destruct (array_index k0) as [n'|]; [destruct (n <? n')%N|]; cbn; try reflexivity.
  rewrite IH by exact Hk. destruct (String.eqb_spec k' k0) as [->|]; [|reflexivity].
  rewrite Hk0. reflexivity.
Qed.

Lemma obj_get_append (k k' v : string) (o : obj) :
  has_key o k = false -> obj_get (o ++ [(k, v)])%list k' = if String.eqb k' k then Some v else obj_get o k'.
Proof.
  intros Hk. induction o as [|[k0 v0] o IH]; cbn; [destruct (String.eqb k' k); reflexivity|].
  cbn in Hk. apply orb_false_iff in Hk as [Hk0 Hk].
  rewrite IH by exact Hk. destruct (String.eqb_spec k' k0) as [->|]; [|reflexivity].
  rewrite Hk0. reflexivity.
Qed.

Lemma obj_get_set_eq (o : obj) (k v : string) : k <> "__proto__" -> obj_get (obj_set k v o) k = Some v.
Proof.
  intros Hp. unfold obj_set. rewrite (proj2 (String.eqb_neq k _) Hp).
  destruct (has_key o k) eqn:Hk; [apply obj_get_replace_eq, Hk|].
  destruct (array_index k); [rewrite obj_get_insert | rewrite obj_get_append]; try exact Hk; now rewrite String.eqb_refl.
Qed.

Lemma obj_get_set_ne (o : obj) (k k' v : string) :
  k' <> k -> obj_get (obj_set k v o) k' = obj_get o k'.
Proof.
  intros Hne. unfold obj_set. destruct (String.eqb k "__proto__"); [reflexivity|].
  destruct (has_key o k) eqn:Hk; [apply obj_get_replace_ne, Hne|].
  destruct (array_index k); [rewrite obj_get_insert | rewrite obj_get_append]; try exact Hk;
    now rewrite (proj2 (String.eqb_neq k' k) Hne).
Qed.

Lemma has_key_keys (o : obj) (k : string) : has_key o k = true <-> In k (keys o).
Proof.
  unfold has_key, keys. rewrite existsb_exists, in_map_iff. split.
  - intros [[k' v] [Hin E]]. apply String.eqb_eq in E. cbn in E. subst. exists (k, v). auto.
  - intros [[k' v] [E Hin]]. cbn in E. subst. exists (k, v). split; [exact Hin | apply String.eqb_refl].
Qed.

Lemma keys_replace (o : obj) (k v : string) : keys (obj_replace k v o) = keys o.
Proof.
  unfold keys. induction o as [|[k' v'] o IH]; cbn; [reflexivity|].
  destruct (String.eqb_spec k k') as [->|]; cbn; [reflexivity | now rewrite IH].
Qed.

(** The properties after [o[k] = v]: the old ones, and [k] unless it
    is [__proto__]; still each once. *)
Lemma obj_keys_set (o : obj) (k v : string) :
  NoDup (keys o) ->
  NoDup (keys (obj_set k v o)) /\
  forall k', In k' (keys (obj_set k v o)) <-> In k' (keys o) \/ (k' = k /\ k <> "__proto__").
Proof.
  intros Hnd. unfold obj_set. destruct (String.eqb_spec k "__proto__") as [Hp|Hp].
  { split; [exact Hnd | intros k'; tauto]. }
  destruct (has_key o k) eqn:Hk.
  { rewrite keys_replace. apply has_key_keys in Hk. split; [exact Hnd|]. intros k'. intuition congruence. }
  assert (Hnot : ~ In k (keys o)) by (rewrite <- has_key_keys, Hk; discriminate).
  assert (Hperm : Permutation (keys (match array_index k with Some n => insert_index k n v o
                                     | None => (o ++ [(k, v)])%list end)) (k :: keys o)).
  { destruct (array_index k) as [n|].
    - unfold keys. change (k :: map fst o) with (map fst ((k, v) :: o)). apply Permutation_map, insert_index_perm.
    - unfold keys. rewrite map_app. cbn. symmetry. apply Permutation_cons_append. }
  split.
  - eapply Permutation_NoDup; [symmetry; exact Hperm | constructor; assumption].
  - intros k'. split.
    + intros H. apply (Permutation_in _ Hperm) in H. destruct H as [<-|H]; [right; auto | left; exact H].
    + intros [H|[-> _]]; apply (Permutation_in _ (Permutation_sym Hperm)); [right; exact H | left; reflexivity].
Qed.

(** ** The row-shape invariant *)

(** The keys a [Map] assigned the headers in turn ends with: each
    header at its first occurrence (used by Categories). *)
Definition first_occurrences (hs : list string) : list string :=
  fold_left (fun acc h => if in_dec string_dec h acc then acc else (acc ++ [h])%list) hs [].

Lemma fill_row_keys (hs : list string) (i : nat) (vs : list string) (row : obj) :
  NoDup (keys row) ->
  NoDup (keys (fill_row hs i vs row)) /\
  forall k, In k (keys (fill_row hs i vs row)) <-> In k (keys row) \/ (In k hs /\ k <> "__proto__").
Proof.
  revert i row. induction hs as [|h hs IH]; intros i row Hnd; cbn; [split; [exact Hnd | tauto]|].
  destruct (obj_keys_set row h (field vs i) Hnd) as [Hnd1 Hk1].
  destruct (IH (S i) _ Hnd1) as [H1 H2]. split; [exact H1|].
  intros k. rewrite H2, Hk1. intuition congruence.
Qed.

(** A row's properties are the header names other than [__proto__],
    each once. *)
Lemma build_row_keys (hs vs : list string) :
  NoDup (keys (build_row hs vs)) /\ forall k, In k (keys (build_row hs vs)) <-> In k hs /\ k <> "__proto__".
Proof.
  unfold build_row. match goal with |- context [fill_row hs ?i vs []] =>
    destruct (fill_row_keys hs i vs [] (NoDup_nil _)) as [H1 H2] end.
  split; [exact H1|]. intros k. rewrite H2. cbn. tauto.
Qed.

Lemma fill_row_other (hs : list string) (i : nat) (vs : list string) (row : obj) (k : string) :
  ~ In k hs -> obj_get (fill_row hs i vs row) k = obj_get row k.
Proof.
  revert i row. induction hs as [|h hs IH]; intros i row Hk; simpl; [reflexivity|].
  rewrite IH by (intros Hin; apply Hk; now right). apply obj_get_set_ne. intros ->. apply Hk. now left.
Qed.

Lemma fill_row_get (hs : list string) (i j : nat) (vs : list string) (row : obj) (h : string) :
  NoDup hs -> nth_error hs j = Some h -> h <> "__proto__" ->
  obj_get (fill_row hs i vs row) h = Some (field vs (i + j)).
Proof.
  intros Hnd Hj Hp. revert i j row Hnd Hj. induction hs as [|h' hs IH]; intros i j row Hnd Hj; [destruct j; discriminate|].
  inversion Hnd as [|? ? Hnotin Hnd']; subst. simpl.
  destruct j as [|j]; simpl in Hj.
  - injection Hj as <-. rewrite fill_row_other by assumption.
    rewrite obj_get_set_eq by exact Hp. now rewrite Nat.add_0_r.
  - rewrite (IH (S i) j) by assumption. now rewrite Nat.add_succ_r.
Qed.

(** The value stored for the [j]-th header is the [j]-th field of
    the line, or the empty string. *)
Lemma build_row_get (hs vs : list string) (j : nat) (h : string) :
  NoDup hs -> nth_error hs j = Some h -> h <> "__proto__" -> obj_get (build_row hs vs) h = Some (field vs j).
Proof. exact (fill_row_get hs 0 j vs [] h). Qed.

Lemma field_short (vs : list string) (i : nat) : length vs <= i -> field vs i = EmptyString.
Proof. intros H. unfold field. now rewrite (proj2 (nth_error_None vs i) H). Qed.

Lemma field_present (vs : list string) (i : nat) (v : string) :
  nth_error vs i = Some v -> field vs i = v.
Proof.
  intros H. unfold field. rewrite H. unfold js_or, truthy, truthy_string.
  destruct (String.eqb_spec v EmptyString) as [->|]; reflexivity.
Qed.

(** ** Shape of a successful parse *)

Lemma parseCSV_throw_iff (text : string) :
  parseCSV text = JsResult.Throw JsResult.TypeError <-> csv_lines text = [].
Proof.
  unfold parseCSV. destruct (csv_lines text); split; congruence.
Qed.

Lemma parseCSV_ok (text : string) (first : string) (rest : list string) :
  csv_lines text = first :: rest ->
  parseCSV text =
  JsResult.Ok (mk_dataset (split_fields first)
                 (map (fun l => build_row (split_fields first) (split_fields l)) rest) text).
Proof. intros H. unfold parseCSV. now rewrite H. Qed.

(** ** The export round trip *)

(** A cell the exporter writes without breaking the format. *)
Definition plain_cell (c : string) : bool :=
  negb (JsString.has_char dquote c) && negb (JsString.has_char comma c)
  && negb (JsString.has_char newline c).

Lemma createExcelFile_content_fold (rows : list (list string)) (acc : string) :
  fold_left (fun acc row => acc ++ excel_line row ++ String newline EmptyString) rows acc =
  acc ++ fold_right (fun x a => x ++ String newline a) EmptyString (map excel_line rows).
Proof.
  revert acc. induction rows as [|r rows IH]; intros acc; simpl.
  - now rewrite JsString.app_empty_r.
  - rewrite IH. rewrite <- !JsString.app_assoc. reflexivity.
Qed.

Lemma has_char_app (c : ascii) (s t : string) :
  JsString.has_char c (s ++ t) = JsString.has_char c s || JsString.has_char c t.
Proof. induction s as [|a s IH]; simpl; [reflexivity|]. rewrite IH. apply orb_assoc. Qed.

Lemma has_char_quote (c : ascii) (cell : string) :
  c <> dquote -> JsString.has_char c (quote cell) = JsString.has_char c cell.
Proof.
  intros Hc. unfold quote. cbn [JsString.has_char]. rewrite has_char_app. cbn [JsString.has_char].
  assert (E : Ascii.eqb dquote c = false) by (apply Ascii.eqb_neq; congruence).
  rewrite E. now destruct (JsString.has_char c cell).
Qed.

Lemma has_char_join (c : ascii) (sep : string) (xs : list string) :
  JsString.has_char c sep = false -> Forall (fun x => JsString.has_char c x = false) xs ->
  JsString.has_char c (JsString.join sep xs) = false.
Proof.
  intros Hs. induction 1 as [|x xs Hx Hxs IH]; [reflexivity|].
  destruct xs as [|y xs]; [exact Hx|].
  rewrite JsString.join_cons2, !has_char_app, Hx, Hs, IH. reflexivity.
Qed.

Lemma clean_field_quote (cell : string) :
  JsString.has_char dquote cell = false -> clean_field (quote cell) = cell.
Proof.
  intros H. unfold clean_field. rewrite JsString.trim_id.
  - unfold quote. cbn [JsString.remove_char]. rewrite Ascii.eqb_refl, JsString.remove_char_app.
    cbn [JsString.remove_char]. rewrite Ascii.eqb_refl, JsString.remove_char_absent by exact H.
    apply JsString.app_empty_r.
  - reflexivity.
  - unfold JsString.no_trail_ws.
    change (quote cell) with (String dquote cell ++ String dquote EmptyString).
    now rewrite JsString.last_char_snoc.
Qed.

Lemma plain_cell_spec (c : string) :
  plain_cell c = true <->
  JsString.has_char dquote c = false /\ JsString.has_char comma c = false
  /\ JsString.has_char newline c = false.
Proof.
  unfold plain_cell.
  destruct (JsString.has_char dquote c), (JsString.has_char comma c),
    (JsString.has_char newline c); simpl; intuition congruence.
Qed.

Lemma plain_row (row : list string) (c : string) :
  forallb plain_cell row = true -> In c row ->
  JsString.has_char dquote c = false /\ JsString.has_char comma c = false
  /\ JsString.has_char newline c = false.
Proof. intros H Hin. apply plain_cell_spec. rewrite forallb_forall in H. auto. Qed.

Lemma split_fields_excel_line (row : list string) :
  row <> [] -> forallb plain_cell row = true -> split_fields (excel_line row) = row.
Proof.
  intros Hne Hplain. unfold split_fields, excel_line.
  rewrite JsString.split_join.
  - rewrite map_map. rewrite <- (map_id row) at 2. apply map_ext_in.
    intros c Hc. apply clean_field_quote. apply (plain_row row c Hplain Hc).
  - destruct row; [contradiction|discriminate].
  - apply Forall_map, Forall_forall. intros c Hc.
    rewrite has_char_quote by discriminate. apply (plain_row row c Hplain Hc).
Qed.

Lemma excel_line_no_newline (row : list string) :
  forallb plain_cell row = true -> JsString.has_char newline (excel_line row) = false.
Proof.
  intros Hplain. apply has_char_join; [reflexivity|].
  apply Forall_map, Forall_forall. intros c Hc.
  rewrite has_char_quote by discriminate. apply (plain_row row c Hplain Hc).
Qed.

Lemma excel_line_head (c : string) (row : list string) :
  exists s, excel_line (c :: row) = String dquote s.
Proof.
  unfold excel_line. destruct row as [|d row]; cbn [map].
  - eexists. reflexivity.
  - rewrite JsString.join_cons2. eexists. reflexivity.
Qed.

Lemma excel_line_nonblank (row : list string) :
  row <> [] -> JsString.trim (excel_line row) <> EmptyString.
Proof.
  destruct row as [|c row]; [contradiction|]. intros _.
  destruct (excel_line_head c row) as [s ->]. apply JsString.trim_nonblank_head. reflexivity.
Qed.

(** The lines the parser keeps from an export are the exported lines. *)
Lemma csv_lines_export (rows : list (list string)) :
  Forall (fun r => r <> [] /\ forallb plain_cell r = true) rows ->
  csv_lines (createExcelFile_content rows) = map excel_line rows.
Proof.
  intros Hrows. unfold csv_lines, createExcelFile_content.
  rewrite createExcelFile_content_fold. cbn [String.append].
  rewrite JsString.split_terminated.
  - rewrite filter_app. simpl. rewrite app_nil_r.
    apply filter_all, forallb_forall. intros l Hl.
    apply in_map_iff in Hl as [r [<- Hr]]. rewrite Forall_forall in Hrows.
    destruct (Hrows r Hr) as [Hne _].
    destruct (String.eqb_spec (JsString.trim (excel_line r)) EmptyString) as [E|_];
      [exfalso; exact (excel_line_nonblank r Hne E) | reflexivity].
  - apply Forall_map. eapply Forall_impl; [|exact Hrows].
    intros r [_ Hp]. now apply excel_line_no_newline.
Qed.

(** ** Properties of [parseCSV] *)

(** C1: every parsed row has exactly the header names as own
    properties, each once: a repeated header is one property, no other
    property is created, and a header [__proto__] creates none. *)
Theorem parseCSV_row_keys (text : string) (ds : dataset) :
  parseCSV text = JsResult.Ok ds ->
  Forall (fun row => NoDup (keys row) /\ forall k, In k (keys row) <-> In k (headers ds) /\ k <> "__proto__") (data ds).
Proof.
  unfold parseCSV. destruct (csv_lines text) as [|first rest]; [discriminate|].
  intros H. injection H as <-. simpl.
  apply Forall_map, Forall_forall. intros l _. apply build_row_keys.
Qed.

(** C2: with distinct headers, the value a row holds for the [j]-th
    header (other than [__proto__]) is the [j]-th comma-separated field
    of its line, cleaned: extra fields are dropped and missing ones read
    as the empty string. *)
Theorem parseCSV_cell (text : string) (ds : dataset) (j k : nat) (h : string) (row : obj) :
  parseCSV text = JsResult.Ok ds -> NoDup (headers ds) ->
  nth_error (headers ds) j = Some h -> h <> "__proto__" -> nth_error (data ds) k = Some row ->
  exists line, nth_error (csv_lines text) (S k) = Some line /\
               obj_get row h = Some (field (split_fields line) j).
Proof.
  unfold parseCSV. destruct (csv_lines text) as [|first rest]; [discriminate|].
  intros H. injection H as <-. simpl. intros Hnd Hj Hp Hk.
  apply nth_error_map_inv in Hk as [line [Hline ->]].
  exists line. split; [exact Hline|]. now apply build_row_get.
Qed.

(** A successful parse has one row per non-blank line after the
    header line; a text with no non-blank line makes [parseCSV]
    throw a [TypeError] (caught by [processCSVFile]). *)
Theorem parseCSV_row_count (text : string) (ds : dataset) :
  parseCSV text = JsResult.Ok ds -> length (data ds) = length (csv_lines text) - 1.
Proof.
  unfold parseCSV. destruct (csv_lines text) as [|first rest]; [discriminate|].
  intros H. injection H as <-. simpl. rewrite length_map. lia.
Qed.

(** Parsing the exported text gives the rows back (shared with the history download). *)
Lemma export_parse_roundtrip (hdr : list string) (body : list (list string)) :
  Forall (fun r => r <> [] /\ forallb plain_cell r = true) (hdr :: body) ->
  parseCSV (createExcelFile_content (hdr :: body)) =
  JsResult.Ok (mk_dataset hdr (map (build_row hdr) body) (createExcelFile_content (hdr :: body))).
Proof.
  intros Hrows. unfold parseCSV. rewrite (csv_lines_export _ Hrows). cbn [map].
  inversion Hrows as [|? ? [Hne Hp] Hbody]; subst.
  rewrite (split_fields_excel_line hdr Hne Hp). do 2 f_equal.
  rewrite map_map. apply map_ext_in. intros r Hr.
  rewrite Forall_forall in Hbody. destruct (Hbody r Hr) as [Hne' Hp'].
  now rewrite split_fields_excel_line.
Qed.

(** C3: the text [createExcelFile] writes for a header row and data
    rows (all non-empty, cells without double quote, comma or
    newline) parses back to those headers and rows. *)
Theorem excel_export_roundtrip (hdr : list string) (body : list (list string)) :
  Forall (fun r => r <> [] /\ forallb plain_cell r = true) (hdr :: body) ->
  parseCSV (createExcelFile_content (hdr :: body)) =
  JsResult.Ok (mk_dataset hdr (map (build_row hdr) body) (createExcelFile_content (hdr :: body))).
Proof. exact (export_parse_roundtrip hdr body). Qed.

(** ** Concrete runs *)

Definition nl : string := String newline EmptyString.

(** A header with three columns, a line with four fields (one padded
    with spaces), a blank line and a line with two fields. *)
Definition sample_csv : string :=
  "id,amount,category" ++ nl ++ "1, 250.5 ,food,extra" ++ nl ++ "  " ++ nl ++ "2,75" ++ nl.

Definition sample_row1 : obj := [("id", "1"); ("amount", "250.5"); ("category", "food")].
Definition sample_row2 : obj := [("id", "2"); ("amount", "75"); ("category", EmptyString)].

Definition sample_dataset : dataset :=
  mk_dataset ["id"; "amount"; "category"] [sample_row1; sample_row2] sample_csv.

(** The extra fourth field is dropped, the missing third field is the
    empty string, the blank line is skipped. *)
Example parse_sample : parseCSV sample_csv = JsResult.Ok sample_dataset.
Proof. reflexivity. Qed.

(** A row's properties in [Object.keys] order: the array indices
    first, ascending, then the other headers in order; [__proto__]
    creates no property. *)
Example row_key_order :
  build_row ["b"; "10"; "2"; "__proto__"; "010"] ["x"; "y"; "z"; "w"; "v"] =
  [("2", "z"); ("10", "y"); ("b", "x"); ("010", "v")].
Proof. reflexivity. Qed.

Example parse_blank_throws : parseCSV ("  " ++ nl ++ nl) = JsResult.Throw JsResult.TypeError.
Proof. reflexivity. Qed.

Lemma parseCSV_row_keys_witness :
  Forall (fun row => NoDup (keys row) /\ forall k, In k (keys row) <-> In k (headers sample_dataset) /\ k <> "__proto__")
    (data sample_dataset).
Proof. apply (parseCSV_row_keys sample_csv). reflexivity. Defined.

Lemma parseCSV_cell_witness :
  exists line, nth_error (csv_lines sample_csv) 2 = Some line /\
               obj_get sample_row2 "category" = Some (field (split_fields line) 2).
Proof.
  apply (parseCSV_cell sample_csv sample_dataset 2 1 "category" sample_row2);
    [reflexivity | apply nodupb_NoDup; reflexivity | reflexivity | discriminate | reflexivity].
Defined.

Lemma parseCSV_row_count_witness :
  length (data sample_dataset) = length (csv_lines sample_csv) - 1.
Proof. apply parseCSV_row_count. reflexivity. Defined.

Lemma excel_export_roundtrip_witness :
  parseCSV (createExcelFile_content [["Customer ID"; "Amount"]; ["CUST-a1"; "12.50"]]) =
  JsResult.Ok (mk_dataset ["Customer ID"; "Amount"] (map (build_row ["Customer ID"; "Amount"]) [["CUST-a1"; "12.50"]])
                 (createExcelFile_content [["Customer ID"; "Amount"]; ["CUST-a1"; "12.50"]])).
Proof.
  apply excel_export_roundtrip.
  repeat constructor; try discriminate.
Defined.

End Csv.
