(* ===== verification/Quality.v ===== *)
(** * Data-quality metrics of the uploaded table

    [displayDataQuality] (dashboard.js, lines 381-407) with its helpers
    [calculateDataConsistency] (595-607) and [calculateDataUniqueness]
    (610-614), and [displayMissingValues] (512-535).  Each display
    function is modelled as the values it renders (a view record), the
    HTML template being left out.  The theorems bound the percentages,
    relate the empty-cell count to the per-column missing counts, give
    the degenerate results on an empty table, and show that the
    uniqueness metric is [NaN] on every table: the code reads
    [.length] of a [Set], which has no such property. *)

From Stdlib Require Import String Ascii QArith Qround Lia Lqa Bool PeanoNat List.
From S2P Require Import Prelude JsString JsNumber Csv.
Import ListNotations JsNumber Csv.
Open Scope string_scope.

Module Quality.

(** [!row[h] || row[h].trim() === ''] *)
Definition cell_empty (row : obj) (h : string) : bool :=
  match obj_get row h with
  | Some v => negb (truthy v) || String.eqb (JsString.trim v) EmptyString
  | None => true
  end.

(** [headers.length * data.length] *)
Definition totalCells (ds : dataset) : nat := List.length (headers ds) * List.length (data ds).

(** [data.reduce((count, row) => count + headers.filter(h => empty).length, 0)] *)
Definition emptyCells (ds : dataset) : nat :=
  fold_left (fun count row => count + List.length (filter (cell_empty row) (headers ds)))
            (data ds) 0.

(** [(totalCells - emptyCells) / totalCells * 100], before [toFixed(2)]. *)
Definition completeness (ds : dataset) : num :=
  mul (div (sub (of_nat (totalCells ds)) (of_nat (emptyCells ds))) (of_nat (totalCells ds)))
      (Fin 100).

(** [calculateDataConsistency]: rows with every header non-empty, as a
    rounded percentage. *)
Definition consistentRows (ds : dataset) : nat :=
  List.length (filter (fun row => forallb (fun h => negb (cell_empty row h)) (headers ds)) (data ds)).

Definition calculateDataConsistency (ds : dataset) : num :=
  round (mul (div (of_nat (consistentRows ds)) (of_nat (List.length (data ds)))) (Fin 100)).

(** [JSON.stringify] of a row: an object whose values are strings. *)
Definition hex_digit (n : nat) : ascii := ascii_of_nat (if Nat.ltb n 10 then 48 + n else 87 + n).

Definition json_char (a : ascii) : string :=
  let n := nat_of_ascii a in
  match n with
  | 8 => "\b" | 12 => "\f" | 10 => "\n" | 13 => "\r" | 9 => "\t"
  | 34 => String "\"%char (String "034"%char EmptyString)
  | 92 => "\\"
  | _ => if Nat.ltb n 32
         then "\u00" ++ String (hex_digit (n / 16)) (String (hex_digit (n mod 16)) EmptyString)
         else String a EmptyString
  end.

Fixpoint json_escape (s : string) : string :=
  match s with
  | EmptyString => EmptyString
  | String a s' => json_char a ++ json_escape s'
  end.

Definition json_quote (s : string) : string :=
  String "034"%char (json_escape s ++ String "034"%char EmptyString).

Definition json_stringify_obj (row : obj) : string :=
  "{" ++ JsString.join "," (map (fun '(k, v) => json_quote k ++ ":" ++ json_quote v) row) ++ "}".

(** A [Set] object: its elements, in insertion order, without
    duplicates. *)
Definition set_add (xs : list string) (x : string) : list string :=
  if existsb (String.eqb x) xs then xs else xs ++ [x].

Definition new_Set (xs : list string) : list string := fold_left set_add xs [].

(** Property lookup on a [Set]: [size] is its cardinality; a [Set] has
    no [length] property, so any other name is [undefined]. *)
Definition set_property (s : list string) (p : string) : option num :=
  if String.eqb p "size" then Some (of_nat (List.length s)) else None.

(** [undefined] in arithmetic is [NaN]. *)
Definition to_number (o : option num) : num := match o with Some x => x | None => NaN end.

(** [calculateDataUniqueness]: [uniqueRows] is
    [new Set(data.map(row => JSON.stringify(row))).length]. *)
Definition calculateDataUniqueness (ds : dataset) : num :=
  let uniqueRows := set_property (new_Set (map json_stringify_obj (data ds))) "length" in
  round (mul (div (to_number uniqueRows) (of_nat (List.length (data ds)))) (Fin 100)).

(** What [displayDataQuality] renders. *)
Record quality_view := {
  dq_completeness : option string;   (* completeness.toFixed(2), shown with % *)
  dq_consistency : num;
  dq_uniqueness : num;
  dq_emptyCells : nat
}.

Definition displayDataQuality (ds : dataset) : quality_view :=
  {| dq_completeness := to_fixed 2 (completeness ds);
     dq_consistency := calculateDataConsistency ds;
     dq_uniqueness := calculateDataUniqueness ds;
     dq_emptyCells := emptyCells ds |}.

(** [displayMissingValues]: for every header, the number of rows whose
    cell is empty and its share of the rows ([toFixed(2)]), keeping the
    headers with at least one missing cell. *)
Record missing_entry := {
  mv_header : string;
  mv_count : nat;
  mv_percentage : option string
}.

Definition missingCount (ds : dataset) (h : string) : nat :=
  List.length (filter (fun row => cell_empty row h) (data ds)).

Definition displayMissingValues (ds : dataset) : list missing_entry :=
  filter (fun e => Nat.ltb 0 (mv_count e))
    (map (fun h => {| mv_header := h;
                      mv_count := missingCount ds h;
                      mv_percentage :=
                        to_fixed 2 (mul (div (of_nat (missingCount ds h))
                                             (of_nat (List.length (data ds)))) (Fin 100)) |})
         (headers ds)).

(** ** Lemmas *)

Local Open Scope Q_scope.

Lemma emptyCells_sum (ds : dataset) :
  emptyCells ds = list_sum (map (fun row => List.length (filter (cell_empty row) (headers ds))) (data ds)).
Proof. unfold emptyCells. rewrite fold_left_add_sum. reflexivity. Qed.

Lemma emptyCells_le_total (ds : dataset) : (emptyCells ds <= totalCells ds)%nat.
Proof.
  rewrite emptyCells_sum. unfold totalCells.
  rewrite Nat.mul_comm, <- (length_map (fun _ => List.length (headers ds)) (data ds)).
  assert (Hc : forall (l : list obj) (c : nat), list_sum (map (fun _ => c) l) = (List.length (map (fun _ => c) l) * c)%nat).
  { induction l as [|x l IH]; intros c; simpl; [reflexivity|]. rewrite IH. lia. }
  rewrite <- Hc. apply list_sum_le. intros row _. apply filter_length_le.
Qed.

Lemma of_nat_sub (a b : nat) : (b <= a)%nat -> sub (of_nat a) (of_nat b) = Fin (inject_Z (Z.of_nat a) - inject_Z (Z.of_nat b)).
Proof. reflexivity. Qed.

(** [p / n * 100] for [0 <= p <= n], [n > 0], is a percentage. *)
Lemma percentage_bounds (p n : Q) :
  0 <= p -> p <= n -> 0 < n -> 0 <= p / n * 100 <= 100.
Proof.
  intros Hp Hpn Hn. split.
  - apply Qmult_le_0_compat; [|discriminate]. apply Qle_shift_div_l; [exact Hn|]. lra.
  - assert (p / n <= 1) by (apply Qle_shift_div_r; [exact Hn | lra]). lra.
Qed.

Lemma div_of_nat_pos (a n : nat) :
  (0 < n)%nat -> div (of_nat a) (of_nat n) = Fin (inject_Z (Z.of_nat a) / inject_Z (Z.of_nat n)).
Proof.
  intros H. apply div_fin. intros E. pose proof (inject_nat_pos n H). rewrite E in H0.
  apply (Qlt_irrefl 0). exact H0.
Qed.

(** The share [a / n * 100] of a count [a <= n] out of [n > 0]. *)
Lemma share_bounds (a n : nat) :
  (a <= n)%nat -> (0 < n)%nat ->
  exists q, mul (div (of_nat a) (of_nat n)) (Fin 100) = Fin q /\ 0 <= q <= 100.
Proof.
  intros Ha Hn. rewrite div_of_nat_pos by exact Hn. eexists. split; [reflexivity|].
  apply percentage_bounds; auto using inject_nat_le, inject_nat_pos, inject_nat_nonneg.
Qed.

(** ** Properties *)

(** the completeness metric of a table with at least one row and
    one column is a percentage between 0 and 100, computed from the
    empty-cell count. *)
Theorem completeness_bounds (ds : dataset) :
  (0 < List.length (data ds))%nat -> (0 < List.length (headers ds))%nat ->
  exists q, completeness ds = Fin q /\ 0 <= q <= 100 /\
    q == (inject_Z (Z.of_nat (totalCells ds)) - inject_Z (Z.of_nat (emptyCells ds)))
         / inject_Z (Z.of_nat (totalCells ds)) * 100.
Proof.
  intros Hd Hh. pose proof (emptyCells_le_total ds) as Hle.
  assert (HT : (0 < totalCells ds)%nat) by (unfold totalCells; lia).
  unfold completeness. rewrite of_nat_sub by exact Hle.
  pose proof (inject_nat_pos _ HT) as HTq.
  simpl. destruct (Qeq_bool _ 0) eqn:E.
  { apply Qeq_bool_iff in E. rewrite E in HTq. now apply Qlt_irrefl in HTq. }
  eexists. split; [reflexivity|]. split; [|reflexivity].
  apply percentage_bounds; [| |exact HTq].
  - pose proof (inject_nat_le _ _ Hle). lra.
  - pose proof (inject_nat_nonneg (emptyCells ds)). lra.
Qed.

(** On a table without rows (or without columns) the completeness
    is [NaN]: [0 / 0], rendered as [NaN%], where the spec asks for an
    explicit not-applicable result. *)
Theorem completeness_empty_table (ds : dataset) :
  (List.length (data ds) = 0 \/ List.length (headers ds) = 0)%nat -> completeness ds = NaN.
Proof.
  intros H. unfold completeness.
  assert (H0 : totalCells ds = 0%nat) by (unfold totalCells; destruct H as [-> | ->]; lia).
  pose proof (emptyCells_le_total ds) as Hle. rewrite H0 in *.
  assert (emptyCells ds = 0%nat) as -> by lia. reflexivity.
Qed.

(** C23: [calculateDataUniqueness] is [NaN] on every table: it reads
    the [length] property of a [Set], which is [undefined]. *)
Theorem calculateDataUniqueness_nan (ds : dataset) : calculateDataUniqueness ds = NaN.
Proof. reflexivity. Qed.

(** the consistency metric of a non-empty table is a whole
    percentage between 0 and 100. *)
Theorem consistency_bounds (ds : dataset) :
  (0 < List.length (data ds))%nat ->
  exists z : Z, calculateDataConsistency ds = Fin (inject_Z z) /\ (0 <= z <= 100)%Z.
Proof.
  intros Hn. unfold calculateDataConsistency.
  destruct (share_bounds (consistentRows ds) (List.length (data ds))) as [q [-> [Hq0 Hq1]]];
    [apply filter_length_le | exact Hn |].
  exists (Qfloor (q + (1 # 2))). split; [reflexivity|]. split.
  - change 0%Z with (Qfloor 0). apply Qfloor_resp_le. lra.
  - change 100%Z with (Qfloor (100 + (1 # 2))). apply Qfloor_resp_le. lra.
Qed.

(** C37: the [Empty Cells] count of [displayDataQuality] is the sum of
    the per-column missing counts of [displayMissingValues]. *)
Theorem emptyCells_missing (ds : dataset) :
  emptyCells ds = list_sum (map (missingCount ds) (headers ds)).
Proof.
  rewrite emptyCells_sum. unfold missingCount.
  rewrite (map_ext _ _ (fun row => length_filter_sum (cell_empty row) (headers ds))).
  rewrite (map_ext (fun h => List.length (filter (fun row => cell_empty row h) (data ds)))
                   _ (fun h => length_filter_sum (fun row => cell_empty row h) (data ds))).
  apply (list_sum_swap (fun row h => if cell_empty row h then 1%nat else 0%nat)).
Qed.

(** [displayMissingValues] lists exactly the headers with a missing
    cell, each with its count, in header order. *)
Theorem displayMissingValues_spec (ds : dataset) :
  map mv_header (displayMissingValues ds) = filter (fun h => Nat.ltb 0 (missingCount ds h)) (headers ds) /\
  Forall (fun e => mv_count e = missingCount ds (mv_header e) /\ (0 < mv_count e)%nat)
         (displayMissingValues ds).
Proof.
  unfold displayMissingValues. split.
  - generalize (headers ds) as hs. induction hs as [|h hs IH]; [reflexivity|].
    cbn [map filter mv_count mv_header].
    destruct (Nat.ltb 0 (missingCount ds h)); cbn [map mv_header]; now rewrite IH.
  - apply Forall_forall. intros e He. apply filter_In in He as [He Hpos].
    apply in_map_iff in He as [h [<- _]]. simpl. split; [reflexivity|].
    apply Nat.ltb_lt. exact Hpos.
Qed.

End Quality.

(** ** Concrete runs *)

Module QualityExamples.
Import Quality.

(** Five rows of two columns with three empty cells: ten cells, seven
    filled (the spec's example of a 70.00% completeness). *)
Definition table10 : dataset :=
  mk_dataset ["a"; "b"]
    [[("a", "1"); ("b", "x")]; [("a", EmptyString); ("b", "y")]; [("a", "3"); ("b", EmptyString)];
     [("a", "4"); ("b", " ")]; [("a", "5"); ("b", "z")]] EmptyString.

Example table10_quality :
  dq_completeness (displayDataQuality table10) = Some "70.00" /\
  dq_consistency (displayDataQuality table10) = Fin 40 /\
  dq_emptyCells (displayDataQuality table10) = 3%nat.
Proof. vm_compute. repeat split. Qed.

Lemma completeness_bounds_witness :
  exists q, completeness table10 = Fin q /\ (0 <= q <= 100)%Q /\
    (q == (inject_Z (Z.of_nat (totalCells table10)) - inject_Z (Z.of_nat (emptyCells table10)))
          / inject_Z (Z.of_nat (totalCells table10)) * 100)%Q.
Proof. apply completeness_bounds; simpl; lia. Defined.

Lemma completeness_empty_table_witness :
  completeness (mk_dataset ["a"] [] EmptyString) = NaN.
Proof. apply completeness_empty_table. left. reflexivity. Defined.

Lemma consistency_bounds_witness :
  exists z : Z, calculateDataConsistency table10 = Fin (inject_Z z) /\ (0 <= z <= 100)%Z.
Proof. apply consistency_bounds. simpl. lia. Defined.

(** The spec's uniqueness example: two equal rows out of three should
    give 67%; the code gives [NaN]. *)
Example uniqueness_example :
  calculateDataUniqueness (mk_dataset ["a"] [[("a", "1")]; [("a", "1")]; [("a", "2")]] EmptyString) = NaN.
Proof. reflexivity. Qed.
End QualityExamples.
