(* ===== verification/TypeInference.v ===== *)
(** * Column type inference and the per-column analysis

    [inferDataType] (dashboard.js, lines 617-627) classifies a column
    from its first 100 non-empty values: [Numeric] when more than 80%
    pass [!isNaN(v)], else [Date] when more than 80% pass
    [!isNaN(Date.parse(v))], else [Text]; [Unknown] for no value.
    [displayColumnAnalysis] (410-433) shows, for every header, the
    distinct and total non-empty values, the type and the missing count.

    [Date.parse] accepts the ECMAScript date-time string format and then
    whatever the engine's fallback heuristics accept, so it is an
    interface here: the class [DateParse].  [iso_date] is the format
    every engine must accept; the theorems hold for every instance.

    The comparison [count / sample.length > 0.8] is decided exactly as
    [5 * count > 4 * length]: with at most 100 values a ratio other than
    4/5 is at least 1/500 away from it, far more than a binary64
    rounding error, and a ratio equal to 4/5 rounds to the same double as
    the literal [0.8]. *)

From Stdlib Require Import String Ascii QArith Lia Lqa Bool PeanoNat List.
From S2P Require Import Prelude JsString JsNumber Csv Quality.
Import ListNotations JsNumber Csv Quality.
Open Scope string_scope.

(** [!isNaN(Date.parse(v))] *)
Class DateParse := date_parses : string -> bool.

Module DateFormat.

(** ** The date-time string format of ECMAScript *)

Fixpoint take_digits (n : nat) (s : string) : option string :=
  match n, s with
  | O, _ => Some s
  | S n', String a s' => if is_digit a then take_digits n' s' else None
  | S _, EmptyString => None
  end.

Fixpoint digits_prefix_value (n : nat) (s : string) (acc : nat) : nat :=
  match n, s with
  | S n', String a s' =>
      digits_prefix_value n' s' (acc * 10 + match digit_val 10 a with Some d => d | None => 0 end)
  | _, _ => acc
  end.

(** [n] digits whose value lies in [lo, hi]; the rest of the text. *)
Definition field_in (n lo hi : nat) (s : string) : option string :=
  match take_digits n s with
  | Some r => let v := digits_prefix_value n s 0 in
              if Nat.leb lo v && Nat.leb v hi then Some r else None
  | None => None
  end.

Definition expect (c : ascii) (s : string) : option string :=
  match s with String a r => if Ascii.eqb a c then Some r else None | EmptyString => None end.

Definition bind_opt (o : option string) (k : string -> option string) : option string :=
  match o with Some r => k r | None => None end.

(** An optional part: parsed when [p] succeeds, skipped otherwise. *)
Definition optional (p : string -> option string) (s : string) : string :=
  match p s with Some r => r | None => s end.

Definition year (s : string) : option string :=
  match s with
  | String a r =>
      if Ascii.eqb a "+"%char || Ascii.eqb a "-"%char then take_digits 6 r else take_digits 4 s
  | EmptyString => None
  end.

Definition month_day (s : string) : string :=
  optional (fun s1 => bind_opt (expect "-"%char s1) (fun s2 =>
    bind_opt (field_in 2 1 12 s2) (fun s3 =>
      Some (optional (fun s4 => bind_opt (expect "-"%char s4) (field_in 2 1 31)) s3)))) s.

Definition seconds (s : string) : string :=
  optional (fun s1 => bind_opt (expect ":"%char s1) (fun s2 =>
    bind_opt (field_in 2 0 59 s2) (fun s3 =>
      Some (optional (fun s4 => bind_opt (expect "."%char s4) (take_digits 3)) s3)))) s.

Definition offset (s : string) : string :=
  match s with
  | String a r =>
      if Ascii.eqb a "Z"%char then r
      else if Ascii.eqb a "+"%char || Ascii.eqb a "-"%char then
        match bind_opt (field_in 2 0 23 r) (fun r1 => bind_opt (expect ":"%char r1) (field_in 2 0 59)) with
        | Some r2 => r2
        | None => s
        end
      else s
  | EmptyString => s
  end.

Definition time (s : string) : string :=
  optional (fun s1 => bind_opt (expect "T"%char s1) (fun s2 =>
    bind_opt (field_in 2 0 24 s2) (fun s3 =>
      bind_opt (expect ":"%char s3) (fun s4 =>
        bind_opt (field_in 2 0 59 s4) (fun s5 => Some (offset (seconds s5))))))) s.

(** [YYYY], [YYYY-MM], [YYYY-MM-DD], each optionally followed by
    [THH:mm], [:ss], [.sss] and [Z] or an offset; years may be
    written [+YYYYYY] or [-YYYYYY]. *)
Definition iso_date (s : string) : bool :=
  match year s with
  | Some r => String.eqb (time (month_day r)) EmptyString
  | None => false
  end.

End DateFormat.

#[export] Instance iso_date_parse : DateParse := DateFormat.iso_date.

Module Inference.

Inductive col_type := Numeric | Date | Text | Unknown.

Section WithDateParse.
Context `{DateParse}.

(** [v => !isNaN(v) && v.trim() !== ''] *)
Definition numeric_value (v : string) : bool :=
  negb (is_nan_string v) && negb (String.eqb (JsString.trim v) EmptyString).

(** [v => !isNaN(Date.parse(v)) && v.trim() !== ''] *)
Definition date_value (v : string) : bool :=
  date_parses v && negb (String.eqb (JsString.trim v) EmptyString).

Definition ratio_gt_08 (count len : nat) : bool :=
  lt (Fin (4 # 5)) (div (of_nat count) (of_nat len)).

Definition inferDataType (values : list string) : col_type :=
  match values with
  | [] => Unknown
  | _ =>
      let sample := firstn 100 values in
      let numericCount := List.length (filter numeric_value sample) in
      let dateCount := List.length (filter date_value sample) in
      if ratio_gt_08 numericCount (List.length sample) then Numeric
      else if ratio_gt_08 dateCount (List.length sample) then Date
      else Text
  end.

(** [data.map(row => row[header]).filter(v => v && v.trim() !== '')] *)
Definition column_values (ds : dataset) (h : string) : list string :=
  flat_map (fun row => match obj_get row h with
                       | Some v => if truthy v && negb (String.eqb (JsString.trim v) EmptyString)
                                   then [v] else []
                       | None => []
                       end) (data ds).

Record column_info := {
  ca_header : string;
  ca_uniqueValues : nat;
  ca_dataType : col_type;
  ca_totalValues : nat;
  ca_missing : nat
}.

(** [displayColumnAnalysis]; the missing count is
    [data.length - col.totalValues]. *)
Definition displayColumnAnalysis (ds : dataset) : list column_info :=
  map (fun h =>
         let values := column_values ds h in
         {| ca_header := h;
            ca_uniqueValues := List.length (new_Set values);
            ca_dataType := inferDataType values;
            ca_totalValues := List.length values;
            ca_missing := List.length (data ds) - List.length values |})
      (headers ds).

(** ** Lemmas *)

(** The float comparison [count / len > 0.8] is the integer one
    [4 * len < 5 * count]. *)
Lemma ratio_gt_08_spec (count len : nat) :
  (0 < len)%nat -> ratio_gt_08 count len = Nat.ltb (4 * len) (5 * count).
Proof.
  intros Hl. unfold ratio_gt_08. rewrite div_of_nat_pos by exact Hl.
  pose proof (inject_nat_pos len Hl) as HL.
  set (L := inject_Z (Z.of_nat len)) in *. set (C := inject_Z (Z.of_nat count)).
  destruct (Nat.ltb_spec (4 * len) (5 * count)) as [Hlt|Hge].
  - apply lt_fin. apply Qlt_shift_div_l; [exact HL|].
    apply inject_nat_lt in Hlt. rewrite !inject_nat_mul in Hlt. fold L C in Hlt.
    change (inject_Z (Z.of_nat 4)) with 4%Q in Hlt. change (inject_Z (Z.of_nat 5)) with 5%Q in Hlt.
    lra.
  - destruct (lt (Fin (4 # 5)) (Fin (C / L))) eqn:E; [|reflexivity].
    apply lt_fin in E. exfalso.
    assert (C / L <= 4 # 5)%Q.
    { apply Qle_shift_div_r; [exact HL|].
      apply inject_nat_le in Hge. rewrite !inject_nat_mul in Hge. fold L C in Hge.
      change (inject_Z (Z.of_nat 4)) with 4%Q in Hge. change (inject_Z (Z.of_nat 5)) with 5%Q in Hge.
      lra. }
    lra.
Qed.

Lemma firstn_100_nonempty (v : string) (vs : list string) :
  (0 < List.length (firstn 100 (v :: vs)))%nat.
Proof. simpl. lia. Qed.

(** Whether a column is numeric, date-like or text, as counts: the
    refinement of [inferDataType] to integer comparisons. *)
Lemma inferDataType_counts (vs : list string) :
  inferDataType vs =
  match vs with
  | [] => Unknown
  | _ => let s := firstn 100 vs in
         if Nat.ltb (4 * List.length s) (5 * List.length (filter numeric_value s)) then Numeric
         else if Nat.ltb (4 * List.length s) (5 * List.length (filter date_value s)) then Date
         else Text
  end.
Proof.
  destruct vs as [|v vs]; [reflexivity|]. unfold inferDataType.
  rewrite !ratio_gt_08_spec by apply firstn_100_nonempty. reflexivity.
Qed.

(** ** Properties *)

(** C4: a column in which more than 80% of the first 100 values pass
    [!isNaN] is [Numeric], whatever [Date.parse] accepts: the numeric
    test takes priority over the date test. *)
Theorem inferDataType_numeric_priority (vs : list string) :
  vs <> [] ->
  (4 * List.length (firstn 100 vs) < 5 * List.length (filter numeric_value (firstn 100 vs)))%nat ->
  inferDataType vs = Numeric.
Proof.
  intros Hne Hlt. rewrite inferDataType_counts.
  destruct vs as [|v vs]; [contradiction|].
  cbv zeta. apply Nat.ltb_lt in Hlt. rewrite Hlt. reflexivity.
Qed.

(** C6: the type depends on the first 100 values only, and is
    [Unknown] exactly for a column without values. *)
Theorem inferDataType_sample (vs : list string) :
  inferDataType vs = inferDataType (firstn 100 vs) /\ (inferDataType vs = Unknown <-> vs = []).
Proof.
  split.
  - rewrite !inferDataType_counts. rewrite firstn_firstn. simpl Nat.min.
    destruct vs as [|v vs]; reflexivity.
  - rewrite inferDataType_counts. destruct vs as [|v vs]; [tauto|]. cbv zeta.
    split; [|discriminate].
    destruct (Nat.ltb _ _); [discriminate|]. destruct (Nat.ltb _ _); discriminate.
Qed.

(** C5: a column in which at most 80% of the sampled values are
    numeric and at most 80% are dates is [Text]: a column with 79%
    numeric values that are also dates (years, say) is not [Numeric]. *)
Theorem inferDataType_text (vs : list string) :
  vs <> [] ->
  (5 * List.length (filter numeric_value (firstn 100 vs)) <= 4 * List.length (firstn 100 vs))%nat ->
  (5 * List.length (filter date_value (firstn 100 vs)) <= 4 * List.length (firstn 100 vs))%nat ->
  inferDataType vs = Text.
Proof.
  intros Hne Hn Hd. rewrite inferDataType_counts.
  destruct vs as [|v vs]; [contradiction|]. cbv zeta.
  replace (Nat.ltb _ (5 * List.length (filter numeric_value _))) with false
    by (symmetry; apply Nat.ltb_ge; exact Hn).
  replace (Nat.ltb _ (5 * List.length (filter date_value _))) with false
    by (symmetry; apply Nat.ltb_ge; exact Hd).
  reflexivity.
Qed.

Lemma column_values_length (ds : dataset) (h : string) :
  List.length (column_values ds h) =
  List.length (filter (fun row => negb (cell_empty row h)) (data ds)).
Proof.
  unfold column_values, cell_empty. induction (data ds) as [|row rows IH]; [reflexivity|].
  simpl. rewrite length_app, IH.
  destruct (obj_get row h) as [v|]; simpl; [|reflexivity].
  destruct (truthy v), (String.eqb (JsString.trim v) EmptyString); reflexivity.
Qed.

(** in [displayColumnAnalysis] the total and missing counts of a
    column add up to the number of rows, and the missing count is the
    one [displayMissingValues] reports. *)
Theorem column_analysis_counts (ds : dataset) :
  Forall (fun c => ca_missing c = missingCount ds (ca_header c) /\
                   ca_totalValues c + ca_missing c = List.length (data ds))
         (displayColumnAnalysis ds).
Proof.
  apply Forall_forall. intros c Hc. unfold displayColumnAnalysis in Hc.
  apply in_map_iff in Hc as [h [<- _]]. simpl.
  rewrite column_values_length. unfold missingCount.
  pose proof (filter_length (fun row => negb (cell_empty row h)) (data ds)) as Hf.
  rewrite (filter_ext (fun x => negb (negb (cell_empty x h))) (fun row => cell_empty row h)) in Hf
    by (intros; apply negb_involutive).
  lia.
Qed.

End WithDateParse.

End Inference.

(** ** Concrete runs: the examples of the spec *)

Module InferenceExamples.
Import Inference.

Definition numeric85 : list string := (repeat "12.5" 85 ++ repeat "n/a" 15)%list.
Definition years79 : list string := (repeat "2024" 79 ++ repeat "abc" 21)%list.

Lemma inferDataType_numeric_priority_witness : inferDataType numeric85 = Numeric.
Proof.
  apply inferDataType_numeric_priority; [discriminate|].
  apply Nat.ltb_lt. vm_compute. reflexivity.
Defined.

Lemma inferDataType_text_witness : inferDataType years79 = Text.
Proof.
  apply inferDataType_text; [discriminate | apply Nat.leb_le; vm_compute; reflexivity
                            | apply Nat.leb_le; vm_compute; reflexivity].
Defined.

(** The 79 year values pass both tests. *)
Example years_are_dates :
  List.length (filter numeric_value years79) = 79%nat /\ List.length (filter date_value years79) = 79%nat.
Proof. vm_compute. split; reflexivity. Qed.

Example iso_dates :
  map DateFormat.iso_date ["2024-03-05"; "2024-03-05T10:30"; "2024-03-05T10:30:00.000Z";
                           "+002024-01"; "2024-13-01"; "March 5"; "12.5"]
  = [true; true; true; true; false; false; false].
Proof. reflexivity. Qed.
End InferenceExamples.
