(* ===== verification/Stats.v ===== *)
(** * Descriptive statistics of the numeric columns

    [calculateMedian] (dashboard.js, lines 630-635) sorts with
    [values.sort((a, b) => a - b)] and takes the middle element or the
    mean of the two middle ones; [displayDataDistribution] (436-468)
    picks at most four columns whose first non-empty value passes
    [!isNaN], reads every cell with [parseFloat], drops [NaN]s, and shows
    min, max, mean, median and range.

    [Array.prototype.sort] is modelled by [JsSort.js_sort], a stable
    insertion sort driven by the comparator's sign (a [NaN] result counts
    as 0, as SortCompare prescribes).  The file proves that it permutes
    and sorts a list without [NaN], and that it is stable; then that the
    median has at most half of the values on each side, and that every
    column the distribution shows has at least one parsed value.  The
    values are exact rationals (see the root header): the lemmas on the
    mean and range hold of exact arithmetic, not of binary64.  The
    sort works in place on the caller's array; [displayDataDistribution]
    computes min, max and mean before the median and does not read the
    array afterwards, so the mutation is not observable there. *)

From Stdlib Require Import String Ascii QArith Qminmax Lia Lqa Bool PeanoNat ZArith List.
From Stdlib Require Import Permutation Sorted.
From S2P Require Import Prelude JsString JsNumber Csv Quality TypeInference.
Import ListNotations JsNumber Csv Inference.
Open Scope string_scope.

Module JsSort.

Section Sort.
Context {A : Type}.

(** [gtb x y]: the comparator's result for [(x, y)] is positive, so [y]
    must come first. *)
Variable gtb : A -> A -> bool.

(** Insert [x], which comes from earlier in the input, before the first
    element it is not greater than. *)
Fixpoint insert_sorted (x : A) (l : list A) : list A :=
  match l with
  | [] => [x]
  | y :: l' => if gtb x y then y :: insert_sorted x l' else x :: y :: l'
  end.

Fixpoint js_sort (l : list A) : list A :=
  match l with
  | [] => []
  | x :: l' => insert_sorted x (js_sort l')
  end.

Lemma insert_sorted_perm (x : A) (l : list A) : Permutation (x :: l) (insert_sorted x l).
Proof.
  induction l as [|y l IH]; simpl; [reflexivity|].
  destruct (gtb x y); [|reflexivity].
  transitivity (y :: x :: l); [apply perm_swap | now apply perm_skip].
Qed.

Lemma js_sort_perm (l : list A) : Permutation l (js_sort l).
Proof.
  induction l as [|x l IH]; simpl; [reflexivity|].
  transitivity (x :: js_sort l); [now apply perm_skip | apply insert_sorted_perm].
Qed.

(** The order the sort establishes, on the elements satisfying [P]
    (for numbers: those that are not [NaN]). *)
Variable P : A -> Prop.
Definition not_gt (x y : A) : Prop := gtb x y = false.

Hypothesis gtb_total : forall x y, P x -> P y -> gtb x y = false \/ gtb y x = false.
Hypothesis not_gt_trans :
  forall x y z, P x -> P y -> P z -> gtb x y = false -> gtb y z = false -> gtb x z = false.

Lemma insert_sorted_sorted (x : A) (l : list A) :
  P x -> Forall P l -> Sorted not_gt l -> Sorted not_gt (insert_sorted x l).
Proof.
  intros Hx. induction l as [|y l IH]; intros Hl Hs; simpl; [repeat constructor|].
  inversion Hl as [|? ? Hy Hl']; subst. inversion Hs as [|? ? Hs' Hhd]; subst.
  destruct (gtb x y) eqn:Exy.
  - constructor; [now apply IH|].
    destruct l as [|z l]; simpl; [constructor; unfold not_gt; destruct (gtb_total x y); congruence|].
    inversion Hhd; subst. destruct (gtb x z); constructor; [assumption|].
    unfold not_gt. destruct (gtb_total x y); congruence.
  - constructor; [constructor; assumption|]. constructor. exact Exy.
Qed.

(** Sorting a list of comparable elements yields a sorted list. *)
Lemma js_sort_sorted (l : list A) : Forall P l -> Sorted not_gt (js_sort l).
Proof.
  induction l as [|x l IH]; intros Hl; simpl; [constructor|].
  inversion Hl; subst. apply insert_sorted_sorted; auto.
  eapply Permutation_Forall; [apply js_sort_perm | assumption].
Qed.

(** Elements that compare as equal. *)
Definition equivb (x y : A) : bool := negb (gtb x y) && negb (gtb y x).

Hypothesis equiv_trans :
  forall x y z, P x -> P y -> P z -> equivb x y = true -> equivb y z = true -> equivb x z = true.
Hypothesis equiv_sym : forall x y, equivb x y = equivb y x.

Lemma insert_sorted_class (x c : A) (l : list A) :
  P x -> P c -> Forall P l ->
  filter (fun y => equivb y c) (insert_sorted x l) = filter (fun y => equivb y c) (x :: l).
Proof.
  intros Hx Hc. induction l as [|y l IH]; intros Hl; simpl; [reflexivity|].
  inversion Hl; subst.
  destruct (gtb x y) eqn:Exy; simpl; [|reflexivity].
  rewrite IH by assumption. simpl.
  destruct (equivb x c) eqn:Exc, (equivb y c) eqn:Eyc; try reflexivity.
  exfalso. rewrite equiv_sym in Eyc.
  assert (equivb x y = true) as Exy' by (apply (equiv_trans x c y); auto).
  unfold equivb in Exy'. rewrite Exy in Exy'. discriminate.
Qed.

(** Stability: the elements equal to any given one keep their input
    order. *)
Lemma js_sort_stable (c : A) (l : list A) :
  P c -> Forall P l ->
  filter (fun y => equivb y c) (js_sort l) = filter (fun y => equivb y c) l.
Proof.
  intros Hc. induction l as [|x l IH]; intros Hl; simpl; [reflexivity|].
  inversion Hl; subst. rewrite insert_sorted_class; auto.
  - simpl. now rewrite IH.
  - eapply Permutation_Forall; [apply js_sort_perm | assumption].
Qed.

End Sort.
End JsSort.

Module Stats.

(** The comparator [(a, b) => a - b] of [calculateMedian], positive. *)
Definition num_gtb (a b : num) : bool := gt (sub a b) (Fin 0).

(** [sorted[i]], [undefined] out of range and for a negative index. *)
Definition index (l : list num) (i : Z) : option num :=
  if (i <? 0)%Z then None else nth_error l (Z.to_nat i).

(** [calculateMedian(values)] *)
Definition calculateMedian (values : list num) : num :=
  let sorted := JsSort.js_sort num_gtb values in
  let mid := Z.of_nat (List.length sorted / 2) in
  if Nat.eqb (List.length sorted mod 2) 0
  then div (add (Quality.to_number (index sorted (mid - 1))) (Quality.to_number (index sorted mid))) (Fin 2)
  else Quality.to_number (index sorted mid).

(** [parseFloat(row[col])]; a missing property is [undefined], which
    [parseFloat] reads as the text [undefined]. *)
Definition parse_cell (o : option string) : num :=
  parse_float (match o with Some v => v | None => "undefined" end).

(** [values.length > 0 && !isNaN(values[0])] over the non-empty cells. *)
Definition first_value_numeric (ds : dataset) (h : string) : bool :=
  match column_values ds h with
  | v :: _ => negb (is_nan_string v)
  | [] => false
  end.

(** [numericColumns], at most four. *)
Definition numericColumns (ds : dataset) : list string :=
  firstn 4 (filter (first_value_numeric ds) (headers ds)).

(** [data.map(row => parseFloat(row[col])).filter(v => !isNaN(v))] *)
Definition column_numbers (ds : dataset) (col : string) : list num :=
  filter (fun v => negb (is_nan v)) (map (fun row => parse_cell (obj_get row col)) (data ds)).

Record distribution := {
  dist_column : string;
  dist_min : num;
  dist_max : num;
  dist_mean : num;
  dist_median : num;
  dist_range : num
}.

(** [displayDataDistribution]: the five statistics of every selected
    column, before [toFixed(2)]. *)
Definition displayDataDistribution (ds : dataset) : list distribution :=
  map (fun col =>
         let values := column_numbers ds col in
         let mn := math_min values in
         let mx := math_max values in
         {| dist_column := col;
            dist_min := mn;
            dist_max := mx;
            dist_mean := div (sum values) (of_nat (List.length values));
            dist_median := calculateMedian values;
            dist_range := sub mx mn |})
      (numericColumns ds).

(** ** The comparator on numbers that are not [NaN] *)

Definition not_nan (x : num) : Prop := is_nan x = false.

Lemma num_gtb_lt (a b : num) : not_nan a -> not_nan b -> num_gtb a b = lt b a.
Proof.
  unfold not_nan, num_gtb, gt.
  destruct a as [a| | |], b as [b| | |]; simpl; try discriminate; auto.
  intros _ _. apply Bool.eq_iff_eq_true. rewrite !lt_fin. unfold Qminus. lra.
Qed.

Ltac num_cases :=
  repeat match goal with x : num |- _ => destruct x end;
  unfold not_nan in *; simpl in *; try discriminate; try reflexivity; auto.

Lemma num_gtb_total (x y : num) :
  not_nan x -> not_nan y -> num_gtb x y = false \/ num_gtb y x = false.
Proof.
  intros Hx Hy. rewrite !num_gtb_lt by assumption. num_cases.
  destruct (lt (Fin q) (Fin q0)) eqn:E1, (lt (Fin q0) (Fin q)) eqn:E2; auto.
  apply lt_fin in E1, E2. lra.
Qed.

Lemma num_not_gt_trans (x y z : num) :
  not_nan x -> not_nan y -> not_nan z ->
  num_gtb x y = false -> num_gtb y z = false -> num_gtb x z = false.
Proof.
  intros Hx Hy Hz. rewrite !num_gtb_lt by assumption. num_cases.
  intros H1 H2. apply lt_fin_false in H1, H2. apply lt_fin_false. lra.
Qed.

Lemma num_equiv_trans (x y z : num) :
  not_nan x -> not_nan y -> not_nan z ->
  JsSort.equivb num_gtb x y = true -> JsSort.equivb num_gtb y z = true ->
  JsSort.equivb num_gtb x z = true.
Proof.
  intros Hx Hy Hz. unfold JsSort.equivb. rewrite !num_gtb_lt by assumption.
  num_cases. intros H1 H2.
  apply andb_true_iff in H1 as [H1 H1']. apply andb_true_iff in H2 as [H2 H2'].
  apply negb_true_iff, lt_fin_false in H1, H1', H2, H2'.
  apply andb_true_iff. split; apply negb_true_iff, lt_fin_false; lra.
Qed.

Lemma num_equiv_sym (x y : num) : JsSort.equivb num_gtb x y = JsSort.equivb num_gtb y x.
Proof. unfold JsSort.equivb. apply andb_comm. Qed.

Definition sort_values (values : list num) : list num := JsSort.js_sort num_gtb values.

(** ** Minimum, maximum and sums of finite values *)

Local Open Scope Q_scope.

Lemma finite_list (vs : list num) :
  Forall (fun v => is_finite v = true) vs -> exists qs, vs = map Fin qs.
Proof.
  induction 1 as [|v vs Hv _ [qs ->]]; [exists []; reflexivity|].
  destruct v as [q| | |]; try discriminate. exists (q :: qs). reflexivity.
Qed.

Lemma fold_min_fin (qs : list Q) (m : Q) :
  exists m', fold_left min2 (map Fin qs) (Fin m) = Fin m' /\ (m' = m \/ In m' qs) /\
             m' <= m /\ Forall (fun x => m' <= x) qs.
Proof.
  revert m. induction qs as [|x qs IH]; intros m; simpl.
  - exists m. repeat split; auto. apply Qle_refl.
  - unfold min2 at 2. simpl is_nan. cbn [orb].
    destruct (lt (Fin x) (Fin m)) eqn:E.
    + apply lt_fin in E. destruct (IH x) as [m' [-> [Hin [Hle Hall]]]].
      exists m'. split; [reflexivity|]. split; [destruct Hin; auto|].
      split; [lra|]. constructor; auto.
    + apply lt_fin_false in E. destruct (IH m) as [m' [-> [Hin [Hle Hall]]]].
      exists m'. split; [reflexivity|]. split; [destruct Hin; auto|].
      split; [lra|]. constructor; auto. lra.
Qed.

Lemma fold_max_fin (qs : list Q) (m : Q) :
  exists m', fold_left max2 (map Fin qs) (Fin m) = Fin m' /\ (m' = m \/ In m' qs) /\
             m <= m' /\ Forall (fun x => x <= m') qs.
Proof.
  revert m. induction qs as [|x qs IH]; intros m; simpl.
  - exists m. repeat split; auto. apply Qle_refl.
  - unfold max2 at 2. simpl is_nan. cbn [orb]. unfold gt.
    destruct (lt (Fin m) (Fin x)) eqn:E.
    + apply lt_fin in E. destruct (IH x) as [m' [-> [Hin [Hle Hall]]]].
      exists m'. split; [reflexivity|]. split; [destruct Hin; auto|].
      split; [lra|]. constructor; auto.
    + apply lt_fin_false in E. destruct (IH m) as [m' [-> [Hin [Hle Hall]]]].
      exists m'. split; [reflexivity|]. split; [destruct Hin; auto|].
      split; [lra|]. constructor; auto. lra.
Qed.

(** [Math.min] of finite values is the least of them. *)
Lemma math_min_fin (q : Q) (qs : list Q) :
  exists m, math_min (map Fin (q :: qs)) = Fin m /\ Forall (fun x => m <= x) (q :: qs).
Proof.
  unfold math_min. cbn [map fold_left]. change (min2 PInf (Fin q)) with (Fin q).
  destruct (fold_min_fin qs q) as [m [-> [_ [Hle Hall]]]].
  exists m. split; [reflexivity|]. constructor; assumption.
Qed.

Lemma math_max_fin (q : Q) (qs : list Q) :
  exists m, math_max (map Fin (q :: qs)) = Fin m /\ Forall (fun x => x <= m) (q :: qs).
Proof.
  unfold math_max. cbn [map fold_left]. change (max2 NInf (Fin q)) with (Fin q).
  destruct (fold_max_fin qs q) as [m [-> [_ [Hle Hall]]]].
  exists m. split; [reflexivity|]. constructor; assumption.
Qed.

Lemma inject_succ (n : nat) : inject_Z (Z.of_nat (S n)) == inject_Z (Z.of_nat n) + 1.
Proof. rewrite Nat2Z.inj_succ, <- Z.add_1_r, inject_Z_plus. reflexivity. Qed.

Lemma fold_Qplus_bounds (qs : list Q) (a m M : Q) :
  Forall (fun x => m <= x <= M) qs ->
  a + inject_Z (Z.of_nat (List.length qs)) * m <= fold_left Qplus qs a <=
  a + inject_Z (Z.of_nat (List.length qs)) * M.
Proof.
  revert a. induction qs as [|x qs IH]; intros a Hall; cbn [fold_left List.length].
  - change (inject_Z (Z.of_nat 0)) with 0. lra.
  - inversion Hall as [|? ? Hx Hqs]; subst. destruct (IH (a + x) Hqs) as [H1 H2].
    rewrite inject_succ. split; lra.
Qed.

(** The mean of finite values lies between any lower and upper bound of
    them. *)
Lemma mean_between (qs : list Q) (m M : Q) :
  qs <> [] -> Forall (fun x => m <= x <= M) qs ->
  exists a, div (sum (map Fin qs)) (of_nat (List.length (map Fin qs))) = Fin a /\ m <= a <= M.
Proof.
  intros Hne Hall. rewrite sum_fin, length_map.
  assert (Hn : (0 < List.length qs)%nat) by (destruct qs; [contradiction | simpl; lia]).
  pose proof (inject_nat_pos _ Hn) as HN.
  unfold of_nat. rewrite div_fin by (intros E; rewrite E in HN; apply (Qlt_irrefl 0); exact HN).
  eexists. split; [reflexivity|].
  pose proof (fold_Qplus_bounds qs 0 m M Hall) as HB.
  split; [apply Qle_shift_div_l | apply Qle_shift_div_r]; [exact HN | | exact HN |]; lra.
Qed.

(** ** The median *)

Lemma index_nat (l : list num) (n : nat) : index l (Z.of_nat n) = nth_error l n.
Proof. unfold index. rewrite (proj2 (Z.ltb_ge _ _)) by lia. now rewrite Nat2Z.id. Qed.

Lemma index_pred (l : list num) (n : nat) :
  (0 < n)%nat -> index l (Z.of_nat n - 1) = nth_error l (n - 1).
Proof. intros H. replace (Z.of_nat n - 1)%Z with (Z.of_nat (n - 1)) by lia. apply index_nat. Qed.

Lemma sorted_element (qs : list Q) (i : nat) :
  (i < List.length qs)%nat ->
  exists x, nth_error (sort_values (map Fin qs)) i = Some (Fin x) /\ In x qs.
Proof.
  intros Hi. pose proof (JsSort.js_sort_perm num_gtb (map Fin qs)) as Hp.
  destruct (nth_error (sort_values (map Fin qs)) i) as [v|] eqn:E.
  - apply nth_error_In in E as Hin. unfold sort_values in Hin.
    apply (Permutation_in _ (Permutation_sym Hp)) in Hin.
    apply in_map_iff in Hin as [x [<- Hx]]. eauto.
  - apply nth_error_None in E. apply Permutation_length in Hp.
    unfold sort_values in E. rewrite <- Hp, length_map in E. lia.
Qed.

(** The median of finite values is one of them or the mean of two of
    them. *)
Lemma median_elements (qs : list Q) :
  qs <> [] ->
  exists x y q, In x qs /\ In y qs /\ calculateMedian (map Fin qs) = Fin q /\ q == (x + y) / 2.
Proof.
  intros Hne. unfold calculateMedian. fold (sort_values (map Fin qs)).
  assert (Hlen : List.length (sort_values (map Fin qs)) = List.length qs)
    by (unfold sort_values; rewrite <- (Permutation_length (JsSort.js_sort_perm num_gtb _)); apply length_map).
  rewrite Hlen. set (n := List.length qs).
  assert (Hn : (0 < n)%nat) by (subst n; destruct qs; [contradiction | simpl; lia]).
  pose proof (Nat.div_mod n 2) as Hdm. pose proof (Nat.mod_upper_bound n 2) as Hmb.
  destruct (Nat.eqb_spec (n mod 2) 0) as [Heven|Hodd].
  - assert (Hmid : (0 < n / 2)%nat) by lia.
    rewrite index_pred, index_nat by exact Hmid.
    destruct (sorted_element qs (n / 2 - 1)) as [x [Ex Hx]]; [lia|].
    destruct (sorted_element qs (n / 2)) as [y [Ey Hy]]; [lia|].
    rewrite Ex, Ey. cbn [Quality.to_number add].
    rewrite div_fin by discriminate. exists x, y, ((x + y) / 2). repeat split; auto.
  - rewrite index_nat. destruct (sorted_element qs (n / 2)) as [x [Ex Hx]]; [lia|].
    rewrite Ex. exists x, x, x. repeat split; auto. field.
Qed.

Lemma finite_not_nan (vs : list num) :
  Forall (fun v => is_finite v = true) vs -> Forall not_nan vs.
Proof. apply Forall_impl. intros [] H; try discriminate; reflexivity. Qed.

Lemma sorted_fin (ss : list Q) : Sorted (JsSort.not_gt num_gtb) (map Fin ss) -> Sorted Qle ss.
Proof.
  induction ss as [|x ss IH]; intros Hs; [constructor|]. cbn [map] in Hs.
  apply Sorted_inv in Hs as [Hs Hhd]. constructor; [auto|].
  destruct ss as [|y ss]; constructor. inversion Hhd as [|? ? H]; subst.
  unfold JsSort.not_gt in H. rewrite num_gtb_lt in H by reflexivity.
  apply lt_fin_false in H. exact H.
Qed.

(** The sorted copy of finite values is finite, sorted by [<=] and has
    the same length. *)
Lemma sort_values_fin (qs : list Q) :
  exists ss, sort_values (map Fin qs) = map Fin ss /\ StronglySorted Qle ss /\
             List.length ss = List.length qs.
Proof.
  pose proof (JsSort.js_sort_perm num_gtb (map Fin qs)) as Hp.
  assert (Hf : Forall (fun v => is_finite v = true) (map Fin qs))
    by (apply Forall_map, Forall_forall; reflexivity).
  destruct (finite_list (sort_values (map Fin qs))) as [ss Hss].
  { eapply Permutation_Forall; [exact Hp | exact Hf]. }
  exists ss. split; [exact Hss|]. split.
  - apply Sorted_StronglySorted; [intros x y z; apply Qle_trans|]. apply sorted_fin.
    rewrite <- Hss. apply (JsSort.js_sort_sorted num_gtb not_nan num_gtb_total).
    now apply finite_not_nan.
  - apply Permutation_length in Hp. unfold sort_values in Hss.
    rewrite Hss, !length_map in Hp. symmetry. exact Hp.
Qed.

Lemma sorted_nth_le (ss : list Q) (i j : nat) (a b : Q) :
  StronglySorted Qle ss -> (i <= j)%nat -> nth_error ss i = Some a -> nth_error ss j = Some b ->
  a <= b.
Proof.
  intros Hs Hij Ha Hb. apply (StronglySorted_nth_after Qle ss i a Qle_refl Hs Ha).
  apply (nth_error_In _ (j - i)). rewrite nth_error_skipn.
  replace (i + (j - i))%nat with j by lia. exact Hb.
Qed.

Lemma some_nth (l : list Q) (i : nat) : (i < List.length l)%nat -> exists a, nth_error l i = Some a.
Proof.
  intros H. destruct (nth_error l i) eqn:E; [eauto|]. apply nth_error_None in E. lia.
Qed.

(** The median [d] of finite values splits their sorted copy: at most
    half of the positions lie before a point from which every value is
    at least [d], and at most half after a point up to which every
    value is at most [d]. *)
Lemma median_split (qs : list Q) :
  qs <> [] ->
  exists ss d k j, Permutation (map Fin qs) (map Fin ss) /\ List.length ss = List.length qs /\
    calculateMedian (map Fin qs) = Fin d /\
    (k <= List.length qs / 2)%nat /\ (List.length qs - j <= List.length qs / 2)%nat /\
    (forall y, In y (skipn k ss) -> d <= y) /\ (forall x, In x (firstn j ss) -> x <= d).
Proof.
  intros Hne. destruct (sort_values_fin qs) as [ss [Hss [Hsort Hlen]]].
  pose proof (JsSort.js_sort_perm num_gtb (map Fin qs)) as Hp. fold (sort_values (map Fin qs)) in Hp.
  unfold calculateMedian. fold (sort_values (map Fin qs)). rewrite Hss, length_map, Hlen in *.
  set (n := List.length qs) in *.
  assert (Hn : (0 < n)%nat) by (subst n; destruct qs; [contradiction | simpl; lia]).
  pose proof (Nat.div_mod n 2) as Hdm. pose proof (Nat.mod_upper_bound n 2) as Hmb.
  destruct (some_nth ss (n / 2)) as [b Eb]; [lia|].
  pose proof (StronglySorted_nth_after Qle ss _ b Qle_refl Hsort Eb) as Hafter.
  destruct (Nat.eqb_spec (n mod 2) 0) as [Heven|Hodd].
  - assert (Hmid : (0 < n / 2)%nat) by lia.
    destruct (some_nth ss (n / 2 - 1)) as [a Ea]; [lia|].
    pose proof (StronglySorted_nth_before Qle ss _ a Qle_refl Hsort Ea) as Hbefore.
    pose proof (sorted_nth_le ss _ _ a b Hsort (Nat.le_sub_l _ 1) Ea Eb) as Hab.
    rewrite index_pred, index_nat, !nth_error_map, Ea, Eb by exact Hmid.
    cbn [option_map Quality.to_number add]. rewrite div_fin by discriminate.
    exists ss, ((a + b) / 2), (n / 2)%nat, (S (n / 2 - 1)). repeat split; try assumption; try lia.
    + intros y Hy. specialize (Hafter y Hy). apply Qle_trans with b; [|exact Hafter].
      apply Qle_shift_div_r; [reflexivity | lra].
    + intros x Hx. specialize (Hbefore x Hx). apply Qle_trans with a; [exact Hbefore|].
      apply Qle_shift_div_l; [reflexivity | lra].
  - rewrite index_nat, nth_error_map, Eb.
    pose proof (StronglySorted_nth_before Qle ss _ b Qle_refl Hsort Eb) as Hbefore.
    exists ss, b, (n / 2)%nat, (S (n / 2)). repeat split; try assumption; lia.
Qed.

Lemma column_values_in (ds : dataset) (h v : string) :
  In v (column_values ds h) ->
  exists row, In row (data ds) /\ obj_get row h = Some v /\ JsString.trim v <> EmptyString.
Proof.
  unfold column_values. intros Hv. apply in_flat_map in Hv as [row [Hrow Hv]].
  destruct (obj_get row h) as [w|] eqn:E; [|contradiction].
  destruct (truthy w && negb (String.eqb (JsString.trim w) EmptyString)) eqn:Ew; [|contradiction].
  destruct Hv as [<-|[]]. apply andb_prop in Ew as [_ Ew].
  exists row. split; [exact Hrow|]. split; [exact E|].
  apply negb_true_iff, String.eqb_neq in Ew. exact Ew.
Qed.

(** ** Properties *)

(** [values.sort((a, b) => a - b)] rearranges values that are not
    [NaN] into ascending order. *)
Theorem sort_values_spec (vs : list num) :
  Forall not_nan vs ->
  Permutation vs (sort_values vs) /\ Sorted (fun a b => lt b a = false) (sort_values vs).
Proof.
  intros Hvs. pose proof (JsSort.js_sort_perm num_gtb vs) as Hp. split; [exact Hp|].
  apply (Sorted_weaken_on not_nan (JsSort.not_gt num_gtb)).
  - intros x y Hx Hy H. unfold JsSort.not_gt in H. rewrite num_gtb_lt in H by assumption. exact H.
  - eapply Permutation_Forall; [exact Hp | exact Hvs].
  - exact (JsSort.js_sort_sorted num_gtb not_nan num_gtb_total vs Hvs).
Qed.

(** C7: the median of a non-empty list of finite numbers is finite, and
    at most half of the values lie strictly below it and at most half
    strictly above it. *)
Theorem calculateMedian_balanced (vs : list num) :
  vs <> [] -> Forall (fun v => is_finite v = true) vs ->
  is_finite (calculateMedian vs) = true /\
  (List.length (filter (fun v => lt v (calculateMedian vs)) vs) <= List.length vs / 2)%nat /\
  (List.length (filter (fun v => lt (calculateMedian vs) v) vs) <= List.length vs / 2)%nat.
Proof.
  intros Hne Hf. destruct (finite_list vs Hf) as [qs ->].
  destruct (median_split qs) as (ss & d & k & j & Hp & Hlen & -> & Hk & Hj & Hafter & Hbefore);
    [intros ->; apply Hne; reflexivity|].
  rewrite length_map. split; [reflexivity|].
  rewrite !(Permutation_length (Permutation_filter _ _ _ Hp)), !filter_map_swap, !length_map.
  split.
  - transitivity k; [|exact Hk]. apply count_le_prefix. intros y Hy. apply lt_fin_false, Hafter, Hy.
  - transitivity (List.length ss - j)%nat; [|lia].
    apply count_le_suffix. intros x Hx. apply lt_fin_false, Hbefore, Hx.
Qed.

(** The median lies between the extremes (shared by the distribution bounds). *)
Lemma median_in_range (vs : list num) :
  vs <> [] -> Forall (fun v => is_finite v = true) vs ->
  exists m M d, math_min vs = Fin m /\ math_max vs = Fin M /\ calculateMedian vs = Fin d /\
                m <= d <= M.
Proof.
  intros Hne Hf. destruct (finite_list vs Hf) as [[|q qs] ->]; [contradiction|].
  destruct (math_min_fin q qs) as [m [Em Hm]]. destruct (math_max_fin q qs) as [M [EM HM]].
  destruct (median_elements (q :: qs)) as (x & y & d & Hx & Hy & Ed & Hd); [discriminate|].
  rewrite Forall_forall in Hm, HM. exists m, M, d. repeat split; try assumption.
  - pose proof (Hm x Hx). pose proof (Hm y Hy). rewrite Hd.
    apply Qle_shift_div_l; [reflexivity | lra].
  - pose proof (HM x Hx). pose proof (HM y Hy). rewrite Hd.
    apply Qle_shift_div_r; [reflexivity | lra].
Qed.

(** A selected column has a parsed value (shared by the distribution bounds). *)
Lemma selected_column_nonempty (ds : dataset) (col : string) :
  In col (numericColumns ds) -> column_numbers ds col <> [].
Proof.
  unfold numericColumns. intros Hc. apply in_firstn, filter_In in Hc as [_ Hc].
  unfold first_value_numeric in Hc. destruct (column_values ds col) as [|v vs] eqn:E; [discriminate|].
  destruct (column_values_in ds col v) as [row [Hrow [Hget Htrim]]]; [rewrite E; left; reflexivity|].
  apply negb_true_iff in Hc. pose proof (number_valid_parse_float v Htrim Hc) as Hv.
  intros Hnil. assert (Hin : In (parse_cell (Some v)) (column_numbers ds col)).
  { apply filter_In. split; [|unfold parse_cell; rewrite Hv; reflexivity].
    apply in_map_iff. exists row. rewrite Hget. auto. }
  rewrite Hnil in Hin. contradiction.
Qed.

(** C8: every column [displayDataDistribution] selects has at least one
    value that [parseFloat] reads as a number, so its mean never divides
    by zero. *)
Theorem numericColumns_have_values (ds : dataset) (col : string) :
  In col (numericColumns ds) -> column_numbers ds col <> [].
Proof. exact (selected_column_nonempty ds col). Qed.

End Stats.

Module StatsExamples.
Import Stats.

(** the spec's median examples: [2.5] for [1,2,3,4], [2] for
    [1,2,3]; an empty list gives [NaN], since [(undefined + undefined) / 2]
    is [NaN]. *)
Example calculateMedian_examples :
  calculateMedian (map Fin [1; 2; 3; 4]%Q) = Fin (5 # 2) /\
  calculateMedian (map Fin [3; 1; 2]%Q) = Fin 2 /\
  calculateMedian [] = NaN.
Proof. vm_compute. repeat split. Qed.

(** On the sample table of [Csv], [id] and [amount] are the columns
    shown; [category] starts with [food]. *)
Example sample_numericColumns : numericColumns sample_dataset = ["id"; "amount"].
Proof. reflexivity. Qed.

Definition amount_distribution : distribution :=
  nth 1 (displayDataDistribution sample_dataset) (Build_distribution EmptyString NaN NaN NaN NaN NaN).

Example amount_distribution_values :
  dist_column amount_distribution = "amount" /\ dist_min amount_distribution = Fin 75 /\
  dist_mean amount_distribution = Fin (3255 # 20) /\ dist_median amount_distribution = Fin (3255 # 20).
Proof. vm_compute. repeat split. Qed.

Lemma sort_values_spec_witness :
  Permutation (map Fin [3; 1; 2]%Q) (sort_values (map Fin [3; 1; 2]%Q)) /\
  Sorted (fun a b => lt b a = false) (sort_values (map Fin [3; 1; 2]%Q)).
Proof. apply sort_values_spec. repeat constructor. Defined.

Lemma calculateMedian_balanced_witness :
  is_finite (calculateMedian (map Fin [1; 2; 3; 4]%Q)) = true /\
  (List.length (filter (fun v => lt v (calculateMedian (map Fin [1; 2; 3; 4]%Q))) (map Fin [1; 2; 3; 4]%Q))
     <= List.length (map Fin [1; 2; 3; 4]%Q) / 2)%nat /\
  (List.length (filter (fun v => lt (calculateMedian (map Fin [1; 2; 3; 4]%Q)) v) (map Fin [1; 2; 3; 4]%Q))
     <= List.length (map Fin [1; 2; 3; 4]%Q) / 2)%nat.
Proof. apply calculateMedian_balanced; [discriminate | repeat constructor]. Defined.

Lemma numericColumns_have_values_witness : column_numbers sample_dataset "amount" <> [].
Proof. apply numericColumns_have_values. vm_compute. right. left. reflexivity. Defined.

End StatsExamples.
