(* ===== verification/Correlation.v ===== *)
(** * The Pearson correlation matrix

    [calculateCorrelation] (dashboard.js, lines 659-673) computes
    [(n*sumXY - sumX*sumY) / Math.sqrt((n*sumX2 - sumX*sumX) *
    (n*sumY2 - sumY*sumY))], with [0] for lists of different or zero
    length and for a zero denominator; [calculateCorrelationMatrix]
    (638-656) fills the matrix with [1.0] on the diagonal;
    [displayCorrelationAnalysis] (471-509) prints each entry with
    [toFixed(3)] in a colour chosen by [Math.abs(correlation)].

    [Module Moments] holds the algebra on rational lists: the variance
    is not negative and the Cauchy-Schwarz inequality
    [C^2 <= A * B] between the three quantities the code computes.
    [Module Correlation] models the code.  [Math.sqrt] of a rational is
    kept symbolic: a coefficient is either an exact number or the
    quotient [a / sqrt r] with [r > 0], and [coef_eq] compares them as
    real numbers (same sign, same square), an equivalence coarser than
    equality with its [Proper] instances.  The colour thresholds and
    [toFixed(3)] are decided exactly on that representation.  The
    sums, the square root and the quotient are exact where JavaScript
    rounds them, so the bounds of the coefficient (Cauchy-Schwarz) and
    the fallback [0] of a constant column are facts of exact arithmetic
    only; the claims of the file are the symmetry of the displayed
    matrix and its [1.000] diagonal, which rounding does not touch. *)

From Stdlib Require Import String Ascii QArith Qabs Qround Lia Lqa Bool PeanoNat ZArith List.
From Stdlib Require Import Morphisms Setoid.
From S2P Require Import Prelude JsString JsNumber Csv Quality TypeInference Stats.
Import ListNotations JsNumber Csv Inference.
Open Scope string_scope.

Module Moments.
Local Open Scope Q_scope.

Fixpoint s1 (l : list Q) : Q := match l with [] => 0 | x :: l' => x + s1 l' end.
Fixpoint s2 (l : list Q) : Q := match l with [] => 0 | x :: l' => x * x + s2 l' end.
Definition len (l : list Q) : Q := inject_Z (Z.of_nat (List.length l)).

(** The three quantities of the Pearson formula, over the pairs
    [(x_i, y_i)]: [A = n Sxx - Sx^2], [B = n Syy - Sy^2] and
    [C = n Sxy - Sx Sy]. *)
Definition sxy (xs ys : list Q) : Q := s1 (map (fun p => fst p * snd p) (combine xs ys)).
Definition var_term (xs : list Q) : Q := len xs * s2 xs - s1 xs * s1 xs.
Definition cov_term (xs ys : list Q) : Q := len xs * sxy xs ys - s1 xs * s1 ys.

Lemma fold_Qplus_s1 (l : list Q) (a : Q) : fold_left Qplus l a == a + s1 l.
Proof.
  revert a. induction l as [|x l IH]; intros a; cbn [fold_left s1]; [ring|].
  rewrite IH. ring.
Qed.

Lemma len_cons (x : Q) (l : list Q) : len (x :: l) == len l + 1.
Proof. unfold len. cbn [List.length]. rewrite Nat2Z.inj_succ, <- Z.add_1_r, inject_Z_plus. reflexivity. Qed.

Lemma sq_nonneg (a : Q) : 0 <= a * a.
Proof. nra. Qed.

Lemma len_nonneg (l : list Q) : 0 <= len l.
Proof. apply inject_nat_nonneg. Qed.

(** The squared deviations from any [c] add up to a non-negative
    number. *)
Lemma sq_dev_nonneg (l : list Q) (c : Q) : 0 <= s2 l - 2 * c * s1 l + len l * (c * c).
Proof.
  induction l as [|x l IH]; cbn [s1 s2]; [change (len []) with 0; lra|].
  rewrite len_cons. pose proof (sq_nonneg (x - c)). nra.
Qed.

(** The variance term [n Sxx - Sx^2] is not negative. *)
Lemma var_term_nonneg (l : list Q) : 0 <= var_term l.
Proof.
  unfold var_term. induction l as [|x l IH]; cbn [s1 s2]; [change (len []) with 0; lra|].
  rewrite len_cons. pose proof (sq_dev_nonneg l x). pose proof (len_nonneg l).
  pose proof (sq_nonneg x). nra.
Qed.

Lemma s1_combine (t : Q) (xs ys : list Q) :
  List.length xs = List.length ys ->
  s1 (map (fun p => t * fst p - snd p) (combine xs ys)) == t * s1 xs - s1 ys.
Proof.
  revert ys. induction xs as [|x xs IH]; intros [|y ys] H; cbn [combine map s1 fst snd];
    try discriminate; [ring|].
  rewrite IH by (simpl in H; lia). ring.
Qed.

Lemma s2_combine (t : Q) (xs ys : list Q) :
  List.length xs = List.length ys ->
  s2 (map (fun p => t * fst p - snd p) (combine xs ys)) == t * t * s2 xs - 2 * t * sxy xs ys + s2 ys.
Proof.
  unfold sxy. revert ys. induction xs as [|x xs IH]; intros [|y ys] H;
    cbn [combine map s1 s2 fst snd]; try discriminate; [ring|].
  rewrite IH by (simpl in H; lia). ring.
Qed.

Lemma len_combine (t : Q) (xs ys : list Q) :
  List.length xs = List.length ys ->
  len (map (fun p => t * fst p - snd p) (combine xs ys)) == len xs.
Proof. intros H. unfold len. rewrite length_map, length_combine, H, Nat.min_id. reflexivity. Qed.

(** The quadratic [A t^2 - 2 C t + B] is the variance term of
    [t x_i - y_i], hence never negative. *)
Lemma quadratic_nonneg (xs ys : list Q) (t : Q) :
  List.length xs = List.length ys ->
  0 <= var_term xs * (t * t) - 2 * cov_term xs ys * t + var_term ys.
Proof.
  intros H. pose proof (var_term_nonneg (map (fun p => t * fst p - snd p) (combine xs ys))) as V.
  unfold var_term in V. rewrite s1_combine, s2_combine, len_combine in V by exact H.
  unfold var_term, cov_term. assert (len ys == len xs) as Hl by (unfold len; rewrite H; reflexivity).
  rewrite Hl. nra.
Qed.

(** Cauchy-Schwarz: [C^2 <= A * B]. *)
Theorem cauchy_schwarz (xs ys : list Q) :
  List.length xs = List.length ys ->
  cov_term xs ys * cov_term xs ys <= var_term xs * var_term ys.
Proof.
  intros H. set (A := var_term xs). set (B := var_term ys). set (C := cov_term xs ys).
  pose proof (var_term_nonneg xs) as HA. pose proof (var_term_nonneg ys) as HB. fold A B in HA, HB.
  destruct (Qlt_le_dec 0 A) as [Apos|Anpos].
  - pose proof (quadratic_nonneg xs ys (C / A) H) as Q. fold A B C in Q.
    assert (A * (C / A * (C / A)) == C * (C / A)) as E by (field; lra).
    assert (Q' : 0 <= B - C * (C / A)) by lra.
    assert (C * C == A * (C * (C / A))) as E2 by (field; lra).
    rewrite E2. apply Qmult_le_l with (z := A) in Q'; [|exact Apos]. nra.
  - assert (A == 0) as A0 by lra.
    destruct (Qeq_dec C 0) as [C0|Cn0]; [rewrite C0, A0; lra|].
    pose proof (quadratic_nonneg xs ys ((B + 1) / (2 * C)) H) as Q. fold A B C in Q.
    assert (2 * (C * ((B + 1) / (2 * C))) == B + 1) as E by (field; exact Cn0).
    rewrite A0 in Q. exfalso. lra.
Qed.

Lemma sq_pos (z : Q) : ~ z == 0 -> 0 < z * z.
Proof. intros H. destruct (Q_dec z 0) as [[L|L]|L]; [nra | nra | contradiction]. Qed.

(** Each squared deviation is bounded by their sum. *)
Lemma sq_dev_ge (l : list Q) (c x : Q) :
  In x l -> (x - c) * (x - c) <= s2 l - 2 * c * s1 l + len l * (c * c).
Proof.
  induction l as [|y l IH]; [intros []|]. intros Hx. cbn [s1 s2]. rewrite len_cons.
  pose proof (sq_dev_nonneg l c). pose proof (sq_nonneg (y - c)).
  destruct Hx as [<-|Hx]; [nra|]. specialize (IH Hx). nra.
Qed.

Lemma var_term_dev (l : list Q) :
  0 < len l -> var_term l == len l * (s2 l - 2 * (s1 l / len l) * s1 l + len l * ((s1 l / len l) * (s1 l / len l))).
Proof. intros H. unfold var_term. field. lra. Qed.

(** Two different values make the variance term positive. *)
Lemma var_term_pos (l : list Q) (a b : Q) : In a l -> In b l -> ~ a == b -> 0 < var_term l.
Proof.
  intros Ha Hb Hab. assert (Hn : 0 < len l).
  { unfold len. apply inject_nat_pos. destruct l; [contradiction | simpl; lia]. }
  rewrite (var_term_dev l Hn). set (m := s1 l / len l). apply Qmult_lt_0_compat; [exact Hn|].
  destruct (Qeq_dec a m) as [Eam|Nam].
  - assert (~ b == m) as Nbm by (intros Ebm; apply Hab; rewrite Eam, Ebm; reflexivity).
    pose proof (sq_pos (b - m) ltac:(intros E; apply Nbm; lra)). pose proof (sq_dev_ge l m b Hb). lra.
  - pose proof (sq_pos (a - m) ltac:(intros E; apply Nam; lra)). pose proof (sq_dev_ge l m a Ha). lra.
Qed.

(** A constant list has variance term [0]. *)
Lemma var_term_const (l : list Q) (k : Q) : (forall a, In a l -> a == k) -> var_term l == 0.
Proof.
  intros H. assert (s1 l == len l * k /\ s2 l == len l * (k * k)) as [E1 E2].
  { induction l as [|x l IH]; cbn [s1 s2]; [change (len []) with 0; split; ring|].
    rewrite len_cons. destruct IH as [E1 E2]; [intros a Ha; apply H; right; exact Ha|].
    assert (x == k) as Ex by (apply H; left; reflexivity). rewrite E1, E2, Ex. split; ring. }
  unfold var_term. rewrite E1, E2. ring.
Qed.

Lemma sxy_diag (l : list Q) : sxy l l == s2 l.
Proof.
  unfold sxy. induction l as [|x l IH]; [reflexivity|].
  cbn [combine map s1 s2 fst snd]. rewrite IH. reflexivity.
Qed.

End Moments.

Module Correlation.
Import Stats.
Local Open Scope Q_scope.

(** ** [Math.sqrt] and the coefficients *)

(** The result of [Math.sqrt]: [sqrt r] for a rational [r >= 0] kept
    symbolic, [Infinity], or [NaN] for a negative argument. *)
Inductive sqrt_result := RSqrt (r : Q) | RInf | RNaN.

Definition math_sqrt (x : num) : sqrt_result :=
  match x with
  | Fin q => if Qle_bool 0 q then RSqrt q else RNaN
  | PInf => RInf
  | NInf | NaN => RNaN
  end.

(** [denominator === 0] *)
Definition sqrt_is_zero (d : sqrt_result) : bool :=
  match d with RSqrt r => Qeq_bool r 0 | _ => false end.

(** A correlation coefficient: a number, or [a / sqrt r] with [r > 0]. *)
Inductive coef := Exact (x : num) | Quot (a r : Q).

(** [numerator / denominator] *)
Definition div_sqrt (n : num) (d : sqrt_result) : coef :=
  match d with
  | RNaN => Exact NaN
  | RInf => Exact (div n PInf)
  | RSqrt r =>
      if Qeq_bool r 0 then Exact (div n (Fin 0))
      else match n with Fin a => Quot a r | _ => Exact (div n (Fin 1)) end
  end.

(** [x.reduce((a, b, i) => a + b * y[i], init)] from index [i]. *)
Fixpoint sum_xy_from (y : list num) (i : nat) (xs : list num) (a : num) : num :=
  match xs with
  | [] => a
  | b :: xs' => sum_xy_from y (S i) xs' (add a (mul b (Quality.to_number (nth_error y i))))
  end.

(** [x.reduce((a, b) => a + b * b, 0)] *)
Definition sum_sq (xs : list num) : num := fold_left (fun a b => add a (mul b b)) xs (Fin 0).

(** [calculateCorrelation(x, y)] *)
Definition calculateCorrelation (x y : list num) : coef :=
  if negb (Nat.eqb (List.length x) (List.length y)) || Nat.eqb (List.length x) 0 then Exact (Fin 0)
  else
    let n := of_nat (List.length x) in
    let sumX := sum x in
    let sumY := sum y in
    let sumXY := sum_xy_from y 0 x (Fin 0) in
    let sumX2 := sum_sq x in
    let sumY2 := sum_sq y in
    let numerator := sub (mul n sumXY) (mul sumX sumY) in
    let denominator := math_sqrt (mul (sub (mul n sumX2) (mul sumX sumX))
                                      (sub (mul n sumY2) (mul sumY sumY))) in
    if sqrt_is_zero denominator then Exact (Fin 0) else div_sqrt numerator denominator.

(** [data.map(row => parseFloat(row[col])).filter(v => !isNaN(v))] *)
Definition values_of (data : list obj) (col : string) : list num :=
  filter (fun v => negb (is_nan v)) (map (fun row => parse_cell (obj_get row col)) data).

(** [calculateCorrelationMatrix(columns, data)] *)
Definition calculateCorrelationMatrix (columns : list string) (data : list obj) : list (list coef) :=
  mapi (fun i col1 =>
          let values1 := values_of data col1 in
          mapi (fun j col2 =>
                  if Nat.eqb i j then Exact (Fin 1)
                  else calculateCorrelation values1 (values_of data col2)) columns) columns.

(** [correlationMatrix[i][j]]; every index the display reads is in
    range ([matrix_entry_some]), the default is never used. *)
Definition matrix_entry (m : list (list coef)) (i j : nat) : option coef :=
  match nth_error m i with Some row => nth_error row j | None => None end.

(** ** The value of a coefficient *)

(** Sign and square of the real number a coefficient denotes, when it
    is finite. *)
Definition coef_fin (c : coef) : option (comparison * Q) :=
  match c with
  | Exact (Fin q) => Some (Qcompare q 0, q * q)
  | Exact _ => None
  | Quot a r => Some (Qcompare a 0, a * a / r)
  end.

(** Equality as real numbers. *)
Definition coef_eq (c d : coef) : Prop :=
  match coef_fin c, coef_fin d with
  | Some (s, q), Some (s', q') => s = s' /\ q == q'
  | None, None => match c, d with Exact x, Exact y => num_eq x y | _, _ => False end
  | _, _ => False
  end.

(** Coefficients the code builds have a positive radicand. *)
Definition coef_wf (c : coef) : Prop := match c with Quot _ r => 0 < r | Exact _ => True end.

(** ** The display *)

(** [Math.abs(correlation) > t] for [t >= 0]: on [a / sqrt r] it holds
    exactly when [t^2 < a^2 / r]. *)
Definition abs_gt (c : coef) (t : Q) : bool :=
  match c with
  | Exact x => gt (abs x) (Fin t)
  | Quot a r => negb (Qle_bool (a * a / r) (t * t))
  end.

Definition color (c : coef) : string :=
  if abs_gt c (7 # 10) then "#00ff00" else if abs_gt c (1 # 2) then "#ffff00" else "#ffffff".

(** [correlation.toFixed(f)].  On [a / sqrt r] the integer nearest to
    [w = 10^f |a| / sqrt r] (the larger on a tie) is the largest [k]
    with [(2k - 1)^2 <= 4 w^2], that is [(isqrt(floor(4 w^2)) + 1) / 2]. *)
Definition coef_to_fixed (f : nat) (c : coef) : option string :=
  match c with
  | Exact x => to_fixed f x
  | Quot a r =>
      let sign := if Qle_bool 0 a then EmptyString else "-" in
      if Qle_bool (inject_Z (10 ^ 42)%Z) (a * a / r) then None
      else
        let t := inject_Z (4 * 10 ^ (2 * Z.of_nat f))%Z * (a * a) / r in
        Some (format_fixed sign (Z.to_N ((Z.sqrt (Qfloor t) + 1) / 2)%Z) f)
  end.

Record corr_cell := { cell_text : option string; cell_color : string }.

Inductive corr_view :=
  | NeedTwoColumns
  | CorrTable (columns : list string) (rows : list (string * list corr_cell)).

(** [displayCorrelationAnalysis(dataset)] *)
Definition displayCorrelationAnalysis (ds : dataset) : corr_view :=
  let numericColumns := filter (first_value_numeric ds) (headers ds) in
  if Nat.ltb (List.length numericColumns) 2 then NeedTwoColumns
  else
    let m := calculateCorrelationMatrix numericColumns (data ds) in
    CorrTable numericColumns
      (mapi (fun i col1 =>
               (col1, mapi (fun j _ =>
                              let c := match matrix_entry m i j with Some c => c | None => Exact NaN end in
                              {| cell_text := coef_to_fixed 3 c; cell_color := color c |})
                            numericColumns)) numericColumns).

(** ** [coef_eq] is an equivalence; the colour depends on the value *)

#[export] Instance coef_eq_Equivalence : Equivalence coef_eq.
Proof.
  split.
  - intros [[q| | |]|a r]; cbn; try split; reflexivity.
  - intros [[q| | |]|a r] [[q'| | |]|b s]; cbn; try tauto; intros [H1 H2]; split; symmetry; assumption.
  - intros [[q| | |]|a r] [[q'| | |]|b s] [[q''| | |]|c u]; cbn; try tauto;
      intros [H1 H2] [H3 H4]; (split; [congruence | rewrite H2; exact H4]).
Qed.

Lemma abs_gt_sq (c : coef) (t : Q) (s : comparison) (sq : Q) :
  0 <= t -> coef_fin c = Some (s, sq) -> abs_gt c t = negb (Qle_bool sq (t * t)).
Proof.
  intros Ht. destruct c as [[q| | |]|a r]; cbn [coef_fin]; try discriminate; intros E; injection E as <- <-;
    unfold abs_gt; [|reflexivity].
  unfold gt. change (abs (Fin q)) with (Fin (Qabs q)). apply Bool.eq_iff_eq_true.
  rewrite lt_fin, negb_true_iff, <- not_true_iff_false, Qle_bool_iff.
  assert (E : q * q == Qabs q * Qabs q) by (rewrite <- Qabs_Qmult; symmetry; apply Qabs_pos; nra).
  pose proof (Qabs_nonneg q) as Hq. rewrite E. split; intros H.
  - intros H'. nra.
  - apply Qnot_le_lt in H. nra.
Qed.

#[export] Instance abs_gt_proper (t : Q) : 0 <= t -> Proper (coef_eq ==> eq) (fun c => abs_gt c t).
Proof.
  intros Ht c d. unfold coef_eq. destruct (coef_fin c) as [[s q]|] eqn:Ec, (coef_fin d) as [[s' q']|] eqn:Ed;
    try tauto.
  - intros [_ Hq]. rewrite (abs_gt_sq c t s q Ht Ec), (abs_gt_sq d t s' q' Ht Ed), Hq. reflexivity.
  - destruct c as [[q| | |]|a r], d as [[q'| | |]|b u]; cbn in *; try discriminate; tauto.
Qed.

(** The colour of a cell depends only on the value of its coefficient. *)
Lemma color_eq (c d : coef) : coef_eq c d -> color c = color d.
Proof.
  intros H. unfold color.
  rewrite (abs_gt_proper (7 # 10) ltac:(discriminate) c d H), (abs_gt_proper (1 # 2) ltac:(discriminate) c d H).
  reflexivity.
Qed.

(** ** The sums on finite values *)

Lemma sum_s1 (xs : list Q) : exists q, sum (map Fin xs) = Fin q /\ q == Moments.s1 xs.
Proof. rewrite sum_fin. eexists; split; [reflexivity|]. rewrite Moments.fold_Qplus_s1. ring. Qed.

Lemma fold_sq_fin (xs : list Q) (a : Q) :
  exists q, fold_left (fun a b => add a (mul b b)) (map Fin xs) (Fin a) = Fin q /\ q == a + Moments.s2 xs.
Proof.
  revert a. induction xs as [|x xs IH]; intros a; cbn [map fold_left Moments.s2].
  - exists a. split; [reflexivity | ring].
  - destruct (IH (a + x * x)) as [q [E Hq]]. exists q. split; [exact E|]. rewrite Hq. ring.
Qed.

Lemma sum_xy_shift (y : list num) (c : num) (i : nat) (xs : list num) (a : num) :
  sum_xy_from (c :: y) (S i) xs a = sum_xy_from y i xs a.
Proof. revert i a. induction xs as [|b xs IH]; intros i a; cbn [sum_xy_from nth_error]; [reflexivity | apply IH]. Qed.

Lemma sum_xy_fin (xs ys : list Q) (a : Q) :
  List.length xs = List.length ys ->
  exists q, sum_xy_from (map Fin ys) 0 (map Fin xs) (Fin a) = Fin q /\ q == a + Moments.sxy xs ys.
Proof.
  unfold Moments.sxy. revert ys a. induction xs as [|x xs IH]; intros [|y ys] a H; try discriminate.
  - exists a. split; [reflexivity | cbn; ring].
  - cbn [map sum_xy_from nth_error Quality.to_number]. rewrite sum_xy_shift.
    destruct (IH ys (a + x * y)) as [q [E Hq]]; [simpl in H; lia|].
    exists q. split; [exact E|]. rewrite Hq. cbn [combine map Moments.s1 fst snd]. ring.
Qed.

(** On finite lists of the same non-zero length the code computes the
    covariance term [C] and the radicand [A * B]; it answers [0] when
    the radicand is [0] and [C / sqrt (A * B)] otherwise. *)
Lemma calculateCorrelation_fin (xs ys : list Q) :
  List.length xs = List.length ys -> xs <> [] ->
  exists c r, c == Moments.cov_term xs ys /\ r == Moments.var_term xs * Moments.var_term ys /\
    calculateCorrelation (map Fin xs) (map Fin ys) = if Qeq_bool r 0 then Exact (Fin 0) else Quot c r.
Proof.
  intros Hl Hne. unfold calculateCorrelation. rewrite !length_map.
  replace (Nat.eqb (List.length xs) (List.length ys)) with true by (symmetry; apply Nat.eqb_eq; exact Hl).
  replace (Nat.eqb (List.length xs) 0) with false
    by (symmetry; apply Nat.eqb_neq; destruct xs; [contradiction | discriminate]).
  destruct (sum_s1 xs) as [sx [Ex Hx]], (sum_s1 ys) as [sy [Ey Hy]].
  destruct (sum_xy_fin xs ys 0 Hl) as [sxy [Exy Hxy]].
  destruct (fold_sq_fin xs 0) as [sxx [Exx Hxx]], (fold_sq_fin ys 0) as [syy [Eyy Hyy]].
  cbn zeta. unfold sum_sq. rewrite Ex, Ey, Exy, Exx, Eyy. cbn [negb orb of_nat mul sub add neg].
  match goal with |- context [math_sqrt (Fin ?R)] => set (r := R) end.
  match goal with |- context [div_sqrt (Fin ?C) _] => set (c := C) end.
  assert (Hlen : Moments.len ys == Moments.len xs) by (unfold Moments.len; rewrite Hl; reflexivity).
  assert (Hr : r == Moments.var_term xs * Moments.var_term ys).
  { subst r. unfold Moments.var_term. rewrite Hlen, Hx, Hy, Hxx, Hyy. unfold Moments.len. ring. }
  assert (Hc : c == Moments.cov_term xs ys).
  { subst c. unfold Moments.cov_term. rewrite Hx, Hy, Hxy. unfold Moments.len. ring. }
  exists c, r. split; [exact Hc|]. split; [exact Hr|].
  assert (Hpos : 0 <= r).
  { rewrite Hr. apply Qmult_le_0_compat; apply Moments.var_term_nonneg. }
  unfold math_sqrt. apply Qle_bool_iff in Hpos. rewrite Hpos. cbn [sqrt_is_zero div_sqrt].
  destruct (Qeq_bool r 0); reflexivity.
Qed.

(** The two outcomes on finite lists: the fallback [0], or [C / sqrt r]
    with [r = A * B > 0]. *)
Lemma calculateCorrelation_cases (xs ys : list Q) :
  calculateCorrelation (map Fin xs) (map Fin ys) = Exact (Fin 0) \/
  exists c r, List.length xs = List.length ys /\ c == Moments.cov_term xs ys /\
    r == Moments.var_term xs * Moments.var_term ys /\ 0 < r /\
    calculateCorrelation (map Fin xs) (map Fin ys) = Quot c r.
Proof.
  destruct (Nat.eq_dec (List.length xs) (List.length ys)) as [Hl|Hl].
  - destruct xs as [|x xs'];
      [left; unfold calculateCorrelation; cbn [map List.length Nat.eqb]; now rewrite orb_true_r|].
    destruct (calculateCorrelation_fin (x :: xs') ys Hl ltac:(discriminate)) as (c & r & Hc & Hr & E).
    destruct (Qeq_bool r 0) eqn:Z; [left; exact E|]. right. exists c, r. repeat split; auto.
    assert (0 <= r) by (rewrite Hr; apply Qmult_le_0_compat; apply Moments.var_term_nonneg).
    apply Qle_lt_or_eq in H as [H|H]; [exact H|]. apply Qeq_bool_neq in Z. exfalso. apply Z. now symmetry.
  - left. unfold calculateCorrelation. rewrite !length_map. apply Nat.eqb_neq in Hl. rewrite Hl. reflexivity.
Qed.

Lemma div_sqrt_wf (n d : num) :
  sqrt_is_zero (math_sqrt d) = false -> coef_wf (div_sqrt n (math_sqrt d)).
Proof.
  destruct d as [q| | |]; cbn [math_sqrt]; try (intros; exact I).
  destruct (Qle_bool 0 q) eqn:Hq; [|intros; exact I]. cbn [sqrt_is_zero div_sqrt]. intros Hz. rewrite Hz.
  destruct n; cbn; try exact I. apply Qle_bool_iff in Hq. apply Qeq_bool_neq in Hz.
  apply Qle_lt_or_eq in Hq as [Hq|Hq]; [exact Hq|]. exfalso. apply Hz. now symmetry.
Qed.

Lemma sum_xy_comm (x y : list num) (a : num) :
  List.length x = List.length y -> sum_xy_from y 0 x a = sum_xy_from x 0 y a.
Proof.
  revert y a. induction x as [|b x IH]; intros [|c y] a H; try discriminate; [reflexivity|].
  cbn [sum_xy_from nth_error Quality.to_number]. rewrite !sum_xy_shift, mul_comm.
  apply IH. simpl in H. lia.
Qed.

(** ** Properties of [calculateCorrelation] *)

(** whatever the input (infinities and [NaN] included), a quotient
    [a / sqrt r] the code builds has [r > 0]. *)
Theorem calculateCorrelation_wf (x y : list num) : coef_wf (calculateCorrelation x y).
Proof.
  unfold calculateCorrelation. destruct (_ || _); [exact I|]. cbv zeta.
  match goal with |- coef_wf (if sqrt_is_zero (math_sqrt ?D) then _ else div_sqrt ?N _) =>
    destruct (sqrt_is_zero (math_sqrt D)) eqn:E; [exact I | exact (div_sqrt_wf N D E)] end.
Qed.

(** The coefficient is symmetric in its two arguments, as terms. *)
Lemma calculateCorrelation_comm (x y : list num) :
  calculateCorrelation x y = calculateCorrelation y x.
Proof.
  unfold calculateCorrelation. destruct (Nat.eq_dec (List.length x) (List.length y)) as [Hl|Hl].
  - rewrite <- (sum_xy_comm x y (Fin 0) Hl). rewrite Hl, Nat.eqb_refl. cbn [negb orb].
    destruct (Nat.eqb (List.length y) 0); [reflexivity|]. cbv zeta.
    rewrite (mul_comm (sum y) (sum x)), (mul_comm (sub (mul (of_nat (List.length y)) (sum_sq x)) _)).
    reflexivity.
  - rewrite (proj2 (Nat.eqb_neq _ _) Hl), (proj2 (Nat.eqb_neq _ _) (not_eq_sym Hl)). reflexivity.
Qed.

(** a list of finite numbers with two different values has
    correlation 1 with itself. *)
Theorem calculateCorrelation_self (xs : list Q) (a b : Q) :
  In a xs -> In b xs -> ~ a == b -> coef_eq (calculateCorrelation (map Fin xs) (map Fin xs)) (Exact (Fin 1)).
Proof.
  intros Ha Hb Hab. pose proof (Moments.var_term_pos xs a b Ha Hb Hab) as Hv.
  destruct (calculateCorrelation_cases xs xs) as [E|(c & r & _ & Hc & Hr & Hpos & E)].
  - exfalso. destruct (calculateCorrelation_fin xs xs eq_refl ltac:(intros ->; contradiction))
      as (c & r & _ & Hr & E'). rewrite E in E'.
    destruct (Qeq_bool r 0) eqn:Z; [|discriminate]. apply Qeq_bool_eq in Z. rewrite Hr in Z. nra.
  - assert (Hcv : c == Moments.var_term xs).
    { rewrite Hc. unfold Moments.cov_term, Moments.var_term. rewrite Moments.sxy_diag. reflexivity. }
    rewrite E. cbn. split.
    + apply Qgt_alt. rewrite Hcv. exact Hv.
    + rewrite Hcv, Hr. field. lra.
Qed.

(** ** The matrix and its display *)

Lemma nth_error_lt {A} (l : list A) (i : nat) : (i < List.length l)%nat -> exists x, nth_error l i = Some x.
Proof. intros H. destruct (nth_error l i) eqn:E; [eauto|]. apply nth_error_None in E. lia. Qed.

Lemma matrix_entry_spec (cols : list string) (data : list obj) (i j : nat) :
  (i < List.length cols)%nat -> (j < List.length cols)%nat ->
  exists c1 c2, nth_error cols i = Some c1 /\ nth_error cols j = Some c2 /\
    matrix_entry (calculateCorrelationMatrix cols data) i j =
    Some (if Nat.eqb i j then Exact (Fin 1) else calculateCorrelation (values_of data c1) (values_of data c2)).
Proof.
  intros Hi Hj. destruct (nth_error_lt cols i Hi) as [c1 Ei], (nth_error_lt cols j Hj) as [c2 Ej].
  exists c1, c2. split; [exact Ei|]. split; [exact Ej|].
  unfold matrix_entry, calculateCorrelationMatrix. rewrite nth_error_mapi, Ei. cbn [option_map].
  rewrite nth_error_mapi, Ej. reflexivity.
Qed.

Lemma matrix_entry_diag (cols : list string) (data : list obj) (i : nat) :
  (i < List.length cols)%nat -> matrix_entry (calculateCorrelationMatrix cols data) i i = Some (Exact (Fin 1)).
Proof.
  intros Hi. destruct (matrix_entry_spec cols data i i Hi Hi) as (c1 & c2 & _ & _ & E).
  rewrite E, Nat.eqb_refl. reflexivity.
Qed.

Lemma matrix_entry_comm (cols : list string) (data : list obj) (i j : nat) :
  (i < List.length cols)%nat -> (j < List.length cols)%nat ->
  matrix_entry (calculateCorrelationMatrix cols data) i j = matrix_entry (calculateCorrelationMatrix cols data) j i.
Proof.
  intros Hi Hj. destruct (matrix_entry_spec cols data i j Hi Hj) as (c1 & c2 & E1 & E2 & E).
  destruct (matrix_entry_spec cols data j i Hj Hi) as (c2' & c1' & E2' & E1' & E').
  rewrite E, E'. rewrite E1 in E1'. rewrite E2 in E2'. injection E1' as <-. injection E2' as <-.
  rewrite Nat.eqb_sym. destruct (Nat.eqb j i); [reflexivity|]. now rewrite calculateCorrelation_comm.
Qed.

(** the correlation matrix is square over the columns, has [1] on
    its diagonal and is symmetric. *)
Theorem calculateCorrelationMatrix_symmetric (cols : list string) (data : list obj) (i j : nat) :
  (i < List.length cols)%nat -> (j < List.length cols)%nat ->
  List.length (calculateCorrelationMatrix cols data) = List.length cols /\
  matrix_entry (calculateCorrelationMatrix cols data) i i = Some (Exact (Fin 1)) /\
  matrix_entry (calculateCorrelationMatrix cols data) i j = matrix_entry (calculateCorrelationMatrix cols data) j i.
Proof.
  intros Hi Hj. split; [apply length_mapi|]. split; [now apply matrix_entry_diag|].
  now apply matrix_entry_comm.
Qed.

(** The cell in row [i] and column [j] of the rendered table. *)
Definition table_cell (v : corr_view) (i j : nat) : option corr_cell :=
  match v with
  | CorrTable _ rows => match nth_error rows i with Some (_, cells) => nth_error cells j | None => None end
  | NeedTwoColumns => None
  end.

Lemma display_cell (ds : dataset) (i j : nat) :
  let cols := filter (first_value_numeric ds) (headers ds) in
  (2 <= List.length cols)%nat -> (i < List.length cols)%nat -> (j < List.length cols)%nat ->
  exists c, matrix_entry (calculateCorrelationMatrix cols (data ds)) i j = Some c /\
    table_cell (displayCorrelationAnalysis ds) i j = Some {| cell_text := coef_to_fixed 3 c; cell_color := color c |}.
Proof.
  intros cols H2 Hi Hj. destruct (matrix_entry_spec cols (data ds) i j Hi Hj) as (c1 & c2 & Ei & Ej & E).
  eexists. split; [exact E|]. unfold displayCorrelationAnalysis. fold cols.
  rewrite (proj2 (Nat.ltb_ge _ _) H2). cbn [table_cell]. rewrite nth_error_mapi, Ei. cbn [option_map].
  rewrite nth_error_mapi, Ej. cbn [option_map]. rewrite E. reflexivity.
Qed.

(** C31: when at least two columns pass the numeric test, the table
    shows [1.000] in green on its diagonal and the same text and colour
    in the cells [(i, j)] and [(j, i)]. *)
Theorem displayCorrelationAnalysis_table (ds : dataset) (i j : nat) :
  (2 <= List.length (filter (first_value_numeric ds) (headers ds)))%nat ->
  (i < List.length (filter (first_value_numeric ds) (headers ds)))%nat ->
  (j < List.length (filter (first_value_numeric ds) (headers ds)))%nat ->
  table_cell (displayCorrelationAnalysis ds) i i = Some {| cell_text := Some "1.000"; cell_color := "#00ff00" |} /\
  table_cell (displayCorrelationAnalysis ds) i j = table_cell (displayCorrelationAnalysis ds) j i.
Proof.
  intros H2 Hi Hj. split.
  - destruct (display_cell ds i i H2 Hi Hi) as (c & E & ->).
    rewrite matrix_entry_diag in E by exact Hi. injection E as <-. reflexivity.
  - destruct (display_cell ds i j H2 Hi Hj) as (c & E & ->), (display_cell ds j i H2 Hj Hi) as (c' & E' & ->).
    rewrite matrix_entry_comm in E by assumption. rewrite E in E'. injection E' as <-. reflexivity.
Qed.

(** ** [toFixed] on [a / sqrt r] *)

Lemma isqrt_round (z : Z) (n : Z) :
  (0 <= z)%Z -> n = ((Z.sqrt z + 1) / 2)%Z ->
  (0 <= n)%Z /\ (n = 0%Z \/ ((2 * n - 1) * (2 * n - 1) <= z)%Z) /\ (z + 1 <= (2 * n + 1) * (2 * n + 1))%Z.
Proof.
  intros Hz ->. destruct (Z.sqrt_spec z Hz) as [H1 H2]. pose proof (Z.sqrt_nonneg z) as H0.
  set (s := Z.sqrt z) in *. rewrite <- Z.add_1_r in H2.
  assert (Hn : (2 * ((s + 1) / 2) <= s + 1 <= 2 * ((s + 1) / 2) + 1)%Z).
  { pose proof (Z.div_mod (s + 1) 2 ltac:(lia)). pose proof (Z.mod_pos_bound (s + 1) 2 ltac:(lia)). lia. }
  set (n := ((s + 1) / 2)%Z) in *. split; [lia|]. split.
  - destruct (Z.eq_dec n 0) as [E|E]; [left; exact E|right].
    apply Z.le_trans with (s * s)%Z; [apply Z.mul_le_mono_nonneg; lia | exact H1].
  - apply Z.le_trans with ((s + 1) * (s + 1))%Z; [lia|]. apply Z.mul_le_mono_nonneg; lia.
Qed.

(** on [a / sqrt r] (with [|a| / sqrt r < 10^21]), [toFixed(f)]
    prints the sign of [a] and the integer [n] with
    [n - 1/2 <= 10^f |a| / sqrt r < n + 1/2], that is the integer
    nearest to [10^f |a| / sqrt r], the larger one on a tie, stated on
    squares: [(2n - 1)^2 r <= 4 10^2f a^2 < (2n + 1)^2 r]. *)
Theorem coef_to_fixed_rounding (f : nat) (a r : Q) :
  0 < r -> a * a / r < inject_Z (10 ^ 42) ->
  exists n : Z,
    coef_to_fixed f (Quot a r) =
      Some (format_fixed (if Qle_bool 0 a then EmptyString else "-") (Z.to_N n) f) /\
    (0 <= n)%Z /\
    (n = 0%Z \/ inject_Z ((2 * n - 1) * (2 * n - 1)) * r <= inject_Z (4 * 10 ^ (2 * Z.of_nat f)) * (a * a)) /\
    inject_Z (4 * 10 ^ (2 * Z.of_nat f)) * (a * a) < inject_Z ((2 * n + 1) * (2 * n + 1)) * r.
Proof.
  intros Hr Hb. unfold coef_to_fixed.
  replace (Qle_bool (inject_Z (10 ^ 42)) (a * a / r)) with false
    by (symmetry; apply not_true_iff_false; rewrite Qle_bool_iff; lra).
  set (K := inject_Z (4 * 10 ^ (2 * Z.of_nat f))). set (T := K * (a * a) / r).
  assert (HK : 0 <= K).
  { unfold K. change 0 with (inject_Z 0). rewrite <- Zle_Qle.
    pose proof (Z.pow_nonneg 10 (2 * Z.of_nat f) ltac:(lia)). lia. }
  assert (HT : 0 <= T).
  { apply Qle_shift_div_l; [exact Hr|]. rewrite Qmult_0_l. apply Qmult_le_0_compat; [exact HK | apply Moments.sq_nonneg]. }
  assert (HTr : T * r == K * (a * a)) by (unfold T; field; lra).
  assert (Hz : (0 <= Qfloor T)%Z) by (apply (Qfloor_resp_le 0 T HT)).
  destruct (isqrt_round (Qfloor T) _ Hz eq_refl) as (Hn & Hlo & Hhi).
  eexists. split; [reflexivity|]. split; [exact Hn|]. split.
  - destruct Hlo as [E|Hlo]; [left; exact E|right]. rewrite <- HTr. apply Qmult_le_compat_r; [|lra].
    apply Qle_trans with (inject_Z (Qfloor T)); [rewrite <- Zle_Qle; exact Hlo | apply Qfloor_le].
  - rewrite <- HTr. apply Qmult_lt_compat_r; [exact Hr|].
    apply Qlt_le_trans with (inject_Z (Qfloor T + 1)); [apply Qlt_floor | rewrite <- Zle_Qle; exact Hhi].
Qed.

End Correlation.

Module CorrelationExamples.
Import Correlation.

(** the spec's correlation examples: [1] for [[1,2,3], [1,2,3]],
    [-1] for [[1,2,3], [3,2,1]], and the fallback [0] for two empty lists
    and for constant lists. *)
Example calculateCorrelation_examples :
  coef_eq (calculateCorrelation (map Fin [1; 2; 3]%Q) (map Fin [1; 2; 3]%Q)) (Exact (Fin 1)) /\
  coef_eq (calculateCorrelation (map Fin [1; 2; 3]%Q) (map Fin [3; 2; 1]%Q)) (Exact (Fin (-1))) /\
  calculateCorrelation [] [] = Exact (Fin 0) /\
  calculateCorrelation (map Fin [1; 1; 1]%Q) (map Fin [2; 2; 2]%Q) = Exact (Fin 0).
Proof. vm_compute. repeat split; reflexivity. Qed.

(** [1,2,3,5] against [2,1,4,3]: [14 / sqrt 700], printed [0.529] in
    yellow. *)
Example correlation_text :
  coef_to_fixed 3 (calculateCorrelation (map Fin [1; 2; 3; 5]%Q) (map Fin [2; 1; 4; 3]%Q)) = Some "0.529" /\
  color (calculateCorrelation (map Fin [1; 2; 3; 5]%Q) (map Fin [2; 1; 4; 3]%Q)) = "#ffff00".
Proof. vm_compute. split; reflexivity. Qed.

(** On the sample table of [Csv], [id] and [amount] fall as the other
    rises. *)
Example sample_correlation :
  displayCorrelationAnalysis sample_dataset =
  CorrTable ["id"; "amount"]
    [("id", [{| cell_text := Some "1.000"; cell_color := "#00ff00" |};
             {| cell_text := Some "-1.000"; cell_color := "#00ff00" |}]);
     ("amount", [{| cell_text := Some "-1.000"; cell_color := "#00ff00" |};
                 {| cell_text := Some "1.000"; cell_color := "#00ff00" |}])].
Proof. vm_compute. reflexivity. Qed.

Lemma calculateCorrelation_self_witness :
  coef_eq (calculateCorrelation (map Fin [1; 2; 3]%Q) (map Fin [1; 2; 3]%Q)) (Exact (Fin 1)).
Proof.
  apply (calculateCorrelation_self [1; 2; 3]%Q 1 2); [simpl; auto | simpl; auto | vm_compute; discriminate].
Defined.

Lemma calculateCorrelationMatrix_symmetric_witness :
  List.length (calculateCorrelationMatrix ["id"; "amount"] (data sample_dataset)) = 2%nat /\
  matrix_entry (calculateCorrelationMatrix ["id"; "amount"] (data sample_dataset)) 0 0 = Some (Exact (Fin 1)) /\
  matrix_entry (calculateCorrelationMatrix ["id"; "amount"] (data sample_dataset)) 0 1 =
  matrix_entry (calculateCorrelationMatrix ["id"; "amount"] (data sample_dataset)) 1 0.
Proof. apply calculateCorrelationMatrix_symmetric; simpl; lia. Defined.

Lemma displayCorrelationAnalysis_table_witness :
  table_cell (displayCorrelationAnalysis sample_dataset) 1 1 =
    Some {| cell_text := Some "1.000"; cell_color := "#00ff00" |} /\
  table_cell (displayCorrelationAnalysis sample_dataset) 1 0 = table_cell (displayCorrelationAnalysis sample_dataset) 0 1.
Proof.
  apply displayCorrelationAnalysis_table; apply Nat.leb_le; vm_compute; reflexivity.
Defined.

Lemma coef_to_fixed_rounding_witness :
  exists n : Z,
    coef_to_fixed 3 (Quot 12 400) = Some (format_fixed (if Qle_bool 0 12 then EmptyString else "-") (Z.to_N n) 3) /\
    (0 <= n)%Z /\
    (n = 0%Z \/ (inject_Z ((2 * n - 1) * (2 * n - 1)) * 400 <= inject_Z (4 * 10 ^ (2 * Z.of_nat 3)) * (12 * 12))%Q) /\
    (inject_Z (4 * 10 ^ (2 * Z.of_nat 3)) * (12 * 12) < inject_Z ((2 * n + 1) * (2 * n + 1)) * 400)%Q.
Proof. apply coef_to_fixed_rounding; vm_compute; reflexivity. Defined.

End CorrelationExamples.
