(* ===== verification/Categories.v ===== *)
(** * Spending categories

    [displaySpendingCategories] (dashboard.js, lines 722-792) picks the
    first header naming a category ([category], [type], [merchant] or
    [description], case-insensitively) and the first naming an amount
    ([amount] or [value]); it adds up the amounts of each category in a
    [Map] (a missing category is [Unknown], an unreadable amount [0],
    each row weighs [1] without an amount column), sorts the entries by
    decreasing total with a stable sort, keeps the first six and shows
    each one's share of the six.

    The file proves that the map holds one entry per category, in order
    of first appearance, whose value is the sum of the category's
    amounts; that grouping preserves the grand total; that the cards are
    at most six, in decreasing order, never smaller than a category left
    out, with ties in order of first appearance.  Sums of amounts are
    exact rationals here and rounded in JavaScript, so only the keys of
    the map and the order of equal totals are exact claims about the
    program; the shares are not claimed. *)

From Stdlib Require Import String Ascii QArith Lia Lqa Bool PeanoNat ZArith List.
From Stdlib Require Import Permutation Sorted Morphisms Setoid.
From AAC_tactics Require Import AAC.
From S2P Require Import Prelude JsString JsNumber JsMap Csv Stats.
Import ListNotations JsNumber Csv.
Open Scope string_scope.

Module Categories.
Import Stats.

(** [header.toLowerCase().includes(k1) || ... ] *)
Definition header_matches (ks : list string) (h : string) : bool :=
  existsb (fun k => JsString.includes (JsString.to_lower h) k) ks.

Definition category_keys : list string := ["category"; "type"; "merchant"; "description"].
Definition amount_keys : list string := ["amount"; "value"].

Definition categoryColumns (ds : dataset) : list string :=
  filter (header_matches category_keys) (headers ds).

(** [headers.find(...)]; [None] is [undefined]. *)
Definition amountColumn (ds : dataset) : option string :=
  find (header_matches amount_keys) (headers ds).

(** [row[categoryColumn] || 'Unknown'] *)
Definition row_category (col : string) (row : obj) : string :=
  match obj_get row col with Some v => v ||j "Unknown" | None => "Unknown" end.

(** [amountColumn ? parseFloat(row[amountColumn]) || 0 : 1] *)
Definition row_amount (amountCol : option string) (row : obj) : num :=
  match amountCol with
  | Some c => parse_cell (obj_get row c) ||j Fin 0
  | None => Fin 1
  end.

(** One step of [data.forEach]: [has], then [get] and [set]. *)
Definition add_row (col : string) (amountCol : option string) (m : JsMap.t) (row : obj) : JsMap.t :=
  let category := row_category col row in
  let amount := row_amount amountCol row in
  if JsMap.has m category
  then JsMap.set m category (add (match JsMap.get m category with Some v => v | None => NaN end) amount)
  else JsMap.set m category amount.

Definition categoryMap (col : string) (amountCol : option string) (rows : list obj) : @JsMap.t num :=
  fold_left (add_row col amountCol) rows JsMap.empty.

(** The comparator [(a, b) => b[1] - a[1]] is positive when [b]
    must come first. *)
Definition cat_gtb (a b : string * num) : bool := gt (sub (snd b) (snd a)) (Fin 0).

(** [Array.from(categoryMap.entries()).sort(...).slice(0, 6)] *)
Definition sortedCategories (m : @JsMap.t num) : list (string * num) :=
  firstn 6 (JsSort.js_sort cat_gtb m).

(** [sortedCategories.reduce((sum, [_, amount]) => sum + amount, 0)] *)
Definition totalAmount (cats : list (string * num)) : num :=
  fold_left (fun s p => add s (snd p)) cats (Fin 0).

(** [amount / totalAmount * 100] *)
Definition share (total amount : num) : num := mul (div amount total) (Fin 100).

(** [totalAmount > 0 ? (amount / totalAmount * 100).toFixed(1) : 0] *)
Definition percentage (total amount : num) : option string :=
  if gt total (Fin 0) then to_fixed 1 (share total amount) else Some "0".

Record category_card := { card_category : string; card_amount : num; card_percentage : option string }.

Inductive categories_view :=
  | CategoryCards (cards : list category_card)
  | DataOverview (records columns : nat).

(** [displaySpendingCategories(dataset)] *)
Definition displaySpendingCategories (ds : dataset) : categories_view :=
  match categoryColumns ds with
  | categoryColumn :: _ =>
      let sorted := sortedCategories (categoryMap categoryColumn (amountColumn ds) (data ds)) in
      let total := totalAmount sorted in
      CategoryCards (map (fun p => {| card_category := fst p; card_amount := snd p;
                                      card_percentage := percentage total (snd p) |}) sorted)
  | [] => DataOverview (List.length (data ds)) (List.length (headers ds))
  end.

(** ** Addition of numbers is associative and commutative up to
    [num_eq], with unit [0]: sums may be reordered by [aac_reflexivity]. *)

#[export] Instance add_Associative : Associative num_eq add.
Proof. intros x y z. apply add_assoc. Qed.

#[export] Instance add_Commutative : Commutative num_eq add.
Proof. intros x y. rewrite add_comm. reflexivity. Qed.

#[export] Instance add_Unit : Unit num_eq add (Fin 0).
Proof. split; intros x; [apply add_0_l | rewrite add_comm; apply add_0_l]. Qed.

(** ** The category map *)

(** The value the map holds for a category after some rows:
    [undefined], then the first amount, then running sums. *)
Definition opt_add (o : option num) (a : num) : option num :=
  match o with Some v => Some (add v a) | None => Some a end.

(** The rows of a category. *)
Definition cat_rows (col : string) (rows : list obj) (c : string) : list obj :=
  filter (fun row => String.eqb (row_category col row) c) rows.



Lemma add_row_get (col : string) (ac : option string) (m : JsMap.t) (row : obj) (c : string) :
  JsMap.get (add_row col ac m row) c =
  if String.eqb (row_category col row) c then opt_add (JsMap.get m c) (row_amount ac row) else JsMap.get m c.
Proof.
  unfold add_row, JsMap.has. destruct (String.eqb_spec (row_category col row) c) as [<-|Hne].
  - destruct (JsMap.get m _); rewrite JsMap.get_set_eq; reflexivity.
  - destruct (JsMap.get m _); apply JsMap.get_set_ne; auto.
Qed.

Lemma fold_get (col : string) (ac : option string) (rows : list obj) (m : JsMap.t) (c : string) :
  JsMap.get (fold_left (add_row col ac) rows m) c =
  fold_left opt_add (map (row_amount ac) (cat_rows col rows c)) (JsMap.get m c).
Proof.
  unfold cat_rows. revert m. induction rows as [|row rows IH]; intros m; simpl; [reflexivity|].
  rewrite IH, add_row_get. destruct (String.eqb _ c); reflexivity.
Qed.

Lemma fold_opt_add (l : list num) (a : num) : fold_left opt_add l (Some a) = Some (fold_left add l a).
Proof. revert a. induction l as [|x l IH]; intros a; simpl; auto. Qed.

(** Adding a row adds its amount to the sum of the map's values. *)
Lemma add_row_total (col : string) (ac : option string) (m : JsMap.t) (row : obj) :
  num_eq (sum (map snd (add_row col ac m row))) (add (sum (map snd m)) (row_amount ac row)).
Proof.
  unfold add_row, JsMap.has, sum. set (c := row_category col row). set (a := row_amount ac row).
  destruct (JsMap.get m c) as [v|] eqn:E.
  - destruct (JsMap.set_present m c v (add v a) E) as (m1 & m2 & -> & ->).
    rewrite !map_app. cbn [map snd]. rewrite !fold_add_app. cbn [fold_left].
    rewrite (fold_add_acc _ (add (Fin 0) (add v a))), (fold_add_acc _ (add (Fin 0) v)). aac_reflexivity.
  - rewrite (JsMap.set_absent m c a E), map_app, fold_add_app. cbn [map fold_left snd].
    aac_reflexivity.
Qed.


(** a category absent from the rows has no entry; a present one has
    the sum of the amounts of its rows, in row order. *)
Theorem categoryMap_get (col : string) (ac : option string) (rows : list obj) (c : string) :
  match JsMap.get (categoryMap col ac rows) c with
  | None => cat_rows col rows c = []
  | Some v => cat_rows col rows c <> [] /\ num_eq v (sum (map (row_amount ac) (cat_rows col rows c)))
  end.
Proof.
  unfold categoryMap. rewrite fold_get. cbn [JsMap.get JsMap.empty].
  destruct (cat_rows col rows c) as [|r rs]; [reflexivity|]. cbn [map fold_left opt_add].
  rewrite fold_opt_add. split; [discriminate|]. unfold sum. cbn [fold_left].
  rewrite (fold_add_acc _ (row_amount ac r)), (fold_add_acc _ (add (Fin 0) (row_amount ac r))), add_0_l.
  reflexivity.
Qed.

(** grouping preserves the grand total: the values of the map add up
    to the amounts of all rows. *)
Theorem categoryMap_total (col : string) (ac : option string) (rows : list obj) :
  num_eq (sum (map snd (categoryMap col ac rows))) (sum (map (row_amount ac) rows)).
Proof.
  unfold categoryMap. cut (forall m, num_eq (sum (map snd (fold_left (add_row col ac) rows m)))
                                           (add (sum (map snd m)) (sum (map (row_amount ac) rows)))).
  { intros H. rewrite H. cbn [map JsMap.empty sum fold_left]. apply add_0_l. }
  induction rows as [|row rows IH]; intros m; cbn [fold_left map].
  - change (sum []) with (Fin 0). aac_reflexivity.
  - rewrite IH, add_row_total. unfold sum. cbn [fold_left].
    rewrite (fold_add_acc _ (add (Fin 0) (row_amount ac row))), add_0_l. aac_reflexivity.
Qed.

(** ** The six largest *)

Definition entry_ok (p : string * num) : Prop := not_nan (snd p).

Lemma cat_gtb_num (p q : string * num) : cat_gtb p q = num_gtb (snd q) (snd p).
Proof. reflexivity. Qed.

Lemma cat_gtb_total (x y : string * num) :
  entry_ok x -> entry_ok y -> cat_gtb x y = false \/ cat_gtb y x = false.
Proof. intros Hx Hy. rewrite !cat_gtb_num. destruct (num_gtb_total (snd y) (snd x)); auto. Qed.

Lemma cat_not_gt_trans (x y z : string * num) :
  entry_ok x -> entry_ok y -> entry_ok z ->
  JsSort.not_gt cat_gtb x y -> JsSort.not_gt cat_gtb y z -> JsSort.not_gt cat_gtb x z.
Proof. unfold JsSort.not_gt. rewrite !cat_gtb_num. intros Hx Hy Hz H1 H2. now apply (num_not_gt_trans _ (snd y)). Qed.

Lemma cat_not_gt_lt (x y : string * num) :
  entry_ok x -> entry_ok y -> JsSort.not_gt cat_gtb x y -> lt (snd x) (snd y) = false.
Proof. unfold JsSort.not_gt. intros Hx Hy. rewrite cat_gtb_num, num_gtb_lt by assumption. auto. Qed.

Lemma sorted_entries (m : @JsMap.t num) :
  Forall entry_ok m ->
  Permutation m (JsSort.js_sort cat_gtb m) /\ Forall entry_ok (JsSort.js_sort cat_gtb m) /\
  StronglySorted (JsSort.not_gt cat_gtb) (JsSort.js_sort cat_gtb m).
Proof.
  intros Hm. pose proof (JsSort.js_sort_perm cat_gtb m) as Hp.
  assert (Hf : Forall entry_ok (JsSort.js_sort cat_gtb m)) by (eapply Permutation_Forall; eauto).
  split; [exact Hp|]. split; [exact Hf|].
  apply (Sorted_StronglySorted_on entry_ok); [exact cat_not_gt_trans | exact Hf|].
  exact (JsSort.js_sort_sorted cat_gtb entry_ok cat_gtb_total m Hm).
Qed.

(** without [NaN] totals, the cards are at most six, in decreasing
    order of total, and no entry left out has a larger total than a
    card shown. *)
Theorem sortedCategories_top (m : @JsMap.t num) :
  Forall entry_ok m ->
  (List.length (sortedCategories m) <= 6)%nat /\
  Sorted (fun p q => lt (snd p) (snd q) = false) (sortedCategories m) /\
  exists rest, Permutation m (sortedCategories m ++ rest)%list /\
    forall p q, In p (sortedCategories m) -> In q rest -> lt (snd p) (snd q) = false.
Proof.
  intros Hm. destruct (sorted_entries m Hm) as (Hp & Hf & Hs). unfold sortedCategories.
  set (l := JsSort.js_sort cat_gtb m) in *. rewrite <- (firstn_skipn 6 l) in Hs, Hf.
  apply Forall_app in Hf as [Hf1 Hf2]. rewrite Forall_forall in Hf1, Hf2.
  split; [apply firstn_le_length|]. split.
  - apply (Sorted_weaken_on entry_ok (JsSort.not_gt cat_gtb)).
    + intros x y Hx Hy. now apply cat_not_gt_lt.
    + now apply Forall_forall.
    + apply StronglySorted_Sorted. exact (StronglySorted_app_l _ _ _ Hs).
  - exists (skipn 6 l). split; [now rewrite firstn_skipn|].
    intros p q Hp' Hq. apply cat_not_gt_lt; auto. exact (StronglySorted_app_rel _ _ _ Hs p q Hp' Hq).
Qed.

(** ties are shown in the map's order (the order of first
    appearance): among the entries whose total compares equal to that
    of [c], the cards shown are the first ones of the map, in order. *)
Theorem sortedCategories_ties (m : @JsMap.t num) (c : string * num) :
  Forall entry_ok m -> entry_ok c ->
  exists rest, (filter (fun p => JsSort.equivb cat_gtb p c) (sortedCategories m) ++ rest)%list =
               filter (fun p => JsSort.equivb cat_gtb p c) m.
Proof.
  intros Hm Hc. exists (filter (fun p => JsSort.equivb cat_gtb p c) (skipn 6 (JsSort.js_sort cat_gtb m))).
  unfold sortedCategories. rewrite <- filter_app, firstn_skipn.
  apply (JsSort.js_sort_stable cat_gtb entry_ok); auto.
  - intros x y z Hx Hy Hz. unfold JsSort.equivb. rewrite !cat_gtb_num. intros H1 H2.
    pose proof (num_equiv_trans (snd z) (snd y) (snd x) Hz Hy Hx) as T. unfold JsSort.equivb in T.
    exact (T H2 H1).
  - intros x y. unfold JsSort.equivb. apply andb_comm.
Qed.

(** ** The shares *)

Local Open Scope Q_scope.

Lemma fold_Qplus_share (l : list Q) (T a : Q) :
  ~ T == 0 -> fold_left Qplus (map (fun q => q / T * 100) l) a == a + fold_left Qplus l 0 / T * 100.
Proof.
  intros HT. revert a. induction l as [|x l IH]; intros a; simpl; [field; exact HT|].
  rewrite IH, (fold_Qplus_acc l (0 + x)). field. exact HT.
Qed.

End Categories.

Module CategoriesExamples.
Import Categories.

(** Ten purchases: an empty category ([Unknown]), an unreadable amount
    ([0]), two categories tied at 20 and more than six categories. *)
Definition shop_csv : string :=
  "Merchant Type,Amount" ++ nl ++ "food,10" ++ nl ++ "rent,30" ++ nl ++ ",5" ++ nl ++ "food,abc" ++ nl ++
  "fuel,20" ++ nl ++ "food,15" ++ nl ++ "a,1" ++ nl ++ "b,1" ++ nl ++ "c,2" ++ nl ++ "d,20".

Definition shop : dataset :=
  match parseCSV shop_csv with JsResult.Ok ds => ds | JsResult.Throw _ => mk_dataset [] [] EmptyString end.

Definition card (c : string) (a : Q) (p : string) : category_card :=
  {| card_category := c; card_amount := Fin a; card_percentage := Some p |}.

(** [fuel] and [d] tie at 20 and keep their order of first appearance;
    [a] and [b] are left out; the shares are of 102. *)
Example shop_cards :
  displaySpendingCategories shop =
  CategoryCards [card "rent" 30 "29.4"; card "food" 25 "24.5"; card "fuel" 20 "19.6";
                 card "d" 20 "19.6"; card "Unknown" 5 "4.9"; card "c" 2 "2.0"].
Proof. vm_compute. reflexivity. Qed.

(** A refund makes the six totals add up to less than one of them:
    shares of [200.0] and [-100.0] percent. *)
Example refund_shares :
  displaySpendingCategories (mk_dataset ["category"; "amount"]
    [[("category", "sale"); ("amount", "10")]; [("category", "refund"); ("amount", "-5")]] EmptyString) =
  CategoryCards [card "sale" 10 "200.0"; card "refund" (-5) "-100.0"].
Proof. vm_compute. reflexivity. Qed.

Definition shop_map : @JsMap.t num := categoryMap "Merchant Type" (Some "Amount") (data shop).

Lemma sortedCategories_top_witness :
  (List.length (sortedCategories shop_map) <= 6)%nat /\
  Sorted (fun p q => lt (snd p) (snd q) = false) (sortedCategories shop_map) /\
  exists rest, Permutation shop_map (sortedCategories shop_map ++ rest)%list /\
    forall p q, In p (sortedCategories shop_map) -> In q rest -> lt (snd p) (snd q) = false.
Proof. apply sortedCategories_top. vm_compute. repeat constructor. Defined.

Lemma sortedCategories_ties_witness :
  exists rest, (filter (fun p => JsSort.equivb cat_gtb p ("fuel", Fin 20)) (sortedCategories shop_map) ++ rest)%list =
               filter (fun p => JsSort.equivb cat_gtb p ("fuel", Fin 20)) shop_map.
Proof. apply sortedCategories_ties; [vm_compute; repeat constructor | reflexivity]. Defined.

End CategoriesExamples.
