(* ===== verification/Summary.v ===== *)
(** * Transaction summary and fraud split

    [displayTransactionSummary] (dashboard.js, lines 676-719) counts the
    rows and, for the first header naming an amount ([amount], [value],
    [price] or [cost]), adds up the cells [parseFloat] reads and takes
    their mean.  [displayFraudAnalysis] (538-590) takes the first header
    naming a label ([fraud], [is_fraud], [class] or [target]), counts the
    non-empty labels [1], [true], [fraud] or [yes] (in any case) as
    fraudulent and the other non-empty ones as legitimate, and prints
    both shares with [toFixed(2)].

    The numbers are modelled before [toLocaleString], whose output
    depends on the browser's locale. *)

From Stdlib Require Import String Ascii QArith Lia Lqa Bool PeanoNat ZArith List.
From S2P Require Import Prelude JsString JsNumber Csv Quality TypeInference Stats Categories.
Import ListNotations JsNumber Csv Inference.
Open Scope string_scope.

Module Summary.
Import Stats Categories.

Definition summary_amount_keys : list string := ["amount"; "value"; "price"; "cost"].

Definition amountColumns (ds : dataset) : list string :=
  filter (header_matches summary_amount_keys) (headers ds).

Record summary_view := {
  totalTransactions : nat;
  totalAmount : num;
  averageAmount : num
}.

(** [displayTransactionSummary(dataset)] *)
Definition displayTransactionSummary (ds : dataset) : summary_view :=
  let totalTransactions := List.length (data ds) in
  match amountColumns ds with
  | amountColumn :: _ =>
      let amounts := column_numbers ds amountColumn in
      match amounts with
      | _ :: _ =>
          let totalAmount := sum amounts in
          {| totalTransactions := totalTransactions; totalAmount := totalAmount;
             averageAmount := div totalAmount (of_nat (List.length amounts)) |}
      | [] => {| totalTransactions := totalTransactions; totalAmount := Fin 0; averageAmount := Fin 0 |}
      end
  | [] => {| totalTransactions := totalTransactions; totalAmount := Fin 0; averageAmount := Fin 0 |}
  end.

(** when the amount column has parsed values, all finite, the total
    is their sum and the average lies between their minimum and maximum. *)
Theorem displayTransactionSummary_average (ds : dataset) (col : string) (rest : list string) :
  amountColumns ds = col :: rest -> column_numbers ds col <> [] ->
  Forall (fun v => is_finite v = true) (column_numbers ds col) ->
  totalAmount (displayTransactionSummary ds) = sum (column_numbers ds col) /\
  exists m M a, math_min (column_numbers ds col) = Fin m /\ math_max (column_numbers ds col) = Fin M /\
    averageAmount (displayTransactionSummary ds) = Fin a /\ (m <= a <= M)%Q.
Proof.
  intros Hcols Hne Hf. unfold displayTransactionSummary. rewrite Hcols.
  destruct (column_numbers ds col) as [|v vs] eqn:E; [contradiction|]. split; [reflexivity|].
  destruct (finite_list _ Hf) as [[|q qs] Eq]; [discriminate|]. rewrite Eq.
  destruct (math_min_fin q qs) as [m [Em Hm]], (math_max_fin q qs) as [M [EM HM]].
  destruct (mean_between (q :: qs) m M) as [a [Ea Ha]]; [discriminate| |].
  { rewrite Forall_forall in *. intros x Hx. split; auto. }
  exists m, M, a. cbn [averageAmount]. rewrite Ea. auto.
Qed.

End Summary.

Module Fraud.
Import Categories Quality.

Definition fraud_keys : list string := ["fraud"; "is_fraud"; "class"; "target"].

Definition fraudColumns (ds : dataset) : list string :=
  filter (header_matches fraud_keys) (headers ds).

(** [v.toString().toLowerCase() === '1' || ... === 'yes'] *)
Definition is_fraud_label (v : string) : bool :=
  let l := JsString.to_lower v in
  String.eqb l "1" || String.eqb l "true" || String.eqb l "fraud" || String.eqb l "yes".

(** [totalCount > 0 ? ((count / totalCount) * 100).toFixed(2) : 0] *)
Definition pct (count total : nat) : num := mul (div (of_nat count) (of_nat total)) (Fin 100).

Definition pct_text (count total : nat) : option string :=
  if Nat.ltb 0 total then to_fixed 2 (pct count total) else Some "0".

Inductive fraud_view :=
  | FraudCards (fraudCount legitimateCount : nat) (fraudPercentage legitimatePercentage : option string)
  | TransactionCount (total : nat).

(** [displayFraudAnalysis(dataset)] *)
Definition displayFraudAnalysis (ds : dataset) : fraud_view :=
  match fraudColumns ds with
  | fraudColumn :: _ =>
      let fraudValues := column_values ds fraudColumn in
      let fraudCount := List.length (filter is_fraud_label fraudValues) in
      let totalCount := List.length fraudValues in
      let legitimateCount := totalCount - fraudCount in
      FraudCards fraudCount legitimateCount (pct_text fraudCount totalCount) (pct_text legitimateCount totalCount)
  | [] => TransactionCount (List.length (data ds))
  end.

Lemma is_fraud_cells (ds : dataset) (col : string) :
  List.length (column_values ds col) = List.length (filter (fun row => negb (cell_empty row col)) (data ds)).
Proof. apply column_values_length. Qed.

(** C38: with a label column, the fraudulent and legitimate counts add up
    to the number of rows whose label cell is not empty (the rows
    [displayMissingValues] does not count as missing). *)
Theorem displayFraudAnalysis_counts (ds : dataset) (col : string) (rest : list string) :
  fraudColumns ds = col :: rest ->
  exists f l fp lp, displayFraudAnalysis ds = FraudCards f l fp lp /\
    f = List.length (filter is_fraud_label (column_values ds col)) /\
    (f + l = List.length (data ds) - missingCount ds col)%nat.
Proof.
  intros Hcols. unfold displayFraudAnalysis. rewrite Hcols. do 4 eexists. split; [reflexivity|].
  split; [reflexivity|]. pose proof (filter_length_le is_fraud_label (column_values ds col)).
  rewrite is_fraud_cells in *. unfold missingCount.
  pose proof (filter_length (fun row => negb (cell_empty row col)) (data ds)) as Hf.
  rewrite (filter_ext (fun x => negb (negb (cell_empty x col))) (fun row => cell_empty row col)) in Hf
    by (intros; apply negb_involutive).
  lia.
Qed.

(** for [f <= t] and [t > 0], the two shares [f / t * 100] and
    [(t - f) / t * 100] lie in [0, 100] and add up to exactly 100 (before
    [toFixed(2)]). *)
Theorem pct_complement (f t : nat) :
  (f <= t)%nat -> (0 < t)%nat ->
  exists p q, pct f t = Fin p /\ pct (t - f) t = Fin q /\ (0 <= p <= 100)%Q /\ (0 <= q <= 100)%Q /\ (p + q == 100)%Q.
Proof.
  intros Hf Ht. destruct (share_bounds f t Hf Ht) as [p [Ep Hp]].
  destruct (share_bounds (t - f) t ltac:(lia) Ht) as [q [Eq Hq]].
  exists p, q. unfold pct. rewrite Ep, Eq. repeat split; try apply Hp; try apply Hq.
  unfold pct in *. rewrite div_of_nat_pos in Ep, Eq by exact Ht. injection Ep as <-. injection Eq as <-.
  rewrite Nat2Z.inj_sub by exact Hf. unfold Z.sub. rewrite inject_Z_plus, inject_Z_opp. pose proof (inject_nat_pos t Ht). field. lra.
Qed.

End Fraud.

Module FraudExamples.
Import Fraud Quality.

(** One fraudulent label in 32: the exact shares [3.125] and [96.875]
    both round up, and the two texts add up to [100.01]. *)
Example rounded_shares_overshoot :
  pct_text 1 32 = Some "3.13" /\ pct_text 31 32 = Some "96.88".
Proof. vm_compute. split; reflexivity. Qed.

Definition labels : dataset :=
  mk_dataset ["id"; "Is_Fraud"]
    [[("id", "1"); ("Is_Fraud", "YES")]; [("id", "2"); ("Is_Fraud", "0")];
     [("id", "3"); ("Is_Fraud", " ")]; [("id", "4"); ("Is_Fraud", "True")]] EmptyString.

Example labels_view : displayFraudAnalysis labels = FraudCards 2 1 (Some "66.67") (Some "33.33").
Proof. vm_compute. reflexivity. Qed.

Lemma displayFraudAnalysis_counts_witness :
  exists f l fp lp, displayFraudAnalysis labels = FraudCards f l fp lp /\
    f = List.length (filter is_fraud_label (column_values labels "Is_Fraud")) /\
    (f + l = List.length (data labels) - missingCount labels "Is_Fraud")%nat.
Proof. apply (displayFraudAnalysis_counts labels "Is_Fraud" []). reflexivity. Defined.

Lemma pct_complement_witness :
  exists p q, pct 1 32 = Fin p /\ pct (32 - 1) 32 = Fin q /\ (0 <= p <= 100)%Q /\ (0 <= q <= 100)%Q /\
              (p + q == 100)%Q.
Proof. apply pct_complement; lia. Defined.

End FraudExamples.

Module SummaryExamples.
Import Summary.

Lemma displayTransactionSummary_average_witness :
  totalAmount (displayTransactionSummary sample_dataset) = sum (Stats.column_numbers sample_dataset "amount") /\
  exists m M a, math_min (Stats.column_numbers sample_dataset "amount") = Fin m /\
    math_max (Stats.column_numbers sample_dataset "amount") = Fin M /\
    averageAmount (displayTransactionSummary sample_dataset) = Fin a /\ (m <= a <= M)%Q.
Proof.
  apply (displayTransactionSummary_average sample_dataset "amount" []);
    [reflexivity | vm_compute; discriminate | vm_compute; repeat constructor].
Defined.

End SummaryExamples.
