(* ===== verification/Analysis.v ===== *)
(** * The analysis run and the basic statistics

    [performDatasetAnalysis] (dashboard.js, lines 329-358) renders nine
    views of the parsed table, one after the other; none of them reads
    what another writes, so the run is the record of the nine views.
    [displayBasicStatistics] (361-378) shows the numbers of rows and
    columns and two sizes through [formatFileSize] (795-801): the length
    of the raw text and the length of [JSON.stringify(data)].

    [formatFileSize] picks the unit with [Math.floor(Math.log(bytes) /
    Math.log(1024))]; the model takes the exact value of that quotient,
    [floor(log2 bytes / 10)] (binary64 logarithms are not modelled).  It
    then prints [parseFloat((bytes / 1024^i).toFixed(2))]: [toFixed] is
    [JsNumber.to_fixed], [parseFloat] is [JsNumber.parse_float], and the
    number is turned back into text by [decimal_string], which is
    [Number::toString] on numbers with at most two decimals (the only
    ones [parseFloat] returns here): no trailing zero, no point for an
    integer. *)

From Stdlib Require Import String Ascii QArith Qround Lia Lqa Bool PeanoNat ZArith NArith List.
From S2P Require Import Prelude JsString JsNumber Csv Quality TypeInference Stats Correlation Categories Summary.
Import ListNotations JsNumber Csv Quality Inference.
Open Scope string_scope.

Module Analysis.

(** ** [formatFileSize] *)

Definition sizes : list string := ["Bytes"; "KB"; "MB"; "GB"].

(** [Math.floor(Math.log(bytes) / Math.log(1024))] for [bytes >= 1]. *)
Definition unit_index (bytes : N) : nat := N.to_nat (N.log2 bytes / 10).

(** [Number::toString] of a number with at most two decimals. *)
Definition decimal_string (x : num) : string :=
  match x with
  | NaN => "NaN"
  | PInf => "Infinity"
  | NInf => "-Infinity"
  | Fin q =>
      let n := Qfloor (q * 100) in
      let a := Z.abs n in
      let ip := digits_string (Z.to_N (a / 100)) in
      let fp := (a mod 100)%Z in
      let frac := if Z.eqb fp 0 then EmptyString
                  else if Z.eqb (fp mod 10) 0 then "." ++ digits_string (Z.to_N (fp / 10))
                  else "." ++ (if Z.ltb fp 10 then "0" else EmptyString) ++ digits_string (Z.to_N fp) in
      (if Z.ltb n 0 then "-" else EmptyString) ++ ip ++ frac
  end.

(** [formatFileSize(bytes)]; [sizes[i]] past the end is [undefined]. *)
Definition formatFileSize (bytes : N) : string :=
  if N.eqb bytes 0 then "0 Bytes"
  else
    let i := unit_index bytes in
    let value := div (Fin (inject_Z (Z.of_N bytes))) (Fin (inject_Z (1024 ^ Z.of_nat i))) in
    let shown := match to_fixed 2 value with Some t => decimal_string (parse_float t) | None => EmptyString end in
    shown ++ " " ++ match nth_error sizes i with Some u => u | None => "undefined" end.

Lemma pow1024 (k : N) : (1024 ^ k = 2 ^ (10 * k))%N.
Proof. rewrite N.pow_mul_r. reflexivity. Qed.

(** for [bytes > 0] the unit index [i] is the exact floor of
    [log_1024 bytes]: [1024^i <= bytes < 1024^(i+1)]; the unit is one of
    the four names exactly when [bytes < 1024^4]. *)
Theorem unit_index_spec (bytes : N) :
  (0 < bytes)%N ->
  (1024 ^ N.of_nat (unit_index bytes) <= bytes < 1024 ^ N.of_nat (S (unit_index bytes)))%N /\
  ((bytes < 1024 ^ 4)%N <-> nth_error sizes (unit_index bytes) <> None).
Proof.
  intros Hb. destruct (N.log2_spec bytes Hb) as [Hlo Hhi].
  unfold unit_index. rewrite Nat2N.inj_succ, !N2Nat.id, !pow1024.
  set (l := N.log2 bytes) in *. clearbody l.
  pose proof (N.div_mod l 10 ltac:(discriminate)) as Hdm. pose proof (N.mod_lt l 10 ltac:(discriminate)) as Hml.
  set (d := (l / 10)%N) in *. set (r := (l mod 10)%N) in *. clearbody d r.
  assert (Hle : (10 * d <= l)%N) by lia.
  assert (Hlt : (N.succ l <= 10 * N.succ d)%N) by lia.
  assert (Hpow : (2 ^ (10 * d) <= bytes < 2 ^ (10 * N.succ d))%N).
  { split.
    - apply N.le_trans with (2 ^ l)%N; [apply N.pow_le_mono_r; lia | exact Hlo].
    - apply N.lt_le_trans with (2 ^ N.succ l)%N; [exact Hhi | apply N.pow_le_mono_r; lia]. }
  split; [exact Hpow|]. rewrite nth_error_Some. unfold sizes. cbn [List.length].
  split; intros H.
  - assert (d < 4)%N.
    { destruct (N.lt_ge_cases d 4) as [L|L]; [exact L|]. exfalso.
      assert (2 ^ (10 * 4) <= 2 ^ (10 * d))%N by (apply N.pow_le_mono_r; lia). lia. }
    lia.
  - apply N.lt_le_trans with (2 ^ (10 * N.succ d))%N; [apply Hpow | apply N.pow_le_mono_r; lia].
Qed.

(** ** [displayBasicStatistics] *)

(** [JSON.stringify(data)] for an array of rows. *)
Definition json_stringify_rows (rows : list obj) : string :=
  "[" ++ JsString.join "," (map json_stringify_obj rows) ++ "]".

Record basic_stats := {
  total_rows : nat;
  total_columns : nat;
  file_size : string;
  memory_usage : string
}.

Definition displayBasicStatistics (ds : dataset) : basic_stats :=
  {| total_rows := List.length (data ds);
     total_columns := List.length (headers ds);
     file_size := formatFileSize (N.of_nat (String.length (rawText ds)));
     memory_usage := formatFileSize (N.of_nat (String.length (json_stringify_rows (data ds)))) |}.

(** ** [performDatasetAnalysis] *)

Section Run.
Context `{DateParse}.

Record analysis := {
  an_basic : basic_stats;
  an_quality : quality_view;
  an_columns : list column_info;
  an_distribution : list Stats.distribution;
  an_correlation : Correlation.corr_view;
  an_missing : list missing_entry;
  an_fraud : Fraud.fraud_view;
  an_summary : Summary.summary_view;
  an_categories : Categories.categories_view
}.

Definition performDatasetAnalysis (ds : dataset) : analysis :=
  {| an_basic := displayBasicStatistics ds;
     an_quality := displayDataQuality ds;
     an_columns := displayColumnAnalysis ds;
     an_distribution := Stats.displayDataDistribution ds;
     an_correlation := Correlation.displayCorrelationAnalysis ds;
     an_missing := displayMissingValues ds;
     an_fraud := Fraud.displayFraudAnalysis ds;
     an_summary := Summary.displayTransactionSummary ds;
     an_categories := Categories.displaySpendingCategories ds |}.

End Run.

End Analysis.

Module AnalysisExamples.
Import Analysis.

(** [formatFileSize] on sizes around the units: [1048575] bytes round
    to [1024 KB] rather than [1 MB], and [2^40] bytes read
    [1 undefined]. *)
Example formatFileSize_examples :
  map formatFileSize [0; 1023; 1024; 1536; 1048575; 1048576; 5000000; 1099511627776]%N =
  ["0 Bytes"; "1023 Bytes"; "1 KB"; "1.5 KB"; "1024 KB"; "1 MB"; "4.77 MB"; "1 undefined"].
Proof. vm_compute. reflexivity. Qed.

Example sample_basic_stats :
  displayBasicStatistics sample_dataset =
  {| total_rows := 2; total_columns := 3; file_size := "48 Bytes"; memory_usage := "86 Bytes" |}.
Proof. vm_compute. reflexivity. Qed.

Lemma unit_index_spec_witness :
  (1024 ^ N.of_nat (unit_index 1048575) <= 1048575 < 1024 ^ N.of_nat (S (unit_index 1048575)))%N /\
  ((1048575 < 1024 ^ 4)%N <-> nth_error sizes (unit_index 1048575) <> None).
Proof. apply unit_index_spec. reflexivity. Defined.

End AnalysisExamples.
