(* ===== verification/Upload.v ===== *)
(** * The upload page as a state machine

    [handleFileSelect], [handleDragOver], [handleDragLeave], [handleDrop]
    and [processCSVFile] (dashboard.js, lines 220-276) with
    [showUploadProgress], [hideUploadProgress] and [showAnalysisResults]
    (297-326).  A CSV file starts a [FileReader]; its [onload] callback
    runs later, parses the text, stores the table in [currentDataset],
    renders the analysis and shows the results, or alerts when parsing
    throws.  Every selected file starts its own reader and nothing
    cancels the earlier ones, so callbacks may run in any order.  A
    read can also fail (the file is gone or unreadable): the reader
    then fires [error] and [loadend], not [load], and the code sets no
    [onerror], so nothing runs at all.

    The page state is a record; each handler is a function on it and
    [step] runs one event, a user action, the [onload] of one pending
    reader or the failure of one; [reachable] is the set of states a session can reach.  The
    timer of the animated progress bar ([setInterval] with
    [Math.random]) is Progress's, and UploadProgress composes the two;
    [console.error] is not modelled. *)

From Stdlib Require Import String Ascii Lia Bool PeanoNat List Permutation.
From S2P Require Import Prelude JsString JsNumber Csv TypeInference Analysis.
Import ListNotations Csv Analysis.
Open Scope string_scope.

Module Upload.

Section Page.
Context `{DateParse}.

(** A [File]: its MIME type and its text. *)
Record js_file := { file_type : string; file_text : string }.

Record state := {
  currentDataset : option dataset;
  progressShown : bool;          (** [#uploadProgress] shown, [#fileUploadArea] hidden *)
  resultsShown : bool;           (** [#analysisResults] shown *)
  rendered : option Analysis.analysis;  (** what [performDatasetAnalysis] last wrote *)
  dragover : bool;               (** the [dragover] class of the upload area *)
  alerts : list string;          (** the [alert] messages, oldest first *)
  pending : list (nat * string); (** started readers, by number, with the text they read *)
  nextRead : nat
}.

Definition init : state :=
  {| currentDataset := None; progressShown := false; resultsShown := false; rendered := None;
     dragover := false; alerts := []; pending := []; nextRead := 0 |}.

Definition with_progress (b : bool) (st : state) : state :=
  {| currentDataset := currentDataset st; progressShown := b; resultsShown := resultsShown st;
     rendered := rendered st; dragover := dragover st; alerts := alerts st; pending := pending st;
     nextRead := nextRead st |}.

Definition with_dragover (b : bool) (st : state) : state :=
  {| currentDataset := currentDataset st; progressShown := progressShown st; resultsShown := resultsShown st;
     rendered := rendered st; dragover := b; alerts := alerts st; pending := pending st;
     nextRead := nextRead st |}.

Definition alert (msg : string) (st : state) : state :=
  {| currentDataset := currentDataset st; progressShown := progressShown st; resultsShown := resultsShown st;
     rendered := rendered st; dragover := dragover st; alerts := alerts st ++ [msg]; pending := pending st;
     nextRead := nextRead st |}.

Definition showUploadProgress (st : state) : state := with_progress true st.
Definition hideUploadProgress (st : state) : state := with_progress false st.

(** [showAnalysisResults()]: [#analysisResults] shown. *)
Definition showAnalysisResults (st : state) : state :=
  {| currentDataset := currentDataset st; progressShown := progressShown st; resultsShown := true;
     rendered := rendered st; dragover := dragover st; alerts := alerts st; pending := pending st;
     nextRead := nextRead st |}.

(** [processCSVFile(file)]: show the progress, start a reader. *)
Definition processCSVFile (f : js_file) (st : state) : state :=
  let st := showUploadProgress st in
  {| currentDataset := currentDataset st; progressShown := progressShown st; resultsShown := resultsShown st;
     rendered := rendered st; dragover := dragover st; alerts := alerts st;
     pending := pending st ++ [(nextRead st, file_text f)]; nextRead := S (nextRead st) |}.

Definition is_csv (f : js_file) : bool := String.eqb (file_type f) "text/csv".

Definition select_alert : string := "Please select a valid CSV file!".
Definition drop_alert : string := "Please drop a valid CSV file!".
Definition parse_alert : string := "Error processing CSV file. Please check the file format.".

(** [handleFileSelect(event)] with [event.target.files[0]]. *)
Definition handleFileSelect (file : option js_file) (st : state) : state :=
  match file with
  | Some f => if is_csv f then processCSVFile f st else alert select_alert st
  | None => st
  end.

Definition handleDragOver (st : state) : state := with_dragover true st.
Definition handleDragLeave (st : state) : state := with_dragover false st.

(** [handleDrop(event)] with [event.dataTransfer.files]. *)
Definition handleDrop (files : list js_file) (st : state) : state :=
  let st := with_dragover false st in
  match files with
  | f :: _ => if is_csv f then processCSVFile f st else alert drop_alert st
  | [] => alert drop_alert st
  end.

(** [reader.onload]: the [try] block, or the [catch] block when
    [parseCSV] throws. *)
Definition onload (text : string) (st : state) : state :=
  match parseCSV text with
  | JsResult.Ok ds =>
      let st := hideUploadProgress
                  {| currentDataset := Some ds; progressShown := progressShown st; resultsShown := resultsShown st;
                     rendered := rendered st; dragover := dragover st; alerts := alerts st;
                     pending := pending st; nextRead := nextRead st |} in
      let st := {| currentDataset := currentDataset st; progressShown := progressShown st; resultsShown := resultsShown st;
                   rendered := Some (Analysis.performDatasetAnalysis ds); dragover := dragover st;
                   alerts := alerts st; pending := pending st; nextRead := nextRead st |} in
      showAnalysisResults st
  | JsResult.Throw _ => hideUploadProgress (alert parse_alert st)
  end.

(** The reader numbered [id] finishes: it leaves the pending list and
    its callback runs. *)
Definition finish_read (id : nat) (st : state) : state :=
  {| currentDataset := currentDataset st; progressShown := progressShown st; resultsShown := resultsShown st;
     rendered := rendered st; dragover := dragover st; alerts := alerts st;
     pending := filter (fun p => negb (Nat.eqb (fst p) id)) (pending st); nextRead := nextRead st |}.

Inductive event :=
  | SelectFile (f : option js_file)
  | DragOver
  | DragLeave
  | Drop (fs : list js_file)
  | ReadLoaded (id : nat)
  | ReadFailed (id : nat).

(** A reader's completion: [true] for a read that loads, [false] for
    one that fails. *)
Definition complete (c : nat * bool) : event :=
  if snd c then ReadLoaded (fst c) else ReadFailed (fst c).

(** One event; a reader that is not pending cannot complete.  A failed
    read only ends the reader: no handler of the code runs. *)
Definition step (st : state) (ev : event) : option state :=
  match ev with
  | SelectFile f => Some (handleFileSelect f st)
  | DragOver => Some (handleDragOver st)
  | DragLeave => Some (handleDragLeave st)
  | Drop fs => Some (handleDrop fs st)
  | ReadLoaded id =>
      match find (fun p => Nat.eqb (fst p) id) (pending st) with
      | Some (_, text) => Some (onload text (finish_read id st))
      | None => None
      end
  | ReadFailed id =>
      match find (fun p => Nat.eqb (fst p) id) (pending st) with
      | Some _ => Some (finish_read id st)
      | None => None
      end
  end.

Fixpoint run (st : state) (evs : list event) : option state :=
  match evs with
  | [] => Some st
  | ev :: evs' => match step st ev with Some st' => run st' evs' | None => None end
  end.

Inductive reachable : state -> Prop :=
  | reach_init : reachable init
  | reach_step (st st' : state) (ev : event) : reachable st -> step st ev = Some st' -> reachable st'.

(** ** The readers in flight *)

(** Reader numbers are distinct and below [nextRead].  (The progress
    bar may stay shown with no reader in flight: after a failed read.) *)
Definition wf (st : state) : Prop :=
  NoDup (map fst (pending st)) /\ Forall (fun p => fst p < nextRead st) (pending st).

Lemma alert_wf (m : string) (st : state) : wf st -> wf (alert m st).
Proof. exact (fun H => H). Qed.

Lemma dragover_wf (b : bool) (st : state) : wf st -> wf (with_dragover b st).
Proof. exact (fun H => H). Qed.

Lemma process_wf (f : js_file) (st : state) : wf st -> wf (processCSVFile f st).
Proof.
  intros (Hnd & Hlt). unfold wf, processCSVFile. cbn. split.
  - rewrite map_app. apply NoDup_app; [exact Hnd | constructor; [intros []|constructor] |].
    intros x Hx [Ex|[]]. simpl in Ex. subst x. rewrite Forall_forall in Hlt.
    apply in_map_iff in Hx as [[i t] [Ei Hin]]. specialize (Hlt _ Hin). simpl in Ei, Hlt. lia.
  - apply Forall_app. split; [|constructor; [simpl; lia | constructor]].
    eapply Forall_impl; [|exact Hlt]. intros p Hp. simpl in *. lia.
Qed.

Lemma finish_wf (id : nat) (st : state) : wf st -> wf (finish_read id st).
Proof.
  intros (Hnd & Hlt). split; cbn; [now apply NoDup_map_filter|].
  rewrite Forall_forall in *. intros p Hp. apply filter_In in Hp as [Hp _]. auto.
Qed.

Lemma onload_wf (text : string) (st : state) : wf st -> wf (onload text st).
Proof. intros W. unfold onload. destruct (parseCSV text); exact W. Qed.

Lemma step_wf (st st' : state) (ev : event) : wf st -> step st ev = Some st' -> wf st'.
Proof.
  intros W. destruct ev as [[f|]| | |fs|id|id]; cbn [step]; intros E.
  - injection E as <-. unfold handleFileSelect. destruct (is_csv f); [apply process_wf, W | exact (alert_wf select_alert st W)].
  - injection E as <-. exact W.
  - injection E as <-. apply dragover_wf, W.
  - injection E as <-. apply dragover_wf, W.
  - injection E as <-. unfold handleDrop. pose proof (dragover_wf false st W) as W'.
    destruct fs as [|f fs]; [|destruct (is_csv f); [apply process_wf, W'|]]; exact (alert_wf drop_alert _ W').
  - destruct (find _ (pending st)) as [[i text]|]; [|discriminate]. injection E as <-.
    apply onload_wf, finish_wf, W.
  - destruct (find _ (pending st)); [|discriminate]. injection E as <-. apply finish_wf, W.
Qed.

(** in every state a session reaches, the readers in flight have
    distinct numbers below [nextRead]. *)
Theorem reachable_wf (st : state) : reachable st -> wf st.
Proof.
  induction 1 as [|st st' ev _ IH E].
  - split; constructor.
  - exact (step_wf st st' ev IH E).
Qed.

(** ** The callbacks *)

Lemma onload_pending (text : string) (st : state) : pending (onload text st) = pending st.
Proof. unfold onload. destruct (parseCSV text); reflexivity. Qed.

(** C32: when reader [id] finishes, it leaves the readers in flight and
    the progress bar is hidden; if its text parses, the table becomes
    [currentDataset], its analysis is rendered and the results are
    shown; if [parseCSV] throws, the table and the rendered analysis
    stay as they were and one alert is added. *)
Theorem step_ReadLoaded (st st' : state) (id : nat) :
  step st (ReadLoaded id) = Some st' ->
  exists text, In (id, text) (pending st) /\ ~ In id (map fst (pending st')) /\ progressShown st' = false /\
  match parseCSV text with
  | JsResult.Ok ds => currentDataset st' = Some ds /\ rendered st' = Some (Analysis.performDatasetAnalysis ds) /\
                      resultsShown st' = true /\ alerts st' = alerts st
  | JsResult.Throw _ => currentDataset st' = currentDataset st /\ rendered st' = rendered st /\
                        alerts st' = (alerts st ++ [parse_alert])%list
  end.
Proof.
  cbn [step]. destruct (find _ _) as [[i text]|] eqn:E; [|discriminate]. intros H'. injection H' as <-.
  apply find_some in E as [Hin Heq]. apply Nat.eqb_eq in Heq. simpl in Heq. subst i.
  exists text. split; [exact Hin|].
  assert (Hgone : ~ In id (map fst (filter (fun p => negb (Nat.eqb (fst p) id)) (pending st)))).
  { intros Hin'. apply in_map_iff in Hin' as [[j t] [Ej Hj]]. apply filter_In in Hj as [_ Hj].
    simpl in Ej, Hj. subst j. rewrite Nat.eqb_refl in Hj. discriminate. }
  unfold onload. destruct (parseCSV text); cbn; repeat split; auto.
Qed.

(** ** Every upload settles *)

Lemma onload_hidden (text : string) (st : state) : progressShown (onload text st) = false.
Proof. unfold onload. destruct (parseCSV text); reflexivity. Qed.

(** The completion of a reader in flight: it leaves the readers in
    flight; a load hides the progress bar, a failure leaves it. *)
Lemma complete_pending (st : state) (c : nat * bool) :
  In (fst c) (map fst (pending st)) ->
  exists st', step st (complete c) = Some st' /\
    map fst (pending st') = filter (fun i => negb (Nat.eqb i (fst c))) (map fst (pending st)) /\
    progressShown st' = progressShown st && negb (snd c).
Proof.
  destruct c as [id ok]. cbn [fst snd]. intros Hin.
  destruct (find (fun p => Nat.eqb (fst p) id) (pending st)) as [[i text]|] eqn:E.
  - destruct ok; cbn [complete fst snd step]; rewrite E; eexists; (split; [reflexivity|]).
    + rewrite onload_pending, onload_hidden, andb_false_r. split; [apply map_fst_filter | reflexivity].
    + rewrite andb_true_r. split; [apply map_fst_filter | reflexivity].
  - apply in_map_iff in Hin as [[j t] [Ej Hj]]. cbn in Ej. subst j.
    apply (find_none _ _ E) in Hj. rewrite Nat.eqb_refl in Hj. discriminate.
Qed.

Lemma settles_wf (cs : list (nat * bool)) (st : state) :
  wf st -> Permutation (map fst cs) (map fst (pending st)) ->
  exists st', run st (map complete cs) = Some st' /\ pending st' = [] /\
    progressShown st' = progressShown st && forallb (fun c => negb (snd c)) cs.
Proof.
  revert st. induction cs as [|c cs IH]; intros st W Hp.
  - apply Permutation_nil in Hp. destruct (pending st) eqn:E; [|discriminate].
    exists st. split; [reflexivity|]. split; [exact E|]. cbn. rewrite andb_true_r. reflexivity.
  - change (map fst (c :: cs)) with (fst c :: map fst cs) in Hp.
    assert (Hin : In (fst c) (map fst (pending st))) by (eapply Permutation_in; [exact Hp | left; reflexivity]).
    destruct (complete_pending st c Hin) as (st' & Estep & Ep & Eshow).
    assert (Hnd : NoDup (fst c :: map fst cs)) by (eapply Permutation_NoDup; [symmetry; exact Hp | apply W]).
    inversion Hnd as [|? ? Hnotin _]; subst.
    cbn [map run]. rewrite Estep.
    destruct (IH st') as (st'' & E2 & Hpend & Hshow); [exact (step_wf st st' _ W Estep)| |].
    { rewrite Ep, <- (filter_notin (fst c) (map fst cs) Hnotin).
      replace (filter (fun i => negb (Nat.eqb i (fst c))) (map fst cs))
        with (filter (fun i => negb (Nat.eqb i (fst c))) (fst c :: map fst cs)) by (cbn; rewrite Nat.eqb_refl; reflexivity).
      apply Permutation_filter, Hp. }
    exists st''. split; [exact E2|]. split; [exact Hpend|]. rewrite Hshow, Eshow. cbn. symmetry. apply andb_assoc.
Qed.

(** C11: liveness of the upload page, with its failure path: from every
    state a session reaches, once each reader in flight has completed,
    in whatever order the browser runs them and each either loading or
    failing, no reader is in flight; the progress bar is then hidden
    exactly when it was hidden already or some read loaded.  A session
    whose reads all fail keeps the bar shown (and the upload area
    hidden) for good, since the code sets no [onerror]. *)
Theorem upload_settles (st : state) (cs : list (nat * bool)) :
  reachable st -> Permutation (map fst cs) (map fst (pending st)) ->
  exists st', run st (map complete cs) = Some st' /\ pending st' = [] /\
    progressShown st' = progressShown st && forallb (fun c => negb (snd c)) cs.
Proof. intros Hr. apply settles_wf, reachable_wf, Hr. Qed.

(** C27: two CSV uploads started one after the other race: their readers
    may finish in either order, and the one that finishes last decides
    [currentDataset], so the earlier file can replace the later one. *)
Theorem upload_race (f1 f2 : js_file) (d1 d2 : dataset) :
  is_csv f1 = true -> is_csv f2 = true ->
  parseCSV (file_text f1) = JsResult.Ok d1 -> parseCSV (file_text f2) = JsResult.Ok d2 ->
  (exists st, run init [SelectFile (Some f1); SelectFile (Some f2); ReadLoaded 1; ReadLoaded 0] = Some st /\
              currentDataset st = Some d1 /\ pending st = []) /\
  (exists st, run init [SelectFile (Some f1); SelectFile (Some f2); ReadLoaded 0; ReadLoaded 1] = Some st /\
              currentDataset st = Some d2 /\ pending st = []).
Proof.
  destruct f1 as [ty1 x1], f2 as [ty2 x2]. cbn [file_text]. intros C1 C2 P1 P2.
  unfold run, step, handleFileSelect. rewrite C1, C2.
  cbn -[parseCSV Analysis.performDatasetAnalysis onload]. rewrite !onload_pending.
  cbn -[parseCSV Analysis.performDatasetAnalysis onload]. unfold onload. rewrite P1, P2.
  split; eexists; (split; [reflexivity | split; reflexivity]).
Qed.

(** C39: a reader starts only for a file whose type is [text/csv], chosen
    or dropped first, and it reads that file's text; every other event
    leaves [nextRead] unchanged. *)
Theorem reader_only_for_csv (st st' : state) (ev : event) :
  step st ev = Some st' ->
  nextRead st' = nextRead st \/
  exists f, is_csv f = true /\ (ev = SelectFile (Some f) \/ exists fs, ev = Drop (f :: fs)) /\
    pending st' = (pending st ++ [(nextRead st, file_text f)])%list /\ nextRead st' = S (nextRead st).
Proof.
  destruct ev as [[f|]| | |fs|id|id]; cbn [step]; intros E.
  - injection E as <-. unfold handleFileSelect. destruct (is_csv f) eqn:C; [right | left; reflexivity].
    exists f. split; [exact C|]. split; [left; reflexivity | split; reflexivity].
  - injection E as <-. left. reflexivity.
  - injection E as <-. left. reflexivity.
  - injection E as <-. left. reflexivity.
  - injection E as <-. unfold handleDrop. destruct fs as [|f fs]; [left; reflexivity|].
    destruct (is_csv f) eqn:C; [right | left; reflexivity].
    exists f. split; [exact C|]. split; [right; exists fs; reflexivity | split; reflexivity].
  - destruct (find _ (pending st)) as [[i text]|]; [|discriminate]. injection E as <-. left.
    unfold onload. destruct (parseCSV text); reflexivity.
  - destruct (find _ (pending st)); [|discriminate]. injection E as <-. left. reflexivity.
Qed.

End Page.
End Upload.

Module UploadExamples.
Import Upload.

Definition csv1 : js_file := {| file_type := "text/csv"; file_text := "a" ++ nl ++ "1" |}.
Definition csv2 : js_file := {| file_type := "text/csv"; file_text := "b" ++ nl ++ "2" |}.
Definition sheet : js_file := {| file_type := "application/vnd.ms-excel"; file_text := "a" ++ nl ++ "1" |}.

Definition after (evs : list event) : state :=
  match run init evs with Some st => st | None => init end.

(** When the second upload's reader finishes first, the progress bar is
    hidden and the results shown while the first reader is still in
    flight; when that one finishes, its older table replaces the newer
    one. *)
Example race_progress :
  progressShown (after [SelectFile (Some csv1); SelectFile (Some csv2); ReadLoaded 1]) = false /\
  map fst (pending (after [SelectFile (Some csv1); SelectFile (Some csv2); ReadLoaded 1])) = [0] /\
  option_map headers (currentDataset (after [SelectFile (Some csv1); SelectFile (Some csv2); ReadLoaded 1; ReadLoaded 0]))
    = Some ["a"].
Proof. vm_compute. repeat split. Qed.

(** A file of another type only alerts; a cancelled selection does
    nothing, an empty drop alerts. *)
Example guards :
  alerts (after [SelectFile (Some sheet); SelectFile None; Drop []]) = [select_alert; drop_alert] /\
  pending (after [SelectFile (Some sheet); SelectFile None; Drop []]) = [].
Proof. vm_compute. split; reflexivity. Qed.

Lemma step_ReadLoaded_witness :
  exists text, In (0, text) (pending (after [SelectFile (Some csv1)])) /\
    ~ In 0 (map fst (pending (after [SelectFile (Some csv1); ReadLoaded 0]))) /\
    progressShown (after [SelectFile (Some csv1); ReadLoaded 0]) = false /\
    match parseCSV text with
    | JsResult.Ok ds => currentDataset (after [SelectFile (Some csv1); ReadLoaded 0]) = Some ds /\
        rendered (after [SelectFile (Some csv1); ReadLoaded 0]) = Some (Analysis.performDatasetAnalysis ds) /\
        resultsShown (after [SelectFile (Some csv1); ReadLoaded 0]) = true /\
        alerts (after [SelectFile (Some csv1); ReadLoaded 0]) = alerts (after [SelectFile (Some csv1)])
    | JsResult.Throw _ => currentDataset (after [SelectFile (Some csv1); ReadLoaded 0]) =
          currentDataset (after [SelectFile (Some csv1)]) /\
        rendered (after [SelectFile (Some csv1); ReadLoaded 0]) = rendered (after [SelectFile (Some csv1)]) /\
        alerts (after [SelectFile (Some csv1); ReadLoaded 0]) = (alerts (after [SelectFile (Some csv1)]) ++ [parse_alert])%list
    end.
Proof. apply step_ReadLoaded. vm_compute. reflexivity. Defined.

Lemma upload_race_witness :
  (exists st, run init [SelectFile (Some csv1); SelectFile (Some csv2); ReadLoaded 1; ReadLoaded 0] = Some st /\
              currentDataset st = Some (mk_dataset ["a"] [[("a", "1")]] (file_text csv1)) /\ pending st = []) /\
  (exists st, run init [SelectFile (Some csv1); SelectFile (Some csv2); ReadLoaded 0; ReadLoaded 1] = Some st /\
              currentDataset st = Some (mk_dataset ["b"] [[("b", "2")]] (file_text csv2)) /\ pending st = []).
Proof. apply upload_race; reflexivity. Defined.

Lemma reader_only_for_csv_witness :
  nextRead (after [Drop [csv2; sheet]]) = nextRead init \/
  exists f, is_csv f = true /\ (Drop [csv2; sheet] = SelectFile (Some f) \/ exists fs, Drop [csv2; sheet] = Drop (f :: fs)) /\
    pending (after [Drop [csv2; sheet]]) = (pending init ++ [(nextRead init, file_text f)])%list /\
    nextRead (after [Drop [csv2; sheet]]) = S (nextRead init).
Proof. apply (reader_only_for_csv init (after [Drop [csv2; sheet]]) (Drop [csv2; sheet])). vm_compute. reflexivity. Defined.

Lemma two_uploads_reachable : reachable (after [SelectFile (Some csv1); SelectFile (Some csv2)]).
Proof.
  apply (reach_step (after [SelectFile (Some csv1)]) _ (SelectFile (Some csv2))); [|reflexivity].
  apply (reach_step init _ (SelectFile (Some csv1))); [exact reach_init | reflexivity].
Qed.

Lemma reachable_wf_witness : wf (after [SelectFile (Some csv1); SelectFile (Some csv2); ReadLoaded 1]).
Proof.
  apply reachable_wf.
  apply (reach_step (after [SelectFile (Some csv1); SelectFile (Some csv2)]) _ (ReadLoaded 1));
    [exact two_uploads_reachable | vm_compute; reflexivity].
Defined.

(** A read that fails leaves the progress bar shown with no reader
    in flight and no alert. *)
Example failed_read_stuck :
  progressShown (after [SelectFile (Some csv1); ReadFailed 0]) = true /\
  pending (after [SelectFile (Some csv1); ReadFailed 0]) = [] /\
  alerts (after [SelectFile (Some csv1); ReadFailed 0]) = [].
Proof. vm_compute. repeat split. Qed.

(** Two uploads in flight: the second read loads, the first fails,
    in that order; the bar ends hidden. *)
Lemma upload_settles_witness :
  exists st', run (after [SelectFile (Some csv1); SelectFile (Some csv2)]) (map complete [(1, true); (0, false)]) = Some st' /\
    pending st' = [] /\
    progressShown st' = progressShown (after [SelectFile (Some csv1); SelectFile (Some csv2)]) &&
                        forallb (fun c => negb (snd c)) [(1, true); (0, false)].
Proof.
  apply upload_settles; [exact two_uploads_reachable|]. vm_compute. apply perm_swap.
Defined.

End UploadExamples.
