(* ===== verification/Progress.v ===== *)
(** * The simulated upload progress bar

    [showUploadProgress] (dashboard.js, lines 297-315) starts a
    [setInterval] timer whose callback adds [Math.random() * 15] to a
    [progress] variable of its own closure, and at [100] or more clamps
    it, clears the timer and writes "Processing dataset..."; every call
    writes [progress + '%'] as the width of [#progressFill].  Nothing
    else clears the timer: [hideUploadProgress] only hides the bar, and
    a second upload starts a second timer beside the first.

    A [bar] holds the live timers with their [progress], the number the
    next timer gets, the width last written (the number before ['%'])
    and the text last written ([None]: as the page was loaded).  [tick]
    is one call of a live timer's callback with the value
    [Math.random()] returned; [step] runs an event, a new
    [showUploadProgress] or a tick with a value in [[0, 1)] as
    [Math.random] gives it.  The page flags [showUploadProgress] also
    sets are Upload's; binary64 rounding is not modelled.

    Theorems: every reachable bar keeps its numbers in [[0, 100]]; a
    timer's [progress] never decreases; a timer whose random values stay
    above some [eps > 0] is cleared within any number [N] of ticks with
    [progress + 15 N eps >= 100], and then the bar is full with its
    final text. *)

From Stdlib Require Import String List Bool PeanoNat ZArith QArith Lqa Lia Permutation.
From S2P Require Import Prelude.
Import ListNotations.
Open Scope string_scope.

Module Progress.

Record bar := {
  intervals : list (nat * Q);  (** live timers: id and the [progress] of their closure *)
  next_timer : nat;
  fill : option Q;             (** [progressFill.style.width], without the ['%'] *)
  text : option string         (** [progressText.textContent] *)
}.

Definition init : bar := {| intervals := []; next_timer := 0; fill := None; text := None |}.

Definition processing : string := "Processing dataset...".

(** [showUploadProgress()]: [let progress = 0] and a new timer. *)
Definition showUploadProgress (b : bar) : bar :=
  {| intervals := intervals b ++ [(next_timer b, 0%Q)]; next_timer := S (next_timer b);
     fill := fill b; text := text b |}.

Definition progress_of (id : nat) (b : bar) : option Q :=
  option_map snd (find (fun e => Nat.eqb (fst e) id) (intervals b)).

Definition set_progress (id : nat) (p : Q) (l : list (nat * Q)) : list (nat * Q) :=
  map (fun e => if Nat.eqb (fst e) id then (id, p) else e) l.

Definition clear_interval (id : nat) (l : list (nat * Q)) : list (nat * Q) :=
  filter (fun e => negb (Nat.eqb (fst e) id)) l.

(** One call of the callback of timer [id], [Math.random()] returning
    [r]; a cleared timer's callback never runs. *)
Definition tick (id : nat) (r : Q) (b : bar) : option bar :=
  match progress_of id b with
  | None => None
  | Some progress =>
      let progress := (progress + r * 15)%Q in
      if Qle_bool 100 progress then
        Some {| intervals := clear_interval id (intervals b); next_timer := next_timer b;
                fill := Some 100%Q; text := Some processing |}
      else
        Some {| intervals := set_progress id progress (intervals b); next_timer := next_timer b;
                fill := Some progress; text := text b |}
  end.

Inductive event := Start | Tick (id : nat) (r : Q).

(** [Math.random()] returns a value in [[0, 1)]. *)
Definition random_ok (r : Q) : bool := Qle_bool 0 r && negb (Qle_bool 1 r).

Definition step (b : bar) (ev : event) : option bar :=
  match ev with
  | Start => Some (showUploadProgress b)
  | Tick id r => if random_ok r then tick id r b else None
  end.

Fixpoint run (b : bar) (evs : list event) : option bar :=
  match evs with
  | [] => Some b
  | ev :: evs' => match step b ev with Some b' => run b' evs' | None => None end
  end.

Inductive reachable : bar -> Prop :=
  | reach_init : reachable init
  | reach_step (b b' : bar) (ev : event) : reachable b -> step b ev = Some b' -> reachable b'.

(** Ticks of timer [id] with the random values [rs], until it is
    cleared: the number of ticks taken and the bar then, or [None] when
    the values run out first. *)
Fixpoint drive (id : nat) (rs : list Q) (b : bar) : option (nat * bar) :=
  match rs with
  | [] => None
  | r :: rs' =>
      match tick id r b with
      | None => None
      | Some b' =>
          match progress_of id b' with
          | None => Some (1, b')
          | Some _ => option_map (fun kb => (S (fst kb), snd kb)) (drive id rs' b')
          end
      end
  end.

(** ** The timers' bookkeeping *)

Local Open Scope Q_scope.

Definition wf (b : bar) : Prop :=
  NoDup (map fst (intervals b)) /\
  (forall id p, In (id, p) (intervals b) -> 0 <= p < 100 /\ (id < next_timer b)%nat) /\
  (forall f, fill b = Some f -> 0 <= f <= 100).

Lemma find_fst_some (id : nat) (l : list (nat * Q)) (e : nat * Q) :
  find (fun e => Nat.eqb (fst e) id) l = Some e -> In e l /\ fst e = id.
Proof. intros E. apply find_some in E as [Hin Heq]. split; [exact Hin | apply Nat.eqb_eq, Heq]. Qed.

Lemma progress_of_In (id : nat) (p : Q) (b : bar) : progress_of id b = Some p -> In (id, p) (intervals b).
Proof.
  unfold progress_of. destruct (find _ _) as [[j q]|] eqn:E; cbn; [|discriminate].
  intros [= <-]. apply find_fst_some in E as [Hin <-]. exact Hin.
Qed.

Lemma progress_of_none (id : nat) (b : bar) : progress_of id b = None -> ~ In id (map fst (intervals b)).
Proof.
  unfold progress_of. destruct (find _ _) eqn:E; cbn; [discriminate|]. intros _ Hin.
  apply in_map_iff in Hin as [[j q] [<- Hj]]. eapply find_none in E; [|exact Hj]. cbn in E. rewrite Nat.eqb_refl in E. discriminate.
Qed.

Lemma set_progress_fst (id : nat) (p : Q) (l : list (nat * Q)) : map fst (set_progress id p l) = map fst l.
Proof.
  unfold set_progress. rewrite map_map. apply map_ext. intros [j q]. cbn.
  destruct (Nat.eqb_spec j id) as [->|]; reflexivity.
Qed.

Lemma In_set_progress (id j : nat) (p q : Q) (l : list (nat * Q)) :
  In (j, q) (set_progress id p l) -> (j = id /\ q = p) \/ (j <> id /\ In (j, q) l).
Proof.
  induction l as [|[k q'] l IH]; cbn; [tauto|]. intros [E|H].
  - destruct (Nat.eqb_spec k id) as [->|Hne]; injection E as -> ->; [left | right]; auto.
  - destruct (IH H) as [?|[? ?]]; [left | right]; auto.
Qed.

Lemma In_clear_interval (id j : nat) (q : Q) (l : list (nat * Q)) :
  In (j, q) (clear_interval id l) <-> In (j, q) l /\ j <> id.
Proof.
  unfold clear_interval. rewrite filter_In. cbn.
  destruct (Nat.eqb_spec j id); cbn; intuition discriminate.
Qed.

Lemma progress_of_set (id : nat) (p : Q) (b : bar) (nt : nat) (f : option Q) (t : option string) :
  progress_of id b <> None ->
  progress_of id {| intervals := set_progress id p (intervals b); next_timer := nt; fill := f; text := t |} = Some p.
Proof.
  unfold progress_of. cbn. generalize (intervals b) as m. intros m.
  induction m as [|[j q] m IH]; cbn; [tauto|].
  destruct (Nat.eqb_spec j id) as [->|Hne]; cbn; [rewrite Nat.eqb_refl; reflexivity|].
  apply Nat.eqb_neq in Hne. rewrite Hne. exact IH.
Qed.

Lemma progress_of_other (id j : nat) (l : list (nat * Q)) (p : Q) (nt : nat) (f : option Q) (t : option string) :
  j <> id ->
  progress_of j {| intervals := set_progress id p l; next_timer := nt; fill := f; text := t |} =
  progress_of j {| intervals := l; next_timer := nt; fill := f; text := t |}.
Proof.
  intros Hj. unfold progress_of. cbn. induction l as [|[k q] l IH]; cbn; [reflexivity|].
  destruct (Nat.eqb_spec k id) as [->|Hne]; cbn.
  - rewrite (proj2 (Nat.eqb_neq id j)) by congruence. exact IH.
  - destruct (Nat.eqb k j); [reflexivity | exact IH].
Qed.

Lemma progress_of_clear (id j : nat) (l : list (nat * Q)) (nt : nat) (f : option Q) (t : option string) :
  progress_of j {| intervals := clear_interval id l; next_timer := nt; fill := f; text := t |} =
  if Nat.eqb j id then None else progress_of j {| intervals := l; next_timer := nt; fill := f; text := t |}.
Proof.
  unfold progress_of, clear_interval. cbn. induction l as [|[k q] l IH]; cbn; [destruct (Nat.eqb j id); reflexivity|].
  destruct (Nat.eqb_spec k id) as [->|Hne]; cbn.
  - rewrite IH. destruct (Nat.eqb_spec j id) as [->|Hne']; [reflexivity|].
    rewrite (proj2 (Nat.eqb_neq id j)) by congruence. reflexivity.
  - destruct (Nat.eqb_spec k j) as [->|Hkj]; cbn.
    + rewrite (proj2 (Nat.eqb_neq j id)) by congruence. reflexivity.
    + exact IH.
Qed.

(** The two branches of a tick. *)
Lemma tick_cases (id : nat) (r : Q) (b b' : bar) :
  tick id r b = Some b' ->
  exists p, progress_of id b = Some p /\
    ((100 <= p + r * 15 /\
      b' = {| intervals := clear_interval id (intervals b); next_timer := next_timer b;
              fill := Some 100; text := Some processing |}) \/
     (p + r * 15 < 100 /\
      b' = {| intervals := set_progress id (p + r * 15) (intervals b); next_timer := next_timer b;
              fill := Some (p + r * 15); text := text b |})).
Proof.
  unfold tick. destruct (progress_of id b) as [p|]; [|discriminate]. intros E. exists p. split; [reflexivity|].
  destruct (Qle_bool 100 (p + r * 15)) eqn:Hq; injection E as <-.
  - left. split; [apply Qle_bool_iff, Hq | reflexivity].
  - right. split; [|reflexivity]. apply Qnot_le_lt. intros Hle. apply Qle_bool_iff in Hle. congruence.
Qed.

Lemma start_wf (b : bar) : wf b -> wf (showUploadProgress b).
Proof.
  intros (Hnd & Hin & Hf). unfold showUploadProgress. split; [|split]; cbn.
  - rewrite map_app. cbn. eapply Permutation_NoDup; [apply Permutation_cons_append|].
    constructor; [|exact Hnd]. intros Hn. apply in_map_iff in Hn as [[j q] [Ej Hj]].
    cbn in Ej. subst j. apply Hin in Hj. lia.
  - intros j q Hq. apply in_app_or in Hq as [Hq|[E|[]]];
      [apply Hin in Hq; split; [lra | lia] | injection E as <- <-; split; [lra | lia]].
  - exact Hf.
Qed.

(** A tick keeps the timers distinct, their [progress] in [[0, 100)]
    and the width in [[0, 100]]. *)
Lemma tick_wf (id : nat) (r : Q) (b b' : bar) : wf b -> 0 <= r -> tick id r b = Some b' -> wf b'.
Proof.
  intros (Hnd & Hin & Hf) Hr E. apply tick_cases in E as (p & Hp & [[Hle ->]|[Hlt ->]]);
    apply progress_of_In, Hin in Hp; split; [|split| |split]; cbn.
  - apply NoDup_map_filter, Hnd.
  - intros j q Hq. apply In_clear_interval in Hq as [Hq _]. apply Hin in Hq. split; [lra | lia].
  - intros f [= <-]. lra.
  - rewrite set_progress_fst. exact Hnd.
  - intros j q Hq. apply In_set_progress in Hq as [[-> ->]|[_ Hq]]; [split; [lra | lia] | apply Hin in Hq; split; [lra | lia]].
  - intros f [= <-]. lra.
Qed.

Lemma random_ok_spec (r : Q) : random_ok r = true -> 0 <= r < 1.
Proof.
  unfold random_ok. intros E. apply andb_true_iff in E as [H0 H1]. apply Qle_bool_iff in H0.
  split; [exact H0|]. apply Qnot_le_lt. intros Hle. apply Qle_bool_iff in Hle. rewrite Hle in H1. discriminate.
Qed.

Lemma bar_step_wf (b b' : bar) (ev : event) : wf b -> step b ev = Some b' -> wf b'.
Proof.
  intros Hw. destruct ev as [|id r]; cbn.
  - intros [= <-]. apply start_wf, Hw.
  - destruct (random_ok r) eqn:Hr; [|discriminate]. apply tick_wf; [exact Hw | apply random_ok_spec, Hr].
Qed.

Lemma init_wf : wf init.
Proof. split; [constructor | split; cbn; [tauto | discriminate]]. Qed.

Lemma reachable_wf_bar (b : bar) : reachable b -> wf b.
Proof. induction 1; [exact init_wf | eapply bar_step_wf; eassumption]. Qed.

Lemma run_reachable (b b' : bar) (evs : list event) : reachable b -> run b evs = Some b' -> reachable b'.
Proof.
  revert b. induction evs as [|ev evs IH]; intros b Hr; cbn; [intros [= <-]; exact Hr|].
  destruct (step b ev) as [b1|] eqn:E; [|discriminate]. apply IH. eapply reach_step; eassumption.
Qed.

Lemma progress_of_start (id : nat) (b : bar) :
  progress_of id (showUploadProgress b) =
  match progress_of id b with Some p => Some p | None => if Nat.eqb (next_timer b) id then Some 0 else None end.
Proof.
  unfold progress_of, showUploadProgress. cbn. induction (intervals b) as [|[j q] l IH]; cbn;
    [destruct (Nat.eqb (next_timer b) id); reflexivity|].
  destruct (Nat.eqb j id); [reflexivity | exact IH].
Qed.

(** What one event does to the [progress] of timer [id]: it grows or
    the timer is gone, and a cleared timer stays cleared. *)
Lemma step_progress (b b' : bar) (ev : event) (id : nat) :
  wf b -> step b ev = Some b' ->
  (forall p p', progress_of id b = Some p -> progress_of id b' = Some p' -> p <= p') /\
  (progress_of id b = None -> (id < next_timer b)%nat -> progress_of id b' = None).
Proof.
  intros Hw. destruct ev as [|j r]; cbn.
  - intros [= <-]. rewrite progress_of_start. split.
    + intros p p' -> [= ->]. lra.
    + intros -> Hlt. rewrite (proj2 (Nat.eqb_neq _ _)) by lia. reflexivity.
  - destruct (random_ok r) eqn:Hr; [|discriminate]. apply random_ok_spec in Hr.
    intros E. apply tick_cases in E as (q & Hq & [[_ ->]|[_ ->]]).
    + destruct b as [l nt f t]. cbn [intervals next_timer]. rewrite progress_of_clear.
      destruct (Nat.eqb_spec id j); [split; [discriminate | reflexivity]|].
      unfold progress_of; cbn [intervals].
      split; [intros p p' E1 E2; rewrite E1 in E2; injection E2 as ->; lra | tauto].
    + destruct (Nat.eqb_spec id j) as [->|Hne].
      * rewrite progress_of_set by congruence. split; [|congruence].
        intros p p' E1 [= <-]. rewrite Hq in E1. injection E1 as ->. lra.
      * destruct b as [l nt f t]. cbn [intervals next_timer]. rewrite progress_of_other by exact Hne.
        unfold progress_of; cbn [intervals].
        split; [intros p p' E1 E2; rewrite E1 in E2; injection E2 as ->; lra | tauto].
Qed.

(** One tick of a timer whose [progress] is below [100]: with a random
    value [r >= eps], either it clears the timer and fills the bar, or
    the timer lives on with [progress + 15 r]. *)
Lemma tick_progress (id : nat) (r : Q) (b : bar) (p : Q) :
  progress_of id b = Some p ->
  exists b', tick id r b = Some b' /\
    ((progress_of id b' = None /\ fill b' = Some 100 /\ text b' = Some processing) \/
     (progress_of id b' = Some (p + r * 15) /\ p + r * 15 < 100)).
Proof.
  intros Hp. unfold tick. rewrite Hp. destruct (Qle_bool 100 (p + r * 15)) eqn:Hq; eexists; (split; [reflexivity|]).
  - left. destruct b as [l nt f t]. rewrite progress_of_clear, Nat.eqb_refl. auto.
  - right. split; [apply progress_of_set; congruence|].
    apply Qnot_le_lt. intros Hle. apply Qle_bool_iff in Hle. congruence.
Qed.

Lemma drive_progress (id : nat) (N : nat) (rs : list Q) (b : bar) (p eps : Q) :
  progress_of id b = Some p -> p < 100 -> 0 < eps -> (forall r, In r rs -> eps <= r) -> (N <= length rs)%nat ->
  100 <= p + inject_Z (Z.of_nat N) * 15 * eps ->
  exists k b', drive id rs b = Some (k, b') /\ (1 <= k <= N)%nat /\
    progress_of id b' = None /\ fill b' = Some 100 /\ text b' = Some processing.
Proof.
  revert rs b p. induction N as [|N IH]; intros rs b p Hp Hlt Heps Hrs Hlen Hn.
  - change (inject_Z (Z.of_nat 0)) with 0 in Hn. lra.
  - destruct rs as [|r rs]; [cbn in Hlen; lia|]. cbn [drive].
    assert (Hr : eps <= r) by (apply Hrs; left; reflexivity).
    destruct (tick_progress id r b p Hp) as (b' & -> & [(Hn' & Hf & Ht)|(Hp' & Hlt')]).
    + rewrite Hn'. exists 1%nat, b'. split; [reflexivity|]. split; [lia | auto].
    + rewrite Hp'. rewrite Nat2Z.inj_succ, <- Z.add_1_r, inject_Z_plus in Hn.
      destruct (IH rs b' (p + r * 15) Hp' Hlt' Heps) as (k & b'' & E & Hk & Hrest).
      * intros r' Hr'. apply Hrs. right. exact Hr'.
      * cbn in Hlen. lia.
      * change (inject_Z 1) with 1 in Hn. nra.
      * exists (S k), b''. rewrite E. cbn. split; [reflexivity|]. split; [lia | exact Hrest].
Qed.

(** every bar a session reaches shows a width in [[0, 100]], and
    every live timer's [progress] lies in [[0, 100)]. *)
Theorem progress_bounded (b : bar) :
  reachable b ->
  (forall f, fill b = Some f -> 0 <= f <= 100) /\ (forall id p, progress_of id b = Some p -> 0 <= p < 100).
Proof.
  intros Hr. destruct (reachable_wf_bar b Hr) as (_ & Hin & Hf). split; [exact Hf|].
  intros id p Hp. apply progress_of_In, Hin in Hp. apply Hp.
Qed.

(** C40: in every step of a session a live timer's [progress] only
    grows, and a timer once cleared never runs again. *)
Theorem timer_monotone (b b' : bar) (ev : event) (id : nat) :
  reachable b -> step b ev = Some b' ->
  (forall p p', progress_of id b = Some p -> progress_of id b' = Some p' -> p <= p') /\
  (progress_of id b = None -> (id < next_timer b)%nat -> progress_of id b' = None).
Proof. intros Hr. apply step_progress, reachable_wf_bar, Hr. Qed.

(** C24: the timer's loop terminates: a live timer of a reachable bar
    whose random values are all at least [eps > 0] is cleared within
    every [N] ticks with [progress + 15 N eps >= 100], leaving the bar
    full and the text "Processing dataset...". *)
Theorem progress_terminates (id : nat) (rs : list Q) (b : bar) (p eps : Q) (N : nat) :
  reachable b -> progress_of id b = Some p -> 0 < eps -> (forall r, In r rs -> eps <= r) -> (N <= length rs)%nat ->
  100 <= p + inject_Z (Z.of_nat N) * 15 * eps ->
  exists k b', drive id rs b = Some (k, b') /\ (1 <= k <= N)%nat /\
    progress_of id b' = None /\ fill b' = Some 100 /\ text b' = Some processing.
Proof.
  intros Hr Hp. apply drive_progress; [exact Hp|].
  destruct (reachable_wf_bar b Hr) as (_ & Hin & _). apply progress_of_In, Hin in Hp. apply Hp.
Qed.

(** ** Clearing every live timer *)

Lemma bar_run_app (b : bar) (l1 l2 : list event) :
  run b (l1 ++ l2) = match run b l1 with Some b1 => run b1 l2 | None => None end.
Proof.
  revert b. induction l1 as [|ev l1 IH]; intros b; cbn; [reflexivity|].
  destruct (step b ev); [apply IH | reflexivity].
Qed.

Lemma random_ok_intro (r : Q) : 0 <= r < 1 -> random_ok r = true.
Proof.
  intros [H0 H1]. unfold random_ok. apply andb_true_iff. split; [apply Qle_bool_iff, H0|].
  destruct (Qle_bool 1 r) eqn:E; [|reflexivity]. apply Qle_bool_iff in E. lra.
Qed.

(** A tick keeps the timer numbering and the other timers, and either
    keeps the live timers or clears the ticking one. *)
Lemma tick_shape (id : nat) (r : Q) (b b' : bar) :
  tick id r b = Some b' ->
  next_timer b' = next_timer b /\
  (map fst (intervals b') = map fst (intervals b) \/
   map fst (intervals b') = filter (fun i => negb (Nat.eqb i id)) (map fst (intervals b))).
Proof.
  intros E. apply tick_cases in E as (p & _ & [[_ ->]|[_ ->]]); cbn; split; try reflexivity.
  - right. apply map_fst_filter.
  - left. apply set_progress_fst.
Qed.

Lemma progress_of_live (id : nat) (b : bar) : In id (map fst (intervals b)) -> exists p, progress_of id b = Some p.
Proof.
  intros Hin. destruct (progress_of id b) as [p|] eqn:E; [exists p; reflexivity|].
  apply progress_of_none in E. contradiction.
Qed.

(** Ticks of one live timer with the value [r > 0] clear it within [N]
    ticks when [p + 15 N r >= 100], and clear nothing else. *)
Lemma ticks_clear (id : nat) (r : Q) (N : nat) (b : bar) (p : Q) :
  wf b -> progress_of id b = Some p -> 0 < r < 1 -> 100 <= p + inject_Z (Z.of_nat N) * 15 * r ->
  exists k b', (k <= N)%nat /\ run b (map (fun t => Tick t r) (repeat id k)) = Some b' /\ wf b' /\
    next_timer b' = next_timer b /\ map fst (intervals b') = filter (fun i => negb (Nat.eqb i id)) (map fst (intervals b)).
Proof.
  revert b p. induction N as [|N IH]; intros b p Hw Hp Hr Hn.
  - destruct Hw as (_ & Hin & _). apply progress_of_In, Hin in Hp. change (inject_Z (Z.of_nat 0)) with 0 in Hn. lra.
  - pose proof Hp as Hl. apply progress_of_In, in_map with (f := fst) in Hl. cbn in Hl.
    destruct (tick_progress id r b p Hp) as (b1 & E & [(Hn1 & _ & _)|(Hp1 & Hlt1)]);
      pose proof (tick_wf id r b b1 Hw ltac:(lra) E) as Hw1; destruct (tick_shape id r b b1 E) as [Ht [Hf|Hf]].
    + apply progress_of_none in Hn1. rewrite Hf in Hn1. contradiction.
    + exists 1%nat, b1. cbn. rewrite random_ok_intro, E by lra. split; [lia|]. auto.
    + rewrite Nat2Z.inj_succ, <- Z.add_1_r, inject_Z_plus in Hn. change (inject_Z 1) with 1 in Hn.
      destruct (IH b1 (p + r * 15) Hw1 Hp1 Hr ltac:(nra)) as (k & b' & Hk & Er & Hw' & Ht' & Hf').
      exists (S k), b'. cbn. rewrite random_ok_intro, E by lra. split; [lia|]. split; [exact Er|].
      split; [exact Hw'|]. split; [congruence|]. rewrite Hf', Hf. reflexivity.
    + exfalso. apply progress_of_In, in_map with (f := fst) in Hp1. cbn in Hp1.
      rewrite Hf, filter_In, Nat.eqb_refl in Hp1. destruct Hp1 as [_ Hx]. discriminate.
Qed.

Lemma live_le_next (b : bar) : wf b -> (length (intervals b) <= next_timer b)%nat.
Proof.
  intros (Hnd & Hin & _). rewrite <- length_map with (f := fst), <- (length_seq (next_timer b) 0).
  apply NoDup_incl_length; [exact Hnd|]. intros i Hi. apply in_map_iff in Hi as [[j q] [<- Hj]].
  apply in_seq. apply Hin in Hj. cbn. lia.
Qed.

(** Ticking every live timer in turn with the value [r > 0], [N] ticks
    at most each where [15 N r >= 100], clears them all. *)
Lemma clear_all (ts : list nat) (r : Q) (N : nat) (b : bar) :
  wf b -> 0 < r < 1 -> 100 <= inject_Z (Z.of_nat N) * 15 * r -> Permutation ts (map fst (intervals b)) ->
  exists ts' b', (length ts' <= N * length ts)%nat /\ run b (map (fun t => Tick t r) ts') = Some b' /\
    intervals b' = [] /\ wf b' /\ next_timer b' = next_timer b.
Proof.
  revert b. induction ts as [|t ts IH]; intros b Hw Hr Hn Hp.
  - exists [], b. apply Permutation_nil in Hp. apply map_eq_nil in Hp. cbn. split; [lia | auto].
  - assert (Hnd : NoDup (t :: ts)) by (eapply Permutation_NoDup; [symmetry; exact Hp | apply Hw]).
    inversion Hnd as [|? ? Hnot _]; subst.
    destruct (progress_of_live t b) as [p Ep]; [eapply Permutation_in; [exact Hp | left; reflexivity]|].
    assert (H0 : 0 <= p) by (destruct Hw as (_ & Hin & _); apply progress_of_In, Hin in Ep; apply Ep).
    destruct (ticks_clear t r N b p Hw Ep Hr ltac:(lra)) as (k & b1 & Hk & E1 & Hw1 & Ht1 & Hf1).
    destruct (IH b1 Hw1 Hr Hn) as (ts' & b' & Hl & E' & Hi & Hw' & Ht').
    { rewrite Hf1, <- (filter_notin t ts Hnot).
      replace (filter (fun i => negb (Nat.eqb i t)) ts)
        with (filter (fun i => negb (Nat.eqb i t)) (t :: ts)) by (cbn; rewrite Nat.eqb_refl; reflexivity).
      apply Permutation_filter, Hp. }
    exists (repeat t k ++ ts')%list, b'. rewrite map_app, bar_run_app, E1. cbn [length].
    rewrite length_app, repeat_length. split; [nia|]. split; [exact E'|]. split; [exact Hi|]. split; [exact Hw'|]. congruence.
Qed.

End Progress.

Module ProgressExamples.
Import Progress.
Local Open Scope Q_scope.

Definition after (evs : list event) : option bar := run init evs.

Definition shows (f : Q) (t : option string) (b : option bar) : bool :=
  match b with
  | Some b => match fill b with Some g => Qeq_bool g f | None => false end &&
              match text b, t with Some x, Some y => String.eqb x y | None, None => true | _, _ => false end
  | None => false
  end.

Definition ticks (id : nat) (r : Q) (n : nat) : list event := repeat (Tick id r) n.

(** A first upload fills the bar in seven ticks of [0.99]; a second
    upload starts at the full bar with the final text, and its first tick
    drops the bar to [7.5%] under "Processing dataset...". *)
Example stale_restart :
  shows 100 (Some processing) (after (Start :: ticks 0 (99 # 100) 7 ++ [Start])) = true /\
  shows (15 # 2) (Some processing) (after (Start :: ticks 0 (99 # 100) 7 ++ [Start; Tick 1 (1 # 2)])) = true.
Proof. split; vm_compute; reflexivity. Qed.

(** Two uploads run two timers on one bar: the width goes from [13.5%]
    back to [1.5%]. *)
Example two_timers :
  shows (27 # 2) None (after [Start; Start; Tick 0 (9 # 10)]) = true /\
  shows (3 # 2) None (after [Start; Start; Tick 0 (9 # 10); Tick 1 (1 # 10)]) = true.
Proof. split; vm_compute; reflexivity. Qed.

Definition one_tick : bar := {| intervals := [(0%nat, 15 # 2)]; next_timer := 1; fill := Some (15 # 2); text := None |}.

Lemma one_tick_run : after [Start; Tick 0 (1 # 2)] = Some one_tick.
Proof. vm_compute. reflexivity. Qed.

Lemma one_tick_reachable : reachable one_tick.
Proof. exact (run_reachable init one_tick _ reach_init one_tick_run). Qed.

Lemma progress_bounded_witness :
  (forall f, fill one_tick = Some f -> 0 <= f <= 100) /\ (forall id p, progress_of id one_tick = Some p -> 0 <= p < 100).
Proof. apply progress_bounded. exact one_tick_reachable. Defined.

Lemma timer_monotone_witness :
  exists b', step one_tick (Tick 0 (1 # 4)) = Some b' /\
  (forall p p', progress_of 0 one_tick = Some p -> progress_of 0 b' = Some p' -> p <= p') /\
  (progress_of 0 one_tick = None -> (0 < next_timer one_tick)%nat -> progress_of 0 b' = None).
Proof.
  eexists. split; [vm_compute; reflexivity|]. apply (timer_monotone one_tick _ (Tick 0 (1 # 4)) 0 one_tick_reachable).
  vm_compute. reflexivity.
Defined.

Lemma progress_terminates_witness :
  exists k b', drive 0 (repeat (1 # 2) 14) (showUploadProgress init) = Some (k, b') /\ (1 <= k <= 14)%nat /\
    progress_of 0 b' = None /\ fill b' = Some 100 /\ text b' = Some processing.
Proof.
  apply (progress_terminates 0 (repeat (1 # 2) 14) (showUploadProgress init) 0 (1 # 2) 14).
  - exact (run_reachable init _ [Start] reach_init eq_refl).
  - vm_compute. reflexivity.
  - vm_compute. reflexivity.
  - intros r Hr. apply repeat_spec in Hr. subst r. apply Qle_bool_iff. reflexivity.
  - cbn. lia.
  - apply Qle_bool_iff. reflexivity.
Defined.

End ProgressExamples.
