(* ===== verification/UploadProgress.v ===== *)
(** * The upload page with its progress bar

    [processCSVFile] (dashboard.js, lines 255-276) calls
    [showUploadProgress] (297-315), which both shows the bar (Upload's
    flags) and starts a timer (Progress); the reader's [onload] calls
    [hideUploadProgress], which only hides it.  A session of the page is
    a pair of Upload's state and Progress's bar, and its events are
    Upload's events and the ticks of the timers.

    Theorems: every session projects onto a session of Upload and a
    session of the bar, with exactly one timer started per reader; a
    timer outlives the upload that started it; and the page settles:
    once the readers complete, loading or failing, and the timers tick
    with a random value [r > 0], no reader and no timer are left,
    within [N] ticks per upload for [15 N r >= 100]; the bar is then
    hidden exactly when some read loaded (or it was hidden), so after
    failed reads only it stays shown, full, with its final text. *)

From Stdlib Require Import String List ZArith QArith Lia Permutation.
From S2P Require Import Prelude JsString Csv TypeInference Upload Progress.
Import ListNotations Upload Progress.
Open Scope string_scope.

Module UploadProgress.

Section Page.
Context `{DateParse}.

Definition session := (Upload.state * Progress.bar)%type.

Inductive event := UploadEvent (ev : Upload.event) | TimerTick (id : nat) (r : Q).

Definition init : session := (Upload.init, Progress.init).

(** [processCSVFile(file)]: [showUploadProgress()] (flags and timer),
    then the reader. *)
Definition processCSVFile (f : js_file) (s : session) : session :=
  (Upload.processCSVFile f (fst s), Progress.showUploadProgress (snd s)).

Definition handleFileSelect (file : option js_file) (s : session) : session :=
  match file with
  | Some f => if is_csv f then processCSVFile f s else (Upload.alert select_alert (fst s), snd s)
  | None => s
  end.

Definition handleDrop (files : list js_file) (s : session) : session :=
  let s := (with_dragover false (fst s), snd s) in
  match files with
  | f :: _ => if is_csv f then processCSVFile f s else (Upload.alert drop_alert (fst s), snd s)
  | [] => (Upload.alert drop_alert (fst s), snd s)
  end.

(** The handlers that do not call [showUploadProgress] leave the bar;
    [onload]'s [hideUploadProgress] leaves the timers running. *)
Definition step (s : session) (ev : event) : option session :=
  match ev with
  | UploadEvent (SelectFile f) => Some (handleFileSelect f s)
  | UploadEvent (Drop fs) => Some (handleDrop fs s)
  | UploadEvent ev => option_map (fun st => (st, snd s)) (Upload.step (fst s) ev)
  | TimerTick id r => option_map (fun b => (fst s, b)) (Progress.step (snd s) (Tick id r))
  end.

Fixpoint run (s : session) (evs : list event) : option session :=
  match evs with
  | [] => Some s
  | ev :: evs' => match step s ev with Some s' => run s' evs' | None => None end
  end.

Inductive reachable : session -> Prop :=
  | reach_init : reachable init
  | reach_step (s s' : session) (ev : event) : reachable s -> step s ev = Some s' -> reachable s'.

Lemma onload_nextRead (text : string) (st : Upload.state) : nextRead (onload text st) = nextRead st.
Proof. unfold onload. destruct (Csv.Csv.parseCSV text); reflexivity. Qed.

(** Each event of the page is an event of Upload, possibly with a new
    timer when it started a reader, or a tick of the bar. *)
Lemma step_projects (s s' : session) (ev : event) :
  step s ev = Some s' ->
  match ev with
  | UploadEvent e => Upload.step (fst s) e = Some (fst s') /\
      ((snd s' = Progress.showUploadProgress (snd s) /\ nextRead (fst s') = S (nextRead (fst s))) \/
       (snd s' = snd s /\ nextRead (fst s') = nextRead (fst s)))
  | TimerTick id r => fst s' = fst s /\ Progress.step (snd s) (Tick id r) = Some (snd s')
  end.
Proof.
  destruct s as [st b]. destruct ev as [[f| | |fs|id|id]|id r]; cbn.
  - intros [= <-]. destruct f as [f|]; cbn; [destruct (is_csv f)|]; cbn; auto.
  - intros [= <-]. auto.
  - intros [= <-]. auto.
  - intros [= <-]. destruct fs as [|f fs]; cbn; [|destruct (is_csv f)]; cbn; auto.
  - destruct (find _ (pending st)) as [[i text]|] eqn:E; cbn; [|discriminate]. intros [= <-]. cbn.
    split; [reflexivity|]. right. split; [reflexivity|]. rewrite onload_nextRead. reflexivity.
  - destruct (find _ (pending st)); cbn; [|discriminate]. intros [= <-]. auto.
  - destruct (random_ok r); [|discriminate]. destruct (tick id r b) as [b'|]; cbn; [|discriminate].
    intros [= <-]. auto.
Qed.

Lemma reachable_projects (s : session) :
  reachable s -> Upload.reachable (fst s) /\ Progress.reachable (snd s) /\ next_timer (snd s) = nextRead (fst s).
Proof.
  induction 1 as [|s s' ev _ IH E]; [repeat split; constructor|].
  destruct IH as (Hu & Hb & Hn). pose proof (step_projects s s' ev E) as P.
  destruct ev as [e|id r].
  - destruct P as [Hs [[Hb' Hr]|[Hb' Hr]]]; rewrite Hb'.
    + split; [econstructor; eassumption|]. split; [apply (Progress.reach_step (snd s) _ Start); [exact Hb | reflexivity]|]. cbn. congruence.
    + split; [econstructor; eassumption|]. split; [exact Hb | congruence].
  - destruct P as [Hs Ht]. rewrite Hs. split; [exact Hu|]. split; [econstructor; eassumption | ].
    destruct (snd s) as [l nt f t]. cbn in Ht. destruct (random_ok r); [|discriminate].
    apply tick_cases in Ht as (p & _ & [[_ ->]|[_ ->]]); exact Hn.
Qed.

(** C25: the page with its bar refines both components: every session it
    reaches is a session of the upload page (Upload) and a session of
    the bar (Progress), and the bar has started exactly one timer per
    reader the page started. *)
Theorem session_refines (s : session) :
  reachable s -> Upload.reachable (fst s) /\ Progress.reachable (snd s) /\ next_timer (snd s) = nextRead (fst s).
Proof. exact (reachable_projects s). Qed.

Lemma session_run_app (s : session) (l1 l2 : list event) :
  run s (l1 ++ l2) = match run s l1 with Some s1 => run s1 l2 | None => None end.
Proof.
  revert s. induction l1 as [|ev l1 IH]; intros s; cbn; [reflexivity|].
  destruct (step s ev); [apply IH | reflexivity].
Qed.

(** Reader completions, loads or failures, run as in Upload and leave
    the bar. *)
Lemma run_readers (cs : list (nat * bool)) (st st' : Upload.state) (b : bar) :
  Upload.run st (map complete cs) = Some st' ->
  run (st, b) (map (fun c => UploadEvent (complete c)) cs) = Some (st', b).
Proof.
  revert st. induction cs as [|[id []] cs IH]; intros st; cbn; [intros [= ->]; reflexivity| |];
    destruct (find _ (pending st)) as [[i text]|]; cbn; (apply IH || discriminate).
Qed.

(** Timer ticks run as in Progress and leave the upload page. *)
Lemma run_ticks (ts : list nat) (r : Q) (st : Upload.state) (b b' : bar) :
  Progress.run b (map (fun t => Tick t r) ts) = Some b' ->
  run (st, b) (map (fun t => TimerTick t r) ts) = Some (st, b').
Proof.
  revert b. induction ts as [|t ts IH]; intros b; cbn; [intros [= ->]; reflexivity|].
  destruct (random_ok r); [|discriminate]. destruct (tick t r b); cbn; [apply IH | discriminate].
Qed.

Lemma onload_hides (text : string) (st : Upload.state) : progressShown (onload text st) = false.
Proof. unfold onload. destruct (Csv.Csv.parseCSV text); reflexivity. Qed.

(** a reader's completion hides the bar but leaves every timer
    running: [hideUploadProgress] does not clear the interval, which goes
    on writing the width and, at 100, "Processing dataset..." into the
    hidden bar. *)
Theorem onload_keeps_timers (s s' : session) (id : nat) :
  step s (UploadEvent (ReadLoaded id)) = Some s' -> progressShown (fst s') = false /\ snd s' = snd s.
Proof.
  destruct s as [st b]. cbn. destruct (find _ (pending st)) as [[i text]|]; cbn; [|discriminate].
  intros [= <-]. split; [apply onload_hides | reflexivity].
Qed.

(** C26: the page settles, failed reads included: from every session,
    once the readers in flight have completed, in any order and each
    loading or failing, and the live timers tick with a value
    [0 < r < 1] of [Math.random] (at most [N] ticks each, for an [N]
    with [15 N r >= 100], so at most [N] per upload ever started), no
    reader is in flight and no timer is left; the bar is hidden exactly
    when it was hidden already or some read loaded, so after reads that
    all fail it stays shown, full, for good. *)
Theorem session_settles (s : session) (cs : list (nat * bool)) (r : Q) (N : nat) :
  reachable s -> Permutation (map fst cs) (map fst (pending (fst s))) -> (0 < r < 1)%Q ->
  (100 <= inject_Z (Z.of_nat N) * 15 * r)%Q ->
  exists ts s', (length ts <= N * nextRead (fst s))%nat /\
    run s (map (fun c => UploadEvent (complete c)) cs ++ map (fun t => TimerTick t r) ts) = Some s' /\
    pending (fst s') = [] /\
    progressShown (fst s') = progressShown (fst s) && forallb (fun c => negb (snd c)) cs /\
    intervals (snd s') = [].
Proof.
  intros Hr Hp Hq HN. destruct s as [st b]. destruct (reachable_projects _ Hr) as (Hu & Hb & Hn). cbn in *.
  destruct (settles_wf cs st (Upload.reachable_wf st Hu) Hp) as (st' & E1 & Hpend & Hshow).
  pose proof (reachable_wf_bar b Hb) as Hw.
  destruct (clear_all (map fst (intervals b)) r N b Hw Hq HN (Permutation_refl _)) as (ts & b' & Hl & E2 & Hi & _).
  exists ts, (st', b'). split.
  - rewrite length_map in Hl. pose proof (live_le_next b Hw) as Hle. rewrite Hn in Hle. nia.
  - rewrite session_run_app, (run_readers cs st st' b E1). split; [exact (run_ticks ts r st' b b' E2)|]. auto.
Qed.

End Page.
End UploadProgress.

Module UploadProgressExamples.
Import UploadProgress.

Definition csv1 : js_file := {| file_type := "text/csv"; file_text := "a" ++ Csv.Csv.nl ++ "1" |}.

Definition after (evs : list event) : option session := run init evs.

(** The upload finishes (no reader in flight, bar hidden) while its
    timer still runs; seven more ticks write the final text into the
    hidden bar. *)
Example timer_outlives :
  match after ([UploadEvent (SelectFile (Some csv1)); UploadEvent (ReadLoaded 0)] ++
               repeat (TimerTick 0 (99 # 100)) 7) with
  | Some (st, b) => pending st = [] /\ progressShown st = false /\ text b = Some processing /\ intervals b = []
  | None => False
  end.
Proof. vm_compute. repeat split. Qed.

Lemma session_refines_witness :
  match after [UploadEvent (SelectFile (Some csv1)); TimerTick 0 (1 # 2)] with
  | Some s => Upload.reachable (fst s) /\ Progress.reachable (snd s) /\ next_timer (snd s) = nextRead (fst s)
  | None => False
  end.
Proof.
  apply session_refines.
  apply (reach_step (Upload.processCSVFile csv1 Upload.init, showUploadProgress Progress.init) _ (TimerTick 0 (1 # 2)));
    [|vm_compute; reflexivity].
  apply (reach_step init _ (UploadEvent (SelectFile (Some csv1)))); [exact reach_init | reflexivity].
Defined.

(** One upload whose read fails: the timer runs out within 14 ticks of
    [1/2] and the bar stays shown. *)
Lemma session_settles_witness :
  exists ts s', (length ts <= 14 * nextRead (fst (Upload.processCSVFile csv1 Upload.init, showUploadProgress Progress.init)))%nat /\
    run (Upload.processCSVFile csv1 Upload.init, showUploadProgress Progress.init)
        (map (fun c => UploadEvent (complete c)) [(0, false)] ++ map (fun t => TimerTick t (1 # 2)) ts) = Some s' /\
    pending (fst s') = [] /\
    progressShown (fst s') = progressShown (fst (Upload.processCSVFile csv1 Upload.init, showUploadProgress Progress.init)) &&
                             forallb (fun c => negb (snd c)) [(0, false)] /\
    intervals (snd s') = [].
Proof.
  apply session_settles.
  - apply (reach_step init _ (UploadEvent (SelectFile (Some csv1)))); [exact reach_init | reflexivity].
  - vm_compute. apply Permutation_refl.
  - split; vm_compute; reflexivity.
  - apply Qle_bool_iff. reflexivity.
Defined.

(** After a failed read the timer fills the still-shown bar and writes
    its final text: the page is stuck on "Processing dataset...". *)
Example failed_read_processing :
  match after ([UploadEvent (SelectFile (Some csv1)); UploadEvent (ReadFailed 0)] ++
               repeat (TimerTick 0 (99 # 100)) 7) with
  | Some (st, b) => pending st = [] /\ progressShown st = true /\ text b = Some processing /\ intervals b = []
  | None => False
  end.
Proof. vm_compute. repeat split. Qed.

Lemma onload_keeps_timers_witness :
  exists s', step (Upload.processCSVFile csv1 Upload.init, showUploadProgress Progress.init) (UploadEvent (ReadLoaded 0)) = Some s' /\
    progressShown (fst s') = false /\ snd s' = showUploadProgress Progress.init.
Proof.
  eexists. split; [vm_compute; reflexivity|].
  exact (onload_keeps_timers (Upload.processCSVFile csv1 Upload.init, showUploadProgress Progress.init) _ 0 eq_refl).
Defined.

End UploadProgressExamples.
