(* ===== verification/Navigation.v ===== *)
(** * Page navigation

    [showPage] (dashboard.js, lines 957-1023) hides the six page elements
    that exist, shows the one the name selects ([welcome] for an unknown
    name), and then starts the loads of that page: the model metrics,
    the history table with its five charts, or the alerts inbox.
    [initializeNavigation] (951-954) shows the welcome page.

    The page elements are the ones [document.getElementById] finds: the
    model takes the set of present pages as a parameter.  The loads are
    returned as a list of actions, in call order; they are asynchronous
    and their effects belong to the components they load.
    [loadAlertsInbox] is called but defined nowhere in the repository's
    script; whether some other script of the page defines it is a
    parameter, and when it does not the call throws a [ReferenceError]
    after the page has been switched. *)

From Stdlib Require Import String Bool List.
From S2P Require Import Prelude.
Import ListNotations.
Open Scope string_scope.

Module Navigation.

Inductive page :=
  | WelcomePage | DatasetAnalysisPage | ModelPerformancePage
  | TransactionCheckPage | TransactionHistoryPage | AlertsInboxPage.

Definition page_eqb (p q : page) : bool :=
  match p, q with
  | WelcomePage, WelcomePage | DatasetAnalysisPage, DatasetAnalysisPage
  | ModelPerformancePage, ModelPerformancePage | TransactionCheckPage, TransactionCheckPage
  | TransactionHistoryPage, TransactionHistoryPage | AlertsInboxPage, AlertsInboxPage => true
  | _, _ => false
  end.

Lemma page_eqb_spec (p q : page) : page_eqb p q = true <-> p = q.
Proof. destruct p, q; simpl; split; congruence. Qed.

(** The [pages] array of [showPage]. *)
Definition pages : list page :=
  [WelcomePage; DatasetAnalysisPage; ModelPerformancePage; TransactionCheckPage;
   TransactionHistoryPage; AlertsInboxPage].

(** The [switch (pageName)]. *)
Definition target_page (name : string) : page :=
  if String.eqb name "welcome" then WelcomePage
  else if String.eqb name "datasetAnalysis" then DatasetAnalysisPage
  else if String.eqb name "modelPerformance" then ModelPerformancePage
  else if String.eqb name "transactionCheck" then TransactionCheckPage
  else if String.eqb name "transactionHistory" then TransactionHistoryPage
  else if String.eqb name "alertsInbox" then AlertsInboxPage
  else WelcomePage.

(** The asynchronous loads [showPage] starts. *)
Inductive load :=
  | LoadModelPerformance | LoadTransactionHistory | RenderRocCurveFromMetrics | RenderFraudVsLegit
  | RenderFraudTrend | RenderChannelFraudPie | RenderAmountVsFraudScatter | LoadAlertsInbox.

(** The [display] style of each page element: [Some true] for block,
    [Some false] for none, [None] before any assignment. *)
Definition display := page -> option bool.

Section Show.
(** The page elements present in the document. *)
Variable present : page -> bool.
(** Whether some script of the page defines [loadAlertsInbox]. *)
Variable alerts_inbox_defined : bool.

Definition set_display (p : page) (v : bool) (d : display) : display :=
  fun q => if page_eqb p q then Some v else d q.

(** [pages.forEach(...)]: hide every present page. *)
Definition hide_all (d : display) : display :=
  fold_left (fun d p => if present p then set_display p false d else d) pages d.

(** [showPage(pageName)]: the new display and the loads it starts, or the
    [ReferenceError] of the missing [loadAlertsInbox] with the display
    already switched. *)
Definition showPage (name : string) (d : display) : display * JsResult.t (list load) :=
  let d := hide_all d in
  let target := target_page name in
  let d := if present target then set_display target true d else d in
  let loads :=
    if String.eqb name "modelPerformance" then JsResult.Ok [LoadModelPerformance]
    else if String.eqb name "transactionHistory" then
      JsResult.Ok [LoadTransactionHistory; RenderRocCurveFromMetrics; RenderFraudVsLegit;
                   RenderFraudTrend; RenderChannelFraudPie; RenderAmountVsFraudScatter]
    else if String.eqb name "alertsInbox" then
      (if alerts_inbox_defined then JsResult.Ok [LoadAlertsInbox] else JsResult.Throw JsResult.ReferenceError)
    else JsResult.Ok [] in
  (d, loads).

(** [initializeNavigation()] *)
Definition initializeNavigation (d : display) : display * JsResult.t (list load) := showPage "welcome" d.

End Show.

Lemma hide_all_spec (present : page -> bool) (d : display) (q : page) :
  hide_all present d q = if present q then Some false else d q.
Proof.
  unfold hide_all, pages. cbn [fold_left].
  destruct (present WelcomePage) eqn:E1, (present DatasetAnalysisPage) eqn:E2,
           (present ModelPerformancePage) eqn:E3, (present TransactionCheckPage) eqn:E4,
           (present TransactionHistoryPage) eqn:E5, (present AlertsInboxPage) eqn:E6;
    destruct q; unfold set_display; simpl; rewrite ?E1, ?E2, ?E3, ?E4, ?E5, ?E6; reflexivity.
Qed.

(** after [showPage name], every present page is hidden except the
    one [name] selects ([welcome] for an unknown name), which is shown;
    absent pages keep their display. *)
Theorem showPage_display (present : page -> bool) (def : bool) (name : string) (d : display) (q : page) :
  fst (showPage present def name d) q =
  if present q then Some (page_eqb (target_page name) q) else d q.
Proof.
  unfold showPage. cbn [fst]. destruct (present (target_page name)) eqn:Et.
  - unfold set_display. destruct (page_eqb (target_page name) q) eqn:Eq.
    + apply page_eqb_spec in Eq. subst q. now rewrite Et.
    + rewrite hide_all_spec. destruct (present q); reflexivity.
  - rewrite hide_all_spec. destruct (present q) eqn:Eq; [|reflexivity].
    destruct (page_eqb (target_page name) q) eqn:Ep; [|reflexivity].
    apply page_eqb_spec in Ep. subst q. congruence.
Qed.

End Navigation.

Module NavigationExamples.
Import Navigation.

Definition all_present : page -> bool := fun _ => true.
Definition blank : display := fun _ => None.

(** The alerts inbox is shown, then the missing loader throws. *)
Example alerts_inbox_throws :
  fst (showPage all_present false "alertsInbox" blank) AlertsInboxPage = Some true /\
  fst (showPage all_present false "alertsInbox" blank) WelcomePage = Some false /\
  snd (showPage all_present false "alertsInbox" blank) = JsResult.Throw JsResult.ReferenceError.
Proof. repeat split. Qed.

(** An unknown name shows the welcome page and loads nothing. *)
Example unknown_page :
  fst (showPage all_present false "settings" blank) WelcomePage = Some true /\
  snd (showPage all_present false "settings" blank) = JsResult.Ok [].
Proof. split; reflexivity. Qed.

End NavigationExamples.
