(* ===== verification/Charts.v ===== *)
(** * Chart data of the history page

    The renderers of the history page (dashboard.js, lines 1466-1703)
    fetch JSON from the backend and hand arrays of numbers to Chart.js.
    The model is the data each renderer computes from the parsed
    response; the canvas, the fetch and Chart.js itself are not modelled.
    A renderer that returns early draws nothing: [None].  An exception
    inside the [try] (a [null] row, say) is caught and logged, so it also
    draws nothing: [JsResult.Throw].

    [AmountHistogram] is [renderAmountVsFraudScatter] (1628-1703): the
    finite amounts are split into [BIN_COUNT] equal bins between their
    minimum and maximum, and each row with a finite amount is counted in
    its bin as fraudulent ([Number(r.is_fraud) === 1]) or legitimate.
    When all amounts are equal a single bar pair counts the rows whose
    [is_fraud] is the number [1] or [0].  The bin edges and the bin
    index are computed exactly, where JavaScript rounds them, so the bin
    of an amount on an edge is a fact of exact arithmetic only; the
    labels of the two branches are not affected. *)

From Stdlib Require Import String List Bool QArith Qround Lia Lqa ZArith PeanoNat.
From S2P Require Import Prelude JsString JsNumber Json Stats.
Import ListNotations JsNumber Json.

Module AmountHistogram.

Definition BIN_COUNT : nat := 20.

(** [Number(r.transaction_amount)] *)
Definition amount_of (r : jval) : JsResult.t num :=
  let? v := get r "transaction_amount" in JsResult.Ok (to_number v).

(** [Math.floor((a - minA) / (maxA - minA) * BIN_COUNT)], then
    [if (idx < 0) idx = 0; if (idx >= BIN_COUNT) idx = BIN_COUNT - 1]. *)
Definition bin_index (minA maxA a : num) : num :=
  let idx := floor (mul (div (sub a minA) (sub maxA minA)) (of_nat BIN_COUNT)) in
  let idx := if lt idx (Fin 0) then Fin 0 else idx in
  if ge idx (of_nat BIN_COUNT) then of_nat (BIN_COUNT - 1) else idx.

(** [hist[idx] += 1].  An index that is not an integer within the array
    would add a property beside the elements, which the chart never
    reads: the elements are unchanged. *)
Definition incr_at (idx : num) (h : list nat) : list nat :=
  match idx with
  | Fin q =>
      let z := Qfloor q in
      if Qeq_bool (inject_Z z) q && Z.leb 0 z && Nat.ltb (Z.to_nat z) (length h) then
        splice (Z.to_nat z) (S (nth (Z.to_nat z) h 0)) h
      else h
  | _ => h
  end.

(** One iteration of [for (const r of rows)]. *)
Definition count_row (minA maxA : num) (acc : list nat * list nat) (r : jval) :
  JsResult.t (list nat * list nat) :=
  let '(histLegit, histFraud) := acc in
  let? a := amount_of r in
  if negb (is_finite a) then JsResult.Ok acc
  else
    let idx := bin_index minA maxA a in
    let? f := get r "is_fraud" in
    if strict_eq (to_number f) (Fin 1) then JsResult.Ok (histLegit, incr_at idx histFraud)
    else JsResult.Ok (incr_at idx histLegit, histFraud).

Fixpoint fold_result {A B} (f : A -> B -> JsResult.t A) (l : list B) (acc : A) : JsResult.t A :=
  match l with
  | [] => JsResult.Ok acc
  | x :: l' => let? acc' := f acc x in fold_result f l' acc'
  end.

(** [edges = Array.from({ length: BIN_COUNT + 1 }, (_, i) => minA + i * binWidth)] *)
Definition edges (minA maxA : num) : list num :=
  let binWidth := div (sub maxA minA) (of_nat BIN_COUNT) in
  map (fun i => add minA (mul (of_nat i) binWidth)) (seq 0 (BIN_COUNT + 1)).

(** The two [toFixed(2)] texts of each label [`${lo}-${hi}`]. *)
Definition bin_labels (minA maxA : num) : list (option string * option string) :=
  let e := edges minA maxA in
  map (fun i => (to_fixed 2 (nth i e NaN), to_fixed 2 (nth (S i) e NaN))) (seq 0 BIN_COUNT).

Inductive chart :=
  | SingleBin (label : option string) (legitCount fraudCount : nat)
  | Bins (labels : list (option string * option string)) (histLegit histFraud : list nat).

(** [rows.filter(r => r.is_fraud === n).length] *)
Definition count_label (n : num) (rows : list jval) : JsResult.t nat :=
  let? l := filter_result (fun r => let? f := get r "is_fraud" in JsResult.Ok (strict_eq_num f n)) rows in
  JsResult.Ok (length l).

(** [renderAmountVsFraudScatter] after [await res.json()]. *)
Definition amount_chart (res : jval) : JsResult.t (option chart) :=
  match res with
  | JArr [] => JsResult.Ok None
  | JArr rows =>
      let? all := map_result amount_of rows in
      match filter is_finite all with
      | [] => JsResult.Ok None
      | amounts =>
          let minA := math_min amounts in
          let maxA := math_max amounts in
          if strict_eq minA maxA then
            let? fraudCount := count_label (Fin 1) rows in
            let? legitCount := count_label (Fin 0) rows in
            JsResult.Ok (Some (SingleBin (to_fixed 2 minA) legitCount fraudCount))
          else
            let labels := bin_labels minA maxA in
            match fold_result (count_row minA maxA) rows (repeat 0 BIN_COUNT, repeat 0 BIN_COUNT) with
            | JsResult.Ok (histLegit, histFraud) => JsResult.Ok (Some (Bins labels histLegit histFraud))
            | JsResult.Throw e => JsResult.Throw e
            end
      end
  | _ => JsResult.Ok None
  end.

(** ** The bin of an amount *)

Local Open Scope Q_scope.

(** The edge [minA + i * binWidth] on exact values. *)
Definition edge (lo hi : Q) (i : Z) : Q := lo + inject_Z i * ((hi - lo) / 20).

(** The position [(a - minA) / (maxA - minA) * BIN_COUNT] of [a]. *)
Lemma bin_position (lo hi a : Q) : lo < hi ->
  mul (div (sub (Fin a) (Fin lo)) (sub (Fin hi) (Fin lo))) (of_nat BIN_COUNT) =
  Fin ((a - lo) / (hi - lo) * 20) /\ a == edge lo hi 0 + (a - lo) / (hi - lo) * 20 * ((hi - lo) / 20).
Proof.
  intros H. rewrite !sub_fin, div_fin by lra. unfold of_nat. rewrite mul_fin. split; [reflexivity|].
  unfold edge. field. lra.
Qed.

(** For [minA <= a <= maxA] with [minA < maxA], [bin_index] is the
    integer [z] in [[0, BIN_COUNT)] whose bin [[edge z, edge (z+1))]
    holds [a], the last bin also holding [maxA]. *)
Lemma bin_index_fin (lo hi a : Q) : lo < hi -> lo <= a <= hi ->
  exists z, bin_index (Fin lo) (Fin hi) (Fin a) = Fin (inject_Z z) /\ (0 <= z < 20)%Z /\
    edge lo hi z <= a /\ (a < edge lo hi (z + 1) \/ (z = 19%Z /\ a == hi)).
Proof.
  intros Hlh Ha. unfold bin_index. destruct (bin_position lo hi a Hlh) as [-> Ea]. cbv zeta. cbn [floor].
  set (t := (a - lo) / (hi - lo) * 20) in *.
  assert (Ht : 0 <= t <= 20).
  { subst t. split.
    - apply Qmult_le_0_compat; [apply Qle_shift_div_l; lra | lra].
    - rewrite <- (Qmult_1_l 20) at 2. apply Qmult_le_compat_r; [apply Qle_shift_div_r; lra | lra]. }
  assert (Hw : 0 < (hi - lo) / 20) by (apply Qlt_shift_div_l; lra).
  pose proof (Qfloor_le t) as Hfl. pose proof (Qlt_floor t) as Hfu.
  rewrite inject_Z_plus in Hfu. change (inject_Z 1) with 1 in Hfu.
  set (z := Qfloor t) in *. clearbody z t.
  assert (Hz0 : (0 <= z)%Z) by (assert (0 < z + 1)%Z by (rewrite Zlt_Qlt, inject_Z_plus; change (inject_Z 0) with 0; change (inject_Z 1) with 1; lra); lia).
  assert (Hz20 : (z <= 20)%Z) by (rewrite Zle_Qle; change (inject_Z 20) with 20; lra).
  assert (Hnl : lt (Fin (inject_Z z)) (Fin 0) = false) by (apply lt_fin_false; change 0 with (inject_Z 0); rewrite <- Zle_Qle; exact Hz0).
  rewrite Hnl. unfold edge in *. change (inject_Z 0) with 0 in Ea.
  destruct (Z.lt_ge_cases z 20) as [Hlt|Hge].
  - assert (E : ge (Fin (inject_Z z)) (of_nat BIN_COUNT) = false)
      by (apply le_fin_false; change (of_nat BIN_COUNT) with (Fin (inject_Z 20)); rewrite <- Zlt_Qlt; exact Hlt).
    rewrite E. exists z. split; [reflexivity|]. split; [lia|]. rewrite inject_Z_plus.
    change (inject_Z 1) with 1. split; [nra|]. left. nra.
  - assert (Hz : z = 20%Z) by lia. subst z.
    assert (E : ge (Fin (inject_Z 20)) (of_nat BIN_COUNT) = true) by reflexivity.
    rewrite E. exists 19%Z. split; [reflexivity|]. split; [lia|].
    change (inject_Z 20) with 20 in *. change (inject_Z 19) with 19.
    assert (Et : t == 20) by lra. split; [nra|]. right. split; [reflexivity|].
    assert (Htw : t * ((hi - lo) / 20) == 20 * ((hi - lo) / 20)) by (rewrite Et; reflexivity).
    assert (H20 : 20 * ((hi - lo) / 20) == hi - lo) by (field; discriminate). lra.
Qed.


(** ** The bin and the bar labels agree *)

(** The edges of the labels are the exact edges of the bins. *)
Lemma edges_nth (lo hi : Q) (i : nat) : (i <= BIN_COUNT)%nat ->
  nth i (edges (Fin lo) (Fin hi)) NaN = Fin (edge lo hi (Z.of_nat i)).
Proof.
  intros Hi. unfold edges. cbv zeta.
  set (f := fun i => add (Fin lo) (mul (of_nat i) (div (sub (Fin hi) (Fin lo)) (of_nat BIN_COUNT)))).
  rewrite nth_indep with (d' := f 0%nat) by (rewrite length_map, length_seq; unfold BIN_COUNT in *; lia).
  rewrite map_nth, seq_nth by (unfold BIN_COUNT in *; lia). subst f. cbn [Nat.add].
  unfold of_nat. rewrite sub_fin, div_fin by discriminate. rewrite mul_fin, add_fin. reflexivity.
Qed.

Lemma edge_last (lo hi : Q) : edge lo hi 20 == hi.
Proof. unfold edge. field. Qed.

(** The bar a reader of the chart finds for an amount: the first label
    [lo-hi] whose upper edge lies above it, the last bar for the
    maximum, which no upper edge exceeds. *)
Definition label_bin (minA maxA a : num) : nat :=
  match find (fun i => lt a (nth (S i) (edges minA maxA) NaN)) (seq 0 BIN_COUNT) with
  | Some i => i
  | None => BIN_COUNT - 1
  end.


Lemma incr_at_fin (z : Z) (h : list nat) : (0 <= z)%Z -> (Z.to_nat z < length h)%nat ->
  incr_at (Fin (inject_Z z)) h = splice (Z.to_nat z) (S (nth (Z.to_nat z) h 0%nat)) h.
Proof.
  intros H0 Hl. unfold incr_at. rewrite Qfloor_Z.
  replace (Qeq_bool (inject_Z z) (inject_Z z)) with true by (symmetry; apply Qeq_bool_iff; reflexivity).
  replace (Z.leb 0 z) with true by (symmetry; apply Z.leb_le; exact H0).
  replace (Nat.ltb (Z.to_nat z) (length h)) with true by (symmetry; apply Nat.ltb_lt; exact Hl).
  reflexivity.
Qed.


(** The strictly increasing edges. *)
Lemma edge_mono (lo hi : Q) (x y : Z) : lo < hi -> (x <= y)%Z -> edge lo hi x <= edge lo hi y.
Proof.
  intros H Hxy. unfold edge. assert (0 < (hi - lo) / 20) by (apply Qlt_shift_div_l; lra).
  rewrite Zle_Qle in Hxy. nra.
Qed.

(** The bin [i] of the chart as a set of amounts: [[edge i, edge (i+1))],
    the last bin closed at [maxA]. *)
Definition in_bin (lo hi : Q) (i : nat) (x : num) : bool :=
  Nat.ltb i BIN_COUNT && le (Fin (edge lo hi (Z.of_nat i))) x &&
  (lt x (Fin (edge lo hi (Z.of_nat i + 1))) || Nat.eqb i (BIN_COUNT - 1) && strict_eq x (Fin hi)).

(** [bin_index] picks the one bin that holds the amount. *)
Lemma bin_index_in_bin (lo hi a : Q) : lo < hi -> lo <= a <= hi ->
  exists z, bin_index (Fin lo) (Fin hi) (Fin a) = Fin (inject_Z z) /\ (0 <= z < 20)%Z /\
    forall i, in_bin lo hi i (Fin a) = Nat.eqb i (Z.to_nat z).
Proof.
  intros Hlh Ha. destruct (bin_index_fin lo hi a Hlh Ha) as [z [Ez [Hz [Hle Hlt]]]].
  exists z. split; [exact Ez|]. split; [exact Hz|]. intros i. unfold in_bin.
  destruct (Nat.eqb_spec i (Z.to_nat z)) as [->|Hne].
  - rewrite Z2Nat.id by lia. apply andb_true_intro. split.
    + apply andb_true_intro. split; [apply Nat.ltb_lt; unfold BIN_COUNT; lia | apply le_fin; exact Hle].
    + destruct Hlt as [Hlt|[-> Heq]]; apply orb_true_intro; [left; apply lt_fin; exact Hlt|].
      right. apply andb_true_intro. split; [reflexivity | apply strict_eq_fin; exact Heq].
  - destruct (Nat.ltb_spec i BIN_COUNT) as [Hi|Hi]; [|reflexivity]. cbn [andb].
    destruct (Z.lt_ge_cases (Z.of_nat i) z) as [Lt|Ge].
    + assert (edge lo hi (Z.of_nat i + 1) <= a) by (apply Qle_trans with (edge lo hi z); [apply edge_mono; [exact Hlh | lia] | exact Hle]).
      assert (E1 : lt (Fin a) (Fin (edge lo hi (Z.of_nat i + 1))) = false) by (apply lt_fin_false; exact H).
      rewrite E1. destruct (Nat.eqb_spec i (BIN_COUNT - 1)); [unfold BIN_COUNT in *; lia|].
      destruct (le _ _); reflexivity.
    + assert (Gt : (z + 1 <= Z.of_nat i)%Z) by lia.
      destruct Hlt as [Hlt|[Hz19 _]]; [|unfold BIN_COUNT in *; lia].
      assert (a < edge lo hi (Z.of_nat i)) by (eapply Qlt_le_trans; [exact Hlt | apply edge_mono; assumption]).
      assert (E1 : le (Fin (edge lo hi (Z.of_nat i))) (Fin a) = false) by (apply le_fin_false; exact H).
      rewrite E1. reflexivity.
Qed.



(** ** The loop over the rows *)

(** What the loop reads of a row, once no access throws. *)
Definition row_amount (r : jval) : num :=
  match amount_of r with JsResult.Ok a => a | JsResult.Throw _ => NaN end.

Definition row_fraud (r : jval) : bool :=
  match get r "is_fraud" with JsResult.Ok f => strict_eq (to_number f) (Fin 1) | JsResult.Throw _ => false end.

Definition count_step (minA maxA : num) (acc : list nat * list nat) (r : jval) : list nat * list nat :=
  let '(l, f) := acc in
  if is_finite (row_amount r) then
    let idx := bin_index minA maxA (row_amount r) in
    if row_fraud r then (l, incr_at idx f) else (incr_at idx l, f)
  else acc.

Lemma count_row_step (minA maxA : num) (acc : list nat * list nat) (r : jval) :
  not_nullish r = true -> count_row minA maxA acc r = JsResult.Ok (count_step minA maxA acc r).
Proof.
  intros Hr. destruct acc as [l f].
  destruct r; try discriminate; unfold count_row, count_step, row_amount, row_fraud, amount_of; cbn;
    try reflexivity.
  destruct (is_finite _); cbn; [destruct (strict_eq _ _)|]; reflexivity.
Qed.

Lemma fold_count_row (minA maxA : num) (rows : list jval) (acc : list nat * list nat) :
  Forall (fun r => not_nullish r = true) rows ->
  fold_result (count_row minA maxA) rows acc = JsResult.Ok (fold_left (count_step minA maxA) rows acc).
Proof.
  intros H. revert acc. induction H as [|r rows Hr _ IH]; intros [l f]; [reflexivity|].
  cbn [fold_result fold_left]. rewrite count_row_step by exact Hr. apply IH.
Qed.

Lemma in_bin_finite (lo hi : Q) (i : nat) (x : num) : in_bin lo hi i x = true -> is_finite x = true.
Proof.
  unfold in_bin. intros H. destruct x; [reflexivity| | |];
    destruct (Nat.ltb i BIN_COUNT), (Nat.eqb i (BIN_COUNT - 1)); cbn in H; congruence.
Qed.

Lemma math_min_bound (xs : list num) (m a : Q) :
  Forall (fun x => is_finite x = true) xs -> math_min xs = Fin m -> In (Fin a) xs -> m <= a.
Proof.
  intros Hf Hm Ha. destruct (Stats.finite_list xs Hf) as [[|q qs] ->]; [destruct Ha|].
  destruct (Stats.math_min_fin q qs) as [m' [Em' Hall]]. rewrite Em' in Hm. injection Hm as ->.
  apply in_map_iff in Ha as [a' [Ea' Hin]]. injection Ea' as ->. rewrite Forall_forall in Hall. auto.
Qed.

Lemma math_max_bound (xs : list num) (m a : Q) :
  Forall (fun x => is_finite x = true) xs -> math_max xs = Fin m -> In (Fin a) xs -> a <= m.
Proof.
  intros Hf Hm Ha. destruct (Stats.finite_list xs Hf) as [[|q qs] ->]; [destruct Ha|].
  destruct (Stats.math_max_fin q qs) as [m' [Em' Hall]]. rewrite Em' in Hm. injection Hm as ->.
  apply in_map_iff in Ha as [a' [Ea' Hin]]. injection Ea' as ->. rewrite Forall_forall in Hall. auto.
Qed.


Section Bins.
Variables lo hi : Q.
Hypothesis Hlh : lo < hi.

(** A row the loop reads without throwing, with its amount, if finite,
    between [minA] and [maxA]. *)
Definition in_range (r : jval) : Prop :=
  not_nullish r = true /\ forall a, row_amount r = Fin a -> lo <= a <= hi.

Definition bin_count (p : jval -> bool) (i : nat) (rows : list jval) : nat :=
  length (filter (fun r => in_bin lo hi i (row_amount r) && p r) rows).

Definition hist_ok (l f : list nat) (rows : list jval) (l0 f0 : list nat) : Prop :=
  length l = BIN_COUNT /\ length f = BIN_COUNT /\
  forall i, nth i f 0%nat = (nth i f0 0 + bin_count row_fraud i rows)%nat /\
            nth i l 0%nat = (nth i l0 0 + bin_count (fun r => negb (row_fraud r)) i rows)%nat.

Lemma incr_at_bin (a : Q) (h : list nat) : lo <= a <= hi -> length h = BIN_COUNT ->
  length (incr_at (bin_index (Fin lo) (Fin hi) (Fin a)) h) = BIN_COUNT /\
  forall i, nth i (incr_at (bin_index (Fin lo) (Fin hi) (Fin a)) h) 0%nat =
            (nth i h 0 + if in_bin lo hi i (Fin a) then 1 else 0)%nat.
Proof.
  intros Ha Hl. destruct (bin_index_in_bin lo hi a Hlh Ha) as [z [-> [Hz Hin]]].
  assert (Hk : (Z.to_nat z < length h)%nat) by (rewrite Hl; unfold BIN_COUNT; lia).
  rewrite incr_at_fin by (lia || exact Hk). split; [rewrite splice_length; assumption|].
  intros i. rewrite splice_nth by exact Hk. rewrite Hin.
  destruct (Nat.eqb_spec i (Z.to_nat z)) as [->|]; lia.
Qed.

Lemma count_step_spec (l f : list nat) (r : jval) : in_range r ->
  length l = BIN_COUNT -> length f = BIN_COUNT ->
  hist_ok (fst (count_step (Fin lo) (Fin hi) (l, f) r)) (snd (count_step (Fin lo) (Fin hi) (l, f) r)) [r] l f.
Proof.
  intros [_ Hr] Hl Hf. unfold hist_ok, bin_count, count_step. cbn [filter length].
  destruct (row_amount r) as [a| | |] eqn:Ea; cbn [is_finite fst snd];
    [|split; [assumption|]; split; [assumption|]; intros i; destruct (in_bin lo hi i _) eqn:E;
        try (apply in_bin_finite in E; discriminate); cbn; lia ..].
  destruct (incr_at_bin a l (Hr a eq_refl) Hl) as [Ll Nl], (incr_at_bin a f (Hr a eq_refl) Hf) as [Lf Nf].
  destruct (row_fraud r); cbn [fst snd negb]; (split; [assumption|]); (split; [assumption|]);
    intros i; rewrite ?Nl, ?Nf; destruct (in_bin lo hi i (Fin a)); cbn; lia.
Qed.

Lemma fold_count_spec (rows : list jval) (l f : list nat) : Forall in_range rows ->
  length l = BIN_COUNT -> length f = BIN_COUNT ->
  hist_ok (fst (fold_left (count_step (Fin lo) (Fin hi)) rows (l, f)))
          (snd (fold_left (count_step (Fin lo) (Fin hi)) rows (l, f))) rows l f.
Proof.
  intros H. revert l f. induction H as [|r rows Hr _ IH]; intros l f Hl Hf.
  - split; [assumption|]; split; [assumption|]; intros i; cbn; lia.
  - cbn [fold_left]. destruct (count_step_spec l f r Hr Hl Hf) as [Ll [Lf N1]].
    rewrite (surjective_pairing (count_step _ _ _ r)).
    destruct (IH _ _ Ll Lf) as [Ll' [Lf' N2]]. split; [exact Ll'|]. split; [exact Lf'|].
    intros i. destruct (N1 i) as [F1 L1], (N2 i) as [F2 L2]. unfold bin_count in *. cbn [filter] in *.
    destruct (in_bin lo hi i (row_amount r)), (row_fraud r); cbn in *; lia.
Qed.

Lemma incr_at_bin_sum (a : Q) (h : list nat) : lo <= a <= hi -> length h = BIN_COUNT ->
  list_sum (incr_at (bin_index (Fin lo) (Fin hi) (Fin a)) h) = S (list_sum h).
Proof.
  intros Ha Hl. destruct (bin_index_in_bin lo hi a Hlh Ha) as [z [-> [Hz _]]].
  assert (Hk : (Z.to_nat z < length h)%nat) by (rewrite Hl; unfold BIN_COUNT; lia).
  rewrite incr_at_fin by (lia || exact Hk). apply splice_sum, Hk.
Qed.

Lemma fold_count_sum (rows : list jval) (l f : list nat) : Forall in_range rows ->
  length l = BIN_COUNT -> length f = BIN_COUNT ->
  (list_sum (fst (fold_left (count_step (Fin lo) (Fin hi)) rows (l, f))) +
   list_sum (snd (fold_left (count_step (Fin lo) (Fin hi)) rows (l, f))) =
   list_sum l + list_sum f + length (filter (fun r => is_finite (row_amount r)) rows))%nat.
Proof.
  intros H. revert l f. induction H as [|r rows [_ Hr] _ IH]; intros l f Hl Hf; cbn [fold_left fst snd filter length]; [lia|].
  destruct (row_amount r) as [a| | |] eqn:Ea;
    [|assert (E : count_step (Fin lo) (Fin hi) (l, f) r = (l, f)) by (unfold count_step; rewrite Ea; reflexivity);
      rewrite E; apply IH; assumption ..].
  assert (E : count_step (Fin lo) (Fin hi) (l, f) r =
              if row_fraud r then (l, incr_at (bin_index (Fin lo) (Fin hi) (Fin a)) f)
              else (incr_at (bin_index (Fin lo) (Fin hi) (Fin a)) l, f)) by (unfold count_step; rewrite Ea; reflexivity).
  rewrite E. cbn [is_finite length].
  destruct (incr_at_bin a l (Hr a eq_refl) Hl) as [Ll _], (incr_at_bin a f (Hr a eq_refl) Hf) as [Lf _].
  destruct (row_fraud r); rewrite IH by assumption; rewrite incr_at_bin_sum by (exact (Hr a eq_refl) || assumption); lia.
Qed.

End Bins.


Lemma amount_of_row (r : jval) : not_nullish r = true -> amount_of r = JsResult.Ok (row_amount r).
Proof. unfold row_amount. destruct r; try discriminate; reflexivity. Qed.

(** Every row is in range of the minimum and maximum of the finite amounts. *)
Lemma rows_in_range (rows : list jval) (lo hi : Q) :
  Forall (fun r => not_nullish r = true) rows ->
  math_min (filter is_finite (map row_amount rows)) = Fin lo ->
  math_max (filter is_finite (map row_amount rows)) = Fin hi -> Forall (in_range lo hi) rows.
Proof.
  intros Hnn Hmin Hmax. rewrite Forall_forall in *. intros r Hr. split; [auto|]. intros a Ea.
  assert (Hf : Forall (fun x => is_finite x = true) (filter is_finite (map row_amount rows)))
    by (apply Forall_forall; intros x Hx; apply filter_In in Hx; apply Hx).
  assert (Hin : In (Fin a) (filter is_finite (map row_amount rows)))
    by (apply filter_In; split; [rewrite <- Ea; apply in_map; exact Hr | reflexivity]).
  split; [eapply math_min_bound | eapply math_max_bound]; eassumption.
Qed.

(** Past its guards, the chart is the result of the loop. *)
Lemma amount_chart_fold (rows : list jval) (lo hi : Q) :
  Forall (fun r => not_nullish r = true) rows ->
  math_min (filter is_finite (map row_amount rows)) = Fin lo ->
  math_max (filter is_finite (map row_amount rows)) = Fin hi -> lo < hi ->
  amount_chart (JArr rows) =
  JsResult.Ok (Some (Bins (bin_labels (Fin lo) (Fin hi))
    (fst (fold_left (count_step (Fin lo) (Fin hi)) rows (repeat 0%nat BIN_COUNT, repeat 0%nat BIN_COUNT)))
    (snd (fold_left (count_step (Fin lo) (Fin hi)) rows (repeat 0%nat BIN_COUNT, repeat 0%nat BIN_COUNT))))).
Proof.
  intros Hnn Hmin Hmax Hlt.
  assert (Hmap : map_result amount_of rows = JsResult.Ok (map row_amount rows))
    by (apply map_result_ok; intros r Hr; apply amount_of_row; rewrite Forall_forall in Hnn; auto).
  assert (Hne : strict_eq (Fin lo) (Fin hi) = false)
    by (destruct (strict_eq _ _) eqn:E; [apply strict_eq_fin in E; lra | reflexivity]).
  destruct rows as [|r0 rs]; [discriminate|]. unfold amount_chart. rewrite Hmap.
  destruct (filter is_finite (map row_amount (r0 :: rs))) as [|a0 am] eqn:Eam; [discriminate|].
  rewrite Hmin, Hmax, Hne, fold_count_row by exact Hnn.
  rewrite (surjective_pairing (fold_left _ _ _)). reflexivity.
Qed.

(** when the rows have finite amounts with minimum [lo] < maximum
    [hi] and no row is [null], the bars of the chart add up to the
    number of rows with a finite amount: each is counted once. *)
Theorem amount_chart_total (rows : list jval) (lo hi : Q) :
  Forall (fun r => not_nullish r = true) rows ->
  math_min (filter is_finite (map row_amount rows)) = Fin lo ->
  math_max (filter is_finite (map row_amount rows)) = Fin hi -> lo < hi ->
  exists histLegit histFraud,
    amount_chart (JArr rows) = JsResult.Ok (Some (Bins (bin_labels (Fin lo) (Fin hi)) histLegit histFraud)) /\
    (list_sum histLegit + list_sum histFraud = length (filter (fun r => is_finite (row_amount r)) rows))%nat.
Proof.
  intros Hnn Hmin Hmax Hlt. pose proof (rows_in_range rows lo hi Hnn Hmin Hmax) as Hrange.
  pose proof (fold_count_sum lo hi Hlt rows (repeat 0%nat BIN_COUNT) (repeat 0%nat BIN_COUNT) Hrange
              (repeat_length _ _) (repeat_length _ _)) as S.
  do 2 eexists. split; [apply amount_chart_fold; assumption|]. rewrite S. reflexivity.
Qed.


(** [r.is_fraud === n], read without throwing. *)
Definition label_is (n : num) (r : jval) : bool :=
  match get r "is_fraud" with JsResult.Ok f => strict_eq_num f n | JsResult.Throw _ => false end.

Lemma count_label_ok (n : num) (rows : list jval) :
  Forall (fun r => not_nullish r = true) rows ->
  count_label n rows = JsResult.Ok (length (filter (label_is n) rows)).
Proof.
  intros H. unfold count_label. rewrite (filter_result_ok _ (label_is n)); [reflexivity|].
  intros r Hr. rewrite Forall_forall in H. specialize (H r Hr). unfold label_is.
  destruct r; try discriminate; reflexivity.
Qed.

End AmountHistogram.

Module ChartsExamples.
Import AmountHistogram.
Open Scope string_scope.

Definition tx (a : Q) (f : jval) : jval := JObj [("transaction_amount", JNum (Fin a)); ("is_fraud", f)].

(** Five rows between 0 and 10; the string label ["1"] counts as fraud. *)
Definition rows5 : list jval :=
  [tx 0 (JNum (Fin 1)); tx 10 (JNum (Fin 0)); tx 5 (JStr "1"); tx 10 (JNum (Fin 1)); tx (1 # 2) JNull].

Example rows5_chart :
  amount_chart (JArr rows5) = JsResult.Ok (Some (Bins (bin_labels (Fin 0) (Fin 10))
    [0; 1; 0; 0; 0; 0; 0; 0; 0; 0; 0; 0; 0; 0; 0; 0; 0; 0; 0; 1]
    [1; 0; 0; 0; 0; 0; 0; 0; 0; 0; 1; 0; 0; 0; 0; 0; 0; 0; 0; 1]))%nat /\
  bin_labels (Fin 0) (Fin 10) = map (fun i => (to_fixed 2 (Fin (inject_Z (Z.of_nat i) / 2)),
                                              to_fixed 2 (Fin (inject_Z (Z.of_nat (S i)) / 2)))) (seq 0 20).
Proof. split; vm_compute; reflexivity. Qed.

(** Equal amounts: the row with the string label ["1"] is in neither
    bar, the row without an amount is counted as legitimate. *)
Definition rows_same : list jval :=
  [tx 3 (JNum (Fin 1)); tx 3 (JStr "1"); JObj [("is_fraud", JNum (Fin 0))]].

Example single_bin_labels :
  amount_chart (JArr rows_same) = JsResult.Ok (Some (SingleBin (Some "3.00") 1 1)).
Proof. vm_compute. reflexivity. Qed.

Lemma amount_chart_total_witness :
  exists histLegit histFraud,
    amount_chart (JArr rows5) = JsResult.Ok (Some (Bins (bin_labels (Fin 0) (Fin 10)) histLegit histFraud)) /\
    (list_sum histLegit + list_sum histFraud = length (filter (fun r => is_finite (row_amount r)) rows5))%nat.
Proof. apply amount_chart_total; [repeat constructor | vm_compute; reflexivity | vm_compute; reflexivity | reflexivity]. Defined.

(** 37 of [0, 100] falls in the label [35.00-40.00], the eighth bar;
    the maximum falls in the last. *)
Example label_bins :
  label_bin (Fin 0) (Fin 100) (Fin 37) = 7%nat /\ label_bin (Fin 0) (Fin 100) (Fin 100) = 19%nat /\
  nth 7 (bin_labels (Fin 0) (Fin 100)) (None, None) = (Some "35.00", Some "40.00").
Proof. vm_compute. repeat split. Qed.

End ChartsExamples.
