(* ===== verification/Session.v ===== *)
(** * The user session: profile menu, modals, [localStorage] and logout

    dashboard.js keeps the signed-in user in [localStorage] (keys
    [userFirstName], [userLastName], [userEmail], [userMobile],
    [userCountryCode], [requireConfirmation]) and shows it in the header
    ([loadUserName], lines 177-196) and in the profile modal
    ([loadProfileData], 874-900, with [loadFallbackProfileData],
    903-910).  The profile menu ([toggleProfileMenu], 29-32, and the
    document listeners of lines 35-42, 45-76 and 120-126) opens the
    profile, settings and logout modals (806-941); [confirmLogout]
    (824-834) removes the user's keys and leaves for the landing page.

    [localStorage] is a [gmap] from keys to values, or [None] when the
    browser refuses the page its storage: every call then throws a
    [SecurityError].  The handlers run in a state and exception monad
    [M]: what a handler changed before it threw stays changed, as in
    the DOM, and the exception escapes to the browser unless a [try]
    catches it.  Each listener of an event runs on its own, so an
    exception in one does not stop the next ([dispatch]). *)

From Stdlib Require Import String List Bool.
From stdpp Require Import base gmap strings list.
From S2P Require Import Prelude JsString.
Import ListNotations.
Local Open Scope string_scope.

Module Session.

Abbreviation storage := (gmap string string).

(** The text of the three fields of the profile modal. *)
Record profile_view := {
  profileFullName : string;
  profileEmail : string;
  profileMobile : string
}.

(** The initialisers the [DOMContentLoaded] listener of line 157 calls
    after [loadUserName]. *)
Inductive init_step := InitFileUpload | InitNavigation | InitTransactionForm.

Record state := {
  store : option storage;
  menu_active : bool;
  logout_modal : bool;
  profile_modal : bool;
  settings_modal : bool;
  user_name : option string;
  profile : option profile_view;
  location : option string;
  initialized : list init_step
}.

(** ** The monad *)

Definition M (A : Type) := state -> state * JsResult.t A.

Definition ret {A} (a : A) : M A := fun s => (s, JsResult.Ok a).

Definition bind {A B} (c : M A) (k : A -> M B) : M B :=
  fun s => match c s with
           | (s', JsResult.Ok a) => k a s'
           | (s', JsResult.Throw e) => (s', JsResult.Throw e)
           end.

Definition modify (f : state -> state) : M unit := fun s => (f s, JsResult.Ok tt).

(** [try { c } catch (e) { h(e) }] *)
Definition catch {A} (c : M A) (h : JsResult.error -> M A) : M A :=
  fun s => match c s with
           | (s', JsResult.Throw e) => h e s'
           | r => r
           end.

(** stdpp's monad classes give the notations [x ← c; k] and [c;; k]. *)
#[export] Instance M_ret : MRet M := fun A a => ret a.
#[export] Instance M_bind : MBind M := fun A B k c => bind c k.

(** ** [localStorage] *)

Definition getItem (k : string) : M (option string) :=
  fun s => match store s with
           | Some st => (s, JsResult.Ok (st !! k))
           | None => (s, JsResult.Throw JsResult.SecurityError)
           end.

Definition with_store (st : storage) (s : state) : state :=
  {| store := Some st; menu_active := menu_active s; logout_modal := logout_modal s;
     profile_modal := profile_modal s; settings_modal := settings_modal s; user_name := user_name s;
     profile := profile s; location := location s; initialized := initialized s |}.

Definition setItem (k v : string) : M unit :=
  fun s => match store s with
           | Some st => (with_store (<[k := v]> st) s, JsResult.Ok tt)
           | None => (s, JsResult.Throw JsResult.SecurityError)
           end.

Definition removeItem (k : string) : M unit :=
  fun s => match store s with
           | Some st => (with_store (delete k st) s, JsResult.Ok tt)
           | None => (s, JsResult.Throw JsResult.SecurityError)
           end.

(** [getItem(k) || d] *)
Definition get_or (o : option string) (d : string) : string :=
  match o with Some v => v ||j d | None => d end.

(** ** The page elements *)

Definition set_menu (b : bool) : M unit := modify (fun s =>
  {| store := store s; menu_active := b; logout_modal := logout_modal s;
     profile_modal := profile_modal s; settings_modal := settings_modal s; user_name := user_name s;
     profile := profile s; location := location s; initialized := initialized s |}).

Definition set_logout_modal (b : bool) : M unit := modify (fun s =>
  {| store := store s; menu_active := menu_active s; logout_modal := b;
     profile_modal := profile_modal s; settings_modal := settings_modal s; user_name := user_name s;
     profile := profile s; location := location s; initialized := initialized s |}).

Definition set_profile_modal (b : bool) : M unit := modify (fun s =>
  {| store := store s; menu_active := menu_active s; logout_modal := logout_modal s;
     profile_modal := b; settings_modal := settings_modal s; user_name := user_name s;
     profile := profile s; location := location s; initialized := initialized s |}).

Definition set_settings_modal (b : bool) : M unit := modify (fun s =>
  {| store := store s; menu_active := menu_active s; logout_modal := logout_modal s;
     profile_modal := profile_modal s; settings_modal := b; user_name := user_name s;
     profile := profile s; location := location s; initialized := initialized s |}).

Definition set_user_name (n : string) : M unit := modify (fun s =>
  {| store := store s; menu_active := menu_active s; logout_modal := logout_modal s;
     profile_modal := profile_modal s; settings_modal := settings_modal s; user_name := Some n;
     profile := profile s; location := location s; initialized := initialized s |}).

Definition set_profile (p : profile_view) : M unit := modify (fun s =>
  {| store := store s; menu_active := menu_active s; logout_modal := logout_modal s;
     profile_modal := profile_modal s; settings_modal := settings_modal s; user_name := user_name s;
     profile := Some p; location := location s; initialized := initialized s |}).

Definition set_location (url : string) : M unit := modify (fun s =>
  {| store := store s; menu_active := menu_active s; logout_modal := logout_modal s;
     profile_modal := profile_modal s; settings_modal := settings_modal s; user_name := user_name s;
     profile := profile s; location := Some url; initialized := initialized s |}).

Definition run_init (i : init_step) : M unit := modify (fun s =>
  {| store := store s; menu_active := menu_active s; logout_modal := logout_modal s;
     profile_modal := profile_modal s; settings_modal := settings_modal s; user_name := user_name s;
     profile := profile s; location := location s; initialized := initialized s ++ [i] |}).

(** ** The handlers *)

(** [toggleProfileMenu()] *)
Definition toggleProfileMenu : M unit := fun s => set_menu (negb (menu_active s)) s.

(** The click listener of lines 35-42: a click outside [.profile-section]
    closes the menu. *)
Definition close_menu_outside (inside_profile : bool) : M unit :=
  if inside_profile then ret tt else set_menu false.

Definition showLogoutModal : M unit := set_logout_modal true.
Definition hideLogoutModal : M unit := set_logout_modal false.
Definition cancelLogout : M unit := hideLogoutModal.

(** The click listener of lines 837-842: a click on the logout modal
    itself (its backdrop) hides it. *)
Definition close_logout_backdrop (on_backdrop : bool) : M unit :=
  if on_backdrop then hideLogoutModal else ret tt.

(** The keys [confirmLogout] removes, in its order. *)
Definition user_keys : list string :=
  ["userFirstName"; "userEmail"; "userMobile"; "userCountryCode"; "userLastName"].

(** [confirmLogout()] *)
Definition confirmLogout : M unit :=
  removeItem "userFirstName";; removeItem "userEmail";; removeItem "userMobile";;
  removeItem "userCountryCode";; removeItem "userLastName";;
  set_location "../index.html".

(** [loadFallbackProfileData()] *)
Definition loadFallbackProfileData : M unit :=
  storedFirstName ← getItem "userFirstName";
  set_profile {| profileFullName := get_or storedFirstName "User Name";
                 profileEmail := "user@example.com"; profileMobile := "Not provided" |}.

(** [countryCode && mobile ? `+${countryCode} ${mobile}` : (mobile || 'Not provided')] *)
Definition phone_text (countryCode mobile : string) : string :=
  if truthy countryCode && truthy mobile then "+" ++ countryCode ++ " " ++ mobile
  else mobile ||j "Not provided".

(** [loadProfileData()]: the profile elements are the page's. *)
Definition loadProfileData : M unit :=
  catch
    (firstName ← getItem "userFirstName";
     lastName ← getItem "userLastName";
     email ← getItem "userEmail";
     mobile ← getItem "userMobile";
     countryCode ← getItem "userCountryCode";
     let fullName := JsString.trim (get_or firstName "User" ++ " " ++ get_or lastName "") in
     set_profile {| profileFullName := fullName ||j "User Name";
                    profileEmail := get_or email "user@example.com";
                    profileMobile := phone_text (get_or countryCode "") (get_or mobile "") |})
    (fun _ => loadFallbackProfileData).

Definition showProfileModal : M unit := set_profile_modal true;; loadProfileData.
Definition hideProfileModal : M unit := set_profile_modal false.
(** [loadSettings] only logs. *)
Definition showSettingsModal : M unit := set_settings_modal true.
Definition closeSettingsModal : M unit := set_settings_modal false.

(** [localStorage.getItem('requireConfirmation') !== 'false'] *)
Definition require_confirmation (v : option string) : bool :=
  match v with Some x => negb (String.eqb x "false") | None => true end.

(** The click listener of each profile menu item (lines 49-74), on the
    text of its [span]. *)
Definition menu_item_click (action : string) : M unit :=
  (if String.eqb action "My Profile" then showProfileModal
   else if String.eqb action "Settings" then showSettingsModal
   else if String.eqb action "Logout" then
     (v ← getItem "requireConfirmation";
      if require_confirmation v then showLogoutModal else confirmLogout)
   else ret tt);;
  set_menu false.

(** The two [keydown] listeners (lines 120-126 and 845-851). *)
Definition escape_menu (key : string) : M unit :=
  if String.eqb key "Escape" then set_menu false else ret tt.

Definition escape_modals (key : string) : M unit :=
  if String.eqb key "Escape" then hideLogoutModal;; hideProfileModal;; closeSettingsModal else ret tt.

(** [loadUserName()], with the [name] parameter of the page's URL. *)
Definition loadUserName (nameFromUrl : option string) : M unit :=
  storedFirstName ← getItem "userFirstName";
  let from_url :=
    match nameFromUrl with
    | Some n => if truthy n then set_user_name n;; setItem "userFirstName" n else set_user_name "User"
    | None => set_user_name "User"
    end in
  match storedFirstName with
  | Some n => if truthy n && negb (String.eqb n "User") then set_user_name n else from_url
  | None => from_url
  end.

(** The [DOMContentLoaded] listener of lines 157-174. *)
Definition initialize (nameFromUrl : option string) : M unit :=
  loadUserName nameFromUrl;;
  run_init InitFileUpload;; run_init InitNavigation;; run_init InitTransactionForm.

(** ** Events *)

(** The listeners of one event, in registration order; an exception of
    one is reported and the next still runs. *)
Fixpoint dispatch (ls : list (M unit)) (s : state) : state * list JsResult.error :=
  match ls with
  | [] => (s, [])
  | l :: ls' =>
      let '(s1, r) := l s in
      let '(s2, es) := dispatch ls' s1 in
      (s2, match r with JsResult.Ok _ => es | JsResult.Throw e => e :: es end)
  end.

(** The user's actions.  The profile icon and the modal buttons call the
    handlers from the page's [onclick] attributes; every click then
    bubbles to the two document listeners. *)
Inductive event :=
  | ProfileIconClick
  | MenuItemClick (action : string)
  | DocumentClick (inside_profile on_logout_backdrop : bool)
  | KeyDown (key : string)
  | CancelLogoutClick
  | ConfirmLogoutClick
  | CloseProfileClick
  | CloseSettingsClick.

Definition document_click (inside_profile on_backdrop : bool) : list (M unit) :=
  [close_menu_outside inside_profile; close_logout_backdrop on_backdrop].

Definition handle (ev : event) (s : state) : state * list JsResult.error :=
  match ev with
  | ProfileIconClick => dispatch (toggleProfileMenu :: document_click true false) s
  | MenuItemClick a => dispatch (menu_item_click a :: document_click true false) s
  | DocumentClick i b => dispatch (document_click i b) s
  | KeyDown k => dispatch [escape_menu k; escape_modals k] s
  | CancelLogoutClick => dispatch (cancelLogout :: document_click false false) s
  | ConfirmLogoutClick => dispatch (confirmLogout :: document_click false false) s
  | CloseProfileClick => dispatch (hideProfileModal :: document_click false false) s
  | CloseSettingsClick => dispatch (closeSettingsModal :: document_click false false) s
  end.

(** ** Properties *)

(** Run the handlers symbolically, through the monad's instances. *)
(** Rewrite with the tests already decided. *)
Ltac known :=
  repeat match goal with
  | H : ?b = true |- context [?b] => rewrite H
  | H : ?b = false |- context [?b] => rewrite H
  | H : ?x = Some ?v |- context [?x] => rewrite H
  | H : ?x = None |- context [?x] => rewrite H
  end.

(** Case on the first stored value the goal reads. *)
Ltac case_lookup :=
  match goal with
  | |- context [match ?m !! ?k with Some _ => _ | None => _ end] =>
      let E := fresh "E" in destruct (m !! k) eqn:E
  | |- context [match ?o with Some _ => _ | None => _ end] =>
      is_var o; destruct o
  end.

Ltac msimpl :=
  repeat progress (cbn -[require_confirmation lookup]; unfold mbind, M_bind, mret, M_ret, bind, ret, modify).

(** Removing keys one after the other, in a [gmap]. *)
Lemma lookup_delete_all (ks : list string) (st : storage) (k : string) :
  fold_left (fun m k' => delete k' m) ks st !! k = if decide (k ∈ ks) then None else st !! k.
Proof.
  revert st. induction ks as [|k0 ks IH]; intros st; cbn [fold_left].
  - destruct (decide (k ∈ [])) as [H|_]; [apply elem_of_nil in H; contradiction | reflexivity].
  - rewrite IH. destruct (decide (k = k0)) as [->|Hne].
    + rewrite lookup_delete_eq. destruct (decide (k0 ∈ ks)), (decide (k0 ∈ k0 :: ks)) as [|Hn]; try reflexivity.
      all: exfalso; apply Hn, elem_of_cons; left; reflexivity.
    + rewrite lookup_delete_ne by congruence.
      destruct (decide (k ∈ ks)) as [Hin|Hnin], (decide (k ∈ k0 :: ks)) as [Hin'|Hnin']; try reflexivity.
      * exfalso. apply Hnin', elem_of_cons. right. exact Hin.
      * exfalso. apply elem_of_cons in Hin' as [|]; contradiction.
Qed.

(** C35: with storage available, [confirmLogout] removes exactly the five
    keys of the user (a [requireConfirmation] setting stays) and sends
    the page to [../index.html]. *)
Theorem confirmLogout_spec (s : state) (st : storage) :
  store s = Some st ->
  exists s' st', confirmLogout s = (s', JsResult.Ok tt) /\ location s' = Some "../index.html" /\
    store s' = Some st' /\ forall k, st' !! k = if decide (k ∈ user_keys) then None else st !! k.
Proof.
  destruct s as [[st0|] ? ? ? ? ? ? ? ?]; intros H; cbn in H; [injection H as <-|discriminate].
  eexists _, (fold_left (fun m k' => delete k' m) user_keys st0). split; [reflexivity|].
  split; [reflexivity|]. split; [reflexivity|]. intros k. apply lookup_delete_all.
Qed.


(** pressing Escape closes the profile menu and the three modals,
    whatever the state, without touching the storage or the location. *)
Theorem escape_closes_all (s : state) :
  let '(s', errs) := handle (KeyDown "Escape") s in
  errs = [] /\ menu_active s' = false /\ logout_modal s' = false /\ profile_modal s' = false /\
  settings_modal s' = false /\ store s' = store s /\ location s' = location s.
Proof. destruct s. repeat split. Qed.

(** choosing Logout in the menu closes the menu; unless the stored
    [requireConfirmation] is ['false'] it only opens the confirmation
    modal, and otherwise it logs out at once, as [confirmLogout] does. *)
Theorem menu_logout (s : state) (st : storage) :
  store s = Some st ->
  let '(s', errs) := handle (MenuItemClick "Logout") s in
  errs = [] /\ menu_active s' = false /\
  if require_confirmation (st !! "requireConfirmation") then
    logout_modal s' = true /\ store s' = Some st /\ location s' = location s
  else
    location s' = Some "../index.html" /\
    exists st', store s' = Some st' /\ forall k, st' !! k = if decide (k ∈ user_keys) then None else st !! k.
Proof.
  destruct s as [[st0|] ? ? ? ? ? ? ? ?]; intros H; cbn in H; [injection H as <-|discriminate].
  destruct (require_confirmation (st0 !! "requireConfirmation")) eqn:E.
  - msimpl. rewrite E. repeat split.
  - msimpl. rewrite E. repeat split. eexists. split; [reflexivity|]. intros k. exact (lookup_delete_all user_keys st0 k).
Qed.


(** with storage available, [loadUserName] always shows a non-empty
    name in the header, and a reload without the [name] parameter shows
    the same name again: a name taken from the URL is remembered. *)
Theorem loadUserName_stable (s : state) (st : storage) (url : option string) :
  store s = Some st ->
  let '(s1, r1) := loadUserName url s in
  let '(s2, r2) := loadUserName None s1 in
  r1 = JsResult.Ok tt /\ r2 = JsResult.Ok tt /\ user_name s2 = user_name s1 /\
  exists n, user_name s1 = Some n /\ n <> "".
Proof.
  destruct s as [[st0|] ? ? ? ? ? ? ? ?]; intros H; cbn in H; [injection H as <-|discriminate].
  unfold loadUserName, truthy, truthy_string.
  repeat progress (msimpl; rewrite ?lookup_insert_eq; known; try case_if; try case_lookup).
  all: repeat match goal with H : context [String.eqb ?x ?y] |- _ =>
                destruct (String.eqb_spec x y); cbn in H; try discriminate end; subst.
  all: split; [reflexivity|]; split; [reflexivity|]; split; [reflexivity|].
  all: eexists; split; [reflexivity|]; congruence.
Qed.


(** C30: when the browser refuses the page its storage, the start-up
    listener throws in [loadUserName] before anything else: the file
    upload, the navigation and the transaction form are never
    initialised. *)
Theorem initialize_storage_unavailable (s : state) (url : option string) :
  store s = None -> initialize url s = (s, JsResult.Throw JsResult.SecurityError).
Proof. destruct s as [[st0|] ? ? ? ? ? ? ? ?]; intros H; cbn in H; [discriminate|reflexivity]. Qed.

(** C29: without storage, My Profile opens the modal with the page's
    placeholder text and the error escapes: [loadProfileData] catches the
    first [SecurityError] but [loadFallbackProfileData] reads
    [localStorage] again; the menu also stays as it was. *)
Theorem profile_storage_unavailable (s : state) :
  store s = None ->
  let '(s', errs) := handle (MenuItemClick "My Profile") s in
  errs = [JsResult.SecurityError] /\ profile_modal s' = true /\ profile s' = profile s /\
  menu_active s' = menu_active s.
Proof. destruct s as [[st0|] ? ? ? ? ? ? ? ?]; intros H; cbn in H; [discriminate|repeat split]. Qed.

End Session.

Module SessionExamples.
Import Session.

Definition page (st : option storage) : state :=
  {| store := st; menu_active := true; logout_modal := false; profile_modal := false;
     settings_modal := false; user_name := None; profile := None; location := None; initialized := [] |}.

Definition ana : storage :=
  <["userFirstName" := "Ana"]> (<["userLastName" := "Ruiz"]> (<["userMobile" := "555"]>
  (<["requireConfirmation" := "false"]> ∅))).

(** The profile of a stored user; the e-mail falls back to the placeholder. *)
Example ana_profile :
  profile (fst (handle (MenuItemClick "My Profile") (page (Some ana)))) =
  Some {| profileFullName := "Ana Ruiz"; profileEmail := "user@example.com"; profileMobile := "555" |}.
Proof. reflexivity. Qed.

(** A name from the URL is stored and shown. *)
Example url_name :
  let '(s, r) := initialize (Some "Bo") (page (Some ∅)) in
  r = JsResult.Ok tt /\ user_name s = Some "Bo" /\
  initialized s = [InitFileUpload; InitNavigation; InitTransactionForm].
Proof. repeat split. Qed.

Lemma confirmLogout_spec_witness :
  exists s' st', confirmLogout (page (Some ana)) = (s', JsResult.Ok tt) /\ location s' = Some "../index.html" /\
    store s' = Some st' /\ forall k, st' !! k = if decide (k ∈ user_keys) then None else ana !! k.
Proof. apply confirmLogout_spec. reflexivity. Defined.

Lemma menu_logout_witness :
  let '(s', errs) := handle (MenuItemClick "Logout") (page (Some ana)) in
  errs = [] /\ menu_active s' = false /\
  if require_confirmation (ana !! "requireConfirmation") then
    logout_modal s' = true /\ store s' = Some ana /\ location s' = location (page (Some ana))
  else
    location s' = Some "../index.html" /\
    exists st', store s' = Some st' /\ forall k, st' !! k = if decide (k ∈ user_keys) then None else ana !! k.
Proof. apply (menu_logout (page (Some ana)) ana). reflexivity. Defined.

Lemma loadUserName_stable_witness :
  let '(s1, r1) := loadUserName (Some "User") (page (Some ∅)) in
  let '(s2, r2) := loadUserName None s1 in
  r1 = JsResult.Ok tt /\ r2 = JsResult.Ok tt /\ user_name s2 = user_name s1 /\
  exists n, user_name s1 = Some n /\ n <> "".
Proof. apply (loadUserName_stable (page (Some ∅)) ∅). reflexivity. Defined.

Lemma initialize_storage_unavailable_witness :
  initialize (Some "Bo") (page None) = (page None, JsResult.Throw JsResult.SecurityError).
Proof. apply initialize_storage_unavailable. reflexivity. Defined.

Lemma profile_storage_unavailable_witness :
  let '(s', errs) := handle (MenuItemClick "My Profile") (page None) in
  errs = [JsResult.SecurityError] /\ profile_modal s' = true /\ profile s' = profile (page None) /\
  menu_active s' = menu_active (page None).
Proof. apply profile_storage_unavailable. reflexivity. Defined.

End SessionExamples.
