(* ===== verification/History.v ===== *)
(** * The transaction history table

    [#historyTableBody] lists the checked transactions.
    [loadTransactionHistory] (dashboard.js, lines 1188-1220) refills it
    from the backend's JSON; [renderEmptyHistory] (1222-1236) puts back
    the placeholder row; [appendHistoryRow] (1238-1255) removes the
    placeholder and appends a row of seven cells; the confirmed
    [clearTransactionHistory] (1258-1299) empties it on the backend's
    answer and destroys the charts; [downloadTransactionHistory]
    (1302-1347) exports the rows through [createExcelFile] (Csv).

    The table is a list of rows, each the placeholder or the HTML of its
    seven cells.  The cells are filled through [innerHTML], so what the
    export reads back is the [textContent] the HTML parser gives: the
    parser is the class [HtmlText], whose one law is that text without
    [<] or [&] is its own content.  Numbers are printed by the
    [NumberToString] parameter of [Json].  The fetch calls are modelled
    by their outcomes, and an alert whose text is an engine's error
    message keeps the error kind instead.

    The page's events form a [step] function and a [reachable] relation.
    The theorems show the placeholder invariant on every reachable
    table, that the page refines an abstract history (the list of rows
    shown, [shown]) event by event and run by run, and what each
    operation does to the table, the charts and the exported file. *)

From Stdlib Require Import String Ascii List Bool ZArith NArith QArith Lia.
From S2P Require Import Prelude JsString JsNumber Json Csv.
Import ListNotations JsNumber Json Csv.
Open Scope string_scope.

Module History.

Inductive tr := NoDataRow | DataRow (cells : list string).

Definition is_data (r : tr) : bool := match r with DataRow _ => true | NoDataRow => false end.

(** Text that the HTML parser leaves alone. *)
Definition plain_html (s : string) : bool :=
  negb (JsString.has_char "<"%char s) && negb (JsString.has_char "&"%char s).

Class HtmlText := {
  text_content : string -> string;
  text_content_plain : forall s, plain_html s = true -> text_content s = s
}.

(** The object [appendHistoryRow] receives. *)
(** A parser for running the examples: it drops the tags, everything
    from a [<] to the next [>] (entities are left as they are). *)
Fixpoint strip_tags (inside : bool) (s : string) : string :=
  match s with
  | EmptyString => EmptyString
  | String c s' =>
      if inside then strip_tags (negb (Ascii.eqb c ">"%char)) s'
      else if Ascii.eqb c "<"%char then strip_tags true s'
      else String c (strip_tags false s')
  end.

Lemma strip_tags_plain (s : string) : plain_html s = true -> strip_tags false s = s.
Proof.
  induction s as [|c s IH]; intros Hp; [reflexivity|]. unfold plain_html in *. cbn [strip_tags].
  cbn [JsString.has_char] in Hp. apply andb_prop in Hp as [H1 H2].
  apply negb_true_iff, orb_false_iff in H1 as [E1 H1]. apply negb_true_iff, orb_false_iff in H2 as [_ H2].
  rewrite E1, IH; [reflexivity|]. rewrite H1, H2. reflexivity.
Qed.

#[export] Instance tag_stripping : HtmlText :=
  {| text_content := strip_tags false; text_content_plain := strip_tags_plain |}.

Record hist_row := {
  customer_id : jval;
  transaction_amount : jval;
  kyc_verified : jval;
  account_age_days : jval;
  channel : jval;
  timestamp : jval;
  is_fraud : jval
}.

(** An alert: its text, or the prefix of an error whose message the
    engine writes. *)
Inductive alert_msg := AlertText (text : string) | AlertError (prefix : string) (e : JsResult.error).

Record state := {
  body : option (list tr);
  live_charts : list string;
  alerts : list alert_msg;
  downloads : list (string * string)
}.

Definition with_body (b : list tr) (s : state) : state :=
  {| body := Some b; live_charts := live_charts s; alerts := alerts s; downloads := downloads s |}.

Definition alert (m : alert_msg) (s : state) : state :=
  {| body := body s; live_charts := live_charts s; alerts := alerts s ++ [m]; downloads := downloads s |}.

(** [destroyChartIfExists(key)] (1467-1472) *)
Definition destroyChartIfExists (key : string) (s : state) : state :=
  {| body := body s; live_charts := remove string_dec key (live_charts s); alerts := alerts s;
     downloads := downloads s |}.

Section Table.
Context `{NumberToString} `{HtmlText}.

(** [renderEmptyHistory()] *)
Definition renderEmptyHistory (s : state) : state :=
  match body s with None => s | Some _ => with_body [NoDataRow] s end.

(** [body.querySelector('.no-data')?.remove()]: the first placeholder. *)
Fixpoint remove_placeholder (b : list tr) : list tr :=
  match b with
  | [] => []
  | NoDataRow :: b' => b'
  | r :: b' => r :: remove_placeholder b'
  end.

(** The seven [<td>${...}</td>] of the template. *)
Definition row_cells (row : hist_row) : list string :=
  [to_string (nullish_or (customer_id row) (JStr "-"));
   to_string (nullish_or (transaction_amount row) (JStr "-"));
   to_string (nullish_or (kyc_verified row) (JStr "-"));
   to_string (nullish_or (account_age_days row) (JStr "-"));
   to_string (nullish_or (channel row) (JStr "-"));
   to_string (nullish_or (timestamp row) (JStr "-"));
   to_string (is_fraud row)].

(** [appendHistoryRow(row)] *)
Definition appendHistoryRow (row : hist_row) (s : state) : state :=
  match body s with
  | None => s
  | Some b => with_body (remove_placeholder b ++ [DataRow (row_cells row)])%list s
  end.

(** The object [loadTransactionHistory] builds from a transaction [tx]. *)
Definition history_row (tx : jval) : JsResult.t hist_row :=
  let? c := get tx "customer_id" in
  let? a := get tx "transaction_amount" in
  let? k := get tx "kyc_verified" in
  let? d := get tx "account_age_days" in
  let? ch := get tx "channel" in
  let? t := get tx "timestamp" in
  let? f := get tx "is_fraud" in
  JsResult.Ok {| customer_id := c ||j JStr "-"; transaction_amount := a; kyc_verified := k;
                 account_age_days := d; channel := ch; timestamp := t; is_fraud := f |}.

(** [data.forEach(...)]; an exception goes to the [catch], which
    renders the placeholder. *)
Fixpoint append_all (txs : list jval) (s : state) : state :=
  match txs with
  | [] => s
  | tx :: txs' =>
      match history_row tx with
      | JsResult.Ok r => append_all txs' (appendHistoryRow r s)
      | JsResult.Throw _ => renderEmptyHistory s
      end
  end.

(** [loadTransactionHistory()] with the outcome of [fetch] and
    [res.json()]. *)
Definition loadTransactionHistory (resp : JsResult.t jval) (s : state) : state :=
  match resp with
  | JsResult.Throw _ => renderEmptyHistory s
  | JsResult.Ok (JArr txs) =>
      match body s with
      | None => s
      | Some _ =>
          let s := with_body [] s in
          match txs with
          | [] => renderEmptyHistory s
          | _ => append_all txs s
          end
      end
  | JsResult.Ok _ => renderEmptyHistory s
  end.

(** The outcome of a [fetch]: a rejected promise, or a status with the
    body parsed as JSON ([None] when it does not parse). *)
Inductive http_response := FetchFailed | HttpResponse (status : Z) (json : option jval).

Definition res_ok (status : Z) : bool := (200 <=? status)%Z && (status <=? 299)%Z.

(** The charts [clearTransactionHistory] destroys. *)
Definition history_charts : list string := ["roc"; "fraudVsLegit"; "fraudTrend"; "channelPie"; "amountScatter"].

Definition clear_failed : string := "Failed to clear history: ".

(** [clearTransactionHistory()], with the answer to [confirm] and the
    outcome of the [DELETE]. *)
Definition clearTransactionHistory (confirmed : bool) (resp : http_response) (s : state) : state :=
  if negb confirmed then s
  else
    match resp with
    | FetchFailed => alert (AlertError clear_failed JsResult.TypeError) s
    | HttpResponse status json =>
        if res_ok status then
          let s := match body s with None => s | Some _ => with_body [NoDataRow] s end in
          let s := fold_left (fun s k => destroyChartIfExists k s) history_charts s in
          alert (AlertText "All transaction history has been cleared.") s
        else
          (* [await res.json().catch(() => ({}))] *)
          let err := match json with Some v => v | None => JObj [] end in
          match get err "detail" with
          | JsResult.Ok detail =>
              let msg := if truthy detail then to_string detail
                         else "Failed to delete (status " ++ to_string (JNum (of_Z status)) ++ ")" in
              alert (AlertText (clear_failed ++ msg)) s
          | JsResult.Throw e => alert (AlertError clear_failed e) s
          end
    end.

Definition history_headers : list string :=
  ["Customer ID"; "Transaction Amount"; "KYC Verified"; "Account Age (Days)"; "Channel"; "Date & Time"; "is_fraud"].

(** [rows.forEach(...)] of the rows that are not the placeholder: the
    trimmed text of the first seven cells, when there are seven. *)
Definition export_rows (b : list tr) : list (list string) :=
  flat_map (fun r => match r with
                     | DataRow cells =>
                         if Nat.leb 7 (List.length cells)
                         then [map (fun c => JsString.trim (text_content c)) (firstn 7 cells)] else []
                     | NoDataRow => []
                     end) b.

(** [downloadTransactionHistory()]: the file name and the CSV text of
    [createExcelFile] (the Blob adds a byte-order mark in front). *)
Definition downloadTransactionHistory (s : state) : state :=
  match body s with
  | None => s
  | Some b =>
      if existsb is_data b then
        {| body := body s; live_charts := live_charts s; alerts := alerts s;
           downloads := downloads s ++
             [("Transaction_History.xlsx", createExcelFile_content (history_headers :: export_rows b))] |}
      else alert (AlertText "No transaction history available to download.") s
  end.

(** ** The page's events *)

Inductive event :=
  | Append (row : hist_row)
  | Load (resp : JsResult.t jval)
  | RenderEmpty
  | Clear (confirmed : bool) (resp : http_response)
  | Download.

Definition step (ev : event) (s : state) : state :=
  match ev with
  | Append row => appendHistoryRow row s
  | Load resp => loadTransactionHistory resp s
  | RenderEmpty => renderEmptyHistory s
  | Clear c resp => clearTransactionHistory c resp s
  | Download => downloadTransactionHistory s
  end.

Inductive reachable (s0 : state) : state -> Prop :=
  | reach_init : reachable s0 s0
  | reach_step (s : state) (ev : event) : reachable s0 s -> reachable s0 (step ev s).

End Table.

(** ** The placeholder invariant *)

(** The table shows the placeholder alone, or data rows only. *)
Local Open Scope list_scope.

Definition table_ok (b : list tr) : bool :=
  match b with [NoDataRow] => true | _ => forallb is_data b end.

Definition wf (s : state) : Prop :=
  match body s with None => True | Some b => table_ok b = true end.

Lemma table_ok_cases (b : list tr) : table_ok b = true -> b = [NoDataRow] \/ forallb is_data b = true.
Proof. destruct b as [|[|c] [|r b]]; cbn; auto. Qed.

Lemma remove_placeholder_data (b : list tr) : forallb is_data b = true -> remove_placeholder b = b.
Proof. induction b as [|[|c] b IH]; cbn; intros H; [reflexivity|discriminate|]. rewrite IH; auto. Qed.

(** Appending removes the placeholder and keeps the data rows in order. *)
Lemma append_rows (b : list tr) (r : tr) : table_ok b = true ->
  (remove_placeholder b ++ [r] = filter is_data b ++ [r])%list.
Proof.
  intros H. destruct (table_ok_cases b H) as [->|Hd]; [reflexivity|].
  rewrite remove_placeholder_data, (filter_all is_data b) by exact Hd.
  reflexivity.
Qed.

Lemma table_ok_data (b : list tr) : forallb is_data b = true -> table_ok b = true.
Proof. intros H. destruct b as [|[|c] [|r b]]; cbn in *; auto. Qed.

Lemma forallb_data_app (b : list tr) (cells : list string) :
  forallb is_data (filter is_data b ++ [DataRow cells])%list = true.
Proof.
  rewrite forallb_app. apply andb_true_intro. split; [|reflexivity].
  apply forallb_forall. intros x Hx. apply filter_In in Hx. apply Hx.
Qed.

Section Invariant.
Context `{NumberToString} `{HtmlText}.

Lemma append_wf (row : hist_row) (s : state) : wf s -> wf (appendHistoryRow row s).
Proof.
  unfold wf, appendHistoryRow. destruct (body s) as [b|] eqn:Eb; intros Hb; [|rewrite Eb; exact I].
  cbn. rewrite append_rows by exact Hb. apply table_ok_data, forallb_data_app.
Qed.

Lemma render_empty_wf (s : state) : wf (renderEmptyHistory s).
Proof. unfold wf, renderEmptyHistory. destruct (body s) eqn:E; [reflexivity | rewrite E; exact I]. Qed.

Lemma append_all_wf (txs : list jval) (s : state) : wf s -> wf (append_all txs s).
Proof.
  revert s. induction txs as [|tx txs IH]; intros s Hs; cbn; [exact Hs|].
  destruct (history_row tx); [apply IH, append_wf, Hs | apply render_empty_wf].
Qed.

Lemma fold_destroy_body (ks : list string) (s : state) :
  body (fold_left (fun s k => destroyChartIfExists k s) ks s) = body s.
Proof. revert s. induction ks as [|k ks IH]; intros s; cbn; [|rewrite IH]; reflexivity. Qed.

Lemma fold_destroy_alerts (ks : list string) (s : state) :
  alerts (fold_left (fun s k => destroyChartIfExists k s) ks s) = alerts s.
Proof. revert s. induction ks as [|k ks IH]; intros s; cbn; [|rewrite IH]; reflexivity. Qed.

Lemma history_step_wf (ev : event) (s : state) : wf s -> wf (step ev s).
Proof.
  intros Hs. destruct ev as [row|resp| |c resp|]; cbn.
  - apply append_wf, Hs.
  - unfold loadTransactionHistory. destruct resp as [[| | | | |txs|]|]; try apply render_empty_wf.
    destruct (body s) eqn:Eb; [|unfold wf; rewrite Eb; exact I].
    destruct txs; [apply render_empty_wf | apply append_all_wf; reflexivity].
  - apply render_empty_wf.
  - unfold clearTransactionHistory. destruct c; cbn; [|exact Hs].
    destruct resp as [|status json]; [exact Hs|].
    destruct (res_ok status).
    + unfold wf, alert, destroyChartIfExists. cbn [body]. destruct (body s) eqn:E; cbn [body with_body]; [reflexivity | rewrite ?E; exact I].
    + destruct (get _ "detail"); exact Hs.
  - unfold downloadTransactionHistory, wf in *. destruct (body s) eqn:Eb; [|rewrite Eb; exact I].
    destruct (existsb is_data l); cbn; rewrite ?Eb; exact Hs.
Qed.

(** C18: from a table that shows the placeholder alone or data rows only
    (the page's initial placeholder row, say), every sequence of
    appends, loads, clears, placeholder renderings and downloads keeps
    it so: the placeholder never sits beside a transaction. *)
Theorem history_reachable_wf (s0 s : state) : wf s0 -> reachable s0 s -> wf s.
Proof. intros Hs0 Hr. induction Hr as [|s ev _ IH]; [exact Hs0 | apply history_step_wf, IH]. Qed.


(** ** What each operation does to the table *)

(** appending to a well-formed table removes the placeholder, keeps
    the data rows in order and adds the row's seven cells last. *)
Theorem appendHistoryRow_rows (row : hist_row) (s : state) (b : list tr) :
  body s = Some b -> table_ok b = true ->
  body (appendHistoryRow row s) = Some (filter is_data b ++ [DataRow (row_cells row)]).
Proof. intros Hb Hok. unfold appendHistoryRow. rewrite Hb. cbn. rewrite append_rows by exact Hok. reflexivity. Qed.

(** The row a transaction that is not [null] gives. *)
Definition tx_row (tx : jval) : hist_row :=
  match history_row tx with
  | JsResult.Ok r => r
  | JsResult.Throw _ => {| customer_id := JStr "-"; transaction_amount := JUndefined; kyc_verified := JUndefined;
                           account_age_days := JUndefined; channel := JUndefined; timestamp := JUndefined;
                           is_fraud := JUndefined |}
  end.

Lemma history_row_ok (tx : jval) : not_nullish tx = true -> history_row tx = JsResult.Ok (tx_row tx).
Proof. unfold tx_row. destruct tx; try discriminate; reflexivity. Qed.

Lemma history_row_null (tx : jval) : not_nullish tx = false -> history_row tx = JsResult.Throw JsResult.TypeError.
Proof. destruct tx; try discriminate; reflexivity. Qed.

Lemma append_all_rows (txs : list jval) (s : state) (b : list tr) :
  body s = Some b -> forallb is_data b = true ->
  body (append_all txs s) =
  Some (if forallb not_nullish txs then b ++ map (fun tx => DataRow (row_cells (tx_row tx))) txs
        else [NoDataRow]).
Proof.
  revert s b. induction txs as [|tx txs IH]; intros s b Hb Hd; cbn.
  - rewrite Hb, app_nil_r. reflexivity.
  - destruct (not_nullish tx) eqn:En; cbn.
    + rewrite history_row_ok by exact En.
      rewrite (IH _ _ (appendHistoryRow_rows (tx_row tx) s b Hb (table_ok_data b Hd))) by apply forallb_data_app.
      destruct (forallb not_nullish txs); [|reflexivity]. f_equal.
      rewrite filter_all by exact Hd. rewrite <- app_assoc. reflexivity.
    + rewrite history_row_null by exact En. unfold renderEmptyHistory. rewrite Hb. reflexivity.
Qed.

(** C34: loading a non-empty array of transactions replaces the table by
    one row per transaction, in order, unless one of them is [null]: the
    exception then replaces everything by the placeholder, even the
    rows already added. *)
Theorem loadTransactionHistory_rows (txs : list jval) (s : state) (b : list tr) :
  body s = Some b -> txs <> [] ->
  body (loadTransactionHistory (JsResult.Ok (JArr txs)) s) =
  Some (if forallb not_nullish txs then map (fun tx => DataRow (row_cells (tx_row tx))) txs else [NoDataRow]).
Proof.
  intros Hb Hne. unfold loadTransactionHistory. rewrite Hb.
  destruct txs as [|tx txs]; [contradiction|].
  rewrite (append_all_rows (tx :: txs) (with_body [] s) []) by reflexivity. reflexivity.
Qed.


Lemma fold_destroy_charts (ks : list string) (s : state) :
  live_charts (fold_left (fun s k => destroyChartIfExists k s) ks s) =
  fold_left (fun l k => remove string_dec k l) ks (live_charts s).
Proof. revert s. induction ks as [|k ks IH]; intros s; cbn; [reflexivity | apply IH]. Qed.

Lemma fold_remove_notin (ks l : list string) (k : string) :
  (In k ks \/ ~ In k l) -> ~ In k (fold_left (fun l k => remove string_dec k l) ks l).
Proof.
  revert l. induction ks as [|k' ks IH]; intros l Hk; cbn.
  - destruct Hk as [[]|Hk]; exact Hk.
  - apply IH. destruct (string_dec k k') as [->|Hne]; [right; apply remove_In|].
    destruct Hk as [[->|Hin]|Hnl]; [contradiction | left; exact Hin|].
    right. intros Hr. apply in_remove in Hr as [Hr _]. contradiction.
Qed.

(** a confirmed clear that the backend accepts puts the placeholder
    back, destroys the five charts of the history page and says so; a
    refused one leaves the table and the charts as they were. *)
Theorem clearTransactionHistory_ok (s : state) (status : Z) (json : option jval) :
  let s' := clearTransactionHistory true (HttpResponse status json) s in
  if res_ok status then
    body s' = option_map (fun _ => [NoDataRow]) (body s) /\
    (forall k, In k history_charts -> ~ In k (live_charts s')) /\
    alerts s' = alerts s ++ [AlertText "All transaction history has been cleared."]
  else body s' = body s /\ live_charts s' = live_charts s /\ exists m, alerts s' = alerts s ++ [m].
Proof.
  cbn zeta. unfold clearTransactionHistory. cbn [negb]. destruct (res_ok status).
  - unfold alert. cbn [body live_charts alerts]. rewrite fold_destroy_body, fold_destroy_charts.
    split; [destruct (body s) eqn:E; cbn; rewrite ?E; reflexivity|]. split.
    + intros k Hk. apply fold_remove_notin. left. exact Hk.
    + rewrite fold_destroy_alerts. destruct (body s); reflexivity.
  - destruct (get _ "detail"); cbn; (split; [reflexivity|]); (split; [reflexivity|]); eexists; reflexivity.
Qed.

(** ** The export *)

(** A cell the export and the CSV reader give back unchanged. *)
Definition clean_cell (c : string) : bool :=
  plain_html c && plain_cell c && JsString.no_lead_ws c && JsString.no_trail_ws c.

Lemma export_rows_clean (rows : list (list string)) :
  Forall (fun r => List.length r = 7 /\ forallb clean_cell r = true) rows ->
  export_rows (map DataRow rows) = rows.
Proof.
  induction 1 as [|r rows [Hl Hc] _ IH]; [reflexivity|].
  change (export_rows (map DataRow (r :: rows))) with
    ((if Nat.leb 7 (List.length r) then [map (fun c => JsString.trim (text_content c)) (firstn 7 r)] else [])
     ++ export_rows (map DataRow rows)).
  rewrite Hl, IH. cbn [Nat.leb app]. rewrite firstn_all2 by lia. f_equal. rewrite <- (map_id r) at 2. apply map_ext_in.
  intros c Hin. apply forallb_forall with (x := c) in Hc; [|exact Hin].
  apply andb_prop in Hc as [Hc Ht]. apply andb_prop in Hc as [Hc Hl']. apply andb_prop in Hc as [Hh _].
  rewrite text_content_plain by exact Hh. apply JsString.trim_id; assumption.
Qed.

(** downloading a table of transactions whose cells hold plain text
    (no markup, quote, comma, line break or surrounding spaces) writes a
    file that the dashboard's own [parseCSV] reads back as the seven
    column titles and exactly those rows. *)
Theorem download_roundtrip (s : state) (rows : list (list string)) :
  body s = Some (map DataRow rows) -> rows <> [] ->
  Forall (fun r => List.length r = 7 /\ forallb clean_cell r = true) rows ->
  exists content,
    downloads (downloadTransactionHistory s) = downloads s ++ [("Transaction_History.xlsx", content)] /\
    parseCSV content = JsResult.Ok (mk_dataset history_headers (map (build_row history_headers) rows) content).
Proof.
  intros Hb Hne Hrows. unfold downloadTransactionHistory. rewrite Hb.
  destruct rows as [|r rs]; [contradiction|].
  replace (existsb is_data (map DataRow (r :: rs))) with true by reflexivity.
  eexists. split; [reflexivity|]. rewrite export_rows_clean by exact Hrows.
  apply export_parse_roundtrip. constructor; [split; [discriminate | reflexivity]|].
  eapply Forall_impl; [|exact Hrows]. intros x [Hl Hc]. split.
  - intros ->. discriminate.
  - apply forallb_forall. intros c Hin. apply forallb_forall with (x := c) in Hc; [|exact Hin].
    apply andb_prop in Hc as [Hc _]. apply andb_prop in Hc as [Hc _]. apply andb_prop in Hc as [_ Hp]. exact Hp.
Qed.

(** ** The table as the list of transactions it shows

    What the history page promises is a list of rows, each the seven
    cells of one transaction; the placeholder row is presentation.
    [shown] reads that list off the table, and [abs_step] says what each
    event does to it.  [step_refines] proves that the page's operations
    implement the abstract ones, so a run of the page is a run of the
    abstract history ([history_refinement]). *)

Definition shown_rows (b : list tr) : list (list string) :=
  flat_map (fun r => match r with DataRow c => [c] | NoDataRow => [] end) b.

Definition shown (s : state) : option (list (list string)) := option_map shown_rows (body s).

Definition abs_step (ev : event) (v : option (list (list string))) : option (list (list string)) :=
  option_map (fun rows =>
    match ev with
    | Append row => rows ++ [row_cells row]
    | Load (JsResult.Ok (JArr txs)) =>
        if forallb not_nullish txs then map (fun tx => row_cells (tx_row tx)) txs else []
    | Load _ | RenderEmpty => []
    | Clear true (HttpResponse status _) => if res_ok status then [] else rows
    | Clear _ _ | Download => rows
    end) v.

Definition run (evs : list event) (s : state) : state := fold_left (fun s ev => step ev s) evs s.

Lemma shown_rows_app (b1 b2 : list tr) : shown_rows (b1 ++ b2) = shown_rows b1 ++ shown_rows b2.
Proof. apply flat_map_app. Qed.

Lemma shown_remove_placeholder (b : list tr) : shown_rows (remove_placeholder b) = shown_rows b.
Proof. unfold shown_rows. induction b as [|[|c] b IH]; cbn; [reflexivity..|]. f_equal. exact IH. Qed.

Lemma shown_data_rows (f : jval -> list string) (txs : list jval) :
  shown_rows (map (fun tx => DataRow (f tx)) txs) = map f txs.
Proof. unfold shown_rows. induction txs as [|tx txs IH]; cbn; [|rewrite IH]; reflexivity. Qed.

Lemma shown_render_empty (s : state) : shown (renderEmptyHistory s) = option_map (fun _ => []) (shown s).
Proof. unfold shown, renderEmptyHistory. destruct (body s) eqn:E; cbn; rewrite ?E; reflexivity. Qed.

Lemma shown_alert (m : alert_msg) (s : state) : shown (alert m s) = shown s.
Proof. reflexivity. Qed.

Lemma shown_load (resp : JsResult.t jval) (s : state) :
  shown (loadTransactionHistory resp s) = abs_step (Load resp) (shown s).
Proof.
  unfold loadTransactionHistory.
  destruct resp as [[| | | | |txs|]|]; try apply shown_render_empty.
  unfold shown at 2. destruct (body s) as [b|] eqn:Eb; cbn [option_map abs_step]; [|unfold shown; rewrite Eb; reflexivity].
  destruct txs as [|tx txs]; [apply shown_render_empty|].
  unfold shown. rewrite (append_all_rows (tx :: txs) (with_body [] s) []) by reflexivity.
  destruct (forallb not_nullish (tx :: txs)); cbn [option_map app]; [rewrite shown_data_rows|]; reflexivity.
Qed.


Lemma shown_fold_destroy (ks : list string) (s : state) :
  shown (fold_left (fun s k => destroyChartIfExists k s) ks s) = shown s.
Proof. unfold shown. rewrite fold_destroy_body. reflexivity. Qed.

(** One event on the shown rows (shared by the runs of the page). *)
Lemma step_shown (ev : event) (s : state) : shown (step ev s) = abs_step ev (shown s).
Proof.
  destruct ev as [row|resp| |[|] [|status json]|]; cbn [step].
  - unfold appendHistoryRow, shown. destruct (body s) as [b|] eqn:E; cbn; rewrite ?E; [|reflexivity].
    rewrite shown_rows_app, shown_remove_placeholder. reflexivity.
  - apply shown_load.
  - apply shown_render_empty.
  - cbn. rewrite shown_alert. destruct (shown s); reflexivity.
  - unfold clearTransactionHistory, abs_step. cbn [negb]. destruct (res_ok status).
    + rewrite shown_alert, shown_fold_destroy. unfold shown. destruct (body s) eqn:E; cbn; rewrite ?E; reflexivity.
    + destruct (get _ "detail"); rewrite shown_alert; destruct (shown s); reflexivity.
  - cbn. destruct (shown s); reflexivity.
  - cbn. destruct (shown s); reflexivity.
  - unfold downloadTransactionHistory, shown. destruct (body s) eqn:E; [|rewrite E; reflexivity].
    destruct (existsb is_data l); cbn; rewrite ?E; reflexivity.
Qed.

(** C10: every event of the history page acts on the list of transactions
    it shows as the abstract history says: an append adds the row's
    cells last, a load replaces the list by the transactions' rows (or
    empties it when one of them is [null] or the answer is not an
    array), a clear the backend accepts empties it, a refused or
    cancelled clear and a download keep it; and without the table
    element nothing is shown before or after. *)
Theorem step_refines (ev : event) (s : state) : shown (step ev s) = abs_step ev (shown s).
Proof. exact (step_shown ev s). Qed.

(** a run of the page, any sequence of events, shows the list of
    transactions the same sequence of abstract operations gives. *)
Theorem history_refinement (evs : list event) (s : state) :
  shown (run evs s) = fold_left (fun v ev => abs_step ev v) evs (shown s).
Proof.
  revert s. induction evs as [|ev evs IH]; intros s; [reflexivity|].
  cbn [run fold_left]. rewrite <- step_shown. apply IH.
Qed.

End Invariant.


End History.

Module HistoryExamples.
Import History.
Local Open Scope string_scope.

Definition placeholder_page : state :=
  {| body := Some [NoDataRow]; live_charts := history_charts; alerts := []; downloads := [] |}.

Definition tx1 : jval :=
  JObj [("customer_id", JStr "ana-x1"); ("transaction_amount", JNum (Fin 120%Q)); ("kyc_verified", JStr "yes");
        ("account_age_days", JNum (Fin 30%Q)); ("channel", JStr "online"); ("timestamp", JStr "2024-05-01");
        ("is_fraud", JNum (Fin 0%Q))].
Definition tx2 : jval :=
  JObj [("transaction_amount", JNum (Fin 75%Q)); ("kyc_verified", JStr "no"); ("channel", JStr "atm");
        ("is_fraud", JNum (Fin 1%Q))].

Example loaded :
  body (loadTransactionHistory (JsResult.Ok (JArr [tx1; tx2])) placeholder_page) =
  Some [DataRow ["ana-x1"; "120"; "yes"; "30"; "online"; "2024-05-01"; "0"];
        DataRow ["-"; "75"; "no"; "-"; "atm"; "-"; "1"]].
Proof. vm_compute. reflexivity. Qed.

(** One [null] in the response discards the rows already added. *)
Example null_discards :
  body (loadTransactionHistory (JsResult.Ok (JArr [tx1; JNull; tx2])) placeholder_page) = Some [NoDataRow].
Proof. vm_compute. reflexivity. Qed.

(** Markup from the backend is parsed, not shown: the exported cell is
    [x], not the customer id the backend sent. *)
Example markup_in_cell :
  let s := appendHistoryRow {| customer_id := JStr "<img src=a>x"; transaction_amount := JStr "1.00";
             kyc_verified := JStr "yes"; account_age_days := JNum (Fin 3%Q); channel := JStr "web";
             timestamp := JStr "t"; is_fraud := JNum (Fin 0%Q) |} placeholder_page in
  export_rows (match body s with Some b => b | None => [] end) = [["x"; "1.00"; "yes"; "3"; "web"; "t"; "0"]].
Proof. vm_compute. reflexivity. Qed.

Lemma history_reachable_wf_witness :
  wf (step (Load (JsResult.Ok (JArr [tx1; tx2]))) placeholder_page).
Proof.
  apply (history_reachable_wf placeholder_page); [reflexivity|].
  apply reach_step, reach_init.
Defined.

Lemma appendHistoryRow_rows_witness :
  body (appendHistoryRow (tx_row tx1) placeholder_page) =
  Some (filter is_data [NoDataRow] ++ [DataRow (row_cells (tx_row tx1))])%list.
Proof. apply (appendHistoryRow_rows (tx_row tx1) placeholder_page [NoDataRow]); reflexivity. Defined.

Lemma loadTransactionHistory_rows_witness :
  body (loadTransactionHistory (JsResult.Ok (JArr [tx1; JNull])) placeholder_page) =
  Some (if forallb not_nullish [tx1; JNull] then map (fun tx => DataRow (row_cells (tx_row tx))) [tx1; JNull]
        else [NoDataRow]).
Proof. apply (loadTransactionHistory_rows [tx1; JNull] placeholder_page [NoDataRow]); [reflexivity | discriminate]. Defined.

Definition exported : list (list string) := [["ana-x1"; "120"; "yes"; "30"; "online"; "2024-05-01"; "0"]].

Lemma download_roundtrip_witness :
  exists content,
    downloads (downloadTransactionHistory
                 {| body := Some (map DataRow exported); live_charts := []; alerts := []; downloads := [] |}) =
      ([] ++ [("Transaction_History.xlsx", content)])%list /\
    parseCSV content = JsResult.Ok (mk_dataset history_headers (map (build_row history_headers) exported) content).
Proof.
  apply (download_roundtrip {| body := Some (map DataRow exported); live_charts := []; alerts := []; downloads := [] |});
    [reflexivity | discriminate | repeat constructor].
Defined.

End HistoryExamples.
