(* ===== verification/Transaction.v ===== *)
(** * The transaction check form

    [checkTransaction] (dashboard.js, lines 1046-1181) reads the five
    fields of the form, validates them, builds the payload of
    [POST /predict] (with a customer id derived from [localStorage] and
    [Math.random]), shows the prediction in the result card and table,
    asks [/api/llm-explain] for a text, appends the transaction to the
    history table and confirms with an alert.  [formatId] (7-14) prints
    the ids.

    The function is modelled from the values it reads: the form fields
    ([None] when the element is missing), [getItem] of the storage (which
    may throw), the six base-36 digits of [Math.random], [new Date] on
    the field's text (the class [DateEnv], since the local time zone
    decides the result), and the outcomes of the two [fetch] calls.  The
    result is the new history table (History) with the outcome: the
    alerts, the payload sent, the result card and the row appended.
    The result card's elements are the page's and are taken as present.
    The theorems characterise the validation, the payload's field
    types, the success path, and two disagreements of the outcome (the
    fraud label and the explanation text); [TransactionExamples] runs
    the check on a concrete page. *)

From Stdlib Require Import String Ascii List Bool ZArith QArith Qround Lia.
From S2P Require Import Prelude JsString JsNumber Json Csv History.
Import ListNotations JsNumber Json History.
Open Scope string_scope.

Module Transaction.

(** [formatId(id, type)] *)
Definition formatId `{NumberToString} (id : jval) (type : string) : string :=
  if negb (truthy id) then "-"
  else
    let trimmed := JsString.trim (to_string id) in
    if String.eqb type "txn" then "TXN-" ++ trimmed
    else if String.eqb type "cust" then "CUST-" ++ trimmed
    else trimmed.

(** What [new Date(dtValue)] gives in the page's time zone: its
    [toISOString()], the local hour, day, month (from 0) and weekday,
    and [toLocaleString()]; [None] for an invalid date. *)
Record local_date := {
  iso : string;
  hours : Z;
  day_of_month : Z;
  month0 : Z;
  weekday : Z;
  locale_text : string
}.

Class DateEnv := new_date : string -> option local_date.

Record form := {
  amountEl : option string;
  kycEl : option string;
  ageEl : option string;
  channelEl : option string;
  dtEl : option string
}.

(** The outcome of a [fetch]: rejected, or a status with the body parsed
    as JSON ([None] when [res.json()] rejects). *)
Inductive response := Rejected | Answer (status : Z) (json : option jval).

Record payload := {
  transaction_id : string;
  customer_id : string;
  kyc_verified : string;
  account_age_days : num;
  transaction_amount : num;
  channel : string;
  timestamp : string;
  is_fraud : string;
  hour : Z;
  day : Z;
  month : Z;
  weekday_of : Z;
  is_high_value : nat
}.

(** The result card and the result table. *)
Record result_view := {
  status_text : string;
  description : string;
  risk_text : string;
  icon : string;
  tx_cell : string;
  prediction_cell : string;
  risk_cell : string;
  reason_cell : string;
  time_cell : string
}.

Record outcome := {
  alerts_shown : list alert_msg;
  last_payload : option payload;
  result : option result_view;
  appended : option hist_row
}.

Section Check.
Context `{NumberToString} `{DateEnv}.

(** [!amount || !kyc || !ageDays || !channel || !dtValue] *)
Definition fields_missing (amount : num) (kyc : string) (ageDays : num) (ch dt : string) : bool :=
  negb (truthy amount) || negb (truthy kyc) || negb (truthy ageDays) || negb (truthy ch) || negb (truthy dt).

(** [(storedEmail ? storedEmail.split('@')[0] : '') || storedFirst || 'guest'] *)
Definition customer_base (storedEmail storedFirst : string) : string :=
  ((if truthy storedEmail then hd "" (JsString.split "@"%char storedEmail) else "") ||j storedFirst) ||j "guest".

Definition make_payload (customerId kyc : string) (ageDays amount : num) (ch : string) (d : local_date) : payload :=
  {| transaction_id := "temp"; customer_id := customerId; kyc_verified := kyc;
     account_age_days := ageDays; transaction_amount := amount; channel := ch;
     timestamp := iso d; is_fraud := "0"; hour := hours d; day := day_of_month d;
     month := month0 d + 1; weekday_of := weekday d;
     is_high_value := if ge amount (Fin 1000) then 1%nat else 0%nat |}.

(** [String(data.prediction || '').toLowerCase()] *)
Definition label_of (prediction : jval) : string := JsString.to_lower (to_string (prediction ||j JStr "")).

(** The card's [isFraud]. *)
Definition shows_fraud (label : string) (prediction : jval) : bool :=
  String.eqb label "fraud" || String.eqb label "fraudulent" || strict_eq_num prediction (Fin 1).

(** The history row's [is_fraud]. *)
Definition history_fraud (label : string) (prediction : jval) : bool :=
  String.eqb label "fraud" || strict_eq_num prediction (Fin 1).

(** [v.k] on a value that is not [null] or [undefined], which never
    throws. *)
Definition field (v : jval) (k : string) : jval :=
  match get v k with JsResult.Ok x => x | JsResult.Throw _ => JUndefined end.

(** The description after the explanation request (lines 1138-1163),
    from the text shown before it: [explain && explain.explanation]
    reads the field only of a truthy answer. *)
Definition explained_description (reason : jval) (shown : string) (explain : response) : string :=
  match explain with
  | Rejected => to_string (reason ||j JStr "Explanation error")
  | Answer status json =>
      if res_ok status then
        match json with
        | None => to_string (reason ||j JStr "Explanation error")
        | Some ex =>
            if truthy ex && truthy (field ex "explanation") then to_string (field ex "explanation")
            else to_string (reason ||j JStr shown)
        end
      else to_string (reason ||j JStr "Explanation service unavailable")
  end.

(** The reason cell after the explanation: [explain.raw_reason] when the
    answer has one. *)
Definition explained_reason (cell : string) (explain : response) : string :=
  match explain with
  | Answer status (Some ex) =>
      if res_ok status && truthy ex && truthy (field ex "raw_reason") then to_string (field ex "raw_reason")
      else cell
  | _ => cell
  end.

(** The card and table of lines 1114-1163. *)
Definition result_of (label : string) (prediction reason txid risk_score : jval)
    (p : payload) (explain : response) : result_view :=
  let isFraud := shows_fraud label prediction in
  let risk := to_number (nullish_or risk_score (JNum (Fin 0))) in
  let desc := to_string (reason ||j JStr (if isFraud then "High risk" else "No anomalies detected")) in
  let reason_cell := to_string (reason ||j JStr "-") in
  let explained := truthy txid in
  {| status_text := if isFraud then "Fraudulent Transaction" else "Legitimate Transaction";
     description := if explained then explained_description reason "Generating explanation..." explain else desc;
     risk_text := to_fixed_text 2 risk;
     icon := if isFraud then "bx bxs-shield-x" else "bx bxs-shield-check";
     tx_cell := formatId txid "txn";
     prediction_cell := if isFraud then "Fraud" else "Legit";
     risk_cell := to_fixed_text 2 risk;
     reason_cell := if explained then explained_reason reason_cell explain else reason_cell;
     time_cell := timestamp p |}.

Definition error_alert (e : JsResult.error) : alert_msg := AlertError "Error: " e.

(** The thrown [Error] of a failed [/predict]:
    [err.detail || `Request failed with ${res.status}`]. *)
Definition request_failed (status : Z) (json : option jval) : alert_msg :=
  let err := match json with Some v => v | None => JObj [] end in
  match get err "detail" with
  | JsResult.Ok detail =>
      AlertText ("Error: " ++ (if truthy detail then to_string detail
                                else "Request failed with " ++ to_string (JNum (of_Z status))))
  | JsResult.Throw e => error_alert e
  end.

(** The object given to [appendHistoryRow] (lines 1167-1175). *)
Definition history_entry (p : payload) (amount : num) (kyc : string) (ageDays : num) (ch : string)
    (d : local_date) (label : string) (prediction : jval) : hist_row :=
  {| History.customer_id := JStr (formatId (JStr (customer_id p)) "cust");
     History.transaction_amount := JStr (to_fixed_text 2 amount);
     History.kyc_verified := JStr kyc;
     History.account_age_days := JNum ageDays;
     History.channel := JStr ch;
     History.timestamp := JStr (locale_text d);
     History.is_fraud := JNum (if history_fraud label prediction then Fin 1 else Fin 0) |}.

Definition success_alert : alert_msg := AlertText "Transaction evaluated successfully.".

Definition no_outcome (msgs : list alert_msg) (p : option payload) : outcome :=
  {| alerts_shown := msgs; last_payload := p; result := None; appended := None |}.

(** [checkTransaction()] *)
Definition checkTransaction (f : form) (getItem : string -> JsResult.t (option string)) (random36 : string)
    (predict explain : response) (hs : History.state) : History.state * outcome :=
  match amountEl f, kycEl f, ageEl f, channelEl f, dtEl f with
  | Some amountV, Some kyc, Some ageV, Some ch, Some dtValue =>
      let amount := parse_float amountV in
      let ageDays := parse_int10 ageV in
      if fields_missing amount kyc ageDays ch dtValue then
        (hs, no_outcome [AlertText "Please fill all fields correctly."] None)
      else
        match getItem "userEmail", getItem "userFirstName" with
        | JsResult.Throw e, _ | JsResult.Ok _, JsResult.Throw e => (hs, no_outcome [error_alert e] None)
        | JsResult.Ok email, JsResult.Ok first =>
            let storedEmail := JsString.trim (match email with Some v => v ||j "" | None => "" end) in
            let storedFirst := JsString.trim (match first with Some v => v ||j "" | None => "" end) in
            let customerId := customer_base storedEmail storedFirst ++ "-" ++ random36 in
            match new_date dtValue with
            | None => (hs, no_outcome [error_alert JsResult.RangeError] None)
            | Some d =>
                let p := make_payload customerId kyc ageDays amount ch d in
                match predict with
                | Rejected => (hs, no_outcome [error_alert JsResult.TypeError] (Some p))
                | Answer status json =>
                    if negb (res_ok status) then (hs, no_outcome [request_failed status json] (Some p))
                    else
                      match json with
                      | None => (hs, no_outcome [error_alert JsResult.SyntaxError] (Some p))
                      | Some data =>
                          match get data "prediction", get data "reason", get data "transaction_id",
                                get data "risk_score" with
                          | JsResult.Ok prediction, JsResult.Ok reason, JsResult.Ok txid, JsResult.Ok risk =>
                              let label := label_of prediction in
                              let row := history_entry p amount kyc ageDays ch d label prediction in
                              (appendHistoryRow row hs,
                               {| alerts_shown := [success_alert]; last_payload := Some p;
                                  result := Some (result_of label prediction reason txid risk p explain);
                                  appended := Some row |})
                          | _, _, _, _ => (hs, no_outcome [error_alert JsResult.TypeError] (Some p))
                          end
                      end
                end
            end
        end
  | _, _, _, _, _ => (hs, no_outcome [AlertText "Form is incomplete on the page."] None)
  end.

(** ** Properties *)

Lemma get_field (v : jval) (k : string) : not_nullish v = true -> get v k = JsResult.Ok (field v k).
Proof. unfold field. destruct v; try discriminate; reflexivity. Qed.

(** The form with all five elements. *)
Definition full_form (amountV kyc ageV ch dt : string) : form :=
  {| amountEl := Some amountV; kycEl := Some kyc; ageEl := Some ageV; channelEl := Some ch; dtEl := Some dt |}.

(** The customer id built from the stored e-mail and first name. *)
Definition customer_id_of (email first : option string) (random36 : string) : string :=
  customer_base (JsString.trim (match email with Some v => v ||j "" | None => "" end))
                (JsString.trim (match first with Some v => v ||j "" | None => "" end)) ++ "-" ++ random36.

Section Success.
Variables (amountV kyc ageV ch dt random36 : string) (getItem : string -> JsResult.t (option string)).
Variables (email first : option string) (d : local_date) (status : Z) (data : jval) (explain : response).
Variable hs : History.state.
Hypothesis Hvalid : fields_missing (parse_float amountV) kyc (parse_int10 ageV) ch dt = false.
Hypothesis Hemail : getItem "userEmail" = JsResult.Ok email.
Hypothesis Hfirst : getItem "userFirstName" = JsResult.Ok first.
Hypothesis Hdate : new_date dt = Some d.
Hypothesis Hok : res_ok status = true.
Hypothesis Hdata : not_nullish data = true.

Definition sent : payload :=
  make_payload (customer_id_of email first random36) kyc (parse_int10 ageV) (parse_float amountV) ch d.

(** A check the backend answers: the card, the row and the alert. *)
Lemma check_success :
  checkTransaction (full_form amountV kyc ageV ch dt) getItem random36 (Answer status (Some data)) explain hs =
  let row := history_entry sent (parse_float amountV) kyc (parse_int10 ageV) ch d
               (label_of (field data "prediction")) (field data "prediction") in
  (appendHistoryRow row hs,
   {| alerts_shown := [success_alert]; last_payload := Some sent;
      result := Some (result_of (label_of (field data "prediction")) (field data "prediction")
                        (field data "reason") (field data "transaction_id") (field data "risk_score") sent explain);
      appended := Some row |}).
Proof.
  unfold checkTransaction, full_form. cbn [amountEl kycEl ageEl channelEl dtEl].
  rewrite Hvalid, Hemail, Hfirst, Hdate. cbn [negb]. rewrite Hok. cbn [negb].
  rewrite !get_field by exact Hdata. reflexivity.
Qed.


(** C9: the result card says Fraud while the history row records
    [is_fraud = 0] exactly when the backend's label is [fraudulent] (in
    any case) and its prediction is not the number 1: the card accepts
    [fraud] and [fraudulent], the row only [fraud]. *)
Theorem fraud_flag_mismatch :
  let '(_, o) := checkTransaction (full_form amountV kyc ageV ch dt) getItem random36
                   (Answer status (Some data)) explain hs in
  exists view row, result o = Some view /\ appended o = Some row /\
    (prediction_cell view = "Fraud" /\ History.is_fraud row = JNum (Fin 0) <->
     label_of (field data "prediction") = "fraudulent" /\ strict_eq_num (field data "prediction") (Fin 1) = false).
Proof.
  rewrite check_success. do 2 eexists. split; [reflexivity|]. split; [reflexivity|].
  cbn [prediction_cell result_of History.is_fraud history_entry]. unfold shows_fraud, history_fraud.
  destruct (String.eqb_spec (label_of (field data "prediction")) "fraud") as [E1|E1],
           (String.eqb_spec (label_of (field data "prediction")) "fraudulent") as [E2|E2],
           (strict_eq_num (field data "prediction") (Fin 1)); cbn;
    split; intros Hc; try destruct Hc as [Hc1 Hc2]; try congruence; split; congruence.
Qed.

(** C16: when the backend gives a transaction id but no reason, and the
    explanation service answers without an explanation, the description
    keeps the interim text [Generating explanation...]. *)
Theorem description_stuck (st2 : Z) (ex : jval) :
  explain = Answer st2 (Some ex) -> res_ok st2 = true -> truthy (field ex "explanation") = false ->
  truthy (field data "reason") = false -> truthy (field data "transaction_id") = true ->
  let '(_, o) := checkTransaction (full_form amountV kyc ageV ch dt) getItem random36
                   (Answer status (Some data)) explain hs in
  exists view, result o = Some view /\ description view = "Generating explanation...".
Proof.
  intros Hex Hok2 Hnoex Hnoreason Htx. rewrite check_success. eexists. split; [reflexivity|].
  cbn [description result_of]. rewrite Htx, Hex. cbn [explained_description]. rewrite Hok2, Hnoex, andb_false_r.
  unfold js_or. rewrite Hnoreason. reflexivity.
Qed.

End Success.

(** ** The payload sent to [/predict] *)

Definition is_integer (x : num) : bool :=
  match x with Fin q => Qeq_bool (inject_Z (Qfloor q)) q | _ => false end.

(** What the backend's schema expects of a payload: an account age that
    is a non-zero integer, a non-zero amount, a KYC answer and a channel,
    the placeholder id and label, and the high-value flag of the
    amount. *)
Definition payload_ok (p : payload) : bool :=
  is_integer (account_age_days p) && truthy (account_age_days p) && truthy (transaction_amount p) &&
  truthy (kyc_verified p) && truthy (channel p) && String.eqb (transaction_id p) "temp" &&
  String.eqb (is_fraud p) "0" &&
  Nat.eqb (is_high_value p) (if ge (transaction_amount p) (Fin 1000) then 1 else 0).

Lemma is_integer_Z (z : Z) : is_integer (Fin (inject_Z z)) = true.
Proof. unfold is_integer. rewrite Qfloor_Z. apply Qeq_bool_iff. reflexivity. Qed.

Lemma parse_int10_integer (s : string) : parse_int10 s = NaN \/ is_integer (parse_int10 s) = true.
Proof.
  unfold parse_int10. match goal with |- context [let '(_, _) := ?x in _] => destruct x as [neg digits] end.
  destruct (scan_digits 10 digits) as [[|d ds] r]; [left; reflexivity | right; apply is_integer_Z].
Qed.

(** C12: every payload the check sends to [/predict] (and keeps for the
    explanation) has the types the backend expects: the account age is a
    non-zero integer, the amount a non-zero number, KYC and channel are
    non-empty, [transaction_id] is [temp], [is_fraud] is ['0'] and
    [is_high_value] is 1 exactly for amounts of 1000 or more. *)
Theorem payload_typed (f : form) (getItem : string -> JsResult.t (option string)) (random36 : string)
    (predict explain : response) (hs : History.state) (p : payload) :
  last_payload (snd (checkTransaction f getItem random36 predict explain hs)) = Some p -> payload_ok p = true.
Proof.
  unfold checkTransaction.
  destruct (amountEl f) as [amountV|], (kycEl f) as [kyc|], (ageEl f) as [ageV|], (channelEl f) as [ch|],
           (dtEl f) as [dt|]; try discriminate.
  destruct (fields_missing _ _ _ _ _) eqn:Hm; [discriminate|].
  assert (Hok : forall cid d, payload_ok (make_payload cid kyc (parse_int10 ageV) (parse_float amountV) ch d) = true).
  { intros cid d. unfold fields_missing in Hm. unfold payload_ok. cbn.
    destruct (parse_int10_integer ageV) as [Hn|Hi]; [rewrite Hn, !orb_true_r in Hm; discriminate|].
    rewrite Hi, Nat.eqb_refl.
    destruct (truthy (parse_float amountV)), (truthy kyc), (truthy (parse_int10 ageV)), (truthy ch), (truthy dt);
      cbn in *; congruence. }
  repeat match goal with
         | |- context [match ?x with _ => _ end] => destruct x
         | |- context [if ?b then _ else _] => destruct b
         end; cbn; intros Hp; try discriminate; injection Hp as <-; apply Hok.
Qed.

(** C17: with the five elements on the page, the check stops at the
    validation alert, leaving the history alone and sending nothing,
    exactly when [parseFloat] of the amount or [parseInt] of the age is
    [0] or [NaN], or the KYC, channel or date field is empty. *)
Theorem validation_rejects (amountV kyc ageV ch dt random36 : string) (getItem : string -> JsResult.t (option string))
    (predict explain : response) (hs : History.state) :
  fields_missing (parse_float amountV) kyc (parse_int10 ageV) ch dt = true <->
  checkTransaction (full_form amountV kyc ageV ch dt) getItem random36 predict explain hs =
  (hs, no_outcome [AlertText "Please fill all fields correctly."] None).
Proof.
  unfold checkTransaction, full_form. cbn [amountEl kycEl ageEl channelEl dtEl].
  destruct (fields_missing _ _ _ _ _); split; intros Hc; try reflexivity; [discriminate|exfalso].
  repeat match type of Hc with
         | context [match ?x with _ => _ end] => destruct x
         | context [if ?b then _ else _] => destruct b
         end; unfold no_outcome, error_alert, success_alert in Hc; cbn in Hc; congruence.
Qed.

End Check.

(** ** The form's default date: [initializeTransactionForm()] (1028-1043) *)

(** [new Date()] read in the page's time zone: the fields the default
    value needs. *)
Record clock := { full_year : Z; month_index : Z; date_of : Z; hours_of : Z; minutes_of : Z }.

(** [String(n).padStart(2, '0')] *)
Definition pad2 (z : Z) : string :=
  let t := z_to_string z in
  if Nat.ltb (String.length t) 2 then zeros (2 - String.length t) ++ t else t.

(** The new [value] of [#transactionDateTime], [None] when the input is
    missing. *)
Definition initializeTransactionForm (now : clock) (dateTimeInput : option string) : option string :=
  match dateTimeInput with
  | None => None
  | Some _ =>
      Some (z_to_string (full_year now) ++ "-" ++ pad2 (month_index now + 1) ++ "-" ++ pad2 (date_of now) ++
            "T" ++ pad2 (hours_of now) ++ ":" ++ pad2 (minutes_of now))
  end.

(** What the [datetime-local] input accepts, in the form the code
    writes (HTML, parsing a local date and time string: a four-digit
    year, month, day, hours and minutes, without seconds). *)
Definition digit (a : ascii) : option Z := option_map Z.of_nat (digit_val 10 a).

Definition two (a b : ascii) : option Z :=
  match digit a, digit b with Some x, Some y => Some (10 * x + y)%Z | _, _ => None end.

Definition leap (y : Z) : bool := (y mod 4 =? 0)%Z && (negb (y mod 100 =? 0) || (y mod 400 =? 0))%Z.

Definition days_in_month (y m : Z) : Z :=
  if (m =? 2)%Z then (if leap y then 29 else 28)
  else if (m =? 4)%Z || (m =? 6)%Z || (m =? 9)%Z || (m =? 11)%Z then 30 else 31.

Definition parse_local (s : string) : option (Z * Z * Z * Z * Z) :=
  match s with
  | String y1 (String y2 (String y3 (String y4 (String s1 (String m1 (String m2 (String s2
      (String d1 (String d2 (String s3 (String h1 (String h2 (String s4 (String n1 (String n2 EmptyString))))))))))))))) =>
      if Ascii.eqb s1 "-" && Ascii.eqb s2 "-" && Ascii.eqb s3 "T" && Ascii.eqb s4 ":" then
        match two y1 y2, two y3 y4, two m1 m2, two d1 d2, two h1 h2, two n1 n2 with
        | Some ya, Some yb, Some mo, Some da, Some ho, Some mi =>
            let y := (100 * ya + yb)%Z in
            if (1 <=? y)%Z && (1 <=? mo)%Z && (mo <=? 12)%Z && (1 <=? da)%Z && (da <=? days_in_month y mo)%Z &&
               (ho <=? 23)%Z && (mi <=? 59)%Z
            then Some (y, mo, da, ho, mi) else None
        | _, _, _, _, _, _ => None
        end
      else None
  | _ => None
  end.

Definition pad2_ok (z : Z) : bool :=
  match pad2 z with
  | String a (String b EmptyString) => match two a b with Some v => (v =? z)%Z | None => false end
  | _ => false
  end.

Definition year_ok (z : Z) : bool :=
  match z_to_string z with
  | String a (String b (String c (String d EmptyString))) =>
      match two a b, two c d with Some u, Some v => (100 * u + v =? z)%Z | _, _ => false end
  | _ => false
  end.

Lemma pad2_all : forallb (fun k => pad2_ok (Z.of_nat k)) (seq 0 100) = true.
Proof. vm_compute. reflexivity. Qed.

Lemma year_all :
  forallb (fun i => forallb (fun j => year_ok (1000 + 100 * Z.of_nat i + Z.of_nat j)) (seq 0 100)) (seq 0 90) = true.
Proof. vm_compute. reflexivity. Qed.

Lemma pad2_digits (z : Z) : (0 <= z <= 99)%Z -> exists a b, pad2 z = String a (String b EmptyString) /\ two a b = Some z.
Proof.
  intros Hz. pose proof pad2_all as Hall. rewrite forallb_forall in Hall.
  specialize (Hall (Z.to_nat z) ltac:(apply in_seq; lia)). rewrite Z2Nat.id in Hall by lia.
  unfold pad2_ok in Hall. destruct (pad2 z) as [|a [|b [|c r]]]; try discriminate.
  destruct (two a b) as [v|] eqn:E; [|discriminate]. apply Z.eqb_eq in Hall. subst v. eauto.
Qed.

Lemma year_digits (z : Z) : (1000 <= z <= 9999)%Z ->
  exists a b c d u v, z_to_string z = String a (String b (String c (String d EmptyString))) /\
    two a b = Some u /\ two c d = Some v /\ (100 * u + v = z)%Z.
Proof.
  intros Hz. pose proof year_all as Hall. rewrite forallb_forall in Hall.
  assert (Hq : (0 <= (z - 1000) / 100 < 90)%Z) by (split; [apply Z.div_pos | apply Z.div_lt_upper_bound]; lia).
  pose proof (Z.mod_pos_bound (z - 1000) 100 ltac:(lia)) as Hr.
  pose proof (Z.div_mod (z - 1000) 100 ltac:(lia)) as Hdm.
  specialize (Hall (Z.to_nat ((z - 1000) / 100)) ltac:(apply in_seq; lia)). rewrite forallb_forall in Hall.
  specialize (Hall (Z.to_nat ((z - 1000) mod 100)) ltac:(apply in_seq; lia)). rewrite !Z2Nat.id in Hall by lia.
  replace (1000 + 100 * ((z - 1000) / 100) + (z - 1000) mod 100)%Z with z in Hall by lia. unfold year_ok in Hall.
  destruct (z_to_string z) as [|a [|b [|c [|d [|e r]]]]]; try discriminate.
  destruct (two a b) as [u|] eqn:Eu, (two c d) as [v|] eqn:Ev; try discriminate.
  apply Z.eqb_eq in Hall. exists a, b, c, d, u, v. auto.
Qed.

(** C28: the default the form writes is a [datetime-local] value that
    reads back as the current minute: for a year of four digits, the
    value parses to the year, the month (from 1), the day, the hours and
    the minutes of the clock. *)
Theorem initializeTransactionForm_roundtrip (now : clock) (old v : string) :
  (1000 <= full_year now <= 9999)%Z -> (0 <= month_index now <= 11)%Z ->
  (1 <= date_of now <= days_in_month (full_year now) (month_index now + 1))%Z ->
  (0 <= hours_of now <= 23)%Z -> (0 <= minutes_of now <= 59)%Z ->
  initializeTransactionForm now (Some old) = Some v ->
  parse_local v = Some (full_year now, month_index now + 1, date_of now, hours_of now, minutes_of now)%Z.
Proof.
  intros Hy Hm Hd Hh Hn E. injection E as <-.
  assert (Hdm : (days_in_month (full_year now) (month_index now + 1) <= 31)%Z)
    by (unfold days_in_month; repeat case_if; lia).
  destruct (year_digits _ Hy) as (a & b & c & d & u & w & -> & Eab & Ecd & Euw).
  destruct (pad2_digits (month_index now + 1)) as (m1 & m2 & -> & Em); [lia|].
  destruct (pad2_digits (date_of now)) as (d1 & d2 & -> & Ed); [lia|].
  destruct (pad2_digits (hours_of now)) as (h1 & h2 & -> & Eh); [lia|].
  destruct (pad2_digits (minutes_of now)) as (n1 & n2 & -> & En); [lia|].
  cbn [String.append]. unfold parse_local. cbn [Ascii.eqb Bool.eqb andb].
  rewrite Eab, Ecd, Em, Ed, Eh, En. cbv zeta. rewrite Euw.
  replace ((1 <=? full_year now)%Z && (1 <=? month_index now + 1)%Z && (month_index now + 1 <=? 12)%Z &&
           (1 <=? date_of now)%Z && (date_of now <=? days_in_month (full_year now) (month_index now + 1))%Z &&
           (hours_of now <=? 23)%Z && (minutes_of now <=? 59)%Z) with true
    by (symmetry; repeat (apply andb_true_intro; split); apply Z.leb_le; lia).
  reflexivity.
Qed.

End Transaction.

Module TransactionExamples.
Import Transaction.

(** A page in the UTC time zone that knows one date-time value. *)
Definition may_first : local_date :=
  {| iso := "2024-05-01T10:30:00.000Z"; hours := 10; day_of_month := 1; month0 := 4; weekday := 3;
     locale_text := "5/1/2024, 10:30:00 AM" |}.

#[export] Instance utc_page : DateEnv := fun s =>
  if String.eqb s "2024-05-01T10:30" then Some may_first else None.

Definition ana_storage (k : string) : JsResult.t (option string) :=
  JsResult.Ok (if String.eqb k "userEmail" then Some " ana@bank.io " else None).

Definition verdict : jval :=
  JObj [("prediction", JStr "Fraudulent"); ("risk_score", JNum (Fin (87 # 100)));
        ("transaction_id", JStr "t-1")].

Definition no_text : response := Answer 200 (Some (JObj [("explanation", JStr "")])).

Definition empty_history : History.state :=
  {| body := Some [NoDataRow]; live_charts := []; alerts := []; downloads := [] |}.

(** The card says Fraud, the row records 0, and the description never
    leaves the interim text. *)
Example fraudulent_row :
  let '(hs, o) := checkTransaction (full_form "2500" "yes" "12" "online" "2024-05-01T10:30") ana_storage "k3j9x1"
                    (Answer 200 (Some verdict)) no_text empty_history in
  option_map prediction_cell (result o) = Some "Fraud" /\
  option_map description (result o) = Some "Generating explanation..." /\
  option_map risk_text (result o) = Some "0.87" /\
  body hs = Some [DataRow ["CUST-ana-k3j9x1"; "2500.00"; "yes"; "12"; "online"; "5/1/2024, 10:30:00 AM"; "0"]] /\
  option_map is_high_value (last_payload o) = Some 1%nat.
Proof. vm_compute. repeat split. Qed.

(** An account opened today (age 0) is refused; a negative amount, a
    negative age and an infinite amount are not. *)
Example validation_cases :
  fields_missing (parse_float "50") "yes" (parse_int10 "0") "online" "2024-05-01T10:30" = true /\
  fields_missing (parse_float "-50") "yes" (parse_int10 "30") "online" "2024-05-01T10:30" = false /\
  fields_missing (parse_float "50") "yes" (parse_int10 "-3") "online" "2024-05-01T10:30" = false /\
  fields_missing (parse_float "Infinity") "yes" (parse_int10 "30") "online" "2024-05-01T10:30" = false.
Proof. vm_compute. repeat split. Qed.

Lemma fraud_flag_mismatch_witness :
  let '(_, o) := checkTransaction (full_form "2500" "yes" "12" "online" "2024-05-01T10:30") ana_storage "k3j9x1"
                   (Answer 200 (Some verdict)) no_text empty_history in
  exists view row, result o = Some view /\ appended o = Some row /\
    (prediction_cell view = "Fraud" /\ History.is_fraud row = JNum (Fin 0) <->
     label_of (field verdict "prediction") = "fraudulent" /\ strict_eq_num (field verdict "prediction") (Fin 1) = false).
Proof.
  apply (fraud_flag_mismatch "2500" "yes" "12" "online" "2024-05-01T10:30" "k3j9x1" ana_storage
           (Some " ana@bank.io ") None may_first 200 verdict no_text empty_history); vm_compute; reflexivity.
Defined.

Lemma description_stuck_witness :
  let '(_, o) := checkTransaction (full_form "2500" "yes" "12" "online" "2024-05-01T10:30") ana_storage "k3j9x1"
                   (Answer 200 (Some verdict)) no_text empty_history in
  exists view, result o = Some view /\ description view = "Generating explanation...".
Proof.
  refine (description_stuck "2500" "yes" "12" "online" "2024-05-01T10:30" "k3j9x1" ana_storage
            (Some " ana@bank.io ") None may_first 200 verdict no_text empty_history _ _ _ _ _ _
            200 (JObj [("explanation", JStr "")]) _ _ _ _ _); vm_compute; reflexivity.
Defined.

Lemma validation_rejects_witness :
  fields_missing (parse_float "50") "yes" (parse_int10 "0") "online" "2024-05-01T10:30" = true <->
  checkTransaction (full_form "50" "yes" "0" "online" "2024-05-01T10:30") ana_storage "k3j9x1"
    Rejected Rejected empty_history =
  (empty_history, no_outcome [AlertText "Please fill all fields correctly."] None).
Proof. apply validation_rejects. Defined.

Definition ana_payload : payload :=
  make_payload "ana-k3j9x1" "yes" (parse_int10 "12") (parse_float "2500") "online" may_first.

Lemma payload_typed_witness : payload_ok ana_payload = true.
Proof.
  apply (payload_typed (full_form "2500" "yes" "12" "online" "2024-05-01T10:30") ana_storage "k3j9x1"
           (Answer 200 (Some verdict)) no_text empty_history ana_payload).
  vm_compute. reflexivity.
Defined.

Definition may_clock : clock := {| full_year := 2024; month_index := 4; date_of := 1; hours_of := 9; minutes_of := 5 |}.

(** The default the form writes, padded; a three-digit year is not
    padded and the input would refuse it. *)
Example default_dates :
  initializeTransactionForm may_clock (Some "") = Some "2024-05-01T09:05" /\
  parse_local "2024-05-01T09:05" = Some (2024, 5, 1, 9, 5)%Z /\
  initializeTransactionForm {| full_year := 999; month_index := 0; date_of := 1; hours_of := 0; minutes_of := 0 |} (Some "")
    = Some "999-01-01T00:00".
Proof. vm_compute. repeat split. Qed.

Lemma initializeTransactionForm_roundtrip_witness :
  parse_local "2024-05-01T09:05" =
  Some (full_year may_clock, month_index may_clock + 1, date_of may_clock, hours_of may_clock, minutes_of may_clock)%Z.
Proof.
  apply (initializeTransactionForm_roundtrip may_clock ""); (split || idtac); vm_compute; try discriminate; reflexivity.
Defined.

End TransactionExamples.
