(* ===== verification/Metrics.v ===== *)
(** * The model-performance page

    [loadModelPerformance] (dashboard.js, lines 1381-1394) fetches the
    trained model's metrics and hands the parsed JSON to
    [updatePerformanceMetrics] (1397-1447), which writes six percentages
    and status badges into the rows of the performance table, and to
    [fillConfusionMatrixTable] (1450-1463), which writes the four counts
    of the confusion matrix.  Any exception of the first two ends in one
    alert.

    The table's rows are given by the page: each has, or has not, a
    value cell and a status badge.  The model follows the code's
    JavaScript: [Number(...)] of every metric, the fallback that derives
    the specificity from the confusion matrix with [+] on JSON values
    (which concatenates strings), index access [cm[i][j]], and the
    [try]/[catch] blocks, whose completed writes stay. *)

From Stdlib Require Import String Ascii List Bool ZArith NArith QArith Qround Lia Lqa.
From S2P Require Import Prelude JsString JsNumber Json History.
Import ListNotations JsNumber Json.
Open Scope string_scope.

Module Metrics.

(** [v[i]] for an integer index [i]: [TypeError] on [null] and
    [undefined], the element of an array or the character of a string
    ([undefined] past the end), the property ["i"] of an object. *)
Definition elem (v : jval) (i : nat) : JsResult.t jval :=
  match v with
  | JUndefined | JNull => JsResult.Throw JsResult.TypeError
  | JArr items => JsResult.Ok (nth i items JUndefined)
  | JStr s => JsResult.Ok (match String.get i s with Some c => JStr (String c EmptyString) | None => JUndefined end)
  | JObj ms => JsResult.Ok (member ms (z_to_string (Z.of_nat i)))
  | JBool _ | JNum _ => JsResult.Ok JUndefined
  end.

(** [v?.k]: [undefined] on [null] and [undefined]. *)
Definition opt_get (v : jval) (k : string) : jval :=
  match get v k with JsResult.Ok w => w | JsResult.Throw _ => JUndefined end.

(** The operands of [+] whose primitive value is a string. *)
Definition is_textual (v : jval) : bool :=
  match v with JStr _ | JArr _ | JObj _ => true | _ => false end.

Definition completed : string * string := ("Completed", "status-badge completed").

(** The rows of [ordered]: the label of each row and its key in
    [valueMap]. *)
Definition ordered : list (string * string) :=
  [("Accuracy", "accuracy"); ("Precision", "precision"); ("F1-Score", "f1-score");
   ("Recall", "recall"); ("Specificity", "specificity"); ("AUC Score", "auc")].

(** A row of [.performance-table tbody]: the text of its [.metric-value]
    cell and the text and class of its [.status-badge], when present. *)
Record perf_row := { metric_value : option string; status_badge : option (string * string) }.

(** The four cells [#cm_tn], [#cm_fp], [#cm_fn], [#cm_tp]. *)
Record cm_view := { cm_tn : option string; cm_fp : option string; cm_fn : option string; cm_tp : option string }.

Record page := { perf_table : option (list perf_row); matrix : cm_view; page_alerts : list string }.

Definition perf_alert : string :=
  "Could not load model performance metrics. Ensure the model is trained and server is running.".

Section Perf.
Context `{NumberToString}.

(** [a + b] on JSON values: a string, array or object operand makes it
    the concatenation of the two texts, otherwise the sum of the two
    numbers. *)
Definition js_add (v w : jval) : jval :=
  if is_textual v || is_textual w then JStr (to_string v ++ to_string w)
  else JNum (add (to_number v) (to_number w)).

(** The [try] block of lines 1405-1409. *)
Definition specificity_from (cm : jval) : JsResult.t jval :=
  let? row0 := elem cm 0 in
  let? tn := elem row0 0 in
  let? row0' := elem cm 0 in
  let? fp := elem row0' 1 in
  let total := js_add tn fp in
  JsResult.Ok (if gt (to_number total) (Fin 0) then JNum (div (to_number tn) (to_number total)) else JNum (Fin 0)).

(** [specificityVal] after lines 1403-1411. *)
Definition specificity_value (metrics : jval) : JsResult.t jval :=
  let? sp := get metrics "specificity" in
  match sp with
  | JNum _ => JsResult.Ok sp
  | _ =>
      let? cm := get metrics "confusion_matrix" in
      match cm with
      | JArr _ => match specificity_from cm with JsResult.Ok v => JsResult.Ok v | JsResult.Throw _ => JsResult.Ok sp end
      | _ => JsResult.Ok sp
      end
  end.

(** [valueMap] *)
Definition value_map (metrics sp : jval) : JsResult.t (list (string * num)) :=
  let? acc := get metrics "accuracy" in
  let? pre := get metrics "precision" in
  let? rec := get metrics "recall" in
  let? f1 := get metrics "f1_score" in
  let? auc := get metrics "auc_score" in
  JsResult.Ok [("accuracy", to_number acc); ("precision", to_number pre); ("recall", to_number rec);
               ("f1-score", to_number f1); ("specificity", to_number sp); ("auc", to_number auc)].

(** [valueMap[key]] *)
Definition lookup_value (vm : list (string * num)) (key : string) : jval :=
  match find (fun kv => String.eqb (fst kv) key) vm with Some (_, x) => JNum x | None => JUndefined end.

(** [(val * 100).toFixed(2) + '%'] *)
Definition percent_text (x : num) : string := to_fixed_text 2 (mul x (Fin 100)) ++ "%".

(** The body of [rows.forEach((row, idx) => ...)]. *)
Definition update_row (vm : list (string * num)) (idx : nat) (row : perf_row) : perf_row :=
  match nth_error ordered idx with
  | None => row
  | Some (_, key) =>
      let val := lookup_value vm key in
      {| metric_value := match metric_value row, val with
                         | Some _, JNum x => Some (percent_text x)
                         | cell, _ => cell
                         end;
         status_badge := match status_badge row, val with
                         | Some _, JNum _ => Some completed
                         | badge, _ => badge
                         end |}
  end.

(** [updatePerformanceMetrics(metrics)] on the table's rows, [None]
    when the table is missing. *)
Definition updatePerformanceMetrics (metrics : jval) (table : option (list perf_row)) :
  JsResult.t (option (list perf_row)) :=
  match table with
  | None => JsResult.Ok None
  | Some rows =>
      let? sp := specificity_value metrics in
      let? vm := value_map metrics sp in
      JsResult.Ok (Some (mapi (update_row vm) rows))
  end.

(** [el.textContent = v]: the setter takes a [DOMString?], so [null]
    and [undefined] (a cell past the end of its row) both give the
    empty text; any other value is converted with [String(v)]. *)
Definition text_of (v : jval) : string :=
  match v with JNull | JUndefined => "" | _ => to_string v end.

(** [el.textContent = cm[i][j]] *)
Definition write_cell (i j : nat) (set : string -> cm_view -> cm_view) (cm : jval) (c : cm_view) :
  JsResult.t cm_view :=
  let? row := elem cm i in
  let? v := elem row j in
  JsResult.Ok (set (text_of v) c).

Definition set_tn (t : string) (c : cm_view) : cm_view :=
  {| cm_tn := Some t; cm_fp := cm_fp c; cm_fn := cm_fn c; cm_tp := cm_tp c |}.
Definition set_fp (t : string) (c : cm_view) : cm_view :=
  {| cm_tn := cm_tn c; cm_fp := Some t; cm_fn := cm_fn c; cm_tp := cm_tp c |}.
Definition set_fn (t : string) (c : cm_view) : cm_view :=
  {| cm_tn := cm_tn c; cm_fp := cm_fp c; cm_fn := Some t; cm_tp := cm_tp c |}.
Definition set_tp (t : string) (c : cm_view) : cm_view :=
  {| cm_tn := cm_tn c; cm_fp := cm_fp c; cm_fn := cm_fn c; cm_tp := Some t |}.

Definition present (o : option string) : bool := match o with Some _ => true | None => false end.

(** [tnEl && fpEl && fnEl && tpEl] *)
Definition cells_present (c : cm_view) : bool :=
  present (cm_tn c) && present (cm_fp c) && present (cm_fn c) && present (cm_tp c).

(** [fillConfusionMatrixTable(metrics)] *)
Definition fillConfusionMatrixTable (metrics : jval) (c : cm_view) : cm_view :=
  let cm := opt_get metrics "confusion_matrix" in
  if negb (truthy cm) || negb (cells_present c) then c
  else try_steps [write_cell 0 0 set_tn cm; write_cell 0 1 set_fp cm; write_cell 1 0 set_fn cm;
                  write_cell 1 1 set_tp cm] c.

Definition with_alert (p : page) : page :=
  {| perf_table := perf_table p; matrix := matrix p; page_alerts := page_alerts p ++ [perf_alert] |}.

(** [loadModelPerformance()] with the outcome of the request. *)
Definition loadModelPerformance (resp : History.http_response) (p : page) : page :=
  match resp with
  | History.HttpResponse status (Some metrics) =>
      if History.res_ok status then
        match updatePerformanceMetrics metrics (perf_table p) with
        | JsResult.Ok t =>
            {| perf_table := t; matrix := fillConfusionMatrixTable metrics (matrix p); page_alerts := page_alerts p |}
        | JsResult.Throw _ => with_alert p
        end
      else with_alert p
  | _ => with_alert p
  end.

(** ** The performance table *)

(** The backend field each of the first six rows shows (row 4, the
    specificity, shows [specificityVal]). *)
Definition row_key (idx : nat) : string :=
  nth idx ["accuracy"; "precision"; "f1_score"; "recall"; "specificity"; "auc_score"] "".

Lemma get_opt_get (v : jval) (k : string) : not_nullish v = true -> get v k = JsResult.Ok (opt_get v k).
Proof. unfold opt_get. destruct v; try discriminate; reflexivity. Qed.

Lemma specificity_value_ok (metrics : jval) : not_nullish metrics = true ->
  exists sp, specificity_value metrics = JsResult.Ok sp.
Proof.
  intros Hm. unfold specificity_value. rewrite !get_opt_get by exact Hm.
  destruct (opt_get metrics "specificity"); eauto.
  all: destruct (opt_get metrics "confusion_matrix"); eauto; destruct (specificity_from _); eauto.
Qed.

(** With the table on the page and metrics that are an object, the
    update succeeds and row [idx < 6] is [update_row] with the backend
    field of its label (F1 third, recall fourth); later rows are
    untouched. *)
Lemma updatePerformanceMetrics_mapi (metrics : jval) (rows : list perf_row) :
  not_nullish metrics = true ->
  exists sp, specificity_value metrics = JsResult.Ok sp /\
  updatePerformanceMetrics metrics (Some rows) =
  JsResult.Ok (Some (mapi (fun idx row =>
    if Nat.ltb idx 6 then
      {| metric_value :=
           option_map (fun _ => percent_text (to_number (if Nat.eqb idx 4 then sp else opt_get metrics (row_key idx))))
                      (metric_value row);
         status_badge := option_map (fun _ => completed) (status_badge row) |}
    else row) rows)).
Proof.
  intros Hm. destruct (specificity_value_ok metrics Hm) as [sp Esp]. exists sp. split; [exact Esp|].
  cbn [updatePerformanceMetrics]. rewrite Esp. unfold value_map. rewrite !get_opt_get by exact Hm.
  f_equal. f_equal. apply mapi_ext. intros idx row.
  destruct row as [[v|] [b|]];
    do 6 (destruct idx as [|idx]; [reflexivity|]); destruct idx; reflexivity.
Qed.

Lemma percent_text_nan : percent_text NaN = "NaN%".
Proof. reflexivity. Qed.

(** C13: with the table on the page and metrics that are an object, the
    update succeeds and keeps the rows; among the first six rows every
    badge present reads Completed, whatever the backend sent, every
    value cell present is written, and a row whose metric the backend
    did not send shows [NaN%] (its label's field, F1 third and recall
    fourth, or the specificity after its fallback, is [undefined]);
    later rows are untouched.  No statement is made on the digits of a
    sent metric, which JavaScript rounds in binary64. *)
Theorem updatePerformanceMetrics_rows (metrics : jval) (rows : list perf_row) :
  not_nullish metrics = true ->
  exists sp rows', specificity_value metrics = JsResult.Ok sp /\
    updatePerformanceMetrics metrics (Some rows) = JsResult.Ok (Some rows') /\
    length rows' = length rows /\
    forall idx row, nth_error rows idx = Some row ->
      exists row', nth_error rows' idx = Some row' /\
      if Nat.ltb idx 6 then
        status_badge row' = option_map (fun _ => completed) (status_badge row) /\
        (metric_value row' = None <-> metric_value row = None) /\
        ((if Nat.eqb idx 4 then sp else opt_get metrics (row_key idx)) = JUndefined ->
         metric_value row' = option_map (fun _ => "NaN%") (metric_value row))
      else row' = row.
Proof.
  intros Hm. destruct (updatePerformanceMetrics_mapi metrics rows Hm) as [sp [Esp Eu]].
  eexists sp, _. split; [exact Esp|]. split; [exact Eu|]. split; [apply length_mapi|].
  intros idx row Hrow. rewrite nth_error_mapi, Hrow. eexists; split; [reflexivity|].
  destruct (Nat.ltb idx 6); [|reflexivity]. cbn.
  split; [reflexivity|]. split; [destruct (metric_value row); cbn; split; congruence|].
  intros ->. reflexivity.
Qed.

(** ** The specificity fallback *)

(** C20: when the backend sends no numeric specificity but a confusion
    matrix whose first row starts with two non-negative counts [tn] and
    [fp], the specificity shown is [tn / (tn + fp)] (0 when both are 0),
    a fraction in [0, 1]. *)
Theorem specificity_fallback (metrics sp : jval) (tn fp : Q) (rest rows : list jval) :
  get metrics "specificity" = JsResult.Ok sp -> (forall n, sp <> JNum n) ->
  get metrics "confusion_matrix" = JsResult.Ok (JArr (JArr (JNum (Fin tn) :: JNum (Fin fp) :: rest) :: rows)) ->
  (0 <= tn)%Q -> (0 <= fp)%Q ->
  exists q, specificity_value metrics = JsResult.Ok (JNum (Fin q)) /\ (0 <= q <= 1)%Q /\
    ((0 < tn + fp)%Q -> (q == tn / (tn + fp))%Q) /\ ((tn + fp == 0)%Q -> (q == 0)%Q).
Proof.
  intros Hsp Hnum Hcm Htn Hfp. unfold specificity_value. rewrite Hsp.
  replace (match sp with JNum _ => JsResult.Ok sp | _ => _ end)
    with (let? cm := get metrics "confusion_matrix" in
          match cm with
          | JArr _ => match specificity_from cm with JsResult.Ok v => JsResult.Ok v | JsResult.Throw _ => JsResult.Ok sp end
          | _ => JsResult.Ok sp
          end) by (destruct sp; try reflexivity; destruct (Hnum n eq_refl)).
  rewrite Hcm. cbn [specificity_from elem nth]. unfold js_add. cbn [is_textual orb to_number].
  rewrite add_fin. destruct (gt (Fin (tn + fp)) (Fin 0)) eqn:Eg.
  - apply lt_fin in Eg. rewrite div_fin by lra. eexists. split; [reflexivity|].
    split; [split; [apply Qle_shift_div_l; lra | apply Qle_shift_div_r; lra]|].
    split; [reflexivity | intros; lra].
  - apply lt_fin_false in Eg. exists 0%Q. split; [reflexivity|]. split; [lra|]. split; [intros; lra | reflexivity].
Qed.

(** ** The confusion matrix *)

(** [cm[i][j]] on a row that is not [null] or [undefined]. *)
Definition cell_at (row : jval) (j : nat) : jval :=
  match elem row j with JsResult.Ok v => v | JsResult.Throw _ => JUndefined end.

Lemma elem_cell_at (row : jval) (j : nat) : not_nullish row = true -> elem row j = JsResult.Ok (cell_at row j).
Proof. unfold cell_at. destruct row; try discriminate; reflexivity. Qed.

(** The text a cell of an array row gets: past the end, [undefined]. *)
Lemma text_nth (r : list jval) (j : nat) :
  text_of (nth j r JUndefined) = match nth_error r j with Some v => text_of v | None => "" end.
Proof. revert j. induction r as [|v r IH]; intros [|j]; cbn; auto. Qed.

(** C21: with the four cells on the page and a confusion matrix whose
    first row is an array, the true negatives and false positives come
    from that row (a cell past the end of a row is written as the
    empty text); the second row's two counts are written when it
    exists, and when it is missing or [null] the exception leaves the
    false negatives and true positives as they were. *)
Theorem fillConfusionMatrixTable_cells (metrics : jval) (c : cm_view) (r0 : list jval) (tl : list jval) :
  cells_present c = true -> get metrics "confusion_matrix" = JsResult.Ok (JArr (JArr r0 :: tl)) ->
  let txt j := match nth_error r0 j with Some v => text_of v | None => "" end in
  let c2 := set_fp (txt 1) (set_tn (txt 0) c) in
  let r1 := nth 0 tl JUndefined in
  fillConfusionMatrixTable metrics c =
  if not_nullish r1 then set_tp (text_of (cell_at r1 1)) (set_fn (text_of (cell_at r1 0)) c2) else c2.
Proof.
  intros Hc Hcm. cbv beta zeta. rewrite <- !text_nth. unfold fillConfusionMatrixTable, opt_get. rewrite Hcm, Hc. cbn [truthy truthy_jval negb orb].
  cbn [try_steps write_cell elem nth]. destruct tl as [|r1 tl]; [reflexivity|]. cbn [nth].
  destruct (not_nullish r1) eqn:E1.
  - rewrite (elem_cell_at r1 0 E1), (elem_cell_at r1 1 E1). reflexivity.
  - destruct r1; try discriminate; reflexivity.
Qed.

(** ** The load *)

(** when the backend answers with [null] metrics, the update throws
    on [metrics.specificity] and the page alerts, the confusion matrix
    is never filled; without the table on the page nothing happens at
    all, not even the alert. *)
Theorem loadModelPerformance_null (status : Z) (p : page) :
  History.res_ok status = true ->
  loadModelPerformance (History.HttpResponse status (Some JNull)) p =
  match perf_table p with Some _ => with_alert p | None => p end.
Proof.
  intros Hok. unfold loadModelPerformance. rewrite Hok.
  destruct (perf_table p) eqn:E; [reflexivity|]. cbn. rewrite <- E. destruct p; reflexivity.
Qed.

End Perf.

End Metrics.

Module MetricsExamples.
Import Metrics.

Definition n (q : Q) : jval := JNum (Fin q).

Definition trained : jval :=
  JObj [("accuracy", n (95 # 100)); ("precision", n (9 # 10)); ("recall", n (4 # 5)); ("f1_score", n (85 # 100));
        ("auc_score", n (97 # 100)); ("confusion_matrix", JArr [JArr [n 90; n 10]; JArr [n 5; n 95]])].

Definition pending_row : perf_row := {| metric_value := Some "-"; status_badge := Some ("Pending", "status-badge") |}.

Definition rows6 : list perf_row := repeat pending_row 6.

Definition shown (r : JsResult.t (option (list perf_row))) : list (option string * option string) :=
  match r with
  | JsResult.Ok (Some rows) => map (fun r => (metric_value r, option_map fst (status_badge r))) rows
  | _ => []
  end.

(** The specificity comes from the matrix: 90 / (90 + 10). *)
Example trained_rows :
  shown (updatePerformanceMetrics trained (Some rows6)) =
  [(Some "95.00%", Some "Completed"); (Some "90.00%", Some "Completed"); (Some "85.00%", Some "Completed");
   (Some "80.00%", Some "Completed"); (Some "90.00%", Some "Completed"); (Some "97.00%", Some "Completed")].
Proof. vm_compute. reflexivity. Qed.

(** Metrics the backend did not send still complete their rows. *)
Example missing_metrics :
  shown (updatePerformanceMetrics (JObj []) (Some rows6)) = repeat (Some "NaN%", Some "Completed") 6.
Proof. vm_compute. reflexivity. Qed.

(** Counts sent as strings are concatenated: [90 / '9010']. *)
Example string_counts :
  specificity_value (JObj [("confusion_matrix", JArr [JArr [JStr "90"; JStr "10"]])]) = JsResult.Ok (n (90 # 9010)).
Proof. vm_compute. reflexivity. Qed.

Definition blank : cm_view := {| cm_tn := Some "-"; cm_fp := Some "-"; cm_fn := Some "-"; cm_tp := Some "-" |}.

(** A matrix with one row fills half the table. *)
Example half_matrix :
  fillConfusionMatrixTable (JObj [("confusion_matrix", JArr [JArr [n 90; n 10]])]) blank =
  {| cm_tn := Some "90"; cm_fp := Some "10"; cm_fn := Some "-"; cm_tp := Some "-" |}.
Proof. vm_compute. reflexivity. Qed.

(** A short first row writes the empty text for its missing count:
    [tnEl.textContent = undefined] clears the cell. *)
Example short_row :
  fillConfusionMatrixTable (JObj [("confusion_matrix", JArr [JArr [n 90]; JArr [n 5; n 95]])]) blank =
  {| cm_tn := Some "90"; cm_fp := Some ""; cm_fn := Some "5"; cm_tp := Some "95" |}.
Proof. vm_compute. reflexivity. Qed.

Lemma updatePerformanceMetrics_rows_witness :
  exists sp rows', specificity_value trained = JsResult.Ok sp /\
    updatePerformanceMetrics trained (Some rows6) = JsResult.Ok (Some rows') /\
    length rows' = length rows6 /\
    forall idx row, nth_error rows6 idx = Some row ->
      exists row', nth_error rows' idx = Some row' /\
      if Nat.ltb idx 6 then
        status_badge row' = option_map (fun _ => completed) (status_badge row) /\
        (metric_value row' = None <-> metric_value row = None) /\
        ((if Nat.eqb idx 4 then sp else opt_get trained (row_key idx)) = JUndefined ->
         metric_value row' = option_map (fun _ => "NaN%") (metric_value row))
      else row' = row.
Proof. apply updatePerformanceMetrics_rows. reflexivity. Defined.

Lemma specificity_fallback_witness :
  exists q, specificity_value trained = JsResult.Ok (JNum (Fin q)) /\ (0 <= q <= 1)%Q /\
    ((0 < 90 + 10)%Q -> (q == 90 / (90 + 10))%Q) /\ ((90 + 10 == 0)%Q -> (q == 0)%Q).
Proof.
  apply (specificity_fallback trained JUndefined 90 10 [] [JArr [n 5; n 95]]);
    [reflexivity | discriminate | reflexivity | discriminate | discriminate].
Defined.

Lemma fillConfusionMatrixTable_cells_witness :
  fillConfusionMatrixTable trained blank =
  if not_nullish (JArr [n 5; n 95])
  then set_tp (text_of (cell_at (JArr [n 5; n 95]) 1)) (set_fn (text_of (cell_at (JArr [n 5; n 95]) 0))
         (set_fp (match nth_error [n 90; n 10] 1 with Some v => text_of v | None => "" end)
            (set_tn (match nth_error [n 90; n 10] 0 with Some v => text_of v | None => "" end) blank)))
  else set_fp (match nth_error [n 90; n 10] 1 with Some v => text_of v | None => "" end)
         (set_tn (match nth_error [n 90; n 10] 0 with Some v => text_of v | None => "" end) blank).
Proof. apply (fillConfusionMatrixTable_cells trained blank [n 90; n 10] [JArr [n 5; n 95]]); reflexivity. Defined.

Lemma loadModelPerformance_null_witness :
  loadModelPerformance (History.HttpResponse 200 (Some JNull))
    {| perf_table := Some rows6; matrix := blank; page_alerts := [] |} =
  with_alert {| perf_table := Some rows6; matrix := blank; page_alerts := [] |}.
Proof. apply (loadModelPerformance_null 200 {| perf_table := Some rows6; matrix := blank; page_alerts := [] |}). reflexivity. Defined.

End MetricsExamples.
