(* ===== verification/Trends.v ===== *)
(** * The charts of the history page

    Showing the history page starts five renderers besides the table
    load: [renderRocCurveFromMetrics] (dashboard.js, lines 1477-1504),
    [renderFraudVsLegit] (1506-1524), [renderFraudTrend] (1526-1584),
    [renderChannelFraudPie] (1586-1612) and [renderAmountVsFraudScatter]
    (1614-1703, whose data is [Charts.AmountHistogram]).  Each one finds
    its canvas, destroys the chart it drew before ([destroyChartIfExists],
    the [charts] handles of History's state), fetches its JSON and, when
    the data is usable, creates a new chart under its key.

    A renderer is a function of the canvas's presence, the outcome of its
    request and the page state (History.state), returning the new state
    and the data handed to Chart.js ([None] when it draws nothing).  The
    request completes within the renderer: the interleaving of two
    renders of the same chart is not modelled.  Chart.js itself, the
    colours and the options are not modelled. *)

From Stdlib Require Import String Ascii List Bool ZArith NArith QArith Lia Lqa.
From S2P Require Import Prelude JsString JsNumber Json History Charts Metrics.
Import ListNotations JsNumber Json History.
Open Scope string_scope.

Module HistoryCharts.

(** The data given to [new Chart(canvas, ...)]. *)
Inductive chart_data :=
  | Roc (labels : list jval) (roc_label : string) (tpr : jval) (baseline : list jval)
  | FraudVsLegit (fraud legit : jval)
  | FraudTrend (labels : list jval) (legit fraud percents : list num)
  | ChannelBars (labels : list (option string)) (values : list num)
  | AmountScatter (c : AmountHistogram.chart).

(** [charts[key] = new Chart(...)] *)
Definition create (key : string) (s : state) : state :=
  {| body := body s; live_charts := live_charts s ++ [key]; alerts := alerts s; downloads := downloads s |}.

(** ** Upper case *)

(** [toUpperCase] on one Latin-1 code unit: a-z and the lower-case
    letters U+00E0..U+00FE except U+00F7 (the division sign) move down
    by 0x20, and [ß] becomes [SS]; [µ] and [ÿ] become U+039C and U+0178,
    outside the modelled code units: [None]. *)
Definition upper_char (a : ascii) : option string :=
  let n := nat_of_ascii a in
  if (Nat.leb 97 n && Nat.leb n 122) || (Nat.leb 224 n && Nat.leb n 254 && negb (Nat.eqb n 247))
  then Some (String (ascii_of_nat (n - 32)) EmptyString)
  else if Nat.eqb n 223 then Some "SS"
  else if Nat.eqb n 181 || Nat.eqb n 255 then None
  else Some (String a EmptyString).

(** [s.charAt(0).toUpperCase() + s.slice(1).toLowerCase()] *)
Definition capitalize (s : string) : option string :=
  match s with
  | EmptyString => Some EmptyString
  | String a r => option_map (fun u => u ++ JsString.to_lower r) (upper_char a)
  end.

Section Renderers.
Context `{NumberToString}.

(** ** [renderRocCurveFromMetrics] *)

(** The chart data from [metrics]; [fpr.map] throws when [fpr] is not
    an array. *)
Definition roc_data (metrics : jval) : JsResult.t chart_data :=
  let? rc := get metrics "roc_curve" in
  let fpr := Metrics.opt_get rc "fpr" ||j JArr [] in
  let tpr := Metrics.opt_get rc "tpr" ||j JArr [] in
  let? auc := get metrics "auc_score" in
  let aucn := to_number auc ||j Fin 0 in
  match fpr with
  | JArr xs => JsResult.Ok (Roc xs ("ROC (AUC " ++ to_fixed_text 4 aucn ++ ")") tpr (map (fun x => x) xs))
  | _ => JsResult.Throw JsResult.TypeError
  end.

Definition renderRocCurveFromMetrics (canvas : bool) (resp : http_response) (s : state) : state * option chart_data :=
  if negb canvas then (s, None)
  else
    let s := destroyChartIfExists "roc" s in
    match resp with
    | HttpResponse status (Some metrics) =>
        if res_ok status then
          match roc_data metrics with
          | JsResult.Ok d => (create "roc" s, Some d)
          | JsResult.Throw _ => (s, None)
          end
        else (s, None)
    | _ => (s, None)
    end.

(** ** [renderFraudVsLegit] *)

(** [if (!stats || stats.message) return;] then the two counts. *)
Definition fraud_vs_legit_data (stats : jval) : option chart_data :=
  if negb (truthy stats) || truthy (Metrics.opt_get stats "message") then None
  else Some (FraudVsLegit (Metrics.opt_get stats "fraud_transactions" ||j JNum (Fin 0))
                          (Metrics.opt_get stats "legit_transactions" ||j JNum (Fin 0))).

(** The status of the answer is not checked. *)
Definition renderFraudVsLegit (canvas : bool) (resp : http_response) (s : state) : state * option chart_data :=
  if negb canvas then (s, None)
  else
    let s := destroyChartIfExists "fraudVsLegit" s in
    match resp with
    | HttpResponse _ (Some stats) =>
        match fraud_vs_legit_data stats with
        | Some d => (create "fraudVsLegit" s, Some d)
        | None => (s, None)
        end
    | _ => (s, None)
    end.

(** ** [renderFraudTrend] *)

(** [series.map(r => Number(r.k || 0))] *)
Definition count_of (k : string) (series : list jval) : JsResult.t (list num) :=
  map_result (fun r => let? v := get r k in JsResult.Ok (to_number (v ||j JNum (Fin 0)))) series.

(** [totalCounts.map((t, i) => Math.max(0, t - fraudCounts[i]))] *)
Definition legit_counts (totals frauds : list num) : list num :=
  mapi (fun i t => max2 (Fin 0) (sub t (nth i frauds NaN))) totals.

Definition trend_data (series : list jval) : JsResult.t chart_data :=
  let? labels := map_result (fun r => get r "transaction_date") series in
  let? fraudCounts := count_of "fraud_count" series in
  let? totalCounts := count_of "total_count" series in
  let legitCounts := legit_counts totalCounts fraudCounts in
  let? fraudPercents := count_of "fraud_percentage" series in
  JsResult.Ok (FraudTrend labels legitCounts fraudCounts fraudPercents).

Definition renderFraudTrend (canvas : bool) (resp : http_response) (s : state) : state * option chart_data :=
  if negb canvas then (s, None)
  else
    let s := destroyChartIfExists "fraudTrend" s in
    match resp with
    | HttpResponse _ (Some (JArr ((_ :: _) as series))) =>
        match trend_data series with
        | JsResult.Ok d => (create "fraudTrend" s, Some d)
        | JsResult.Throw _ => (s, None)
        end
    | _ => (s, None)
    end.

(** ** [renderChannelFraudPie] *)

(** [(r.channel || '').toString()], capitalised. *)
Definition channel_label (channel : jval) : option string := capitalize (to_string (channel ||j JStr "")).

Definition channel_data (rows : list jval) : JsResult.t chart_data :=
  let? labels := map_result (fun r => let? c := get r "channel" in JsResult.Ok (channel_label c)) rows in
  let? values := map_result (fun r => let? v := get r "fraud_percentage" in
                                      JsResult.Ok (to_number (nullish_or v (JNum (Fin 0))))) rows in
  JsResult.Ok (ChannelBars labels values).

Definition renderChannelFraudPie (canvas : bool) (resp : http_response) (s : state) : state * option chart_data :=
  if negb canvas then (s, None)
  else
    let s := destroyChartIfExists "channelPie" s in
    match resp with
    | HttpResponse _ (Some (JArr rows)) =>
        match channel_data rows with
        | JsResult.Ok d => (create "channelPie" s, Some d)
        | JsResult.Throw _ => (s, None)
        end
    | _ => (s, None)
    end.

(** ** [renderAmountVsFraudScatter] *)

Definition renderAmountVsFraudScatter (canvas : bool) (resp : http_response) (s : state) : state * option chart_data :=
  if negb canvas then (s, None)
  else
    let s := destroyChartIfExists "amountScatter" s in
    match resp with
    | HttpResponse _ (Some res) =>
        match AmountHistogram.amount_chart res with
        | JsResult.Ok (Some c) => (create "amountScatter" s, Some (AmountScatter c))
        | _ => (s, None)
        end
    | _ => (s, None)
    end.

(** ** The history page: the table and its charts *)

Inductive chart_event := RenderRoc | RenderFraudVsLegit | RenderFraudTrend | RenderChannelPie | RenderAmountScatter.

Definition key_of (c : chart_event) : string :=
  match c with
  | RenderRoc => "roc" | RenderFraudVsLegit => "fraudVsLegit" | RenderFraudTrend => "fraudTrend"
  | RenderChannelPie => "channelPie" | RenderAmountScatter => "amountScatter"
  end.

Definition render (c : chart_event) : bool -> http_response -> state -> state * option chart_data :=
  match c with
  | RenderRoc => renderRocCurveFromMetrics
  | RenderFraudVsLegit => renderFraudVsLegit
  | RenderFraudTrend => renderFraudTrend
  | RenderChannelPie => renderChannelFraudPie
  | RenderAmountScatter => renderAmountVsFraudScatter
  end.

(** An event of the history page: one of the table's, or a renderer
    that runs with its canvas present or not and its request's outcome. *)
Inductive page_event :=
  | TableEvent (ev : History.event)
  | ChartEvent (c : chart_event) (canvas : bool) (resp : http_response).

Definition page_step (ev : page_event) (s : state) : state :=
  match ev with
  | TableEvent e => History.step e s
  | ChartEvent c canvas resp => fst (render c canvas resp s)
  end.

Definition page_run (evs : list page_event) (s : state) : state := fold_left (fun s ev => page_step ev s) evs s.

(** ** What a renderer does to the page *)

Lemma render_body (c : chart_event) (canvas : bool) (resp : http_response) (s : state) :
  body (fst (render c canvas resp s)) = body s.
Proof.
  destruct c; cbn [render]; unfold renderRocCurveFromMetrics, renderFraudVsLegit, renderFraudTrend,
    renderChannelFraudPie, renderAmountVsFraudScatter; split_matches; reflexivity.
Qed.

Lemma render_absent (c : chart_event) (resp : http_response) (s : state) : render c false resp s = (s, None).
Proof. destruct c; reflexivity. Qed.

(** with its canvas on the page, each of the five renderers destroys
    the chart it drew before (every handle under its key) and holds a
    chart under its key afterwards exactly when it hands data to
    Chart.js; the other charts are untouched. *)
Theorem render_live (c : chart_event) (resp : http_response) (s : state) :
  live_charts (fst (render c true resp s)) =
  (remove string_dec (key_of c) (live_charts s) ++
   match snd (render c true resp s) with Some _ => [key_of c] | None => [] end)%list.
Proof.
  destruct c; cbn [render key_of]; unfold renderRocCurveFromMetrics, renderFraudVsLegit, renderFraudTrend,
    renderChannelFraudPie, renderAmountVsFraudScatter; cbn [negb]; split_matches; cbn;
    rewrite ?app_nil_r; reflexivity.
Qed.

Lemma remove_NoDup (k : string) (l : list string) : NoDup l -> NoDup (remove string_dec k l).
Proof.
  induction 1 as [|x l Hx Hl IH]; cbn; [constructor|].
  destruct (string_dec k x); [exact IH|]. constructor; [|exact IH].
  intros Hin. apply in_remove in Hin as [Hin _]. contradiction.
Qed.

Lemma fold_remove_NoDup (ks l : list string) : NoDup l -> NoDup (fold_left (fun l k => remove string_dec k l) ks l).
Proof. revert l. induction ks as [|k ks IH]; intros l Hl; cbn; [exact Hl | apply IH, remove_NoDup, Hl]. Qed.

Lemma append_all_charts (txs : list jval) (s : state) : live_charts (append_all txs s) = live_charts s.
Proof.
  revert s. induction txs as [|tx txs IH]; intros s; cbn; [reflexivity|].
  destruct (history_row tx); [rewrite IH; unfold appendHistoryRow; destruct (body s)|unfold renderEmptyHistory; destruct (body s)];
    reflexivity.
Qed.

(** The table's events only ever destroy charts. *)
Lemma step_charts (ev : History.event) (s : state) :
  exists ks, live_charts (History.step ev s) = fold_left (fun l k => remove string_dec k l) ks (live_charts s).
Proof.
  destruct ev as [row|resp| |[|] [|status json]|]; cbn [History.step].
  - exists []. unfold appendHistoryRow. destruct (body s); reflexivity.
  - exists []. unfold loadTransactionHistory, renderEmptyHistory.
    destruct resp as [[| | | | |[|tx txs]|]|]; split_matches; rewrite ?append_all_charts; reflexivity.
  - exists []. unfold renderEmptyHistory. destruct (body s); reflexivity.
  - exists []. reflexivity.
  - unfold clearTransactionHistory. cbn [negb]. destruct (res_ok status).
    + exists history_charts. unfold alert. cbn [live_charts]. rewrite fold_destroy_charts. destruct (body s); reflexivity.
    + exists []. destruct (get _ "detail"); reflexivity.
  - exists []. reflexivity.
  - exists []. reflexivity.
  - exists []. unfold downloadTransactionHistory. split_matches; reflexivity.
Qed.

(** A page run keeps the handles duplicate-free (shared with the dashboard). *)
Lemma page_nodup (evs : list page_event) (s : state) :
  NoDup (live_charts s) -> NoDup (live_charts (page_run evs s)).
Proof.
  revert s. induction evs as [|ev evs IH]; intros s Hs; cbn [page_run fold_left]; [exact Hs|].
  apply IH. destruct ev as [e|c [|] resp]; cbn [page_step].
  - destruct (step_charts e s) as [ks ->]. apply fold_remove_NoDup, Hs.
  - rewrite render_live. destruct (snd (render c true resp s)); rewrite ?app_nil_r; [|apply remove_NoDup, Hs].
    apply NoDup_app; [apply remove_NoDup, Hs | repeat constructor; intros [] |].
    intros x Hx [<-|[]]. exact (remove_In string_dec (live_charts s) (key_of c) Hx).
  - rewrite render_absent. exact Hs.
Qed.

(** C33: on the history page no canvas ever holds two charts: from a
    state where each chart key has at most one live handle, every
    sequence of table events and chart renders keeps it so. *)
Theorem page_charts_nodup (evs : list page_event) (s : state) :
  NoDup (live_charts s) -> NoDup (live_charts (page_run evs s)).
Proof. exact (page_nodup evs s). Qed.

(** The table's events of a page run. *)
Definition table_events (evs : list page_event) : list History.event :=
  flat_map (fun ev => match ev with TableEvent e => [e] | ChartEvent _ _ _ => [] end) evs.

(** A page run on the shown rows (shared with the dashboard). *)
Lemma page_shown (evs : list page_event) (s : state) :
  shown (page_run evs s) = fold_left (fun v ev => abs_step ev v) (table_events evs) (shown s).
Proof.
  revert s. induction evs as [|[e|c canvas resp] evs IH]; intros s; [reflexivity| |]; cbn [page_run fold_left].
  - cbn [table_events flat_map app]. cbn [page_step]. rewrite IH, step_shown. reflexivity.
  - cbn [page_step]. rewrite IH. unfold shown at 2. rewrite <- (render_body c canvas resp s). reflexivity.
Qed.

(** ** The fraud trend *)

(** [Number(r.k || 0)] of a day [r] of the series. *)
Definition day_count (k : string) (r : jval) : num := to_number (Metrics.opt_get r k ||j JNum (Fin 0)).

Lemma count_of_nth (k : string) (series : list jval) (ys : list num) :
  count_of k series = JsResult.Ok ys ->
  length ys = length series /\ forall i r, nth_error series i = Some r -> nth_error ys i = Some (day_count k r).
Proof.
  intros Hc. destruct (map_result_nth _ _ _ Hc) as [Hl Hn]. split; [exact Hl|].
  intros i r Hr. destruct (Hn i r Hr) as [y [Hy Hyi]]. rewrite Hyi. f_equal.
  unfold day_count, Metrics.opt_get. destruct (get r k); [|discriminate]. injection Hy as <-. reflexivity.
Qed.

Lemma max2_sub (t f : Q) :
  exists l, max2 (Fin 0) (sub (Fin t) (Fin f)) = Fin l /\ (l + f == if Qle_bool f t then t else f)%Q.
Proof.
  rewrite sub_fin. unfold max2. cbn [is_nan orb]. destruct (gt (Fin (t - f)) (Fin 0)) eqn:E; eexists; split; try reflexivity.
  - apply lt_fin in E. replace (Qle_bool f t) with true by (symmetry; apply Qle_bool_iff; lra). lra.
  - apply lt_fin_false in E. destruct (Qle_bool f t) eqn:Ef; [apply Qle_bool_iff in Ef|]; lra.
Qed.

(** C19: the stacked bars of the fraud trend: on each day with finite
    counts the chart shows the fraud count and a legitimate count
    [Math.max(0, total - fraud)], so the stack reaches the day's total
    when fraud does not exceed it and the fraud count otherwise; every
    dataset has one value per day. *)
Theorem trend_stacked (series labels : list jval) (legit fraud pct : list num) :
  trend_data series = JsResult.Ok (FraudTrend labels legit fraud pct) ->
  length labels = length series /\ length legit = length series /\ length fraud = length series /\
  length pct = length series /\
  forall i r f t, nth_error series i = Some r -> day_count "fraud_count" r = Fin f -> day_count "total_count" r = Fin t ->
    nth_error fraud i = Some (Fin f) /\
    exists l, nth_error legit i = Some (Fin l) /\ (l + f == if Qle_bool f t then t else f)%Q.
Proof.
  unfold trend_data.
  destruct (map_result _ series) as [ls|] eqn:El; [|discriminate].
  destruct (count_of "fraud_count" series) as [fs|] eqn:Ef; [|discriminate].
  destruct (count_of "total_count" series) as [ts|] eqn:Et; [|discriminate].
  destruct (count_of "fraud_percentage" series) as [ps|] eqn:Ep; [|discriminate].
  intros H'. injection H' as <- <- <- <-.
  destruct (map_result_nth _ _ _ El) as [Hll _].
  destruct (count_of_nth _ _ _ Ef) as [Hfl Hfn], (count_of_nth _ _ _ Et) as [Htl Htn], (count_of_nth _ _ _ Ep) as [Hpl _].
  unfold legit_counts. rewrite length_mapi. do 4 (split; [assumption|]).
  intros i r f t Hr Hf Ht. rewrite (Hfn i r Hr), Hf. split; [reflexivity|].
  rewrite nth_error_mapi, (Htn i r Hr), Ht. cbn [option_map].
  rewrite (nth_error_nth fs i NaN (Hfn i r Hr)), Hf. destruct (max2_sub t f) as [l [-> Hl]].
  exists l. split; [reflexivity | exact Hl].
Qed.

(** ** Error paths *)

(** C22: [renderFraudVsLegit] never looks at the status: any answer whose
    body is an object without a truthy [message] is drawn, an error body
    such as [{detail: ...}] as a pie of two zeros. *)
Theorem renderFraudVsLegit_ignores_status (status : Z) (ms : list (string * jval)) (s : state) :
  truthy (member ms "message") = false ->
  renderFraudVsLegit true (HttpResponse status (Some (JObj ms))) s =
  (create "fraudVsLegit" (destroyChartIfExists "fraudVsLegit" s),
   Some (FraudVsLegit (member ms "fraud_transactions" ||j JNum (Fin 0)) (member ms "legit_transactions" ||j JNum (Fin 0)))).
Proof. intros Hm. unfold renderFraudVsLegit, fraud_vs_legit_data. cbn. rewrite Hm. reflexivity. Qed.

(** ** Channel labels *)

Lemma lower_char_idem (a : ascii) : JsString.lower_char (JsString.lower_char a) = JsString.lower_char a.
Proof. destruct a as [[] [] [] [] [] [] [] []]; vm_compute; reflexivity. Qed.

Lemma upper_lower_char (a : ascii) : upper_char (JsString.lower_char a) = upper_char a.
Proof. destruct a as [[] [] [] [] [] [] [] []]; vm_compute; reflexivity. Qed.

Lemma to_lower_idem (s : string) : JsString.to_lower (JsString.to_lower s) = JsString.to_lower s.
Proof. induction s as [|a s IH]; cbn; [reflexivity|]. rewrite lower_char_idem, IH. reflexivity. Qed.

Lemma capitalize_lower (s : string) : capitalize (JsString.to_lower s) = capitalize s.
Proof. destruct s as [|a r]; [reflexivity|]. cbn. rewrite upper_lower_char, to_lower_idem. reflexivity. Qed.

(** the channel chart's labels ignore case: two channels whose texts
    agree up to case get the same label. *)
Theorem channel_label_case (c d : jval) :
  JsString.to_lower (to_string (c ||j JStr "")) = JsString.to_lower (to_string (d ||j JStr "")) ->
  channel_label c = channel_label d.
Proof. unfold channel_label. intros E. rewrite <- capitalize_lower, E, capitalize_lower. reflexivity. Qed.

End Renderers.

End HistoryCharts.

Module HistoryChartsExamples.
Import HistoryCharts.

Definition n (q : Q) : jval := JNum (Fin q).

Definition day (d : string) (f t : Q) : jval :=
  JObj [("transaction_date", JStr d); ("fraud_count", n f); ("total_count", n t); ("fraud_percentage", n (f / t))].

(** On the second day the backend reports more fraud than transactions:
    the stack shows 5, not the total 4. *)
Example trend_overflow :
  trend_data [day "d1" 2 10; day "d2" 5 4] =
  JsResult.Ok (FraudTrend [JStr "d1"; JStr "d2"] [Fin 8; Fin 0] [Fin 2; Fin 5] [Fin (2 / 10); Fin (5 / 4)]).
Proof. vm_compute. reflexivity. Qed.

Definition page0 : state := {| body := Some [NoDataRow]; live_charts := []; alerts := []; downloads := [] |}.

(** A 500 answer with FastAPI's error body draws an empty pie. *)
Example error_pie :
  snd (renderFraudVsLegit true (HttpResponse 500 (Some (JObj [("detail", JStr "boom")]))) page0) =
  Some (FraudVsLegit (n 0) (n 0)).
Proof. reflexivity. Qed.

Example channel_labels :
  snd (renderChannelFraudPie true
         (HttpResponse 200 (Some (JArr [JObj [("channel", JStr "online"); ("fraud_percentage", n 3)];
                                        JObj [("channel", JStr "ONLINE")]; JObj [("channel", JNull)]]))) page0) =
  Some (ChannelBars [Some "Online"; Some "Online"; Some ""] [Fin 3; Fin 0; Fin 0]).
Proof. vm_compute. reflexivity. Qed.

Example roc_label :
  match snd (renderRocCurveFromMetrics true
               (HttpResponse 200 (Some (JObj [("roc_curve", JObj [("fpr", JArr [n 0; n 1])]);
                                              ("auc_score", n (91234 # 100000))]))) page0) with
  | Some (Roc _ l _ _) => l
  | _ => ""
  end = "ROC (AUC 0.9123)".
Proof. vm_compute. reflexivity. Qed.

Definition history_page : list page_event :=
  [TableEvent (Load (JsResult.Ok (JArr [])));
   ChartEvent RenderRoc true (HttpResponse 500 None);
   ChartEvent RenderFraudVsLegit true (HttpResponse 200 (Some (JObj [("fraud_transactions", n 3)])));
   ChartEvent RenderFraudTrend true (HttpResponse 200 (Some (JArr [day "d1" 2 10])));
   ChartEvent RenderFraudVsLegit true (HttpResponse 200 (Some (JObj [("message", JStr "no data")])));
   TableEvent (Clear true (HttpResponse 200 None))].

Lemma page_charts_nodup_witness : NoDup (live_charts (page_run history_page page0)).
Proof. apply page_charts_nodup. constructor. Defined.

Lemma trend_stacked_witness :
  length [JStr "d1"] = length [day "d1" 2 10] /\ length [Fin 8] = length [day "d1" 2 10] /\
  length [Fin 2] = length [day "d1" 2 10] /\ length [Fin (2 / 10)] = length [day "d1" 2 10] /\
  forall i r f t, nth_error [day "d1" 2 10] i = Some r -> day_count "fraud_count" r = Fin f ->
    day_count "total_count" r = Fin t ->
    nth_error [Fin 2] i = Some (Fin f) /\
    exists l, nth_error [Fin 8] i = Some (Fin l) /\ (l + f == if Qle_bool f t then t else f)%Q.
Proof. apply trend_stacked. vm_compute. reflexivity. Defined.

Lemma renderFraudVsLegit_ignores_status_witness :
  renderFraudVsLegit true (HttpResponse 500 (Some (JObj [("detail", JStr "boom")]))) page0 =
  (create "fraudVsLegit" (destroyChartIfExists "fraudVsLegit" page0),
   Some (FraudVsLegit (member [("detail", JStr "boom")] "fraud_transactions" ||j JNum (Fin 0))
                      (member [("detail", JStr "boom")] "legit_transactions" ||j JNum (Fin 0)))).
Proof. apply renderFraudVsLegit_ignores_status. reflexivity. Defined.

Lemma channel_label_case_witness : channel_label (JStr "online") = channel_label (JStr "ONLINE").
Proof. apply channel_label_case. vm_compute. reflexivity. Defined.

End HistoryChartsExamples.
