(* ===== verification/Dashboard.v ===== *)
(** * The dashboard: navigation and the loads it starts

    [showPage] (Navigation) switches the page and starts loads without
    awaiting them: [loadModelPerformance] (Metrics) on the
    model-performance page, and on the history page
    [loadTransactionHistory] (History) with the five chart renderers
    (Trends).  Each load finishes when its request does, so the loads of
    one visit complete in an order the network decides.

    [finish] runs the completion of one load against the backend's
    answer to it; [visit] shows a page and completes its loads in a given
    order.  The chart handles record the order in which charts were
    created, which nothing reads: [dash_equiv] compares dashboard states
    up to that order (a [Permutation] of the handles), and every
    completion respects it.  The theorems show that a visit of the
    history page refreshes the table as History's abstract history says,
    keeps each canvas to at most one chart, leaves the metrics page
    alone, and ends in the same state whatever the completion order. *)

From Stdlib Require Import String List Bool ZArith QArith Permutation Morphisms Setoid RelationClasses.
From S2P Require Import Prelude JsNumber Json History Navigation Metrics Trends.
Import ListNotations JsNumber Json History HistoryCharts.
Open Scope string_scope.

Module Dashboard.

(** The backend's answer to the request of each load. *)
Definition answers := Navigation.load -> http_response.

Record dash := { display_of : Navigation.display; history : state; performance : Metrics.page }.

(** [await res.json()] of the history request, which does not look at
    the status. *)
Definition json_of (r : http_response) : JsResult.t jval :=
  match r with
  | FetchFailed => JsResult.Throw JsResult.TypeError
  | HttpResponse _ (Some v) => JsResult.Ok v
  | HttpResponse _ None => JsResult.Throw JsResult.SyntaxError
  end.

Definition chart_of (l : Navigation.load) : option chart_event :=
  match l with
  | Navigation.RenderRocCurveFromMetrics => Some RenderRoc
  | Navigation.RenderFraudVsLegit => Some RenderFraudVsLegit
  | Navigation.RenderFraudTrend => Some RenderFraudTrend
  | Navigation.RenderChannelFraudPie => Some RenderChannelPie
  | Navigation.RenderAmountVsFraudScatter => Some RenderAmountScatter
  | _ => None
  end.

Definition with_history (h : state) (st : dash) : dash :=
  {| display_of := display_of st; history := h; performance := performance st |}.

Section Visit.
Context `{NumberToString}.
(** The canvases on the page. *)
Variable canvas : chart_event -> bool.
(** The page elements present, and whether another script defines
    [loadAlertsInbox] (Navigation). *)
Variable present : Navigation.page -> bool.
Variable alerts_inbox_defined : bool.

(** The completion of one load.  [loadAlertsInbox] is not part of
    dashboard.js: its completion is not modelled. *)
Definition finish (ans : answers) (l : Navigation.load) (st : dash) : dash :=
  match l with
  | Navigation.LoadModelPerformance =>
      {| display_of := display_of st; history := history st;
         performance := Metrics.loadModelPerformance (ans l) (performance st) |}
  | Navigation.LoadTransactionHistory => with_history (loadTransactionHistory (json_of (ans l)) (history st)) st
  | Navigation.LoadAlertsInbox => st
  | _ => match chart_of l with
         | Some c => with_history (fst (render c (canvas c) (ans l) (history st))) st
         | None => st
         end
  end.

Definition run_loads (ans : answers) (ls : list Navigation.load) (st : dash) : dash :=
  fold_left (fun st l => finish ans l st) ls st.

(** [showPage(name)], then the completions of the loads it started in
    the order [order] gives them ([order] reorders a list); the
    [ReferenceError] of the alerts inbox stops the visit. *)
Definition visit (ans : answers) (order : list Navigation.load -> list Navigation.load) (name : string) (st : dash) :
  dash * option JsResult.error :=
  let '(d, loads) := Navigation.showPage present alerts_inbox_defined name (display_of st) in
  let st := {| display_of := d; history := history st; performance := performance st |} in
  match loads with
  | JsResult.Ok ls => (run_loads ans (order ls) st, None)
  | JsResult.Throw e => (st, Some e)
  end.

End Visit.

(** ** What one completion changes *)

(** A table with nothing else on the page. *)
Definition bare (b : option (list tr)) : state := {| body := b; live_charts := []; alerts := []; downloads := [] |}.

Section Frame.
Context `{NumberToString}.

Lemma append_row_frame (row : hist_row) (s : state) :
  appendHistoryRow row s = {| body := body (appendHistoryRow row (bare (body s))); live_charts := live_charts s;
                              alerts := alerts s; downloads := downloads s |}.
Proof. unfold appendHistoryRow. destruct s as [[b|] l a d]; reflexivity. Qed.

Lemma render_empty_frame (s : state) :
  renderEmptyHistory s = {| body := body (renderEmptyHistory (bare (body s))); live_charts := live_charts s;
                            alerts := alerts s; downloads := downloads s |}.
Proof. unfold renderEmptyHistory. destruct s as [[b|] l a d]; reflexivity. Qed.

Lemma append_all_frame (txs : list jval) (s : state) :
  append_all txs s = {| body := body (append_all txs (bare (body s))); live_charts := live_charts s;
                        alerts := alerts s; downloads := downloads s |}.
Proof.
  revert s. induction txs as [|tx txs IH]; intros s; cbn [append_all]; [destruct s; reflexivity|].
  destruct (history_row tx) as [row|e].
  - rewrite IH, (IH (appendHistoryRow row (bare (body s)))). rewrite (append_row_frame row s). reflexivity.
  - apply render_empty_frame.
Qed.

(** [loadTransactionHistory] only changes the table, as a function of
    the table. *)
Lemma load_frame (r : JsResult.t jval) (s : state) :
  loadTransactionHistory r s =
  {| body := body (loadTransactionHistory r (bare (body s))); live_charts := live_charts s;
     alerts := alerts s; downloads := downloads s |}.
Proof.
  unfold loadTransactionHistory.
  destruct r as [[| | | | |[|tx txs]|]|]; try apply render_empty_frame;
    destruct s as [[b|] l a d]; cbn [body]; try reflexivity.
  rewrite append_all_frame. reflexivity.
Qed.

(** Whether a renderer draws depends on its answer only. *)
Lemma render_drawn (c : chart_event) (b : bool) (r : http_response) (s t : state) :
  snd (render c b r s) = snd (render c b r t).
Proof.
  destruct c; cbn [render]; unfold renderRocCurveFromMetrics, renderFraudVsLegit, renderFraudTrend,
    renderChannelFraudPie, renderAmountVsFraudScatter; split_matches; reflexivity.
Qed.

(** The handles a renderer leaves, from those before it. *)
Definition chart_effect (c : chart_event) (b : bool) (r : http_response) (l : list string) : list string :=
  if b then (remove string_dec (key_of c) l ++
             match snd (render c true r (bare None)) with Some _ => [key_of c] | None => [] end)%list
  else l.

Lemma render_frame (c : chart_event) (b : bool) (r : http_response) (s : state) :
  fst (render c b r s) = {| body := body s; live_charts := chart_effect c b r (live_charts s);
                            alerts := alerts s; downloads := downloads s |}.
Proof.
  destruct b; [|rewrite render_absent; destruct s; reflexivity].
  unfold chart_effect. rewrite <- (render_drawn c true r s), <- render_live.
  destruct c; cbn [render]; unfold renderRocCurveFromMetrics, renderFraudVsLegit, renderFraudTrend,
    renderChannelFraudPie, renderAmountVsFraudScatter; cbn [negb]; split_matches; reflexivity.
Qed.

End Frame.

(** ** Dashboards up to the order of the chart handles *)

Definition hist_equiv (s t : state) : Prop :=
  body s = body t /\ Permutation (live_charts s) (live_charts t) /\ alerts s = alerts t /\ downloads s = downloads t.

Definition dash_equiv (x y : dash) : Prop :=
  display_of x = display_of y /\ hist_equiv (history x) (history y) /\ performance x = performance y.

#[export] Instance hist_equiv_equiv : Equivalence hist_equiv.
Proof.
  split.
  - intros s. repeat split; reflexivity.
  - intros s t (Hb & Hl & Ha & Hd). repeat split; symmetry; assumption.
  - intros s t u (Hb & Hl & Ha & Hd) (Hb' & Hl' & Ha' & Hd'). repeat split; etransitivity; eassumption.
Qed.

#[export] Instance dash_equiv_equiv : Equivalence dash_equiv.
Proof.
  split.
  - intros x. split; [reflexivity|]. split; reflexivity.
  - intros x y (Hd & Hh & Hp). split; [symmetry; exact Hd|]. split; symmetry; assumption.
  - intros x y z (Hd & Hh & Hp) (Hd' & Hh' & Hp'). split; [etransitivity; eassumption|].
    split; etransitivity; eassumption.
Qed.

Lemma remove_perm (k : string) (l l' : list string) :
  Permutation l l' -> Permutation (remove string_dec k l) (remove string_dec k l').
Proof.
  induction 1 as [|x l l' _ IH|x y l|l l' l'' _ IH1 _ IH2]; cbn.
  - constructor.
  - destruct (string_dec k x); [exact IH | apply perm_skip, IH].
  - destruct (string_dec k y), (string_dec k x); try reflexivity; apply perm_swap.
  - etransitivity; eassumption.
Qed.

#[export] Instance chart_effect_proper `{NumberToString} (c : chart_event) (b : bool) (r : http_response) :
  Proper (@Permutation string ==> @Permutation string) (chart_effect c b r).
Proof. intros l l' Hl. unfold chart_effect. destruct b; [|exact Hl]. apply Permutation_app_tail, remove_perm, Hl. Qed.

Lemma remove_app_notin (k : string) (l x : list string) :
  ~ In k x -> remove string_dec k (l ++ x) = (remove string_dec k l ++ x)%list.
Proof.
  intros Hk. rewrite remove_app. f_equal. apply notin_remove, Hk.
Qed.

Lemma remove_remove_comm (k1 k2 : string) (l : list string) :
  remove string_dec k1 (remove string_dec k2 l) = remove string_dec k2 (remove string_dec k1 l).
Proof.
  induction l as [|x l IH]; cbn; [reflexivity|].
  repeat (match goal with |- context [string_dec ?a ?b] => destruct (string_dec a b) end; cbn);
    subst; try congruence; rewrite IH; reflexivity.
Qed.

(** Two renderers of different charts commute up to the order of the
    handles. *)
Lemma chart_effect_comm `{NumberToString} (c1 c2 : chart_event) (b1 b2 : bool) (r1 r2 : http_response) (l : list string) :
  key_of c1 <> key_of c2 ->
  Permutation (chart_effect c1 b1 r1 (chart_effect c2 b2 r2 l)) (chart_effect c2 b2 r2 (chart_effect c1 b1 r1 l)).
Proof.
  intros Hk. unfold chart_effect.
  set (x1 := match snd (render c1 true r1 (bare None)) with Some _ => [key_of c1] | None => [] end).
  set (x2 := match snd (render c2 true r2 (bare None)) with Some _ => [key_of c2] | None => [] end).
  assert (N1 : ~ In (key_of c2) x1).
  { intros Hin. subst x1. destruct (snd (render c1 true r1 (bare None))); cbn in Hin;
      [destruct Hin as [E|[]]; exact (Hk E) | exact Hin]. }
  assert (N2 : ~ In (key_of c1) x2).
  { intros Hin. subst x2. destruct (snd (render c2 true r2 (bare None))); cbn in Hin;
      [destruct Hin as [E|[]]; exact (Hk (eq_sym E)) | exact Hin]. }
  destruct b1, b2; try reflexivity.
  - rewrite (remove_app_notin _ _ _ N2), (remove_app_notin _ _ _ N1), remove_remove_comm, <- !app_assoc.
    apply Permutation_app_head, Permutation_app_comm.
Qed.

(** ** The completions of a visit *)

Section Loads.
Context `{NumberToString}.
Variable canvas : chart_event -> bool.
Variable present : Navigation.page -> bool.
Variable alerts_inbox_defined : bool.
Variable ans : answers.

(** What each completion does to the table, the chart handles and the
    metrics page. *)
Definition table_effect (l : Navigation.load) (b : option (list tr)) : option (list tr) :=
  match l with
  | Navigation.LoadTransactionHistory => body (loadTransactionHistory (json_of (ans l)) (bare b))
  | _ => b
  end.

Definition charts_effect (l : Navigation.load) (ks : list string) : list string :=
  match chart_of l with Some c => chart_effect c (canvas c) (ans l) ks | None => ks end.

Definition perf_effect (l : Navigation.load) (p : Metrics.page) : Metrics.page :=
  match l with Navigation.LoadModelPerformance => Metrics.loadModelPerformance (ans l) p | _ => p end.

Lemma finish_effect (l : Navigation.load) (st : dash) :
  finish canvas ans l st =
  {| display_of := display_of st;
     history := {| body := table_effect l (body (history st)); live_charts := charts_effect l (live_charts (history st));
                   alerts := alerts (history st); downloads := downloads (history st) |};
     performance := perf_effect l (performance st) |}.
Proof.
  destruct st as [d h p]. destruct l; cbn [finish chart_of with_history history display_of performance];
    try rewrite load_frame; try rewrite render_frame; destruct h; reflexivity.
Qed.

#[export] Instance finish_proper (l : Navigation.load) : Proper (dash_equiv ==> dash_equiv) (finish canvas ans l).
Proof.
  intros x y (Hd & (Hb & Hl & Ha & Hw) & Hp). rewrite !finish_effect.
  split; [exact Hd|]. split; [|cbn; rewrite Hp; reflexivity].
  cbn. split; [rewrite Hb; reflexivity|]. split; [|split; assumption].
  unfold charts_effect. destruct (chart_of l); [apply chart_effect_proper|]; exact Hl.
Qed.

#[export] Instance run_loads_proper (ls : list Navigation.load) : Proper (dash_equiv ==> dash_equiv) (run_loads canvas ans ls).
Proof.
  induction ls as [|l ls IH]; intros x y Hxy; cbn [run_loads fold_left]; [exact Hxy|].
  apply IH, finish_proper, Hxy.
Qed.

(** Two different loads complete in either order to the same
    dashboard. *)
Lemma finish_comm (l1 l2 : Navigation.load) (st : dash) :
  l1 <> l2 -> dash_equiv (finish canvas ans l2 (finish canvas ans l1 st)) (finish canvas ans l1 (finish canvas ans l2 st)).
Proof.
  intros Hne. rewrite !finish_effect. cbn [display_of history performance body live_charts alerts downloads].
  destruct l1, l2; try congruence;
    (split; [reflexivity|]); (split; [|reflexivity]); (split; [reflexivity|]); (split; [|split; reflexivity]);
    cbn [charts_effect chart_of]; first [reflexivity | apply chart_effect_comm; discriminate].
Qed.

Lemma run_loads_perm (ls ls' : list Navigation.load) (st : dash) :
  NoDup ls -> Permutation ls ls' -> dash_equiv (run_loads canvas ans ls st) (run_loads canvas ans ls' st).
Proof.
  intros Hnd Hp. revert st Hnd. induction Hp as [|x l l' _ IH|x y l|l l' l'' Hp1 IH1 _ IH2]; intros st Hnd.
  - reflexivity.
  - inversion Hnd as [|? ? _ Hl]; subst. apply IH, Hl.
  - cbn [run_loads fold_left]. apply run_loads_proper.
    inversion Hnd as [|? ? Hy _]; subst. apply finish_comm. intros ->. apply Hy. left. reflexivity.
  - etransitivity; [apply IH1, Hnd|]. apply IH2. eapply Permutation_NoDup; eassumption.
Qed.

Lemma showPage_loads_nodup (name : string) (d : Navigation.display) (ls : list Navigation.load) :
  snd (Navigation.showPage present alerts_inbox_defined name d) = JsResult.Ok ls -> NoDup ls.
Proof.
  unfold Navigation.showPage. cbv zeta. cbn [snd]. split_matches; cbn [snd]; intros E; try discriminate; injection E as <-;
    repeat constructor; cbn; intuition discriminate.
Qed.

(** Any two completion orders of a visit's loads end in equivalent
    dashboards. *)
Lemma visit_perm (order1 order2 : list Navigation.load -> list Navigation.load) (name : string) (st : dash) :
  (forall ls, Permutation (order1 ls) ls) -> (forall ls, Permutation (order2 ls) ls) ->
  dash_equiv (fst (visit canvas present alerts_inbox_defined ans order1 name st))
             (fst (visit canvas present alerts_inbox_defined ans order2 name st)).
Proof.
  intros H1 H2. unfold visit.
  destruct (Navigation.showPage present alerts_inbox_defined name (display_of st)) as [d [ls|e]] eqn:E; cbn [fst];
    [|reflexivity].
  assert (Hnd : NoDup ls) by (apply (showPage_loads_nodup name (display_of st)); rewrite E; reflexivity).
  etransitivity; [apply run_loads_perm; [eapply Permutation_NoDup; [symmetry; apply H1 | exact Hnd] | apply H1]|].
  symmetry. apply run_loads_perm; [eapply Permutation_NoDup; [symmetry; apply H2 | exact Hnd] | apply H2].
Qed.

(** C14: the loads a visit starts may complete in any order: whatever
    order the network gives them, the table, the chart handles (up to
    the order they were created in), the alerts, the downloads, the
    metrics page and the display end the same. *)
Theorem visit_any_order (order1 order2 : list Navigation.load -> list Navigation.load) (name : string) (st : dash) :
  (forall ls, Permutation (order1 ls) ls) -> (forall ls, Permutation (order2 ls) ls) ->
  dash_equiv (fst (visit canvas present alerts_inbox_defined ans order1 name st))
             (fst (visit canvas present alerts_inbox_defined ans order2 name st)).
Proof. exact (visit_perm order1 order2 name st). Qed.

(** The loads of the history page, completed in call order, are a run
    of the history page (Trends). *)
Definition history_loads : list Navigation.load :=
  [Navigation.LoadTransactionHistory; Navigation.RenderRocCurveFromMetrics; Navigation.RenderFraudVsLegit;
   Navigation.RenderFraudTrend; Navigation.RenderChannelFraudPie; Navigation.RenderAmountVsFraudScatter].

Definition history_events : list page_event :=
  TableEvent (Load (json_of (ans Navigation.LoadTransactionHistory))) ::
  map (fun l => match chart_of l with
                | Some c => ChartEvent c (canvas c) (ans l)
                | None => TableEvent RenderEmpty
                end) (tl history_loads).

Lemma run_history_loads (st : dash) :
  run_loads canvas ans history_loads st =
  {| display_of := display_of st; history := page_run history_events (history st); performance := performance st |}.
Proof. destruct st as [d h p]. reflexivity. Qed.

(** C15: a visit of the history page, whatever order its loads complete
    in, shows the table the abstract history gives for one load of the
    backend's answer, keeps every canvas to at most one chart, and
    leaves the metrics page as it was. *)
Theorem visit_history (order : list Navigation.load -> list Navigation.load) (st : dash) :
  (forall ls, Permutation (order ls) ls) -> NoDup (live_charts (history st)) ->
  let st' := fst (visit canvas present alerts_inbox_defined ans order "transactionHistory" st) in
  shown (history st') = abs_step (Load (json_of (ans Navigation.LoadTransactionHistory))) (shown (history st)) /\
  NoDup (live_charts (history st')) /\ performance st' = performance st.
Proof.
  intros Ho Hnd. cbv zeta.
  assert (E : fst (visit canvas present alerts_inbox_defined ans (fun ls => ls) "transactionHistory" st) =
              run_loads canvas ans history_loads
                {| display_of := fst (Navigation.showPage present alerts_inbox_defined "transactionHistory" (display_of st));
                   history := history st; performance := performance st |}) by reflexivity.
  destruct (visit_perm order (fun ls => ls) "transactionHistory" st Ho (fun ls => Permutation_refl ls))
    as (_ & (Hb & Hl & _ & _) & Hp).
  rewrite E, run_history_loads in Hb, Hl, Hp. cbn [history performance] in Hb, Hl, Hp.
  split; [|split].
  - unfold shown. rewrite Hb. fold (shown (page_run history_events (history st))). rewrite page_shown. reflexivity.
  - eapply Permutation_NoDup; [symmetry; exact Hl | apply page_nodup, Hnd].
  - exact Hp.
Qed.

End Loads.

End Dashboard.

Module DashboardExamples.
Import Dashboard.

Definition n (q : Q) : jval := JNum (Fin q).

Definition tx1 : jval :=
  JObj [("customer_id", JStr "ana-x1"); ("transaction_amount", n 120); ("kyc_verified", JStr "yes");
        ("account_age_days", n 30); ("channel", JStr "online"); ("timestamp", JStr "2024-05-01"); ("is_fraud", n 0)].

(** One answer per request: a history of one transaction, ROC points, an
    error body for the pie, a failed trend request, no channels and no
    amounts. *)
Definition backend : answers := fun l =>
  match l with
  | Navigation.LoadTransactionHistory => HttpResponse 200 (Some (JArr [tx1]))
  | Navigation.RenderRocCurveFromMetrics =>
      HttpResponse 200 (Some (JObj [("roc_curve", JObj [("fpr", JArr [n 0; n 1]); ("tpr", JArr [n 0; n 1])])]))
  | Navigation.RenderFraudVsLegit => HttpResponse 500 (Some (JObj [("detail", JStr "boom")]))
  | Navigation.RenderFraudTrend => FetchFailed
  | _ => HttpResponse 200 (Some (JArr []))
  end.

Definition all_canvases : chart_event -> bool := fun _ => true.
Definition all_pages : Navigation.page -> bool := fun _ => true.

Definition start : dash :=
  {| display_of := fun _ => None;
     history := {| body := Some [NoDataRow]; live_charts := ["fraudTrend"]; alerts := []; downloads := [] |};
     performance := {| Metrics.perf_table := None;
                       Metrics.matrix := {| Metrics.cm_tn := None; Metrics.cm_fp := None;
                                            Metrics.cm_fn := None; Metrics.cm_tp := None |};
                       Metrics.page_alerts := [] |} |}.

Definition after (order : list Navigation.load -> list Navigation.load) : dash :=
  fst (visit all_canvases all_pages false backend order "transactionHistory" start).

(** In call order and in reverse the page ends with the same row and the
    same three charts (the failed trend request removed the old trend
    chart), created in another order. *)
Example history_visit :
  shown (history (after (fun ls => ls))) = Some [["ana-x1"; "120"; "yes"; "30"; "online"; "2024-05-01"; "0"]] /\
  live_charts (history (after (fun ls => ls))) = ["roc"; "fraudVsLegit"; "channelPie"] /\
  live_charts (history (after (@rev _))) = ["channelPie"; "fraudVsLegit"; "roc"].
Proof. vm_compute. repeat split. Qed.

Lemma rev_perm (ls : list Navigation.load) : Permutation (rev ls) ls.
Proof. symmetry. apply Permutation_rev. Qed.

Lemma visit_any_order_witness : dash_equiv (after (@rev _)) (after (fun ls => ls)).
Proof. apply visit_any_order; [exact rev_perm | intros ls; reflexivity]. Defined.

Lemma visit_history_witness :
  shown (history (after (@rev _))) =
    abs_step (Load (json_of (backend Navigation.LoadTransactionHistory))) (shown (history start)) /\
  NoDup (live_charts (history (after (@rev _)))) /\ performance (after (@rev _)) = performance start.
Proof. apply visit_history; [exact rev_perm | repeat constructor; intros []]. Defined.

End DashboardExamples.
